(* ===== verification/_CoqProject ===== *)
-Q . S2P
Prelude.v
PyDate.v
PyNum.v
PyFloat.v
PyRepr.v
PyFormat.v
Records.v
Installments.v
Store.v
Ledger.v
Resolver.v
Totals.v
Periods.v
History.v
Forms.v
BillsTab.v
Overview.v
App.v
Session.v
