(* ===== verification/Prelude.v ===== *)
(** * Controle de gastos: a verification development of the projection and balance engine

    The repository is a Tk desktop application that records expenses
    ("gastos"), incomes ("receitas") and fixed bills ("contas fixas"), and
    projects them onto a (month, year) query.  Everything that is not widget
    construction lives in [src/models/data_manager.py] (class [DataManager]);
    the totals that take installments into account, the history table and
    the start-up reminder live in [src/views/historico.py],
    [src/views/visao_geral.py], [src/views/contas_fixas.py] and
    [src/main.py].

    ** How the program is organised, and how the library follows it

    Data flows Record Store -> Recurrence Resolver (per query month) ->
    Installment Calculator and Payment Ledger -> Aggregation Engine -> the
    views.  The files follow that order; [_CoqProject] lists them so.

    - [PyDate.v]: Python's [datetime] behaviour the code depends on
      ([strptime] with ["%d/%m/%Y"] as CPython's regular expression with
      its backtracking order, [strftime], [calendar.monthrange],
      [toordinal], [timedelta.days], [str(int)], f-string zero padding).
      Library semantics, modelled so the repository's functions can be
      stated exactly; mapped to the lines that call it.
    - [PyNum.v]: Python's [int()] on the strings the views read (filter
      fields, Treeview tags), with [int(str(z)) == z].
    - [PyFloat.v]: Python's [float()] on the amount fields: the grammar of
      [float(str)] (blanks, sign, [inf]/[infinity]/[nan], digits with
      underscores, fraction, exponent) and the correctly rounded binary64
      result (round half to even at the quantum [2^max(e-52,-1074)],
      [inf] from [2^1024] on), a [PyFloat] being a finite rational, a
      signed infinity or [nan].  Library semantics like [PyDate.v].
    - [PyRepr.v]: [str()] of a float, which the edit forms use to prefill
      the amount fields, as the class [ReprFloat]: its law is CPython's
      [float(repr(x)) == x] (and no comma in the text).  The instance
      [repr_exato] prints the exact decimal [N e-1074] and is proved to
      satisfy the law, so the class is inhabited; the forms' round trips
      hold for every instance.
    - [PyFormat.v]: [f"{x:.2f}"] of a float, the text of every amount the
      views show and of the interest the bill form prefills: the exact
      value rounded to hundredths half to even.
    - [Records.v]: one [Record] per JSON object shape ([Gasto], [Receita],
      [Conta], [Pagamento]), an [option] field for every key the source
      reads with [.get] or guards with ["key" in d]; the payment history is
      a [gmap string Pagamento] keyed by the ["MM/YYYY"] token.  The class
      [HasId] is the interface the generic store code is written against.
      Each record type has an [Equiv] instance, [≡]: the same value on
      every key the program reads (amounts as [Qeq], [recorrente] and
      [parcelado] through their [.get(..., False)]).
    - [Store.v], Record Store ([carregar_dados], [verificar_arquivos],
      [_gerar_id], [adicionar_*], [atualizar_*], [excluir_*] of
      data_manager.py): the persisted state [Arquivos] is a record of three
      [Documento]s (absent, corrupt or a valid list, absent and corrupt
      loading as [[]]); the class [Colecao] states what reading and writing
      one collection promise ([ler_gravar], [gravar_gravar]) and every
      operation is one generic read-modify-write function in [Section Crud].
    - [Installments.v], Installment Calculator: the end-date loop of
      [adicionar_conta_fixa] ([avancar_mes], [iterar], [calcular_data_fim],
      [preparar_parcelamento]), its copy in [ContasFixasView.salvar_conta]
      ([avancar_mes_formulario]) and the per-installment arithmetic of
      historico.py ([valor_parcela], [parcela_atual], [juros_por_parcela]).
    - [Ledger.v], Payment Ledger ([marcar_conta_como_paga],
      [verificar_conta_paga], [obter_data_pagamento]), with the abstract
      per-period machine [estado_periodo]/[passo_periodo] (Pendente, Pago d)
      and the observation [observar] that reads it back from a store.
    - [Resolver.v], Recurrence Resolver ([obter_gastos_por_periodo],
      [obter_receitas_por_periodo], [obter_contas_fixas_por_periodo]), with
      the month window [janela] as an interval of month indices.
    - [Totals.v], Aggregation Engine ([calcular_total_*],
      [calcular_saldo], [obter_gastos_por_categoria]) and the two
      view-level [calcular_total_contas_fixas_com_parcelas] of historico.py
      and visao_geral.py, with the history tab's summary
      [resumo_historico].
    - [Periods.v], [obter_meses_anos_disponiveis]: the months that have
      data, a [while] loop over months (under fuel) into a [gset], sorted.
    - [History.v], [obter_dados_para_historico] (the unified feed, a stable
      sort by date, computed with [ordenar] below) and the history tab of
      historico.py: its rows, its refresh, its pay/pending actions and
      the two actions of its context menu.
    - [Forms.v], the expense and income tabs ([GastosGeraisView] of
      gastos_gerais.py and [ReceitasView] of receitas.py, one [Module]
      each): the add and edit forms (the fields they open with, the
      [Salvar] [lambda], the handlers with their validation in the order
      the code checks it), deletion, the table refresh, the selection of
      a row by its id tag and the context menu.  A handler returns a [Resultado]: a refusal
      (the message box it shows), the files it writes, or the exception
      it lets escape.
    - [BillsTab.v], [Module ContasFixasView] (contas_fixas.py): the add
      and edit forms of a bill, selection and deletion, the tab's own
      period filter, the table loop, the pay/pending actions of the
      buttons and the context menu, and the frames the form's check-box
      callbacks show or hide.
    - [Overview.v], [Module VisaoGeralView] (visao_geral.py): the summary,
      the statistics ([max(l, key=f)] as [py_max]) and the pie chart's
      slices.
    - [App.v], main.py: the start-up reminder of unpaid bills, saving on
      exit, the test-mode command line and the refresh of the tab
      selected.
    - [Session.v], the program as a whole: the month/year filters each
      tab builds ([SeletorPeriodo]), the data directory of each mode, the
      start-up ([iniciar]: [main()], [ControleGastosApp.__init__],
      [DataManager.__init__], the five tabs, the reminder), the events of
      an open window dispatched to the handlers of the tabs
      ([executar_evento]), closing and the mode switch, and the states a
      run reaches ([alcancavel]).

    Errors are values: every function that can raise returns
    [res A] (this file), whose [Err] carries the Python exception class
    ([ValueError] for a malformed date, [KeyError] for a missing dict key,
    [ZeroDivisionError] for a zero installment count, [IndexError] for
    [selection()[0]] on an empty selection, [AttributeError] for a method
    the [DataManager] does not have).  Amounts are [Q]: an amount
    typed in a form goes through [float()] ([PyFloat.py_float]), which
    rounds it to a binary64 value exactly as CPython does; the sums and
    products of the code are then taken exactly in [Q] (their rounding is
    not modelled), so every statement about totals is an equation in [Q]
    ([==]).  Dates stay the
    strings of the JSON documents and are parsed where the code parses them.

    ** What is proved

    - Ledger: one [marcar_conta_como_paga] refines one step of the abstract
      machine on its own (bill, month, year) and leaves every other
      observation alone ([marcar_refina]); any sequence of calls is the
      machine's run ([marcar_sequencia]); an unknown id is a no-op
      ([marcar_ausente]); the ["MM/YYYY"] token reads back
      ([ler_chave_mes_ano]).
    - Store: [_gerar_id] is max + 1, and 1 on an empty collection
      ([gerar_id_spec]); deletion keeps exactly the other ids
      ([excluir_elem]); two interleaved adds lose the first
      ([adicionar_intercalado], the hazard the spec documents).
    - Installments: the form's copy of the month step equals the
      DataManager one ([avancar_mes_formulario_equiv]); the stored end date
      is [n - 1] months after the start ([calcular_data_fim_mes]), on the
      start's day clamped in turn to every month passed through, a
      cumulative clamp ([calcular_data_fim_dia]).
    - Resolver: the source's boolean window test is the month interval;
      recurring incomes and bills are kept exactly in their window
      ([receita_no_periodo_janela], [parcelas_janela]); a paid recurring
      bill is returned paid ([conta_periodo_apos_pagar]) but a paid one-off
      bill is returned without [pago] ([conta_nao_recorrente_apos_pagar]);
      one bad date aborts a period query ([gastos_periodo_erro]).
    - Periods: the available months are strictly increasing and exactly
      the contributed ones ([meses_disponiveis_spec]); a recurring record
      contributes its month range ([meses_recorrente_spec]); the loop's
      fuel never runs out ([meses_do_laco_suficiente]).
    - History: the feed is what a stable sort by date returns: a
      permutation of the records, in date order, each date's items in
      their order ([historico_ordenado], [historico_estavel]); the
      history tab can never mark a bill, since its rows carry an empty id
      tag ([historico_marcar_falha]).
    - App: the reminder counts days with the time of day, one day short of
      the calendar ([lembrete_calendario], [lembrete_vence_hoje]), and an
      unpaid bill of the month is listed from five calendar days before
      its due date on ([lembrete_pendente_mostrado]); a bad
      recurring bill stops start-up ([verificar_contas_erro]);
      switching mode restarts in the other mode ([alternar_modo_inverte]).
    - Session: the filters of every reachable window parse to a month of
      the year and a year of the tab's list ([filtros_sempre_validos]); a
      window in test mode never changes the production directory
      ([modo_teste_isola_producao]) and a switch to production only
      creates its missing files ([alternar_para_producao]); switching
      mode and back gives back the first mode's files as saved
      ([alternar_modo_ida_volta]); every handler keeps the ids of the
      three files distinct and positive ([ids_preservados_sessao]); the
      expense file only loses records, since the expense forms never
      open ([gastos_so_diminuem]); a
      [ValueError] stops the start-up only in the reminder, after the
      tabs were built ([inicio_interrompido_ValueError]).
    - Totals: the per-category dict ([gastos_por_categoria_spec]); the
      history's installment total is the installment inside the window and
      0 outside ([total_contas_parcela]); the overview omits exactly
      the interest ([visao_geral_omite_juros]); a zero installment count
      raises in both views ([zero_parcelas_erro]); [calcular_saldo]
      disagrees with the history tab ([saldo_parcelado_divergente]).
    - Library models (facts about Python's own [float()], [str()] and
      [.2f], on which the program's theorems rest, not properties of the
      program): a finite result of [float()] is within half an ulp, a
      relative error of [2^-53] or an absolute one of [2^-1075] in the
      subnormal range ([arredondar_correto]), and is a binary64 number:
      a 53-bit significand times [2^e], [-1074 <= e <= 971]; the exact
      printer satisfies the law of [str()] on every such number
      ([PyRepr.repr_exato_le]); the [.2f] text is within half a
      hundredth of the float ([PyFormat.centavos_perto]).
    - Forms: the amount check accepts exactly the positive finite floats,
      so [nan] and [inf] pass it ([validar_valor_spec]); neither expense
      form opens: both ask the [DataManager] for
      [obter_categorias_gastos], which it does not define, and raise
      [AttributeError] before their "Salvar" exists
      ([formularios_gasto_AttributeError]); a saved single income is shown
      last in the income table of its month ([receita_salva_na_tabela]);
      deleting the selected row deletes the record of its id tag
      ([excluir_linha_selecionada]); every date the income table shows is
      a [DD/MM/AAAA] date, [01/MM/AAAA] for a recurring income, so its
      ["Mensal desde"] label is never shown ([receitas_tabela_datas]); the
      income form writes well-formed incomes except for a [nan] or [inf]
      amount, which passes every check ([formulario_receita_bem_formada]);
      opening the edit form of a well-formed income and saving it
      unchanged gives back an equivalent record in its place
      ([editar_receita_ida_volta]).
    - Bills tab: opening the edit form of a well-formed bill and saving
      it unchanged keeps the bill in its place but without its payment
      history ([editar_conta_ida_volta]); the tab's filter is the resolver's
      month test minus the first month of a bill that does not start on
      the first ([filtro_tabela_resolvedor]); the status column is the
      status of the month shown ([atualizar_status]); the context menu
      always offers the other state ([menu_contexto_alterna]); the frames
      shown agree with the boxes ticked after each action but one, ticking
      "Recorrente" on an installment bill ([visibilidade_ordem]), after
      which an end date left in the hidden field makes [Salvar] refuse the
      bill ([data_fim_oculta_recusada]).
    - Overview: the slice the pie chart pulls out is the first largest
      one ([fatias_destaque]); that the slices add up
      to the expense total ([grafico_soma_total]) holds of the exact sums
      in [Q] only.

    ** Bounds

    Every loop over a list or a [range] is a structural [Fixpoint] or a
    [fold_left].  The one [while] loop, the month loop of
    [obter_meses_anos_disponiveis], takes fuel: [Periods.combustivel] is
    the number of months from the start to the end date plus two, and
    [meses_do_laco_suficiente] shows that any larger fuel gives the same
    result, so the fuel is never what stops the loop.  Python's [sorted]
    is modelled by the stable insertion sort [ordenar] of this file, which
    returns what every stable sort returns ([ordenar_unico]).  Dates are
    kept in the range [datetime] accepts (years 1..9999); the
    [strftime]/[strptime] round trip is stated for years from 1000, the
    ones [str(year)] prints with four digits, and the end-date theorems
    require the last installment month to be at most December 9999
    ([Installments.indice_max]), beyond which Python raises too.  A
    session's start-up reads [datetime.now()] once, and a reachable state
    is one whose clock readings are valid dates ([Session.evento_valido]).

    ** Not modelled

    The construction of the Tk widgets and the drawing of the matplotlib
    chart (pure I/O: a handler is modelled from the values it reads off
    the widgets to the files it writes and the rows or labels it shows;
    of [criar_widgets] only the period filters, which later events read,
    are modelled); the theme ([configurar_tema]) and the About box;
    [json.load] and [json.dump] themselves (a document is its outcome:
    absent, corrupt or a list of records; the directories of the two
    modes are modelled in [Session.v]); the rounding of the sums the
    code computes on floats (a sum is its exact value in [Q], which
    [PyFormat.formatar_2f] would print; the table rows are kept as those
    numbers, not as their text, and no theorem relies on a sum of
    several float terms being exact); the sign of a negative zero; the
    colours and fonts of rows and labels.  Two outcomes are cut short:
    a file that is not valid UTF-8 makes [carregar_dados] raise
    [UnicodeDecodeError], which its [except] does not catch, while a
    [Documento] is only absent, corrupt or valid; and a form that writes
    a [nan] or [inf] amount ends the modelled run
    ([Session.ValorNaoFinito], with the files before the write), where
    the program writes the record (json's [NaN]) and goes on.

    ** This file

    The shared vocabulary: the error type [res] and its bind notation in
    [gastos_scope], Python-loop combinators over [res] ([res_mapM],
    [res_filter_mapM]), the accumulator [somaQ] that models
    [total = 0; for x in l: total += f(x)], their lemmas, and the hint
    database [gastos]. *)

From Stdlib Require Import QArith Qfield Lqa ZArith String Lia Sorting.Sorted Sorting.Permutation.
From stdpp Require Import base list.

Declare Scope gastos_scope.
Delimit Scope gastos_scope with gastos.

(** ** Python exceptions and the error monad *)

Inductive excecao : Type :=
| ValueError
| KeyError
| ZeroDivisionError
| IndexError
| AttributeError.

#[export] Instance excecao_eq_dec : EqDecision excecao.
Proof. solve_decision. Defined.

Inductive res (A : Type) : Type :=
| Ok (a : A)
| Err (e : excecao).
Arguments Ok {A} a.
Arguments Err {A} e.

Definition res_bind {A B} (r : res A) (k : A -> res B) : res B :=
  match r with
  | Ok a => k a
  | Err e => Err e
  end.

Definition res_map {A B} (f : A -> B) (r : res A) : res B :=
  res_bind r (fun a => Ok (f a)).

Notation "x <- c ;; k" := (res_bind c (fun x => k))
  (at level 60, c at next level, right associativity) : gastos_scope.

Open Scope gastos_scope.

(** [d[k]] on a dict: the value, or [KeyError]. *)
Definition get_key {A} (o : option A) : res A :=
  match o with
  | Some a => Ok a
  | None => Err KeyError
  end.

(** [[f(x) for x in l]] where [f] may raise: the first exception aborts. *)
Fixpoint res_mapM {A B} (f : A -> res B) (l : list A) : res (list B) :=
  match l with
  | [] => Ok []
  | x :: xs => y <- f x ;; ys <- res_mapM f xs ;; Ok (y :: ys)
  end.

(** A Python loop [for x in l: ... if cond: out.append(y)] whose body may
    raise: [f x] is [Ok (Some y)] to append, [Ok None] to skip. *)
Fixpoint res_filter_mapM {A B} (f : A -> res (option B)) (l : list A)
    : res (list B) :=
  match l with
  | [] => Ok []
  | x :: xs =>
      o <- f x ;;
      ys <- res_filter_mapM f xs ;;
      Ok (match o with Some y => y :: ys | None => ys end)
  end.

Local Open Scope Q_scope.

(** [total = 0; for x in l: total += f(x)]. *)
Definition somaQ {A} (f : A -> Q) (l : list A) : Q :=
  fold_left (fun t x => t + f x) l 0.

Create HintDb gastos.

(** ** Lemmas on [res] *)

Lemma res_bind_Ok {A B} (r : res A) (k : A -> res B) (b : B) :
  res_bind r k = Ok b <-> exists a, r = Ok a /\ k a = Ok b.
Proof. destruct r; simpl; split; [eauto | intros (?&[=->]&?); done | done | intros (?&?&?); done]. Qed.

Lemma res_bind_Err {A B} (r : res A) (k : A -> res B) e :
  r = Err e -> res_bind r k = Err e.
Proof. by intros ->. Qed.

Lemma res_bind_ret {A B} (a : A) (k : A -> res B) : res_bind (Ok a) k = k a.
Proof. done. Qed.

Lemma get_key_Ok {A} (o : option A) a : get_key o = Ok a <-> o = Some a.
Proof. destruct o; simpl; split; congruence. Qed.


(** Destruct the [res_bind] chains of a hypothesis [... = Ok _]. *)
Ltac res_inv :=
  repeat match goal with
  | H : res_bind ?c _ = Ok _ |- _ =>
      let E := fresh "E" in
      apply res_bind_Ok in H as [? [E H]]; cbv beta in H
  | H : Ok _ = Ok _ |- _ => injection H as H
  | H : Err _ = Ok _ |- _ => discriminate H
  end.

Lemma res_mapM_Ok {A B} (f : A -> res B) l ys :
  res_mapM f l = Ok ys <-> Forall2 (fun x y => f x = Ok y) l ys.
Proof.
  revert ys; induction l as [|x l IH]; intros ys; simpl.
  - split; [intros [=<-]; constructor | intros H; inversion H; done].
  - split.
    + intros (y & Hy & (ys' & Hys & [= <-])%res_bind_Ok)%res_bind_Ok.
      constructor; [done | by apply IH].
    + intros H. inversion H as [|? y ? ys' Hy Hl]; subst.
      rewrite Hy; simpl. apply IH in Hl. by rewrite Hl.
Qed.

Lemma res_mapM_length {A B} (f : A -> res B) l ys :
  res_mapM f l = Ok ys -> length ys = length l.
Proof. intros H%res_mapM_Ok. symmetry. by eapply Forall2_length. Qed.

(** [res_filter_mapM] succeeds exactly when every body does, and then keeps
    the [Some] results in order. *)
Lemma res_filter_mapM_Ok {A B} (f : A -> res (option B)) l ys :
  res_filter_mapM f l = Ok ys <->
  exists os, res_mapM f l = Ok os /\ ys = omap id os.
Proof.
  revert ys; induction l as [|x l IH]; intros ys; simpl.
  - split; [intros [=<-]; by exists [] | intros (os & [=<-] & ->); done].
  - split.
    + intros (o & Ho & (ys' & Hys & [= <-])%res_bind_Ok)%res_bind_Ok.
      apply IH in Hys as (os & Hos & ->).
      exists (o :: os). rewrite Ho; simpl; rewrite Hos; simpl.
      split; [done|]. by destruct o.
    + intros (os & (o & Ho & (os' & Hos & [= <-])%res_bind_Ok)%res_bind_Ok & ->).
      rewrite Ho; simpl.
      assert (res_filter_mapM f l = Ok (omap id os')) as -> by (apply IH; eauto).
      simpl. by destruct o.
Qed.

Lemma res_filter_mapM_app {A B} (f : A -> res (option B)) l1 l2 ys1 ys2 :
  res_filter_mapM f l1 = Ok ys1 -> res_filter_mapM f l2 = Ok ys2 ->
  res_filter_mapM f (l1 ++ l2) = Ok (ys1 ++ ys2).
Proof.
  revert ys1; induction l1 as [|x l1 IH]; intros ys1 H1 H2; simpl in *.
  - by injection H1 as <-.
  - apply res_bind_Ok in H1 as (o & Ho & (ys & Hys & [= <-])%res_bind_Ok).
    rewrite Ho; simpl. rewrite (IH _ Hys H2). simpl. by destruct o.
Qed.

(** Membership in the output of a successful filtering loop. *)
Lemma res_filter_mapM_elem {A B} (f : A -> res (option B)) l ys y :
  res_filter_mapM f l = Ok ys ->
  (y ∈ ys <-> exists x, x ∈ l /\ f x = Ok (Some y)).
Proof.
  revert ys; induction l as [|x l IH]; intros ys H; simpl in H.
  - injection H as <-. split; [intros ?%elem_of_nil; done | intros (?&?%elem_of_nil&_); done].
  - apply res_bind_Ok in H as (o & Ho & (ys' & Hys & [= <-])%res_bind_Ok).
    specialize (IH _ Hys).
    destruct o as [b|]; [rewrite elem_of_cons|]; rewrite IH; split.
    + intros [->|(x'&?&?)]; [exists x; split; [left|]; done | exists x'; split; [right|]; done].
    + intros (x'&[->|Hin]%elem_of_cons&Hx'); [rewrite Ho in Hx'; injection Hx'; auto | eauto].
    + intros (x'&?&?); exists x'; split; [right|]; done.
    + intros (x'&[->|Hin]%elem_of_cons&Hx'); [rewrite Ho in Hx'; discriminate | eauto].
Qed.

(** ** The accumulator [somaQ] *)

Lemma somaQ_acc {A} (f : A -> Q) l t :
  fold_left (fun t x => t + f x) l t == t + somaQ f l.
Proof.
  unfold somaQ. revert t; induction l as [|x l IH]; intros t; simpl.
  - ring.
  - rewrite (IH (t + f x)), (IH (0 + f x)). ring.
Qed.

Lemma somaQ_nil {A} (f : A -> Q) : somaQ f [] == 0.
Proof. reflexivity. Qed.

Lemma somaQ_cons {A} (f : A -> Q) x l : somaQ f (x :: l) == f x + somaQ f l.
Proof. unfold somaQ at 1. simpl. rewrite somaQ_acc. ring. Qed.

Lemma somaQ_app {A} (f : A -> Q) l1 l2 :
  somaQ f (l1 ++ l2) == somaQ f l1 + somaQ f l2.
Proof.
  induction l1 as [|x l1 IH]; simpl.
  - rewrite somaQ_nil. ring.
  - rewrite !somaQ_cons, IH. ring.
Qed.

(** The sum depends on the summand only up to [==] pointwise. *)
Lemma somaQ_ext {A} (f g : A -> Q) l :
  (forall x, x ∈ l -> f x == g x) -> somaQ f l == somaQ g l.
Proof.
  induction l as [|x l IH]; intros H; [reflexivity|].
  rewrite !somaQ_cons, (H x) by (left). rewrite IH; [reflexivity|].
  intros y Hy. apply H. by right.
Qed.

(** A sum of non-negative terms is non-negative. *)
Lemma somaQ_nonneg {A} (f : A -> Q) l :
  (forall x, x ∈ l -> 0 <= f x) -> 0 <= somaQ f l.
Proof.
  induction l as [|x l IH]; intros H; [apply Qle_refl|].
  rewrite somaQ_cons. pose proof (H x ltac:(left)).
  assert (0 <= somaQ f l) by (apply IH; intros y Hy; apply H; by right). lra.
Qed.

(** The sum of a summand that is zero everywhere but on the elements
    selected by [P] is the sum over the selected elements. *)
Lemma somaQ_filter {A} (P : A -> Prop) `{!∀ x, Decision (P x)} (f : A -> Q) l :
  somaQ (fun x => if decide (P x) then f x else 0) l == somaQ f (filter P l).
Proof.
  induction l as [|x l IH]; [reflexivity|].
  rewrite filter_cons, somaQ_cons. case_decide.
  - rewrite somaQ_cons, IH. reflexivity.
  - rewrite IH. ring.
Qed.

(** A sum of a constant. *)
Lemma somaQ_const {A} (f : A -> Q) l c :
  (forall x, x ∈ l -> f x == c) -> somaQ f l == inject_Z (Z.of_nat (length l)) * c.
Proof.
  induction l as [|x l IH]; intros H; [reflexivity|].
  rewrite somaQ_cons, IH, H by (by constructor || (intros; apply H; by constructor)).
  change (length (x :: l)) with (S (length l)).
  rewrite Nat2Z.inj_succ. unfold Z.succ. rewrite inject_Z_plus. ring.
Qed.

(** The sum of a pointwise sum. *)
Lemma somaQ_plus {A} (f g : A -> Q) l : somaQ (fun x => f x + g x) l == somaQ f l + somaQ g l.
Proof.
  induction l as [|x l IH]; [reflexivity|]. rewrite !somaQ_cons, IH. ring.
Qed.

Lemma somaQ_map {A B} (f : B -> Q) (g : A -> B) l : somaQ f (map g l) == somaQ (fun x => f (g x)) l.
Proof. induction l as [|x l IH]; [reflexivity|]. simpl. rewrite !somaQ_cons, IH. reflexivity. Qed.

(** Dropping elements whose summand is zero does not change the sum. *)
Lemma somaQ_filter_zero {A} (p : A -> bool) (f : A -> Q) l :
  (forall x, x ∈ l -> p x = false -> f x == 0) -> somaQ f (List.filter p l) == somaQ f l.
Proof.
  induction l as [|x l IH]; intros H; [reflexivity|]. simpl.
  assert (IH' : somaQ f (List.filter p l) == somaQ f l) by (apply IH; intros y Hy; apply H; by right).
  destruct (p x) eqn:Hp; rewrite !somaQ_cons, IH'; [reflexivity|].
  rewrite (H x ltac:(left) Hp). ring.
Qed.

(** Summing, over distinct keys, the part of a sum each key selects gives
    the whole sum, when every element's key is one of them. *)
Lemma somaQ_unico {K} `{EqDecision K} (c : K) (v : Q) ks :
  NoDup ks -> c ∈ ks -> somaQ (fun k => if decide (c = k) then v else 0) ks == v.
Proof.
  induction ks as [|k ks IH]; intros Hnd Hc; [by apply elem_of_nil in Hc|].
  apply NoDup_cons in Hnd as [Hk Hnd]. rewrite somaQ_cons. case_decide as Hck.
  - subst k. rewrite (somaQ_const _ _ 0); [ring|].
    intros k Hin. case_decide; [subst; contradiction | reflexivity].
  - apply elem_of_cons in Hc as [->|Hc]; [done|]. rewrite IH by done. ring.
Qed.

Lemma somaQ_particao {A K} `{EqDecision K} (cat : A -> K) (f : A -> Q) (ks : list K) (l : list A) :
  NoDup ks -> (forall x, x ∈ l -> cat x ∈ ks) ->
  somaQ (fun k => somaQ f (filter (fun x => cat x = k) l)) ks == somaQ f l.
Proof.
  intros Hnd. induction l as [|x l IH]; intros Hc.
  - rewrite (somaQ_const _ _ 0) by (intros; reflexivity). rewrite somaQ_nil. ring.
  - transitivity (somaQ (fun k => (if decide (cat x = k) then f x else 0) +
                                  somaQ f (filter (fun y => cat y = k) l)) ks).
    { apply somaQ_ext. intros k _. rewrite filter_cons. case_decide; [rewrite somaQ_cons|]; ring. }
    rewrite somaQ_plus, somaQ_unico by (done || (apply Hc; left)).
    rewrite IH by (intros y Hy; apply Hc; by right). rewrite somaQ_cons. reflexivity.
Qed.

#[export] Hint Resolve somaQ_nonneg : gastos.

(** ** Finite ranges of integers

    Statements over a bounded range of integers (days of a month, years of
    four digits) are proved by enumerating the range ([enumerar]) or by
    checking a boolean property on each element ([Z_range_forallb]). *)

Local Open Scope Z_scope.

Fixpoint Z_range (lo : Z) (n : nat) : list Z :=
  match n with
  | O => []
  | S n' => lo :: Z_range (lo + 1) n'
  end.

Fixpoint Z_range_forallb (f : Z -> bool) (lo : Z) (n : nat) : bool :=
  match n with
  | O => true
  | S n' => f lo && Z_range_forallb f (lo + 1) n'
  end.

Lemma Z_range_elem (lo : Z) (n : nat) (z : Z) :
  lo <= z < lo + Z.of_nat n -> z ∈ Z_range lo n.
Proof.
  revert lo; induction n as [|n IH]; intros lo Hz; simpl; [lia|].
  destruct (Z.eq_dec z lo) as [->|Hne]; [left|right; apply IH; lia].
Qed.

Lemma Z_range_elem_inv (lo : Z) (n : nat) (z : Z) :
  z ∈ Z_range lo n -> lo <= z < lo + Z.of_nat n.
Proof.
  revert lo; induction n as [|n IH]; intros lo Hz; simpl in Hz.
  - by apply elem_of_nil in Hz.
  - apply elem_of_cons in Hz as [->|Hz]; [lia|]. apply IH in Hz. lia.
Qed.

Lemma Z_range_forallb_spec (f : Z -> bool) (lo : Z) (n : nat) (z : Z) :
  Z_range_forallb f lo n = true -> lo <= z < lo + Z.of_nat n -> f z = true.
Proof.
  revert lo; induction n as [|n IH]; intros lo Hf Hz; simpl in *; [lia|].
  apply andb_prop in Hf as [Hlo Hrest].
  destruct (Z.eq_dec z lo) as [->|Hne]; [done | apply (IH (lo + 1)); [done | lia]].
Qed.

Lemma Z_range_forallb_Z (f : Z -> bool) (lo n z : Z) :
  Z_range_forallb f lo (Z.to_nat n) = true -> lo <= z < lo + n -> f z = true.
Proof. intros H Hz. apply (Z_range_forallb_spec f lo (Z.to_nat n)); [done | lia]. Qed.

(** Split a goal on [z] into one goal per value of [lo <= z < lo + n]. *)
Ltac enumerar z lo n :=
  let H := fresh "Hz" in
  assert (H : z ∈ Z_range lo n) by (apply Z_range_elem; lia);
  simpl in H;
  repeat match goal with
  | H : _ ∈ _ :: _ |- _ => apply elem_of_cons in H as [->|H]
  | H : _ ∈ [] |- _ => apply elem_of_nil in H; contradiction
  end.

Lemma inject_Z_nz (n : Z) : n <> 0 -> ~ (inject_Z n == 0)%Q.
Proof. intros Hn H. unfold Qeq in H. simpl in H. lia. Qed.

(** ** Lists *)

Lemma NoDup_map_filter {A B} (f : A -> B) (P : A -> Prop) `{!∀ x, Decision (P x)} (l : list A) :
  NoDup (map f l) -> NoDup (map f (filter P l)).
Proof.
  induction l as [|x l IH]; intros Hnd; [constructor|].
  simpl in Hnd. apply NoDup_cons in Hnd as [Hx Hnd].
  rewrite filter_cons. case_decide; simpl; [|by apply IH].
  apply NoDup_cons. split; [|by apply IH].
  intros Hin. apply Hx. apply list_elem_of_In in Hin. apply list_elem_of_In.
  apply in_map_iff in Hin as (y & Hy & Hyl). apply in_map_iff. exists y. split; [done|].
  apply list_elem_of_In in Hyl. apply list_elem_of_In. by apply list_elem_of_filter in Hyl as [_ ?].
Qed.

Lemma Ok_inj {A} (a b : A) : Ok a = Ok b -> a = b.
Proof. by intros [=]. Qed.

(** A filtering loop that fails, failed on one of its elements. *)
Lemma res_filter_mapM_Err {A B} (f : A -> res (option B)) l e :
  res_filter_mapM f l = Err e -> exists x, x ∈ l /\ f x = Err e.
Proof.
  induction l as [|x l IH]; simpl; [discriminate|].
  destruct (f x) as [o|e'] eqn:Hx; simpl.
  - destruct (res_filter_mapM f l) eqn:Hl; simpl; [discriminate|].
    intros [= ->]. destruct (IH eq_refl) as (y & Hy & Hfy). exists y. split; [by right|done].
  - intros [= ->]. exists x. split; [left|done].
Qed.

(** ... and one failing element makes the loop fail. *)
Lemma res_filter_mapM_Err_elem {A B} (f : A -> res (option B)) l x e :
  x ∈ l -> f x = Err e -> exists e', res_filter_mapM f l = Err e'.
Proof.
  induction l as [|y l IH]; intros Hx Hf; [by apply elem_of_nil in Hx|]. simpl.
  apply elem_of_cons in Hx as [->|Hx].
  - rewrite Hf. by eexists.
  - destruct (f y) as [o|e']; simpl; [|by eexists].
    destruct (IH Hx Hf) as [e' ->]. by eexists.
Qed.

(** A mapping loop that succeeds on every element succeeds, and its sum is
    the sum of the elements' values. *)
Lemma res_mapM_somaQ {A} (f : A -> res Q) (g : A -> Q) l :
  (forall x, x ∈ l -> exists y, f x = Ok y /\ y == g x) ->
  exists ys, res_mapM f l = Ok ys /\ somaQ id ys == somaQ g l.
Proof.
  induction l as [|x l IH]; intros H; [by exists []|].
  destruct (H x) as (y & Hy & Hyg); [by constructor|].
  destruct IH as (ys & Hys & Hsum); [intros z Hz; apply H; by constructor|].
  exists (y :: ys). simpl. rewrite Hy, Hys. split; [done|].
  rewrite !somaQ_cons, Hsum, Hyg. reflexivity.
Qed.

(** A mapping loop fails when one of its elements fails. *)
Lemma res_mapM_Err_elem {A B} (f : A -> res B) l x e :
  x ∈ l -> f x = Err e -> exists e', res_mapM f l = Err e'.
Proof.
  induction l as [|y l IH]; intros Hx Hf; [by apply elem_of_nil in Hx|]. simpl.
  apply elem_of_cons in Hx as [->|Hx].
  - rewrite Hf. by eexists.
  - destruct (f y) as [b|e']; simpl; [|by eexists].
    destruct (IH Hx Hf) as [e' ->]. by eexists.
Qed.

(** A filter that selects no element of the list is empty. *)
Lemma filter_vazio {A} (P : A -> Prop) `{!forall x, Decision (P x)} (l : list A) :
  (forall x, x ∈ l -> ~ P x) -> filter P l = [].
Proof.
  induction l as [|x l IH]; intros Hl; [done|]. rewrite filter_cons, decide_False.
  - apply IH. intros y Hy. apply Hl. by right.
  - apply Hl. by left.
Qed.

(** ** Stable sorting

    Python's [sorted(l, key=k)] is a stable sort: the result is ordered by
    the key, and elements with equal keys keep their input order.  Those
    two facts determine the output ([ordenar_unico] below), so the
    development computes it with a stable insertion sort, [ordenar], over
    a boolean total preorder [le]. *)

Fixpoint inserir {A} (le : A -> A -> bool) (x : A) (l : list A) : list A :=
  match l with
  | [] => [x]
  | y :: ys => if le y x then y :: inserir le x ys else x :: y :: ys
  end.

Definition ordenar {A} (le : A -> A -> bool) (l : list A) : list A :=
  fold_left (fun acc x => inserir le x acc) l [].

Section Ordenacao.
Context {A : Type} (le : A -> A -> bool).
Hypothesis le_total : forall x y, le x y = true \/ le y x = true.
Hypothesis le_trans : forall x y z, le x y = true -> le y z = true -> le x z = true.

(** Two elements are equivalent when each is below the other. *)
Definition equiv_le (x y : A) : Prop := le x y = true /\ le y x = true.

#[local] Instance equiv_le_dec x y : Decision (equiv_le x y).
Proof. unfold equiv_le. apply _. Defined.

(** Sorted, in the strong form: every element is below every later one. *)
Definition ordenada (l : list A) : Prop := StronglySorted (fun x y => le x y = true) l.

Lemma inserir_Permutation x l : Permutation (inserir le x l) (x :: l).
Proof.
  induction l as [|y l IH]; simpl; [done|]. destruct (le y x); [|done].
  rewrite IH. apply perm_swap.
Qed.

Lemma inserir_ordenada x l : ordenada l -> ordenada (inserir le x l).
Proof.
  unfold ordenada. induction l as [|y l IH]; intros Hs; simpl; [repeat constructor|].
  apply StronglySorted_inv in Hs as [Hs Hy].
  destruct (le y x) eqn:Hyx.
  - constructor; [by apply IH|]. apply Forall_forall. intros z Hz.
    apply list_elem_of_In, (Permutation_in _ (inserir_Permutation x l)) in Hz as [<-|Hz]; [done|].
    apply (proj1 (Forall_forall _ _) Hy). by apply list_elem_of_In.
  - assert (Hxy : le x y = true) by (destruct (le_total x y); congruence).
    constructor; [by constructor|]. constructor; [done|].
    apply Forall_forall. intros z Hz. apply (le_trans _ y); [done|].
    by apply (proj1 (Forall_forall _ _) Hy).
Qed.

(** Inserting keeps each class in order, [x] last in its own. *)
Lemma inserir_estavel x l k :
  ordenada l ->
  filter (equiv_le k) (inserir le x l) = filter (equiv_le k) l ++ filter (equiv_le k) [x].
Proof.
  unfold ordenada. induction l as [|y l IH]; intros Hs; [done|].
  apply StronglySorted_inv in Hs as [Hs Hy]. cbn [inserir].
  destruct (le y x) eqn:Hyx.
  - rewrite (filter_cons _ y (inserir le x l)), (filter_cons _ y l), IH by done.
    by case_decide.
  - (* [x] is strictly below [y] and all of [l]: no element of [y :: l] is in its class *)
    assert (Hnone : equiv_le k x -> filter (equiv_le k) (y :: l) = []).
    { intros [Hkx _]. apply filter_vazio. intros z Hz [_ Hzk].
      assert (Hzx : le z x = true) by exact (le_trans _ _ _ Hzk Hkx).
      apply elem_of_cons in Hz as [->|Hz]; [congruence|].
      rewrite (le_trans y z x) in Hyx; [discriminate | |done].
      apply (proj1 (Forall_forall _ _) Hy). exact Hz. }
    rewrite (filter_cons _ x (y :: l)). destruct (decide (equiv_le k x)) as [Hkx|Hkx].
    + rewrite (Hnone Hkx), filter_cons, decide_True by done. by rewrite filter_nil.
    + rewrite (filter_cons _ x []), decide_False, filter_nil, app_nil_r by done. done.
Qed.
Lemma le_refl x : le x x = true.
Proof. by destruct (le_total x x). Qed.

Lemma ordenar_acc l acc :
  ordenada acc ->
  ordenada (fold_left (fun acc x => inserir le x acc) l acc) /\
  forall k, filter (equiv_le k) (fold_left (fun acc x => inserir le x acc) l acc)
            = filter (equiv_le k) acc ++ filter (equiv_le k) l.
Proof.
  revert acc. induction l as [|x l IH]; intros acc Hacc; simpl.
  - split; [done|]. intros k. by rewrite filter_nil, app_nil_r.
  - destruct (IH (inserir le x acc)) as [Hs Hk]; [by apply inserir_ordenada|].
    split; [done|]. intros k. rewrite Hk, inserir_estavel by done.
    rewrite <- app_assoc. f_equal. rewrite (filter_cons _ x l), (filter_cons _ x []), filter_nil. by case_decide.
Qed.

Lemma ordenar_ordenada l : ordenada (ordenar le l).
Proof. apply ordenar_acc. constructor. Qed.

(** Stability: each class of equivalent elements keeps its input order. *)
Lemma ordenar_estavel l k : filter (equiv_le k) (ordenar le l) = filter (equiv_le k) l.
Proof. apply ordenar_acc. constructor. Qed.

Lemma ordenar_Permutation l : Permutation (ordenar le l) l.
Proof.
  unfold ordenar. change l with ([] ++ l) at 2. generalize (@nil A) as acc.
  induction l as [|x l IH]; intros acc; simpl; [by rewrite app_nil_r|].
  rewrite IH, inserir_Permutation. simpl. apply Permutation_middle.
Qed.

Lemma ordenar_elem l x : x ∈ ordenar le l <-> x ∈ l.
Proof.
  rewrite !list_elem_of_In. split; apply Permutation_in; [|symmetry]; apply ordenar_Permutation.
Qed.

(** A sorted list is determined by its classes. *)
Lemma ordenada_classes_eq l1 l2 :
  ordenada l1 -> ordenada l2 ->
  (forall k, filter (equiv_le k) l1 = filter (equiv_le k) l2) -> l1 = l2.
Proof.
  unfold ordenada. revert l2. induction l1 as [|x r1 IH]; intros l2 H1 H2 Hk.
  - destruct l2 as [|y r2]; [done|]. specialize (Hk y).
    rewrite filter_nil, filter_cons, decide_True in Hk; [discriminate|]. split; apply le_refl.
  - assert (Hin : forall z (l : list A), z ∈ filter (equiv_le z) l -> z ∈ l).
    { intros z l Hz. by apply list_elem_of_filter in Hz as [_ Hz]. }
    destruct l2 as [|y r2].
    { specialize (Hk x). rewrite filter_nil, filter_cons, decide_True in Hk;
        [discriminate | split; apply le_refl]. }
    apply StronglySorted_inv in H1 as [H1 Hx]. apply StronglySorted_inv in H2 as [H2 Hy].
    assert (Hxy : le x y = true).
    { assert (Hy' : y ∈ x :: r1).
      { apply Hin. rewrite Hk, filter_cons, decide_True by (split; apply le_refl). by left. }
      apply elem_of_cons in Hy' as [->|Hy']; [apply le_refl|].
      by apply (proj1 (Forall_forall _ _) Hx). }
    assert (Hyx : le y x = true).
    { assert (Hx' : x ∈ y :: r2).
      { apply Hin. rewrite <- Hk, filter_cons, decide_True by (split; apply le_refl). by left. }
      apply elem_of_cons in Hx' as [->|Hx']; [apply le_refl|].
      by apply (proj1 (Forall_forall _ _) Hy). }
    pose proof (Hk x) as Hkx. rewrite !filter_cons, !decide_True in Hkx by
      (split; (apply le_refl || done)).
    injection Hkx as <- _. f_equal. apply IH; [done..|]. intros k.
    specialize (Hk k). rewrite !filter_cons in Hk. case_decide; [by injection Hk | done].
Qed.

(** The result of any stable sort: a sorted list with the input's classes
    in the input's order is [ordenar le l]. *)
Theorem ordenar_unico l l' :
  ordenada l' -> (forall k, filter (equiv_le k) l' = filter (equiv_le k) l) -> l' = ordenar le l.
Proof.
  intros Hs Hk. apply ordenada_classes_eq; [done | apply ordenar_ordenada |].
  intros k. by rewrite Hk, ordenar_estavel.
Qed.
End Ordenacao.

(** The elements of the concatenated results of a mapping loop. *)
Lemma res_mapM_concat_elem {A B} (f : A -> res (list B)) l yss y :
  res_mapM f l = Ok yss -> y ∈ concat yss <-> exists x ys, x ∈ l /\ f x = Ok ys /\ y ∈ ys.
Proof.
  intros H%res_mapM_Ok. induction H as [|x ys l yss Hx _ IH]; simpl.
  - split; [by intros ?%elem_of_nil | by intros (?&?&?%elem_of_nil&_)].
  - rewrite elem_of_app, IH. split.
    + intros [Hy|(x'&ys'&?&?&?)]; [exists x, ys | exists x', ys']; split_and!; try done; by constructor.
    + intros (x'&ys'&[->|Hx']%elem_of_cons&Hf&Hy); [left; congruence | right; by exists x', ys'].
Qed.

Lemma filter_map_comm {A B} (P : B -> Prop) `{!forall x, Decision (P x)} (f : A -> B) l :
  filter P (map f l) = map f (filter (fun x => P (f x)) l).
Proof.
  induction l as [|x l IH]; [done|]. simpl. rewrite !filter_cons. case_decide; simpl; by rewrite IH.
Qed.

Lemma StronglySorted_map_impl {A B} (R : A -> A -> Prop) (R' : B -> B -> Prop) (f : A -> B) l :
  (forall a b, a ∈ l -> b ∈ l -> R a b -> R' (f a) (f b)) ->
  StronglySorted R l -> StronglySorted R' (map f l).
Proof.
  intros H Hs. induction Hs as [|a l Hs IH Ha]; simpl; constructor.
  - apply IH. intros x y Hx Hy. apply H; by right.
  - apply Forall_map. apply Forall_forall. intros b Hb. apply H; [by left | by right |].
    by apply (proj1 (Forall_forall _ _) Ha).
Qed.

(** The keys a successful mapping loop computed, paired with their inputs. *)
Lemma res_mapM_zip {A B} (f : A -> res B) l ys :
  res_mapM f l = Ok ys ->
  map snd (zip ys l) = l /\ forall p, p ∈ zip ys l -> f p.2 = Ok p.1.
Proof.
  intros H%res_mapM_Ok. induction H as [|x y l ys Hxy _ [IH1 IH2]]; simpl.
  - split; [done|]. by intros p ?%elem_of_nil.
  - rewrite IH1. split; [done|]. intros p [->|Hp]%elem_of_cons; [done | by apply IH2].
Qed.

#[export] Instance res_eq_dec {A} `{!EqDecision A} : EqDecision (res A).
Proof. solve_decision. Defined.

Lemma filter_ext_elem {A} (P Q : A -> Prop) `{!forall x, Decision (P x)} `{!forall x, Decision (Q x)} (l : list A) :
  (forall x, x ∈ l -> P x <-> Q x) -> filter P l = filter Q l.
Proof.
  induction l as [|x l IH]; intros Hpq; [done|]. rewrite !filter_cons.
  rewrite IH by (intros y Hy; apply Hpq; by right).
  destruct (decide (P x)) as [Hp|Hp], (decide (Q x)) as [Hq|Hq]; try done; exfalso.
  - apply Hq, Hpq; [by left | done].
  - apply Hp, Hpq; [by left | done].
Qed.
