(* ===== verification/PyDate.v ===== *)
(** * PyDate: the parts of Python's [datetime] and [calendar] the program uses

    The source parses every stored date with
    [datetime.strptime(s, "%d/%m/%Y")], prints dates with
    [strftime("%d/%m/%Y")], builds dates with [datetime(y, m, d)], asks
    [calendar.monthrange(y, m)[1]] for the length of a month, compares
    [datetime] values, and computes [(d1 - d2).days].  This file models
    these operations from the library's behaviour (CPython's
    [_strptime.py] regular expressions and [datetime.py]):

    - [strptime_dmY] is the regular expression
      [(?P<d>3[01]|[12]\d|0[1-9]|[1-9]| [1-9])/(?P<m>1[0-2]|0[1-9]|[1-9])/(?P<Y>\d\d\d\d)]
      with Python's backtracking order (the candidates of each group are
      listed in the order the alternatives are tried, and the first complete
      match is taken), followed by the ["unconverted data remains"] check and
      the range check of the [date] constructor.  Every failure is
      [ValueError].
    - [str_int] is [str(int)], [pad02] is the f-string format [{z:02d}].
    - [toordinal] and [dias_entre] are [date.toordinal] and
      [timedelta.days] (floor division of the difference in microseconds).

    The theorems: the printer and the parser are inverse on valid dates
    with four-digit years, a successful parse is a valid date, and the two
    small decimal formats are injective (through their parsers). *)

From Stdlib Require Import ZArith String Ascii Lia DecimalString DecimalZ DecimalPos.
From stdpp Require Import base list.
From S2P Require Import Prelude.

Local Open Scope string_scope.
Local Open Scope Z_scope.

(** ** Dates *)

(** [datetime.date]: year, month, day. *)
Record data := mkData { ano : Z; mes : Z; dia : Z }.

#[export] Instance data_eq_dec : EqDecision data.
Proof. solve_decision. Defined.

(** [calendar.isleap]. *)
Definition eh_bissexto (y : Z) : bool :=
  (y mod 4 =? 0) && (negb (y mod 100 =? 0) || (y mod 400 =? 0)).

(** [calendar.monthrange(y, m)[1]] for [1 <= m <= 12]. *)
Definition dias_no_mes (y m : Z) : Z :=
  match m with
  | 1 | 3 | 5 | 7 | 8 | 10 | 12 => 31
  | 4 | 6 | 9 | 11 => 30
  | 2 => if eh_bissexto y then 29 else 28
  | _ => 0
  end.

(** [calendar.monthrange(y, m)[1]]: [IllegalMonthError], a [ValueError],
    outside [1..12]. *)
Definition monthrange_dias (y m : Z) : res Z :=
  if (1 <=? m) && (m <=? 12) then Ok (dias_no_mes y m) else Err ValueError.

(** The range checks of [date(y, m, d)] ([MINYEAR = 1], [MAXYEAR = 9999]). *)
Definition data_valida (d : data) : bool :=
  (1 <=? ano d) && (ano d <=? 9999) && (1 <=? mes d) && (mes d <=? 12)
  && (1 <=? dia d) && (dia d <=? dias_no_mes (ano d) (mes d)).

(** [datetime(y, m, d)]: the date, or [ValueError]. *)
Definition mk_data (y m d : Z) : res data :=
  let r := mkData y m d in
  if data_valida r then Ok r else Err ValueError.

(** [_DAYS_BEFORE_MONTH] of [datetime.py]. *)
Definition dias_antes_mes_tab (m : Z) : Z :=
  match m with
  | 1 => 0 | 2 => 31 | 3 => 59 | 4 => 90 | 5 => 120 | 6 => 151
  | 7 => 181 | 8 => 212 | 9 => 243 | 10 => 273 | 11 => 304 | 12 => 334
  | _ => -1
  end.

(** [_days_before_year], [_days_before_month] and [date.toordinal]. *)
Definition dias_antes_do_ano (y : Z) : Z :=
  let y' := y - 1 in y' * 365 + y' / 4 - y' / 100 + y' / 400.

Definition dias_antes_do_mes (y m : Z) : Z :=
  dias_antes_mes_tab m + (if (2 <? m) && eh_bissexto y then 1 else 0).

Definition toordinal (d : data) : Z :=
  dias_antes_do_ano (ano d) + dias_antes_do_mes (ano d) (mes d) + dia d.

(** A [datetime]: a date and the microseconds elapsed since its midnight
    ([0 <= inst_micro < 86400 * 10^6]).  [strptime] and [datetime(y, m, d)]
    give midnight; [datetime.now()] gives any time of the day. *)
Record instante := mkInstante { inst_data : data; inst_micro : Z }.

Definition meia_noite (d : data) : instante := mkInstante d 0.

Definition micros_por_dia : Z := 86400 * 1000000.

(** [datetime] comparison [a <= b]: lexicographic on
    (year, month, day, time). *)
Definition instante_leb (a b : instante) : bool :=
  let (da, ta) := a in let (db, tb) := b in
  (ano da <? ano db) || ((ano da =? ano db) &&
  ((mes da <? mes db) || ((mes da =? mes db) &&
  ((dia da <? dia db) || ((dia da =? dia db) && (ta <=? tb)))))).

(** [(b - a).days]: the difference normalised by [timedelta], whose [days]
    is the floor of the difference in days. *)
Definition dias_entre (a b : instante) : Z :=
  ((toordinal (inst_data b) - toordinal (inst_data a)) * micros_por_dia
   + (inst_micro b - inst_micro a)) / micros_por_dia.

(** ** [strptime(s, "%d/%m/%Y")] *)

Definition digito (c : ascii) : option Z :=
  let n := Z.of_nat (nat_of_ascii c) - 48 in
  if (0 <=? n) && (n <=? 9) then Some n else None.

Definition digito_entre (lo hi : Z) (c : ascii) : option Z :=
  match digito c with
  | Some n => if (lo <=? n) && (n <=? hi) then Some n else None
  | None => None
  end.

(** One regex alternative [[lo-hi]]: its match, as (value, rest). *)
Definition alt1 (lo hi : Z) (s : string) : list (Z * string) :=
  match s with
  | String c r => match digito_entre lo hi c with Some n => [(n, r)] | None => [] end
  | EmptyString => []
  end.

(** The alternative [[lo1-hi1][lo2-hi2]]. *)
Definition alt2 (lo1 hi1 lo2 hi2 : Z) (s : string) : list (Z * string) :=
  match s with
  | String c1 (String c2 r) =>
      match digito_entre lo1 hi1 c1, digito_entre lo2 hi2 c2 with
      | Some a, Some b => [(10 * a + b, r)]
      | _, _ => []
      end
  | _ => []
  end.

(** The alternative [ [1-9]] (a space, then a digit); [int(" 5")] is 5. *)
Definition alt_espaco (s : string) : list (Z * string) :=
  match s with
  | String " "%char r => alt1 1 9 r
  | _ => []
  end.

(** [(?P<d>3[01]|[12]\d|0[1-9]|[1-9]| [1-9])], alternatives in order. *)
Definition grupo_d (s : string) : list (Z * string) :=
  alt2 3 3 0 1 s ++ alt2 1 2 0 9 s ++ alt2 0 0 1 9 s ++ alt1 1 9 s ++ alt_espaco s.

(** [(?P<m>1[0-2]|0[1-9]|[1-9])]. *)
Definition grupo_m (s : string) : list (Z * string) :=
  alt2 1 1 0 2 s ++ alt2 0 0 1 9 s ++ alt1 1 9 s.

(** [(?P<Y>\d\d\d\d)]. *)
Definition grupo_Y (s : string) : list (Z * string) :=
  match s with
  | String c1 (String c2 (String c3 (String c4 r))) =>
      match digito c1, digito c2, digito c3, digito c4 with
      | Some a, Some b, Some c, Some d => [(1000 * a + 100 * b + 10 * c + d, r)]
      | _, _, _, _ => []
      end
  | _ => []
  end.

Definition barra (s : string) : list string :=
  match s with
  | String "/"%char r => [r]
  | _ => []
  end.

(** All matches of the pattern at the start of [s], in backtracking order:
    (day, month, year, unconsumed rest). *)
Definition casamentos_dmY (s : string) : list (Z * Z * Z * string) :=
  flat_map (fun '(d, r1) =>
    flat_map (fun r1' =>
      flat_map (fun '(m, r2) =>
        flat_map (fun r2' =>
          map (fun '(y, r3) => (d, m, y, r3)) (grupo_Y r2'))
        (barra r2))
      (grupo_m r1'))
    (barra r1))
  (grupo_d s).

(** [datetime.strptime(s, "%d/%m/%Y")]: no match, unconverted data, or an
    invalid date are all [ValueError]. *)
Definition strptime_dmY (s : string) : res data :=
  match casamentos_dmY s with
  | [] => Err ValueError
  | (d, m, y, resto) :: _ =>
      match resto with
      | EmptyString => mk_data y m d
      | String _ _ => Err ValueError
      end
  end.

(** ** Printing *)

(** [str(z)] for an [int]. *)
Definition str_int (z : Z) : string := NilZero.string_of_int (Z.to_int z).

(** [f"{z:02d}"]: zero-filled to width 2 (after the sign). *)
Definition pad02 (z : Z) : string :=
  let s := str_int z in
  if (String.length s <? 2)%nat then "0" ++ s else s.

(** [d.strftime("%d/%m/%Y")]. *)
Definition strftime_dmY (d : data) : string :=
  pad02 (dia d) ++ "/" ++ pad02 (mes d) ++ "/" ++ str_int (ano d).

(** The decimal reading used to invert [str_int]. *)
Definition decimal_de_str (s : string) : option Z :=
  option_map Z.of_int (NilZero.int_of_string s).

(** Split at the first ['/'] (how the ["MM/YYYY"] tokens are read back). *)
Fixpoint separa_barra (s : string) : option (string * string) :=
  match s with
  | EmptyString => None
  | String c r =>
      if Ascii.eqb c "/" then Some (EmptyString, r)
      else option_map (fun '(a, b) => (String c a, b)) (separa_barra r)
  end.

Fixpoint sem_barra (s : string) : bool :=
  match s with
  | EmptyString => true
  | String c r => negb (Ascii.eqb c "/") && sem_barra r
  end.

(** ** Lemmas *)

Lemma dias_no_mes_le_31 y m : dias_no_mes y m <= 31.
Proof. unfold dias_no_mes. repeat case_match; lia. Qed.

Lemma data_valida_limites d :
  data_valida d = true ->
  1 <= ano d <= 9999 /\ 1 <= mes d <= 12 /\ 1 <= dia d <= dias_no_mes (ano d) (mes d).
Proof. unfold data_valida. intros H. repeat (apply andb_prop in H as [H ?]). lia. Qed.

Lemma mk_data_Ok y m d r : mk_data y m d = Ok r -> r = mkData y m d /\ data_valida r = true.
Proof. unfold mk_data. case_match; intros [=<-]; done. Qed.

(** The first candidate of [%d] on a printed day. *)
Lemma grupo_d_pad02 dd r :
  1 <= dd <= 31 ->
  exists l, grupo_d (pad02 dd ++ String "/" r) = (dd, String "/" r) :: l.
Proof. intros H. enumerar dd 1 31%nat; eexists; vm_compute; reflexivity. Qed.

Lemma grupo_m_pad02 m r :
  1 <= m <= 12 ->
  exists l, grupo_m (pad02 m ++ String "/" r) = (m, String "/" r) :: l.
Proof. intros H. enumerar m 1 12%nat; eexists; vm_compute; reflexivity. Qed.

(** A four-digit year prints as exactly the four digits [%Y] reads. *)
Definition ano_legivel (y : Z) : bool :=
  match grupo_Y (str_int y) with
  | [(v, EmptyString)] => Z.eqb v y
  | _ => false
  end.

Lemma grupo_Y_str_int y :
  1000 <= y <= 9999 -> grupo_Y (str_int y) = [(y, EmptyString)].
Proof.
  intros Hy.
  assert (Hc : Z_range_forallb ano_legivel 1000 (Z.to_nat 9000) = true)
    by (vm_compute; reflexivity).
  pose proof (Z_range_forallb_Z _ _ _ y Hc ltac:(lia)) as H.
  unfold ano_legivel in H.
  destruct (grupo_Y (str_int y)) as [|[v r] l]; [discriminate|].
  destruct r; [|discriminate]. destruct l; [|discriminate].
  apply Z.eqb_eq in H. by subst.
Qed.

(** [str_int] has a left inverse. *)
Lemma Z_to_int_nonnil z : Z.to_int z <> Decimal.Pos Decimal.Nil /\ Z.to_int z <> Decimal.Neg Decimal.Nil.
Proof.
  destruct z as [|p|p]; simpl; split; try discriminate;
    intros [=H]; by apply (DecimalPos.Unsigned.to_uint_nonnil p).
Qed.

Lemma decimal_de_str_int z : decimal_de_str (str_int z) = Some z.
Proof.
  unfold decimal_de_str, str_int. destruct (Z_to_int_nonnil z) as [H1 H2].
  rewrite NilZero.isi by done. simpl. by rewrite DecimalZ.of_to.
Qed.

Lemma str_int_inj z1 z2 : str_int z1 = str_int z2 -> z1 = z2.
Proof.
  intros H. apply (f_equal decimal_de_str) in H.
  rewrite !decimal_de_str_int in H. congruence.
Qed.

(** A leading zero before a single character does not change the value. *)
Lemma decimal_de_str_zero_um c :
  decimal_de_str (String "0" (String c EmptyString)) = decimal_de_str (String c EmptyString).
Proof. destruct c as [[] [] [] [] [] [] [] []]; vm_compute; reflexivity. Qed.

Lemma decimal_de_pad02 z : decimal_de_str (pad02 z) = Some z.
Proof.
  unfold pad02. destruct (Nat.ltb_spec (String.length (str_int z)) 2) as [Hl|Hl];
    [|apply decimal_de_str_int].
  pose proof (decimal_de_str_int z) as Hz.
  destruct (str_int z) as [|c [|c' r]] eqn:E; simpl in Hl; try lia.
  - discriminate Hz.
  - change ("0" ++ String c EmptyString) with (String "0" (String c EmptyString)).
    by rewrite decimal_de_str_zero_um.
Qed.

Lemma pad02_inj z1 z2 : pad02 z1 = pad02 z2 -> z1 = z2.
Proof.
  intros H. apply (f_equal decimal_de_str) in H.
  rewrite !decimal_de_pad02 in H. congruence.
Qed.

Lemma sem_barra_uint d : sem_barra (NilEmpty.string_of_uint d) = true.
Proof. induction d; simpl; try rewrite IHd; reflexivity. Qed.

Lemma sem_barra_str_int z : sem_barra (str_int z) = true.
Proof.
  unfold str_int, NilZero.string_of_int, NilZero.string_of_uint.
  destruct (Z.to_int z) as [u|u]; destruct u; simpl; try reflexivity;
    apply sem_barra_uint.
Qed.

Lemma sem_barra_pad02 z : sem_barra (pad02 z) = true.
Proof. unfold pad02. case_match; simpl; rewrite sem_barra_str_int; reflexivity. Qed.

Lemma separa_barra_app s1 s2 :
  sem_barra s1 = true -> separa_barra (s1 ++ String "/" s2) = Some (s1, s2).
Proof.
  induction s1 as [|c s1 IH]; simpl; intros H; [reflexivity|].
  apply andb_prop in H as [Hc H]. apply negb_true_iff in Hc.
  rewrite Hc, IH by done. reflexivity.
Qed.

#[export] Hint Resolve sem_barra_str_int sem_barra_pad02 : gastos.

(** A successful [strptime] is a valid date. *)
Lemma strptime_dmY_valida s d : strptime_dmY s = Ok d -> data_valida d = true.
Proof.
  unfold strptime_dmY.
  destruct (casamentos_dmY s) as [|[[[dd m] y] r] l]; [discriminate|].
  destruct r; [|discriminate]. intros H. by apply mk_data_Ok in H as [-> ?].
Qed.

(** [strptime] reads back what [strftime] prints, for every valid date with a
    four-digit year. *)
Lemma strptime_strftime d :
  data_valida d = true -> 1000 <= ano d ->
  strptime_dmY (strftime_dmY d) = Ok d.
Proof.
  intros Hv Hy. destruct (data_valida_limites d Hv) as (Ha & Hm & Hd).
  pose proof (dias_no_mes_le_31 (ano d) (mes d)).
  destruct (grupo_d_pad02 (dia d) (pad02 (mes d) ++ String "/" (str_int (ano d))))
    as [ld Hgd]; [lia|].
  destruct (grupo_m_pad02 (mes d) (str_int (ano d)) Hm) as [lm Hgm].
  unfold strptime_dmY, casamentos_dmY, strftime_dmY. cbn [String.append].
  rewrite Hgd. cbn [flat_map barra app]. rewrite Hgm. cbn [flat_map barra app].
  rewrite grupo_Y_str_int by lia. cbn [map app].
  unfold mk_data. destruct d; simpl in *. by rewrite Hv.
Qed.

Lemma data_valida_iff d :
  data_valida d = true <->
  1 <= ano d <= 9999 /\ 1 <= mes d <= 12 /\ 1 <= dia d <= dias_no_mes (ano d) (mes d).
Proof.
  split; [apply data_valida_limites|].
  intros (Ha & Hm & Hd). unfold data_valida.
  repeat (apply andb_true_intro; split); apply Z.leb_le; lia.
Qed.

Lemma dias_no_mes_bounds y m : 1 <= m <= 12 -> 28 <= dias_no_mes y m <= 31.
Proof. intros Hm. enumerar m 1 12%nat; simpl; try lia; destruct (eh_bissexto y); lia. Qed.

Lemma monthrange_dias_Ok y m : 1 <= m <= 12 -> monthrange_dias y m = Ok (dias_no_mes y m).
Proof. intros Hm. unfold monthrange_dias. by rewrite (proj2 (Z.leb_le 1 m)), (proj2 (Z.leb_le m 12)) by lia. Qed.

Lemma mk_data_valida y m d :
  data_valida (mkData y m d) = true -> mk_data y m d = Ok (mkData y m d).
Proof. unfold mk_data. simpl. by intros ->. Qed.

Lemma mk_data_dia1 ano mes :
  1 <= ano <= 9999 -> 1 <= mes <= 12 -> mk_data ano mes 1 = Ok (mkData ano mes 1).
Proof.
  intros Ha Hm. apply mk_data_valida, data_valida_iff. simpl.
  pose proof (dias_no_mes_bounds ano mes Hm). lia.
Qed.

(** Midnight of a date is not after an instant exactly when the date is
    lexicographically not after the instant's date. *)
Lemma instante_leb_meia_noite a t :
  0 <= inst_micro t ->
  instante_leb (meia_noite a) t = true <->
  ano a < ano (inst_data t) \/ (ano a = ano (inst_data t) /\
  (mes a < mes (inst_data t) \/ (mes a = mes (inst_data t) /\ dia a <= dia (inst_data t)))).
Proof.
  destruct t as [dt tt]. simpl. intros Ht. unfold instante_leb, meia_noite.
  destruct (Z.ltb_spec (ano a) (ano dt)), (Z.eqb_spec (ano a) (ano dt)),
    (Z.ltb_spec (mes a) (mes dt)), (Z.eqb_spec (mes a) (mes dt)),
    (Z.ltb_spec (dia a) (dia dt)), (Z.eqb_spec (dia a) (dia dt)), (Z.leb_spec 0 tt);
    simpl; split; intros; first [reflexivity | discriminate | lia | exfalso; lia].
Qed.


(** Every failure of [strptime] is a [ValueError]. *)
Lemma strptime_dmY_Err s e : strptime_dmY s = Err e -> e = ValueError.
Proof.
  unfold strptime_dmY, mk_data.
  destruct (casamentos_dmY s) as [|[[[dd m] y] r] l]; [by intros [=]|].
  destruct r; [|by intros [=]]. case_match; by intros [=].
Qed.
