(* ===== verification/PyNum.v ===== *)
(** * PyNum: Python's [int(s)] on the strings the views read

    The views read integers from strings: the month and year filters
    ([int(self.filtro_mes_var.get())]), the installment count of the bill
    form, and the ids stored as Treeview tags ([int(tags[0])]).  CPython's
    [int(s)] (base 10) strips surrounding whitespace, accepts one optional
    sign, then decimal digits where a single underscore may separate two
    digits, and raises [ValueError] on anything else, the empty string
    included.  Strings are ASCII here; the whitespace set is the ASCII part
    of [str.isspace] (tab to carriage return, the four separators
    [\x1c]-[\x1f], and space).

    Theorems: [int(str(z)) == z] for every integer ([py_int_str_int]),
    and [int('')] raises ([py_int_vazio]). *)

From Stdlib Require Import ZArith String Ascii Lia DecimalString DecimalZ.
From stdpp Require Import base list.
From S2P Require Import Prelude PyDate.

Local Open Scope Z_scope.

(** ** Whitespace *)

Definition eh_espaco (c : ascii) : bool :=
  let n := nat_of_ascii c in
  ((9 <=? n) && (n <=? 13))%nat || ((28 <=? n) && (n <=? 32))%nat.

Fixpoint tirar_espacos_inicio (l : list ascii) : list ascii :=
  match l with
  | c :: r => if eh_espaco c then tirar_espacos_inicio r else l
  | [] => []
  end.

(** [s.strip()] on the characters. *)
Definition tirar_espacos (l : list ascii) : list ascii :=
  rev (tirar_espacos_inicio (rev (tirar_espacos_inicio l))).

(** ** Digits *)

(** A decimal digit as the constructor that prepends it to a [uint]. *)
Definition digito_uint (c : ascii) : option (Decimal.uint -> Decimal.uint) :=
  match nat_of_ascii c with
  | 48 => Some Decimal.D0 | 49 => Some Decimal.D1 | 50 => Some Decimal.D2
  | 51 => Some Decimal.D3 | 52 => Some Decimal.D4 | 53 => Some Decimal.D5
  | 54 => Some Decimal.D6 | 55 => Some Decimal.D7 | 56 => Some Decimal.D8
  | 57 => Some Decimal.D9
  | _ => None
  end%nat.

(** Digits with single underscores between them; [anterior] says the
    previous character was a digit. *)
Fixpoint digitos_py (l : list ascii) (anterior : bool) : option Decimal.uint :=
  match l with
  | [] => if anterior then Some Decimal.Nil else None
  | c :: r =>
      match digito_uint c with
      | Some k => option_map k (digitos_py r true)
      | None => if Ascii.eqb c "_" && anterior then digitos_py r false else None
      end
  end.

(** [digitpart] of the grammar as an integer. *)
Definition digitos_z (l : list ascii) : option Z := option_map Z.of_uint (digitos_py l false).

(** [[sign] digitpart]: the body [int] reads after [strip], and the
    exponent of a [float] literal. *)
Definition inteiro_com_sinal (l : list ascii) : option Z :=
  match l with
  | c :: r =>
      if Ascii.eqb c "-" then option_map Z.opp (digitos_z r)
      else if Ascii.eqb c "+" then digitos_z r
      else digitos_z l
  | [] => None
  end.

(** [int(s)]. *)
Definition py_int (s : string) : res Z :=
  match inteiro_com_sinal (tirar_espacos (list_ascii_of_string s)) with
  | Some z => Ok z
  | None => Err ValueError
  end.

(** [str.lower] on ASCII. *)
Definition minuscula (c : ascii) : ascii :=
  let n := nat_of_ascii c in
  if ((65 <=? n) && (n <=? 90))%nat then ascii_of_nat (n + 32) else c.

Fixpoint minusculas (s : string) : string :=
  match s with
  | EmptyString => EmptyString
  | String c r => String (minuscula c) (minusculas r)
  end.

(** ** Reading back what [str] prints *)

Lemma tirar_espacos_inicio_id l :
  Forall (fun c => eh_espaco c = false) l -> tirar_espacos_inicio l = l.
Proof. destruct l as [|c l]; [done|]. intros [Hc _]%Forall_cons. simpl. by rewrite Hc. Qed.

Lemma tirar_espacos_id l : Forall (fun c => eh_espaco c = false) l -> tirar_espacos l = l.
Proof.
  intros H. unfold tirar_espacos. rewrite (tirar_espacos_inicio_id l H).
  rewrite (tirar_espacos_inicio_id (rev l)) by (by apply Forall_rev). apply rev_involutive.
Qed.

Lemma uint_sem_espaco d :
  Forall (fun c => eh_espaco c = false) (list_ascii_of_string (NilEmpty.string_of_uint d)).
Proof. induction d; simpl; by constructor. Qed.

Lemma digitos_py_uint d b :
  d <> Decimal.Nil -> digitos_py (list_ascii_of_string (NilEmpty.string_of_uint d)) b = Some d.
Proof.
  revert b. induction d; intros b Hd; [congruence|..].
  all: cbn; destruct d; [reflexivity | rewrite IHd by discriminate; reflexivity ..].
Qed.

Lemma inteiro_com_sinal_uint d :
  d <> Decimal.Nil ->
  inteiro_com_sinal (list_ascii_of_string (NilEmpty.string_of_uint d)) = Some (Z.of_uint d).
Proof.
  intros Hd. pose proof (digitos_py_uint d false Hd) as Hl.
  assert (Hc : exists c r, list_ascii_of_string (NilEmpty.string_of_uint d) = c :: r /\
    Ascii.eqb c "-" = false /\ Ascii.eqb c "+" = false).
  { destruct d; [congruence|..]. all: eexists _, _; split; [reflexivity | split; reflexivity]. }
  destruct Hc as (c & r & Hcr & Hm & Hp). rewrite Hcr in Hl |- *.
  cbn [inteiro_com_sinal]. rewrite Hm, Hp. unfold digitos_z. by rewrite Hl.
Qed.

Lemma py_int_uint d :
  d <> Decimal.Nil -> py_int (NilEmpty.string_of_uint d) = Ok (Z.of_uint d).
Proof.
  intros Hd. unfold py_int. rewrite tirar_espacos_id by apply uint_sem_espaco.
  by rewrite inteiro_com_sinal_uint.
Qed.

Lemma py_int_vazio : py_int EmptyString = Err ValueError.
Proof. reflexivity. Qed.

Lemma nilzero_uint d : d <> Decimal.Nil -> NilZero.string_of_uint d = NilEmpty.string_of_uint d.
Proof. destruct d; [congruence|..]; reflexivity. Qed.

(** [int(str(z)) == z]: the ids the views print into Treeview tags read
    back as themselves. *)
Theorem py_int_str_int z : py_int (str_int z) = Ok z.
Proof.
  unfold str_int. destruct (Z_to_int_nonnil z) as [Hp Hn].
  rewrite <- (DecimalZ.of_to z) at 2.
  destruct (Z.to_int z) as [d|d]; simpl; (assert (Hd : d <> Decimal.Nil) by congruence);
    rewrite nilzero_uint by done; [by apply py_int_uint|].
  unfold py_int. rewrite tirar_espacos_id by (constructor; [reflexivity | apply uint_sem_espaco]).
  simpl. unfold digitos_z. by rewrite digitos_py_uint.
Qed.
