(* ===== verification/PyFloat.v ===== *)
(** * PyFloat: Python's [float(s)] and binary64 rounding

    The three add/edit forms read the amount with [float(valor)] (the bill
    form) or [float(valor.replace(',', '.'))] (the expense and income
    forms), and the bill form reads the total with interest the same way.
    CPython's [float(s)] strips whitespace and accepts

      [[sign] (digitpart "." [digitpart] | [digitpart] "." digitpart |
       digitpart) [("e" | "E") [sign] digitpart]]

    or, in any case, [inf], [infinity] or [nan] after the optional sign;
    the decimal value is then rounded correctly to the nearest binary64
    number, ties to even, overflowing to an infinity.  Anything else
    raises [ValueError].

    - [PyFloat] is a Python float: a finite value (the exact rational the
      binary64 number denotes), a signed infinity, or [nan].  The sign of a
      zero is not kept: no comparison the program makes can tell [-0.0]
      from [0.0].
    - [arredondar] is the binary64 rounding of a rational: exponent
      [floor(log2 |q|)], quantum [2^max(E-52, -1074)] (the last one is the
      quantum of the subnormals), round to nearest, ties to even, overflow
      when the result reaches [2^1024].
    - [py_float] is [float(s)]; [py_le] is Python's [<=] on floats (every
      comparison with [nan] is false).

    Theorems: the rounding is within half a quantum of its input
    ([arredondar_erro]), so within a relative [2^-53] or an absolute
    [2^-1075] ([arredondar_correto]); every finite result is a binary64
    number [m * 2^e], [|m| < 2^53], [-1074 <= e <= 971]
    ([arredondar_binario64]), a significand rounded up to [2^53] moving
    to the next binade. *)

From Stdlib Require Import ZArith QArith Qpower Qabs Qfield String Ascii Lia.
From stdpp Require Import base list.
From S2P Require Import Prelude PyDate PyNum.

Local Open Scope Z_scope.

(** ** Python floats *)

Inductive PyFloat : Type :=
| Finito (q : Q)
| Infinito (negativo : bool)
| NaN.

(** Unary minus. *)
Definition negar (x : PyFloat) : PyFloat :=
  match x with
  | Finito q => Finito (- q)
  | Infinito b => Infinito (negb b)
  | NaN => NaN
  end.

(** [x <= y] on two floats: [False] as soon as one is [nan]. *)
Definition py_le (x y : PyFloat) : bool :=
  match x, y with
  | NaN, _ | _, NaN => false
  | Infinito true, _ => true
  | _, Infinito false => true
  | Infinito false, _ => false
  | _, Infinito true => false
  | Finito a, Finito b => Qle_bool a b
  end.

(** ** Rounding to binary64 *)

Definition precisao : Z := 53.
Definition expoente_min : Z := -1074.
Definition expoente_max : Z := 1024.

(** [n / d * 2^k] as a fraction of two integers. *)
Definition escalar (n d k : Z) : Z * Z :=
  if 0 <=? k then (n * 2 ^ k, d) else (n, d * 2 ^ (- k)).

(** [x / y] rounded to the nearest integer, ties to even ([y > 0]). *)
Definition arredondar_par (x y : Z) : Z :=
  let q := x / y in
  match Z.compare (2 * (x mod y)) y with
  | Lt => q
  | Gt => q + 1
  | Eq => if Z.even q then q else q + 1
  end.

(** [floor(log2 (n / d))] for [n, d > 0]. *)
Definition expoente (n d : Z) : Z :=
  let e0 := Z.log2 n - Z.log2 d in
  let '(x, y) := escalar n d (- e0) in
  if y <=? x then e0 else e0 - 1.

(** The quantum exponent of a positive [n / d]: the unit of its last
    significant bit. *)
Definition quantum (n d : Z) : Z := Z.max (expoente n d - (precisao - 1)) expoente_min.

(** [m * 2^e] as a rational. *)
Definition diadico (m e : Z) : Q :=
  if 0 <=? e then inject_Z (m * 2 ^ e) else Qmake m (Z.to_pos (2 ^ (- e))).

(** The positive [n / d] rounded: the significand [m] at the quantum
    [e], or [None] on overflow. *)
Definition arredondar_pos (n d : Z) : option Z :=
  let e := quantum n d in
  let '(x, y) := escalar n d (- e) in
  let m := arredondar_par x y in
  if 2 ^ (expoente_max - e) <=? m then None else Some m.

(** The binary64 number nearest to [q]. *)
Definition arredondar (q : Q) : PyFloat :=
  let n := Qnum q in
  let d := Zpos (Qden q) in
  if n =? 0 then Finito 0 else
  let f := if n <? 0 then negar else id in
  match arredondar_pos (Z.abs n) d with
  | Some m => f (Finito (diadico m (quantum (Z.abs n) d)))
  | None => f (Infinito false)
  end.

(** ** Parsing *)

(** The text before the first character [p] accepts, and the text after
    it when there is one. *)
Fixpoint partir (p : ascii -> bool) (l : list ascii) : list ascii * option (list ascii) :=
  match l with
  | [] => ([], None)
  | c :: r => if p c then ([], Some r) else let '(a, b) := partir p r in (c :: a, b)
  end.

Definition n_digitos (l : list ascii) : Z :=
  Z.of_nat (length (filter (fun c => negb (Ascii.eqb c "_")) l)).

(** An optional [digitpart]: its value and its number of digits. *)
Definition parte_opcional (l : list ascii) : option (Z * Z) :=
  match l with
  | [] => Some (0, 0)
  | _ => option_map (fun v => (v, n_digitos l)) (digitos_z l)
  end.

(** The [number] of the grammar as [m / 10^f]. *)
Definition mantissa (l : list ascii) : option (Z * Z) :=
  match partir (fun c => Ascii.eqb c ".") l with
  | (i, None) => option_map (fun v => (v, 0)) (digitos_z i)
  | (i, Some f) =>
      match i, f with
      | [], [] => None
      | _, _ =>
          match parte_opcional i, parte_opcional f with
          | Some (vi, _), Some (vf, nf) => Some (vi * 10 ^ nf + vf, nf)
          | _, _ => None
          end
      end
  end.

(** [m * 10^k] as a rational. *)
Definition decimal (m k : Z) : Q :=
  if 0 <=? k then inject_Z (m * 10 ^ k) else Qmake m (Z.to_pos (10 ^ (- k))).

Definition eh_expoente (c : ascii) : bool := Ascii.eqb c "e" || Ascii.eqb c "E".

(** [absfloatvalue]: what follows the sign. *)
Definition valor_absoluto (l : list ascii) : option PyFloat :=
  let t := minusculas (string_of_list_ascii l) in
  if String.eqb t "inf" || String.eqb t "infinity" then Some (Infinito false)
  else if String.eqb t "nan" then Some NaN
  else
    match partir eh_expoente l with
    | (m, None) =>
        match mantissa m with
        | Some (v, f) => Some (arredondar (decimal v (- f)))
        | None => None
        end
    | (m, Some e) =>
        match mantissa m, inteiro_com_sinal e with
        | Some (v, f), Some x => Some (arredondar (decimal v (x - f)))
        | _, _ => None
        end
    end.

(** [float(s)]. *)
Definition py_float (s : string) : res PyFloat :=
  let l := tirar_espacos (list_ascii_of_string s) in
  let r :=
    match l with
    | c :: r =>
        if Ascii.eqb c "-" then option_map negar (valor_absoluto r)
        else if Ascii.eqb c "+" then valor_absoluto r
        else valor_absoluto l
    | [] => None
    end in
  match r with Some x => Ok x | None => Err ValueError end.

(** [s.replace(old, new)] for single characters. *)
Definition trocar (velho novo : ascii) (s : string) : string :=
  string_of_list_ascii (map (fun c => if Ascii.eqb c velho then novo else c) (list_ascii_of_string s)).

(** ** The rounding *)

Lemma inject_Z_nao_zero y : y <> 0 -> ~ inject_Z y == 0.
Proof. intros Hy H. apply Hy. unfold Qeq in H. simpl in H. lia. Qed.

Lemma diadico_pot m e : diadico m e == inject_Z m * (2 # 1) ^ e.
Proof.
  unfold diadico. destruct (0 <=? e) eqn:He.
  - apply Z.leb_le in He. by rewrite inject_Z_mult, Zpower_Qpower.
  - apply Z.leb_gt in He. assert (Hp : 0 < 2 ^ (- e)) by (apply Z.pow_pos_nonneg; lia).
    rewrite Qmake_Qdiv, Z2Pos.id by lia.
    replace e with (- (- e)) at 2 by lia. rewrite Qpower_opp, Zpower_Qpower by lia.
    reflexivity.
Qed.

Lemma escalar_spec n d k x y :
  0 < d -> escalar n d k = (x, y) ->
  0 < y /\ inject_Z x / inject_Z y == inject_Z n / inject_Z d * (2 # 1) ^ k.
Proof.
  intros Hd. unfold escalar. destruct (0 <=? k) eqn:Hk; intros [= <- <-].
  - apply Z.leb_le in Hk. split; [done|].
    rewrite inject_Z_mult, Zpower_Qpower by lia. change (inject_Z 2) with (2 # 1).
    field. by apply inject_Z_nao_zero; lia.
  - apply Z.leb_gt in Hk. assert (Hp : 0 < 2 ^ (- k)) by (apply Z.pow_pos_nonneg; lia).
    split; [lia|]. rewrite inject_Z_mult, Zpower_Qpower by lia.
    assert (H : (2 # 1) ^ k == / (2 # 1) ^ (- k)) by (rewrite <- Qpower_opp, Z.opp_involutive; done).
    rewrite H. change (inject_Z 2) with (2 # 1).
    field. split; [apply Qpower_not_0; discriminate | apply inject_Z_nao_zero; lia].
Qed.

Lemma arredondar_par_erro x y : 0 < y -> Z.abs (2 * (arredondar_par x y * y - x)) <= y.
Proof.
  intros Hy. unfold arredondar_par.
  pose proof (Z.div_mod x y ltac:(lia)). pose proof (Z.mod_pos_bound x y Hy).
  set (q := x / y) in *. set (r := x mod y) in *.
  destruct (Z.compare_spec (2 * r) y); [destruct (Z.even q)|..]; nia.
Qed.

(** [|m - x / y| <= 1/2] for the rounded [m]. *)
Lemma arredondar_par_Q x y :
  0 < y -> (Qabs (inject_Z (arredondar_par x y) - inject_Z x / inject_Z y) <= 1 # 2)%Q.
Proof.
  intros Hy. pose proof (arredondar_par_erro x y Hy) as He.
  assert (Hq : (inject_Z (arredondar_par x y) - inject_Z x / inject_Z y ==
               (arredondar_par x y * y - x) # Z.to_pos y)%Q).
  { rewrite Qmake_Qdiv, Z2Pos.id by lia. rewrite <- Z.add_opp_r, inject_Z_plus, inject_Z_opp, inject_Z_mult.
    field.
    by apply inject_Z_nao_zero; lia. }
  rewrite Hq, <- Zabs_Qabs. unfold Qle. simpl. rewrite Z2Pos.id by lia. lia.
Qed.

(** Rounding is monotone with respect to an integer bound. *)
Lemma arredondar_par_acima x y c : 0 < y -> x < c * y -> arredondar_par x y <= c.
Proof. intros Hy Hx. pose proof (arredondar_par_erro x y Hy) as Hr. apply Z.abs_le in Hr. nia. Qed.

Lemma arredondar_par_abaixo x y c : 0 < y -> c * y <= x -> c <= arredondar_par x y.
Proof. intros Hy Hx. pose proof (arredondar_par_erro x y Hy) as Hr. apply Z.abs_le in Hr. nia. Qed.

(** Undoing [escalar]: [n / d = x / y * 2^e]. *)
Lemma escalar_inv n d e x y :
  0 < d -> escalar n d (- e) = (x, y) ->
  (inject_Z n / inject_Z d == inject_Z x / inject_Z y * (2 # 1) ^ e)%Q.
Proof.
  intros Hd Hs. destruct (escalar_spec _ _ _ _ _ Hd Hs) as [_ Hxy].
  rewrite Hxy, <- Qmult_assoc, <- Qpower_plus by discriminate.
  rewrite Z.add_opp_diag_l. simpl. ring.
Qed.

Lemma arredondar_pos_erro n d m :
  0 < d -> arredondar_pos n d = Some m ->
  (Qabs (diadico m (quantum n d) - inject_Z n / inject_Z d) <= (2 # 1) ^ (quantum n d - 1))%Q.
Proof.
  intros Hd. unfold arredondar_pos.
  destruct (escalar n d (- quantum n d)) as [x y] eqn:Hs.
  destruct (escalar_spec _ _ _ _ _ Hd Hs) as [Hy _].
  pose proof (escalar_inv _ _ _ _ _ Hd Hs) as Hk.
  destruct (_ <=? _); intros [= <-]. set (e := quantum n d) in *.
  rewrite diadico_pot, Hk.
  setoid_replace (inject_Z (arredondar_par x y) * (2 # 1) ^ e - inject_Z x / inject_Z y * (2 # 1) ^ e)%Q
    with ((inject_Z (arredondar_par x y) - inject_Z x / inject_Z y) * (2 # 1) ^ e)%Q
    using relation Qeq by ring.
  rewrite Qabs_Qmult, Qpower_minus by discriminate.
  rewrite (Qabs_pos ((2 # 1) ^ e)%Q) by (apply Qpower_0_le; discriminate).
  replace ((2 # 1) ^ 1)%Q with (2 # 1)%Q by reflexivity.
  setoid_replace ((2 # 1) ^ e / (2 # 1))%Q with ((1 # 2) * (2 # 1) ^ e)%Q
    using relation Qeq by (field; done).
  apply Qmult_le_compat_r; [by apply arredondar_par_Q | apply Qpower_0_le; discriminate].
Qed.

(** [|q|] as the fraction [arredondar] works on. *)
Lemma Qabs_fracao n dp : (Qabs (n # dp) == inject_Z (Z.abs n) / inject_Z (Zpos dp))%Q.
Proof. by rewrite <- Zabs_Qabs, Qmake_Qdiv. Qed.

(** The rounding is within half a quantum of its input. *)
Lemma arredondar_erro q v :
  arredondar q = Finito v ->
  (Qabs (v - q) <= (2 # 1) ^ (quantum (Z.abs (Qnum q)) (Zpos (Qden q)) - 1))%Q.
Proof.
  destruct q as [n dp]. unfold arredondar. cbn [Qnum Qden].
  assert (Hp : (0 <= (2 # 1) ^ (quantum (Z.abs n) (Zpos dp) - 1))%Q) by (apply Qpower_0_le; discriminate).
  destruct (n =? 0) eqn:H0.
  { intros [= <-]. apply Z.eqb_eq in H0. subst n. eapply Qle_trans; [|exact Hp].
    unfold Qle. simpl. lia. }
  destruct (arredondar_pos (Z.abs n) (Zpos dp)) as [m|] eqn:Hm; [|by destruct (n <? 0)].
  pose proof (arredondar_pos_erro _ _ _ (Pos2Z.is_pos dp) Hm) as He.
  destruct (n <? 0) eqn:Hn; cbv beta iota delta [negar id]; intros [= <-].
  - apply Z.ltb_lt in Hn.
    setoid_replace (- diadico m (quantum (Z.abs n) (Zpos dp)) - (n # dp))%Q
      with (- (diadico m (quantum (Z.abs n) (Zpos dp)) - inject_Z (Z.abs n) / inject_Z (Zpos dp)))%Q
      using relation Qeq.
    + by rewrite Qabs_opp.
    + rewrite Qmake_Qdiv. replace (Z.abs n) with (- n) by lia. rewrite inject_Z_opp. field.
      by apply inject_Z_nao_zero.
  - apply Z.ltb_ge in Hn. apply Z.eqb_neq in H0. rewrite Qmake_Qdiv.
    by replace n with (Z.abs n) at 2 by lia.
Qed.

(** The first guess [log2 n - log2 d] of the exponent is off by at most
    one: the scaled fraction lies in [[1/2, 2)]. *)
Lemma log2_razao n d x y :
  0 < n -> 0 < d -> escalar n d (- (Z.log2 n - Z.log2 d)) = (x, y) -> y <= 2 * x /\ x < 2 * y.
Proof.
  intros Hn Hd. pose proof (Z.log2_spec n Hn) as [Hn1 Hn2]. pose proof (Z.log2_spec d Hd) as [Hd1 Hd2].
  pose proof (Z.log2_nonneg n). pose proof (Z.log2_nonneg d).
  rewrite Z.pow_succ_r in Hn2, Hd2 by lia.
  unfold escalar. destruct (0 <=? _) eqn:Hk; intros [= <- <-].
  - apply Z.leb_le in Hk. set (k := - (Z.log2 n - Z.log2 d)) in *.
    assert (Hp : 2 ^ Z.log2 d = 2 ^ k * 2 ^ Z.log2 n) by (rewrite <- Z.pow_add_r by lia; f_equal; lia).
    pose proof (Z.pow_pos_nonneg 2 k ltac:(lia) Hk). nia.
  - apply Z.leb_gt in Hk. set (j := - - (Z.log2 n - Z.log2 d)) in *.
    assert (Hp : 2 ^ Z.log2 n = 2 ^ j * 2 ^ Z.log2 d) by (rewrite <- Z.pow_add_r by lia; f_equal; lia).
    pose proof (Z.pow_pos_nonneg 2 j ltac:(lia) ltac:(lia)). nia.
Qed.

(** [expoente n d] is [floor(log2 (n / d))]. *)
Lemma expoente_spec n d :
  0 < n -> 0 < d ->
  ((2 # 1) ^ expoente n d <= inject_Z n / inject_Z d < (2 # 1) ^ (expoente n d + 1))%Q.
Proof.
  intros Hn Hd. unfold expoente. set (e0 := Z.log2 n - Z.log2 d).
  destruct (escalar n d (- e0)) as [x y] eqn:Hs.
  destruct (escalar_spec _ _ _ _ _ Hd Hs) as [Hy _].
  destruct (log2_razao n d x y Hn Hd Hs) as [H1 H2].
  rewrite (escalar_inv _ _ _ _ _ Hd Hs).
  assert (P : (0 < (2 # 1) ^ e0)%Q) by (apply Qpower_0_lt; reflexivity).
  assert (Hy' : (0 < inject_Z y)%Q) by (unfold Qlt; simpl; lia).
  assert (Hlt : forall a b c, (0 < c)%Q -> (a < b <-> a * c < b * c)%Q)
    by (intros; symmetry; by apply Qmult_lt_r).
  assert (Hle : forall a b c, (0 < c)%Q -> (a <= b <-> a * c <= b * c)%Q)
    by (intros; symmetry; by apply Qmult_le_r).
  destruct (y <=? x) eqn:Hb; [apply Z.leb_le in Hb | apply Z.leb_gt in Hb].
  - rewrite Qpower_plus by discriminate. split.
    + rewrite <- (Qmult_1_l ((2 # 1) ^ e0)) at 1. apply Hle; [done|].
      apply Qle_shift_div_l; [done|]. rewrite Qmult_1_l. by rewrite <- Zle_Qle.
    + rewrite (Qmult_comm ((2 # 1) ^ e0)). apply Hlt; [done|].
      apply Qlt_shift_div_r; [done|]. change (2 ^ 1)%Q with (inject_Z 2).
      rewrite <- inject_Z_mult, <- Zlt_Qlt. lia.
  - replace (e0 - 1 + 1) with e0 by lia. split.
    + set (p := ((2 # 1) ^ (e0 - 1))%Q).
      assert (Hp : ((2 # 1) ^ e0 == p * (2 # 1))%Q).
      { unfold p. replace e0 with (e0 - 1 + 1) at 1 by lia. by rewrite Qpower_plus by discriminate. }
      rewrite Hp.
      setoid_replace (inject_Z x / inject_Z y * (p * (2 # 1)))%Q
        with (inject_Z (2 * x) / inject_Z y * p)%Q using relation Qeq
        by (rewrite inject_Z_mult; field; apply inject_Z_nao_zero; lia).
      rewrite <- (Qmult_1_l p) at 1. apply Hle; [apply Qpower_0_lt; reflexivity|].
      apply Qle_shift_div_l; [done|]. rewrite Qmult_1_l, <- Zle_Qle. lia.
    + rewrite <- (Qmult_1_l ((2 # 1) ^ e0)) at 2. apply Hlt; [done|].
      apply Qlt_shift_div_r; [done|]. rewrite Qmult_1_l. by rewrite <- Zlt_Qlt.
Qed.

(** [float()] rounds correctly: the binary64 result differs from the
    decimal value by at most [2^-53] of it, or by at most [2^-1075] (half
    the smallest subnormal) in the subnormal range. *)
Theorem arredondar_correto q v :
  arredondar q = Finito v ->
  (Qabs (v - q) <= (2 # 1) ^ (-53) * Qabs q \/ Qabs (v - q) <= (2 # 1) ^ (-1075))%Q.
Proof.
  intros H. pose proof (arredondar_erro _ _ H) as He. destruct q as [n dp]. cbn [Qnum Qden] in He.
  destruct (Z.eq_dec n 0) as [->|Hn].
  { left. unfold arredondar in H. injection H as <-. apply Qle_trans with 0%Q.
    - unfold Qle. simpl. lia.
    - apply Qmult_le_0_compat; [apply Qpower_0_le; discriminate | apply Qabs_nonneg]. }
  unfold quantum in He.
  destruct (Z.max_spec (expoente (Z.abs n) (Zpos dp) - (precisao - 1)) expoente_min) as [[_ Hq]|[_ Hq]];
    rewrite Hq in He; [right; exact He | left].
  eapply Qle_trans; [exact He|].
  replace (expoente (Z.abs n) (Zpos dp) - (precisao - 1) - 1) with (-53 + expoente (Z.abs n) (Zpos dp))
    by (unfold precisao; lia).
  rewrite Qpower_plus by discriminate. apply Qmult_le_l; [apply Qpower_0_lt; reflexivity|].
  rewrite Qabs_fracao. apply expoente_spec; lia.
Qed.

(** [x / y < c] and [c <= x / y] as integer inequalities. *)
Lemma fracao_lt x y c : 0 < y -> (inject_Z x / inject_Z y < inject_Z c)%Q <-> x < c * y.
Proof.
  intros Hy. rewrite <- (Qmult_lt_r _ _ (inject_Z y)) by (unfold Qlt; simpl; lia).
  setoid_replace (inject_Z x / inject_Z y * inject_Z y)%Q with (inject_Z x) using relation Qeq
    by (field; apply inject_Z_nao_zero; lia).
  by rewrite <- inject_Z_mult, <- Zlt_Qlt.
Qed.

Lemma fracao_le x y c : 0 < y -> (inject_Z c <= inject_Z x / inject_Z y)%Q <-> c * y <= x.
Proof.
  intros Hy. rewrite <- (Qmult_le_r _ _ (inject_Z y)) by (unfold Qlt; simpl; lia).
  setoid_replace (inject_Z x / inject_Z y * inject_Z y)%Q with (inject_Z x) using relation Qeq
    by (field; apply inject_Z_nao_zero; lia).
  by rewrite <- inject_Z_mult, <- Zle_Qle.
Qed.

Lemma pot2_Q k : 0 <= k -> ((2 # 1) ^ k == inject_Z (2 ^ k))%Q.
Proof. intros Hk. by rewrite Zpower_Qpower. Qed.

(** At the quantum, the scaled value [x / y] is below [2^53], and at
    least [2^52] above the subnormal range. *)
Lemma escalar_faixa n d x y :
  0 < n -> 0 < d -> escalar n d (- quantum n d) = (x, y) ->
  0 < x /\ x < 2 ^ precisao * y /\ (expoente_min < quantum n d -> 2 ^ (precisao - 1) * y <= x).
Proof.
  intros Hn Hd Hs. destruct (escalar_spec _ _ _ _ _ Hd Hs) as [Hy Hxy].
  destruct (expoente_spec n d Hn Hd) as [Hlo Hhi]. unfold quantum, precisao, expoente_min in *.
  set (E := expoente n d) in *. set (e := Z.max (E - (53 - 1)) (-1074)) in *.
  assert (He : E - 52 <= e) by lia.
  assert (P : (0 < (2 # 1) ^ (- e))%Q) by (apply Qpower_0_lt; reflexivity).
  split; [|split].
  - unfold escalar in Hs. destruct (0 <=? - e) eqn:Hk; injection Hs as <- <-; [|lia].
    apply Z.leb_le in Hk. pose proof (Z.pow_pos_nonneg 2 (- e) ltac:(lia) Hk). nia.
  - apply fracao_lt; [done|]. rewrite Hxy, <- pot2_Q by lia.
    apply Qlt_le_trans with ((2 # 1) ^ (E + 1) * (2 # 1) ^ (- e))%Q.
    + by apply Qmult_lt_r.
    + rewrite <- Qpower_plus by discriminate. apply Qpower_le_compat_l; [lia | discriminate].
  - intros Hq. apply fracao_le; [done|]. rewrite Hxy, <- pot2_Q by lia.
    replace (53 - 1) with (E + - e) by lia. rewrite Qpower_plus by discriminate.
    by apply Qmult_le_r.
Qed.

Lemma pot2_lt_expoente a b : 0 <= a -> 2 ^ a < 2 ^ b -> a < b.
Proof.
  intros Ha H. destruct (Z.lt_ge_cases b 0) as [Hb|Hb].
  - rewrite (Z.pow_neg_r 2 b Hb) in H. pose proof (Z.pow_pos_nonneg 2 a). lia.
  - by apply Z.pow_lt_mono_r_iff in H; lia.
Qed.

(** A binary64 finite value: [m * 2^e] with a 53-bit significand and an
    exponent between the subnormals' and the largest normal one. *)
Definition binario64 (v : Q) : Prop :=
  exists m e, (v == diadico m e)%Q /\ Z.abs m < 2 ^ precisao /\
    expoente_min <= e /\ e + precisao <= expoente_max.

Lemma binario64_oposto v : binario64 v -> binario64 (- v).
Proof.
  intros (m & e & Hv & Hm & He1 & He2). exists (- m), e. split; [|split; [lia|done]].
  rewrite Hv, !diadico_pot, inject_Z_opp. ring.
Qed.

(** A positive rounding that does not overflow is a binary64 value; a
    significand rounded up to [2^53] moves to the next binade. *)
Lemma arredondar_pos_binario n d m :
  0 < n -> 0 < d -> arredondar_pos n d = Some m -> binario64 (diadico m (quantum n d)).
Proof.
  intros Hn Hd. unfold arredondar_pos. destruct (escalar n d (- quantum n d)) as [x y] eqn:Hs.
  destruct (escalar_faixa _ _ _ _ Hn Hd Hs) as (Hx & Hxy & Hlo).
  destruct (escalar_spec _ _ _ _ _ Hd Hs) as [Hy _].
  destruct (_ <=? _) eqn:Ho; [done|]. intros [= <-]. apply Z.leb_gt in Ho.
  pose proof (arredondar_par_acima _ _ _ Hy Hxy) as Hr1.
  pose proof (arredondar_par_abaixo x y 0 Hy ltac:(lia)) as Hr0.
  set (r := arredondar_par x y) in *.
  assert (Hq : expoente_min <= quantum n d) by apply Z.le_max_r.
  unfold precisao, expoente_min, expoente_max in *. set (e := quantum n d) in *.
  destruct (Z.eq_dec r (2 ^ 53)) as [Heq|Hne].
  - exists (2 ^ 52), (e + 1). rewrite Heq in Ho |- *. unfold precisao, expoente_min, expoente_max.
    apply pot2_lt_expoente in Ho; [|lia]. split; [|repeat split; lia].
    rewrite !diadico_pot, Qpower_plus by discriminate.
    change (2 ^ 53) with (2 ^ 52 * 2). rewrite inject_Z_mult.
    change (inject_Z 2) with (2 # 1). change ((2 # 1) ^ 1)%Q with (2 # 1)%Q. ring.
  - exists r, e. unfold precisao, expoente_min, expoente_max.
    split; [reflexivity | split; [lia | split; [lia|]]].
    destruct (Z.eq_dec e (-1074)) as [->|He]; [lia|].
    assert (Hr52 : 2 ^ 52 <= r) by (apply arredondar_par_abaixo; [done | apply Hlo; lia]).
    enough (52 < 1024 - e) by lia. apply pot2_lt_expoente; lia.
Qed.

(** every finite result of [float()] is a binary64 number. *)
Theorem arredondar_binario64 q v : arredondar q = Finito v -> binario64 v.
Proof.
  destruct q as [n dp]. unfold arredondar. cbn [Qnum Qden].
  destruct (n =? 0) eqn:H0.
  { intros [= <-]. exists 0, 0. split; [reflexivity|]. vm_compute. split; [done | split; discriminate]. }
  apply Z.eqb_neq in H0.
  destruct (arredondar_pos (Z.abs n) (Zpos dp)) as [m|] eqn:Hm; [|by destruct (n <? 0)].
  pose proof (arredondar_pos_binario (Z.abs n) (Zpos dp) m ltac:(lia) (Pos2Z.is_pos dp) Hm) as Hb.
  destruct (n <? 0); cbv beta iota delta [negar id]; intros [= <-]; [by apply binario64_oposto | done].
Qed.

(** A finite result of the grammar's [absfloatvalue] is a rounding. *)
Lemma valor_absoluto_binario64 l v : valor_absoluto l = Some (Finito v) -> binario64 v.
Proof.
  unfold valor_absoluto. cbv zeta.
  repeat case_match; try discriminate; intros [= Hv]; by eapply arredondar_binario64.
Qed.

(** Every finite value [float()] returns is a binary64 number. *)
Lemma py_float_binario64 t v : py_float t = Ok (Finito v) -> binario64 v.
Proof.
  unfold py_float. cbv zeta. destruct (tirar_espacos _) as [|c r]; [discriminate|].
  destruct (Ascii.eqb c "-"); [|destruct (Ascii.eqb c "+")].
  - destruct (valor_absoluto r) as [[q| |]|] eqn:Hw; intros [= Hv]. subst v.
    apply binario64_oposto. by eapply valor_absoluto_binario64.
  - destruct (valor_absoluto r) eqn:Hw; intros [= ->]. by eapply valor_absoluto_binario64.
  - destruct (valor_absoluto (c :: r)) eqn:Hw; intros [= ->]. by eapply valor_absoluto_binario64.
Qed.

(** ** Concrete runs *)

(** [float('0.1')] is [0x1.999999999999ap-4], within [2^-53] of [1/10]. *)
Lemma arredondar_correto_witness :
  exists v, arredondar (1 # 10) = Finito v /\
    (Qabs (v - (1 # 10)) <= (2 # 1) ^ (-53) * Qabs (1 # 10) \/ Qabs (v - (1 # 10)) <= (2 # 1) ^ (-1075))%Q.
Proof. eexists. split; [reflexivity | apply arredondar_correto; reflexivity]. Defined.

(** [float('1e308')] is a finite binary64 number. *)
Lemma arredondar_binario64_witness :
  exists v, arredondar (inject_Z (10 ^ 308)) = Finito v /\ binario64 v.
Proof. eexists. split; [vm_compute; reflexivity | apply (arredondar_binario64 (inject_Z (10 ^ 308))); vm_compute; reflexivity]. Defined.
