(* ===== verification/PyRepr.v ===== *)
(** * PyRepr: [str(x)] of a float, as an interface with an instance

    The edit forms prefill the amount fields with [str(gasto['valor'])],
    [str(receita['valor'])] and [str(conta['valor'])], and [Salvar] reads
    them back with [float()].  CPython's [repr] of a float is the shortest
    string that reads back as the same float; what the forms rely on is
    only its documented law, [float(repr(x)) == x] for every finite [x],
    together with the fact that it writes no comma.  The class
    [ReprFloat] states that law, and the forms' round trips are proved
    for any instance of it.

    [repr_exato] is an instance: the exact decimal [N e-1074] of a
    binary64 number (every one is an integer multiple of [2^-1074], so of
    [10^-1074]).  It is not CPython's shortest digits, but it satisfies
    the same law ([repr_exato_le]), which shows the class is inhabited.
    The proof goes through the parser of [PyFloat] on the printed string
    ([py_float_notacao]) and the fact that rounding a binary64 number
    gives it back ([arredondar_exato]). *)

From Stdlib Require Import ZArith QArith Qpower Qabs Qfield String Ascii Lia.
From Stdlib Require Import DecimalString DecimalN DecimalPos.
From stdpp Require Import base list.
From S2P Require Import Prelude PyDate PyNum PyFloat.

Local Open Scope Z_scope.

(** ** The interface *)

Class ReprFloat := {
  repr_float : Q -> string;
  repr_float_le v : binario64 v -> exists v', py_float (repr_float v) = Ok (Finito v') /\ (v' == v)%Q;
  repr_float_sem_virgula v : trocar "," "." (repr_float v) = repr_float v
}.

(** ** An instance: the exact decimal *)

(** The decimal digits of a natural number. *)
Definition digitos_n (n : N) : string := NilEmpty.string_of_uint (N.to_uint n).

(** The number of decimal places printed: [-expoente_min]. *)
Definition casas : Z := 1074.

(** [N e-1074] for [v = N / 10^1074], with the sign of [v]. *)
Definition repr_exato (v : Q) : string :=
  let n := Qnum v * 10 ^ casas / Zpos (Qden v) in
  ((if (n <? 0)%Z then "-" else EmptyString) ++ digitos_n (Z.to_N (Z.abs n)) ++ "e-" ++
   digitos_n (Z.to_N casas))%string.

(** ** Characters of printed numbers *)

Lemma list_ascii_app (s t : string) :
  list_ascii_of_string (s ++ t) = list_ascii_of_string s ++ list_ascii_of_string t.
Proof. induction s; simpl; [done | by f_equal]. Qed.

Definition caracteres_digitos : list ascii := ["0"; "1"; "2"; "3"; "4"; "5"; "6"; "7"; "8"; "9"]%char.

(** What holds of the ten digits holds of every character of a printed
    [uint]. *)
Lemma uint_Forall (P : ascii -> Prop) d :
  List.Forall P caracteres_digitos -> List.Forall P (list_ascii_of_string (NilEmpty.string_of_uint d)).
Proof.
  rewrite !List.Forall_forall. intros H.
  induction d; simpl; [done|..]; intros c [<-|Hc]; auto; apply H; simpl; tauto.
Qed.

Lemma N_uint_nonnil (n : N) : N.to_uint n <> Decimal.Nil.
Proof. destruct n; simpl; [discriminate | apply DecimalPos.Unsigned.to_uint_nonnil]. Qed.

Lemma digitos_n_z (n : N) : digitos_z (list_ascii_of_string (digitos_n n)) = Some (Z.of_N n).
Proof.
  unfold digitos_z, digitos_n. rewrite digitos_py_uint by apply N_uint_nonnil.
  cbn [option_map]. f_equal. exact (f_equal Z.of_N (DecimalN.Unsigned.of_to n)).
Qed.

(** A printed number starts with a digit. *)
Lemma digitos_n_inicio (n : N) :
  exists c r, list_ascii_of_string (digitos_n n) = c :: r /\ List.In c caracteres_digitos.
Proof.
  unfold digitos_n. pose proof (N_uint_nonnil n) as Hn.
  destruct (N.to_uint n); [congruence|..]; eexists _, _; split; try reflexivity; simpl; tauto.
Qed.

(** ** [partir] *)

Lemma partir_sem p l : List.Forall (fun c => p c = false) l -> partir p l = (l, None).
Proof. induction 1 as [|c l Hc _ IH]; simpl; [done|]. by rewrite Hc, IH. Qed.

Lemma partir_app p l c r :
  List.Forall (fun c => p c = false) l -> p c = true -> partir p (l ++ c :: r) = (l, Some r).
Proof. intros Hl Hc. induction Hl as [|c' l Hc' _ IH]; simpl; [by rewrite Hc|]. by rewrite Hc', IH. Qed.

(** ** Reading back [N e-K] *)

(** A string that starts with a digit is neither [inf], [infinity] nor
    [nan], in any case. *)
Lemma nao_especial c r :
  List.In c caracteres_digitos ->
  (String.eqb (minusculas (string_of_list_ascii (c :: r))) "inf" ||
   String.eqb (minusculas (string_of_list_ascii (c :: r))) "infinity")%string = false /\
  String.eqb (minusculas (string_of_list_ascii (c :: r))) "nan" = false.
Proof. intros Hc. simpl in Hc. repeat destruct Hc as [<-|Hc]; [..|done]; split; reflexivity. Qed.

Lemma digitos_Forall (P : ascii -> Prop) n :
  List.Forall P caracteres_digitos -> List.Forall P (list_ascii_of_string (digitos_n n)).
Proof. apply uint_Forall. Qed.

Ltac digitos_Forall := apply digitos_Forall; repeat constructor.

(** The body of [float()] after the sign, on [N e-K]. *)
Lemma valor_absoluto_notacao (a b : N) :
  valor_absoluto (list_ascii_of_string (digitos_n a) ++ "e"%char :: "-"%char :: list_ascii_of_string (digitos_n b))
  = Some (arredondar (decimal (Z.of_N a) (- Z.of_N b))).
Proof.
  destruct (digitos_n_inicio a) as (c & r & Hla & Hc).
  unfold valor_absoluto. cbv zeta. rewrite Hla. cbn [app].
  destruct (nao_especial c (r ++ "e"%char :: "-"%char :: list_ascii_of_string (digitos_n b)) Hc) as [-> ->].
  rewrite app_comm_cons, <- Hla.
  rewrite partir_app by (digitos_Forall || reflexivity).
  unfold mantissa. rewrite partir_sem by digitos_Forall. rewrite digitos_n_z.
  cbn [inteiro_com_sinal Ascii.eqb Bool.eqb andb]. unfold digitos_z in *.
  pose proof (digitos_n_z b) as Hb. unfold digitos_z in Hb. rewrite Hb. cbn [option_map].
  by rewrite Z.sub_0_r.
Qed.

Lemma notacao_caracteres (a b : N) :
  list_ascii_of_string (digitos_n a ++ "e-" ++ digitos_n b) =
  list_ascii_of_string (digitos_n a) ++ "e"%char :: "-"%char :: list_ascii_of_string (digitos_n b).
Proof. by rewrite !list_ascii_app. Qed.

(** [float("NeK")] for a printed [N] and [K]. *)
Lemma py_float_notacao (a b : N) :
  py_float (digitos_n a ++ "e-" ++ digitos_n b) = Ok (arredondar (decimal (Z.of_N a) (- Z.of_N b))).
Proof.
  unfold py_float. rewrite notacao_caracteres.
  rewrite tirar_espacos_id
    by (apply List.Forall_app; split; [digitos_Forall | repeat constructor; digitos_Forall]).
  destruct (digitos_n_inicio a) as (c & r & Hla & Hc).
  rewrite Hla at 1. cbn [app].
  assert (Hs : Ascii.eqb c "-" = false /\ Ascii.eqb c "+" = false)
    by (simpl in Hc; repeat destruct Hc as [<-|Hc]; [..|done]; split; reflexivity).
  destruct Hs as [-> ->]. by rewrite valor_absoluto_notacao.
Qed.

(** The same with a minus sign in front. *)
Lemma py_float_notacao_neg (a b : N) :
  py_float ("-" ++ digitos_n a ++ "e-" ++ digitos_n b) =
  Ok (negar (arredondar (decimal (Z.of_N a) (- Z.of_N b)))).
Proof.
  unfold py_float. change (list_ascii_of_string ("-" ++ ?s)) with ("-"%char :: list_ascii_of_string s).
  rewrite notacao_caracteres.
  rewrite tirar_espacos_id
    by (constructor; [reflexivity|]; apply List.Forall_app; split; [digitos_Forall | repeat constructor; digitos_Forall]).
  cbn [Ascii.eqb Bool.eqb andb]. by rewrite valor_absoluto_notacao.
Qed.

(** ** Rounding a binary64 number gives it back *)

#[export] Instance binario64_proper : Proper (Qeq ==> iff) binario64.
Proof.
  intros a b H. split; intros (m & e & Hv & Hb); exists m, e; split; try done.
  - by rewrite <- H. - by rewrite H.
Qed.

(** The magnitude of a binary64 number, with a non-negative significand. *)
Lemma binario64_abs q :
  binario64 q -> exists m e, (Qabs q == diadico m e)%Q /\ 0 <= m < 2 ^ precisao /\
    expoente_min <= e /\ e + precisao <= expoente_max.
Proof.
  intros (m & e & Hv & Hm & He). exists (Z.abs m), e. split; [|split; [lia | done]].
  rewrite Hv, !diadico_pot, Qabs_Qmult. change (Qabs (inject_Z m)) with (inject_Z (Z.abs m)).
  rewrite (Qabs_pos ((2 # 1) ^ e)%Q) by (apply Qpower_0_le; discriminate). reflexivity.
Qed.

(** An integer of at most 53 bits is a binary64 number. *)
Lemma binario64_inteiro z : Z.abs z < 2 ^ precisao -> binario64 (inject_Z z).
Proof.
  intros Hz. exists z, 0. unfold precisao, expoente_min, expoente_max in *.
  split; [|lia]. unfold diadico. simpl. by rewrite Z.mul_1_r.
Qed.

Lemma fracao_eq x y k : 0 < y -> (inject_Z x / inject_Z y == inject_Z k)%Q -> x = k * y.
Proof.
  intros Hy H. apply inject_Z_injective. rewrite inject_Z_mult, <- H.
  field. by apply inject_Z_nao_zero; lia.
Qed.

Lemma arredondar_par_exato k y : 0 < y -> arredondar_par (k * y) y = k.
Proof.
  intros Hy. unfold arredondar_par. rewrite Z.div_mul, Z.mod_mul by lia.
  replace (2 * 0) with 0 by lia. by destruct (Z.compare_spec 0 y); [lia | | lia].
Qed.

(** A positive [n / d] that is [m * 2^e] with a 53-bit [m] is rounded
    to itself. *)
Lemma arredondar_pos_exato n d m e :
  0 < n -> 0 < d -> (inject_Z n / inject_Z d == diadico m e)%Q ->
  0 <= m < 2 ^ precisao -> expoente_min <= e -> e + precisao <= expoente_max ->
  exists k, arredondar_pos n d = Some k /\ (diadico k (quantum n d) == inject_Z n / inject_Z d)%Q.
Proof.
  intros Hn Hd Hq Hm He1 He2. unfold arredondar_pos.
  destruct (escalar n d (- quantum n d)) as [x y] eqn:Hs.
  destruct (escalar_spec _ _ _ _ _ Hd Hs) as [Hy _].
  pose proof (escalar_inv _ _ _ _ _ Hd Hs) as Hk.
  destruct (expoente_spec n d Hn Hd) as [HE _].
  unfold precisao, expoente_min, expoente_max in *.
  set (t := quantum n d) in *.
  assert (Ht : t <= e).
  { unfold t, quantum, expoente_min. apply Z.max_lub; [|lia].
    enough (expoente n d < 53 + e) by (unfold precisao; lia).
    apply (Qpower_lt_compat_l_inv (2 # 1)); [|reflexivity].
    eapply Qle_lt_trans; [exact HE|]. rewrite Hq, diadico_pot, Qpower_plus by discriminate.
    apply Qmult_lt_r; [apply Qpower_0_lt; reflexivity|].
    rewrite pot2_Q by lia. rewrite <- Zlt_Qlt. lia. }
  assert (Hp : 0 < 2 ^ (e - t)) by (apply Z.pow_pos_nonneg; lia).
  assert (Hxy : x = m * 2 ^ (e - t) * y).
  { apply fracao_eq; [done|]. rewrite inject_Z_mult, <- pot2_Q by lia.
    apply (Qmult_inj_r _ _ ((2 # 1) ^ t)); [apply Qpower_not_0; discriminate|].
    rewrite <- Hk, Hq, diadico_pot, <- Qmult_assoc, <- Qpower_plus by discriminate.
    by replace (e - t + t) with e by lia. }
  rewrite Hxy, arredondar_par_exato by done.
  assert (Hlt : m * 2 ^ (e - t) < 2 ^ (1024 - t)).
  { apply Z.lt_le_trans with (2 ^ 53 * 2 ^ (e - t)); [nia|].
    rewrite <- Z.pow_add_r by lia. apply Z.pow_le_mono_r; lia. }
  destruct (Z.leb_spec (2 ^ (1024 - t)) (m * 2 ^ (e - t))) as [|_]; [lia|].
  eexists. split; [reflexivity|]. rewrite Hq, !diadico_pot, inject_Z_mult, <- pot2_Q by lia.
  rewrite <- Qmult_assoc, <- Qpower_plus by discriminate. by replace (e - t + t) with e by lia.
Qed.

(** [float()] of the exact value of a binary64 number is that number. *)
Lemma arredondar_exato q : binario64 q -> exists v, arredondar q = Finito v /\ (v == q)%Q.
Proof.
  intros Hb. destruct (binario64_abs q Hb) as (m & e & Hq & Hm & He1 & He2).
  destruct q as [n dp]. unfold arredondar. cbn [Qnum Qden].
  destruct (Z.eqb_spec n 0) as [->|Hn0]; [by eexists|].
  rewrite Qabs_fracao in Hq.
  destruct (arredondar_pos_exato (Z.abs n) (Zpos dp) m e ltac:(lia) ltac:(lia) Hq Hm He1 He2)
    as (k & -> & Hk).
  destruct (Z.ltb_spec n 0); cbv beta iota delta [negar id]; eexists; split; try reflexivity;
    rewrite Hk, Qmake_Qdiv.
  - replace (Z.abs n) with (- n) by lia. rewrite inject_Z_opp. field. by apply inject_Z_nao_zero.
  - by replace (Z.abs n) with n by lia.
Qed.

(** Every binary64 number is a whole number of [10^-casas]. *)
Lemma divisao_exata v :
  binario64 v -> exists k, Qnum v * 10 ^ casas = k * Zpos (Qden v).
Proof.
  intros (m & e & Hv & _ & He & _). unfold expoente_min, casas in *.
  unfold Qeq, diadico in Hv.
  destruct (0 <=? e) eqn:Hp; [apply Z.leb_le in Hp | apply Z.leb_gt in Hp]; cbn [Qnum Qden inject_Z] in Hv.
  - exists (m * 2 ^ e * 10 ^ 1074). rewrite Z.mul_1_r in Hv. rewrite Hv. ring.
  - assert (H2 : 0 < 2 ^ (- e)) by (apply Z.pow_pos_nonneg; lia).
    rewrite Z2Pos.id in Hv by done.
    exists (m * 2 ^ (1074 + e) * 5 ^ 1074).
    replace (10 ^ 1074) with (2 ^ (- e) * 2 ^ (1074 + e) * 5 ^ 1074).
    + rewrite !Z.mul_assoc, Hv. ring.
    + rewrite <- Z.pow_add_r by lia. replace (- e + (1074 + e)) with 1074 by lia.
      rewrite <- Z.pow_mul_l. reflexivity.
Qed.

(** [repr_exato] prints the exact value. *)
Lemma repr_exato_valor v :
  binario64 v ->
  (decimal (Qnum v * 10 ^ casas / Zpos (Qden v)) (- casas) == v)%Q.
Proof.
  intros Hb. destruct (divisao_exata v Hb) as [k Hk]. rewrite Hk, Z.div_mul by lia.
  unfold decimal. replace (0 <=? - casas) with false by reflexivity.
  replace (- - casas) with casas by lia. unfold Qeq. cbn [Qnum Qden].
  rewrite Z2Pos.id by (apply Z.pow_pos_nonneg; unfold casas; lia). rewrite Hk. ring.
Qed.

(** [float(repr_exato(v)) == v]. *)
Lemma repr_exato_le v :
  binario64 v -> exists v', py_float (repr_exato v) = Ok (Finito v') /\ (v' == v)%Q.
Proof.
  intros Hb. pose proof (repr_exato_valor v Hb) as Hd. unfold repr_exato.
  set (n := Qnum v * 10 ^ casas / Zpos (Qden v)) in *.
  assert (Hc : Z.of_N (Z.to_N casas) = casas) by reflexivity.
  destruct (Z.ltb_spec n 0) as [Hn|Hn].
  - rewrite py_float_notacao_neg, Hc, Z2N.id by lia.
    assert (Ho : (decimal (Z.abs n) (- casas) == - v)%Q).
    { rewrite <- Hd. replace (Z.abs n) with (- n) by lia. reflexivity. }
    destruct (arredondar_exato (decimal (Z.abs n) (- casas))) as (w & -> & Hw).
    { rewrite Ho. by apply binario64_oposto. }
    eexists. split; [reflexivity|]. cbn [negar]. rewrite Hw, Ho. ring.
  - change ((EmptyString ++ ?s)%string) with s. rewrite py_float_notacao, Hc, Z2N.id by lia.
    replace (Z.abs n) with n by lia.
    destruct (arredondar_exato (decimal n (- casas))) as (w & -> & Hw); [by rewrite Hd|].
    eexists. split; [reflexivity|]. by rewrite Hw.
Qed.

(** ** No comma *)

Lemma trocar_sem a b s :
  List.Forall (fun c => Ascii.eqb c a = false) (list_ascii_of_string s) -> trocar a b s = s.
Proof.
  intros H. unfold trocar. rewrite List.map_ext_in with (g := id).
  - by rewrite List.map_id, string_of_list_ascii_of_string.
  - intros c Hc. rewrite List.Forall_forall in H. by rewrite (H c Hc).
Qed.

Lemma repr_exato_sem_virgula v : trocar "," "." (repr_exato v) = repr_exato v.
Proof.
  apply trocar_sem. unfold repr_exato. rewrite !list_ascii_app.
  apply List.Forall_app; split; [by destruct (_ <? 0)%Z; repeat constructor|].
  apply List.Forall_app; split; [digitos_Forall|]. repeat constructor; try digitos_Forall.
Qed.

#[export] Instance repr_float_exato : ReprFloat := {
  repr_float := repr_exato;
  repr_float_le := repr_exato_le;
  repr_float_sem_virgula := repr_exato_sem_virgula
}.
