(* ===== verification/PyFormat.v ===== *)
(** * PyFormat: [f"{x:.2f}"] of a float

    The views show every amount as [f"R$ {valor:.2f}"] and the bill form
    prefills its interest field with [f"{valor_atual:.2f}"].  CPython
    formats a float with [.2f] from its exact binary value, rounded to
    two decimals half to even (the correctly rounded [dtoa] in mode 3),
    with a minus sign for a negative value even when it rounds to zero,
    and [nan], [inf], [-inf] for the other floats.  [formatar_2f] is that
    text; [centavos] is the signed number of hundredths it shows.

    A float's sign of zero is not kept by [PyFloat] ([float("-0")] is
    [Finito 0]), so [-0.0], which Python prints ["-0.00"], prints
    ["0.00"] here.

    Theorem: the text is within half a hundredth of the value
    ([centavos_perto]). *)

From Stdlib Require Import ZArith QArith Qabs String Lia.
From S2P Require Import Prelude PyDate PyFloat PyRepr.

Local Open Scope Z_scope.

(** [a / b] rounded to an integer, half to even ([b > 0]). *)
Definition arredondar_par (a b : Z) : Z :=
  let f := a / b in
  let r := a mod b in
  if 2 * r <? b then f
  else if b <? 2 * r then f + 1
  else if Z.even f then f else f + 1.

(** The hundredths [.2f] shows for [|q|]. *)
Definition centesimos (q : Q) : Z := arredondar_par (Z.abs (Qnum q) * 100) (Zpos (Qden q)).

(** The signed hundredths. *)
Definition centavos (q : Q) : Z := if Qnum q <? 0 then - centesimos q else centesimos q.

(** [format(x, ".2f")]. *)
Definition formatar_2f (x : PyFloat) : string :=
  match x with
  | NaN => "nan"
  | Infinito negativo => if negativo then "-inf" else "inf"
  | Finito q =>
      let k := centesimos q in
      ((if (Qnum q <? 0)%Z then "-" else EmptyString) ++ digitos_n (Z.to_N (k / 100)%Z) ++ "." ++ pad02 (k mod 100)%Z)%string
  end.

(** ** Lemmas *)

Lemma arredondar_par_perto a b : 0 < b -> Z.abs (2 * (a - arredondar_par a b * b)) <= b.
Proof.
  intros Hb. unfold arredondar_par.
  pose proof (Z.div_mod a b ltac:(lia)) as Hd. pose proof (Z.mod_pos_bound a b Hb) as Hr.
  set (f := a / b) in *. set (r := a mod b) in *.
  destruct (2 * r <? b) eqn:E1; [apply Z.ltb_lt in E1|apply Z.ltb_ge in E1].
  - nia.
  - destruct (b <? 2 * r) eqn:E2; [apply Z.ltb_lt in E2|apply Z.ltb_ge in E2].
    + nia.
    + destruct (Z.even f); nia.
Qed.

(** ** Theorems *)

(** The number [.2f] prints is within half a hundredth of the float:
    [|q - centavos q / 100| <= 1/200], ties rounded to the even
    hundredth. *)
Theorem centavos_perto q : (Qabs (q - (centavos q # 100)) <= 1 # 200)%Q.
Proof.
  destruct q as [a b]. unfold centavos, centesimos. cbn [Qnum Qden].
  pose proof (arredondar_par_perto (Z.abs a * 100) (Zpos b) ltac:(lia)) as H.
  set (k := arredondar_par (Z.abs a * 100) (Zpos b)) in *.
  apply Qabs_Qle_condition. unfold Qle, Qminus, Qplus, Qopp. cbn [Qnum Qden].
  rewrite !Pos2Z.inj_mul. cbn.
  destruct (a <? 0) eqn:E; [apply Z.ltb_lt in E|apply Z.ltb_ge in E].
  - replace (Z.abs a) with (- a) in H by lia. apply Z.abs_le in H. split; nia.
  - replace (Z.abs a) with a in H by lia. apply Z.abs_le in H. split; nia.
Qed.

(** ** Examples *)

(** [f"{0.125:.2f}"] is ["0.12"]: the tie goes to the even hundredth. *)
Example formatar_2f_empate : formatar_2f (Finito (1 # 8)) = "0.12"%string.
Proof. reflexivity. Qed.

(** A small negative amount prints as ["-0.00"]. *)
Example formatar_2f_zero_negativo : formatar_2f (Finito (-1 # 1000)) = "-0.00"%string.
Proof. reflexivity. Qed.
