(* ===== verification/Records.v ===== *)
(** * Records: the JSON objects of the three collections

    Each collection of [data_manager.py] is a JSON array of objects.  One
    [Record] per object shape; a key the source reads with [.get] or guards
    with ["key" in d] is an [option] field ([None] = key absent), a key it
    indexes with [d["key"]] is a plain field when every write path stores it
    ([id], [descricao], [valor], and the [categoria] and [data] of an
    expense).  Dates stay the strings they are in the JSON document; the
    code parses them on every use.

    [HasId] is the interface the generic Record Store code
    ([Store.v]) is written against: the three entities of the source share
    [_gerar_id] and the same add/update/delete loops, which read and
    overwrite [d["id"]] and nothing else.

    Each record type has an [Equiv] instance [≡], an equivalence: the
    same value on every key the program reads, amounts compared as
    numbers ([Qeq]) and an absent [recorrente]/[parcelado] equal to
    [false], as [.get(..., False)] reads them. *)

From Stdlib Require Import ZArith QArith String.
From stdpp Require Import base gmap strings.
From S2P Require Import Prelude PyDate.

(** ** Expenses ([dados_gastos.json]) *)

Record Gasto := mkGasto {
  g_id : Z;
  g_descricao : string;
  g_valor : Q;
  g_categoria : string;
  g_data : string
}.

(** ** Incomes ([receitas.json]) *)

Record Receita := mkReceita {
  r_id : Z;
  r_descricao : string;
  r_valor : Q;
  r_recorrente : option bool;
  r_data : option string;
  r_data_inicio : option string;
  r_data_fim : option string
}.

(** ** Fixed bills ([contas_fixas.json]) *)

(** An entry of [historico_pagamentos]. *)
Record Pagamento := mkPagamento {
  pg_pago : bool;
  pg_data_pagamento : string
}.

(** [c_pago] and [c_data_pagamento] are the keys
    [obter_contas_fixas_por_periodo] adds to the period copy of a recurring
    bill; no write path stores them. *)
Record Conta := mkConta {
  c_id : Z;
  c_descricao : string;
  c_valor : Q;
  c_recorrente : option bool;
  c_data_inicio : option string;
  c_data_fim : option string;
  c_mes : option Z;
  c_ano : option Z;
  c_data_limite : option string;
  c_parcelado : option bool;
  c_num_parcelas : option Z;
  c_valor_com_juros : option Q;
  c_historico : option (gmap string Pagamento);
  c_pago : option bool;
  c_data_pagamento : option string
}.

(** ** Reading optional keys the way the source does *)

(** [d.get("recorrente", False)] and [d.get("parcelado", False)]. *)
Definition receita_recorrente (r : Receita) : bool := default false (r_recorrente r).
Definition conta_recorrente (c : Conta) : bool := default false (c_recorrente c).
Definition conta_parcelada (c : Conta) : bool := default false (c_parcelado c).

(** ["data_fim" in d and d["data_fim"]]: present and not the empty string. *)
Definition tem_data_fim (o : option string) : option string :=
  match o with
  | Some s => if String.eqb s EmptyString then None else Some s
  | None => None
  end.

(** [self.categorias] of [DataManager.__init__]. *)
Definition categorias : list string :=
  ["Alimentação"; "Transporte"; "Moradia"; "Saúde"; "Educação"; "Lazer";
   "Vestuário"; "Outros"]%string.

(** ** Writing fields *)

Definition conta_com_id (i : Z) (c : Conta) : Conta :=
  let 'mkConta _ de v r di df m a dl p n j h pg dp := c in
  mkConta i de v r di df m a dl p n j h pg dp.

Definition conta_com_num_parcelas (n : Z) (c : Conta) : Conta :=
  let 'mkConta i de v r di df m a dl p _ j h pg dp := c in
  mkConta i de v r di df m a dl p (Some n) j h pg dp.

Definition conta_com_data_fim (s : string) (c : Conta) : Conta :=
  let 'mkConta i de v r di _ m a dl p n j h pg dp := c in
  mkConta i de v r di (Some s) m a dl p n j h pg dp.

Definition conta_com_historico (hist : gmap string Pagamento) (c : Conta) : Conta :=
  let 'mkConta i de v r di df m a dl p n j _ pg dp := c in
  mkConta i de v r di df m a dl p n j (Some hist) pg dp.

(** [receita_periodo["data"] = ...] on a copy. *)
Definition receita_com_data (d : string) (r : Receita) : Receita :=
  let 'mkReceita i de v rc _ di df := r in mkReceita i de v rc (Some d) di df.

(** The period copy of [obter_contas_fixas_por_periodo]: [pago],
    [data_pagamento] (only when given), [mes] and [ano]. *)
Definition conta_periodo (pago : bool) (dp : option string) (mes ano : Z) (c : Conta) : Conta :=
  let 'mkConta i de v r di df _ _ dl p n j h _ dp0 := c in
  mkConta i de v r di df (Some mes) (Some ano) dl p n j h (Some pago)
    (match dp with Some s => Some s | None => dp0 end).

(** ** The id interface shared by the three collections *)

Class HasId (A : Type) := {
  obter_id : A -> Z;
  definir_id : Z -> A -> A;
  obter_definir : forall i x, obter_id (definir_id i x) = i
}.

#[export] Instance gasto_has_id : HasId Gasto := {
  obter_id := g_id;
  definir_id := fun i '(mkGasto _ de v c d) => mkGasto i de v c d;
  obter_definir := fun i '(mkGasto _ _ _ _ _) => eq_refl
}.

#[export] Instance receita_has_id : HasId Receita := {
  obter_id := r_id;
  definir_id := fun i '(mkReceita _ de v r d di df) => mkReceita i de v r d di df;
  obter_definir := fun i '(mkReceita _ _ _ _ _ _ _) => eq_refl
}.

#[export] Instance conta_has_id : HasId Conta := {
  obter_id := c_id;
  definir_id := conta_com_id;
  obter_definir := fun i '(mkConta _ _ _ _ _ _ _ _ _ _ _ _ _ _ _) => eq_refl
}.

#[export] Hint Rewrite @obter_definir : gastos.

Lemma conta_periodo_campos pago dp mes ano c :
  let c' := conta_periodo pago dp mes ano c in
  c_id c' = c_id c /\ c_pago c' = Some pago /\
  c_data_pagamento c' = (match dp with Some s => Some s | None => c_data_pagamento c end) /\
  c_mes c' = Some mes /\ c_ano c' = Some ano /\ c_valor c' = c_valor c /\
  c_parcelado c' = c_parcelado c /\ c_num_parcelas c' = c_num_parcelas c /\
  c_valor_com_juros c' = c_valor_com_juros c /\ c_data_inicio c' = c_data_inicio c /\
  c_recorrente c' = c_recorrente c.
Proof. by destruct c. Qed.

Lemma conta_com_data_fim_campos s c :
  let c' := conta_com_data_fim s c in
  c_data_fim c' = Some s /\ c_recorrente c' = c_recorrente c /\ c_data_inicio c' = c_data_inicio c /\
  c_num_parcelas c' = c_num_parcelas c /\ c_id c' = c_id c.
Proof. by destruct c. Qed.

Lemma conta_com_num_parcelas_campos n c :
  let c' := conta_com_num_parcelas n c in
  c_num_parcelas c' = Some n /\ c_recorrente c' = c_recorrente c /\
  c_data_inicio c' = c_data_inicio c /\ c_id c' = c_id c.
Proof. by destruct c. Qed.

(** ** Records that read the same *)

(** Two records are equivalent when every key the program reads holds
    the same value: amounts as numbers ([Qeq]), and [recorrente] /
    [parcelado] through their [.get(..., False)]. *)
#[export] Instance gasto_equiv : Equiv Gasto := fun a b =>
  g_id a = g_id b /\ g_descricao a = g_descricao b /\ (g_valor a == g_valor b)%Q /\
  g_categoria a = g_categoria b /\ g_data a = g_data b.

#[export] Instance receita_equiv : Equiv Receita := fun a b =>
  r_id a = r_id b /\ r_descricao a = r_descricao b /\ (r_valor a == r_valor b)%Q /\
  receita_recorrente a = receita_recorrente b /\ r_data a = r_data b /\
  r_data_inicio a = r_data_inicio b /\ r_data_fim a = r_data_fim b.

(** [Qeq] lifted to an optional amount. *)
Definition opcao_Qeq : relation (option Q) := fun a b =>
  match a, b with
  | Some x, Some y => (x == y)%Q
  | None, None => True
  | _, _ => False
  end.

#[export] Instance conta_equiv : Equiv Conta := fun a b =>
  c_id a = c_id b /\ c_descricao a = c_descricao b /\ (c_valor a == c_valor b)%Q /\
  conta_recorrente a = conta_recorrente b /\ c_data_inicio a = c_data_inicio b /\
  c_data_fim a = c_data_fim b /\ c_mes a = c_mes b /\ c_ano a = c_ano b /\
  c_data_limite a = c_data_limite b /\ conta_parcelada a = conta_parcelada b /\
  c_num_parcelas a = c_num_parcelas b /\ opcao_Qeq (c_valor_com_juros a) (c_valor_com_juros b) /\
  c_historico a = c_historico b /\ c_pago a = c_pago b /\ c_data_pagamento a = c_data_pagamento b.

#[export] Instance opcao_Qeq_equivalence : Equivalence opcao_Qeq.
Proof.
  split.
  - intros [x|]; simpl; [reflexivity | exact I].
  - intros [x|] [y|]; simpl; try done.
  - intros [x|] [y|] [z|]; simpl; try done. intros H1 H2. by transitivity y.
Qed.

(** Each equivalence is one: a conjunction of equalities and [Qeq]s. *)
Ltac equiv_por_campos :=
  split;
  [ intros []; hnf; repeat split; reflexivity
  | intros [] [] ?; hnf in *; repeat match goal with H : _ /\ _ |- _ => destruct H end;
    repeat split; by symmetry
  | intros [] [] [] ? ?; hnf in *; repeat match goal with H : _ /\ _ |- _ => destruct H end;
    repeat split; etransitivity; eassumption ].

#[export] Instance gasto_equivalence : Equivalence (≡@{Gasto}).
Proof. equiv_por_campos. Qed.

#[export] Instance receita_equivalence : Equivalence (≡@{Receita}).
Proof. equiv_por_campos. Qed.

#[export] Instance conta_equivalence : Equivalence (≡@{Conta}).
Proof. equiv_por_campos. Qed.
