(* ===== verification/Installments.v ===== *)
(** * Installments: the end date and the per-installment arithmetic of a parceled bill

    - [avancar_mes] is one iteration of the loop of
      [DataManager.adicionar_conta_fixa] / [atualizar_conta_fixa]
      (data_manager.py 171-179): December goes to January of the next year
      keeping the day; any other month goes to the next one with the day
      clamped by [calendar.monthrange].
    - [avancar_mes_formulario] is the copy of that loop body in the form
      handlers [ContasFixasView.salvar_conta] / [atualizar_conta]
      (contas_fixas.py 797-814).  Theorem [avancar_mes_formulario_equiv]:
      on valid dates the two copies agree.
    - [calcular_data_fim] is the whole derivation of [data_fim]:
      parse [data_inicio], advance [num_parcelas - 1] months, print.
      [preparar_parcelamento] is the installment branch of the add/update
      path that calls it.
    - [valor_parcela] and [parcela_atual] are the arithmetic of
      [calcular_total_contas_fixas_com_parcelas] (historico.py 376-396).

    The main results: advancing [k] months from a valid date lands exactly
    [k] calendar months later ([iterar_avancar_mes]), so the stored end date
    of a bill with [n] installments is in month [start + n - 1]
    ([calcular_data_fim_mes]), on the start's day clamped in turn to the
    length of every month the loop passes through ([dia_apos],
    [calcular_data_fim_dia]): the clamping is cumulative, so 31/01/2024
    with three installments ends on 29/03/2024
    ([calcular_data_fim_31_jan]). *)

From Stdlib Require Import ZArith QArith Qfield Lqa String Lia.
From stdpp Require Import base list.
From S2P Require Import Prelude PyDate Records.

Local Open Scope Z_scope.

(** ** One month forward *)

(** data_manager.py 173-179. *)
Definition avancar_mes (d : data) : res data :=
  if mes d =? 12 then mk_data (ano d + 1) 1 (dia d)
  else
    ultimo_dia <- monthrange_dias (ano d) (mes d + 1) ;;
    mk_data (ano d) (mes d + 1) (Z.min (dia d) ultimo_dia).

(** contas_fixas.py 801-814. *)
Definition avancar_mes_formulario (d : data) : res data :=
  let '(m, a) := if mes d + 1 >? 12 then (1, ano d + 1) else (mes d + 1, ano d) in
  ultimo_dia <- monthrange_dias a m ;;
  mk_data a m (Z.min (dia d) ultimo_dia).

(** [for _ in range(k): d = step(d)]. *)
Fixpoint iterar (k : nat) (f : data -> res data) (d : data) : res data :=
  match k with
  | O => Ok d
  | S k' => d' <- f d ;; iterar k' f d'
  end.

(** data_manager.py 166-182: [data_fim] from [data_inicio] and the number of
    installments ([range(num_parcelas - 1)] is empty when
    [num_parcelas <= 1]). *)
Definition calcular_data_fim (data_inicio : string) (num_parcelas : Z) : res string :=
  d <- strptime_dmY data_inicio ;;
  e <- iterar (Z.to_nat (num_parcelas - 1)) avancar_mes d ;;
  Ok (strftime_dmY e).

(** data_manager.py 159-182 (and 195-218 in the update path):
    [num_parcelas] defaults to 1 and, when [data_inicio] is present,
    [data_fim] is recomputed. *)
Definition preparar_parcelamento (c : Conta) : res Conta :=
  if conta_parcelada c then
    let n := default 1 (c_num_parcelas c) in
    let c1 := conta_com_num_parcelas n c in
    match c_data_inicio c1 with
    | Some di => s <- calcular_data_fim di n ;; Ok (conta_com_data_fim s c1)
    | None => Ok c1
    end
  else Ok c.

(** ** Per-installment arithmetic *)

(** historico.py 376-386: [valor_com_juros / num_parcelas] when the key is
    present, [valor / num_parcelas] otherwise; Python raises
    [ZeroDivisionError] on a zero count. *)
(** [int(conta.get('num_parcelas', 1))]. *)
Definition num_parcelas (c : Conta) : Z := default 1 (c_num_parcelas c).

Definition valor_total_parcelado (c : Conta) : Q :=
  match c_valor_com_juros c with Some j => j | None => c_valor c end.

Definition valor_parcela (c : Conta) : res Q :=
  let n := num_parcelas c in
  if n =? 0 then Err ZeroDivisionError else Ok (valor_total_parcelado c / inject_Z n)%Q.

(** historico.py 394-396: the 1-based index of the installment due in
    [(mes, ano)]. *)
Definition parcela_atual (mes ano : Z) (inicio : data) : Z :=
  (ano - PyDate.ano inicio) * 12 + (mes - PyDate.mes inicio) + 1.

(** The month of a date as one integer, [12 * year + month - 1]. *)
Definition indice_mes (d : data) : Z := 12 * ano d + (mes d - 1).

(** historico.py 271-273: the interest shown per installment. *)
Definition juros_por_parcela (c : Conta) : res Q :=
  let n := num_parcelas c in
  match c_valor_com_juros c with
  | Some j => if n =? 0 then Err ZeroDivisionError else Ok ((j - c_valor c) / inject_Z n)%Q
  | None => Ok 0%Q
  end.

(** The last month [avancar_mes] can leave: December 9999. *)
Definition indice_max : Z := 12 * 9999 + 11.

(** The (year, month) of a month index. *)
Definition ano_mes_de_indice (i : Z) : Z * Z := (i / 12, i mod 12 + 1).

(** The day [k] steps of [avancar_mes] end on, from the day [dd] of the
    month of index [i]: the day clamped in turn to the length of every
    month passed through, not only to the last one's. *)
Fixpoint dia_apos (i : Z) (k : nat) (dd : Z) : Z :=
  match k with
  | O => dd
  | S k' => let '(a, m) := ano_mes_de_indice (i + 1) in dia_apos (i + 1) k' (Z.min dd (dias_no_mes a m))
  end.

(** ** One step *)

Lemma avancar_mes_spec d :
  data_valida d = true -> indice_mes d < indice_max ->
  exists e, avancar_mes d = Ok e /\ data_valida e = true /\
    indice_mes e = indice_mes d + 1 /\
    dia e = Z.min (dia d) (dias_no_mes (ano e) (mes e)).
Proof.
  intros Hv Hi. apply data_valida_iff in Hv as (Ha & Hm & Hd).
  unfold indice_mes, indice_max in *. unfold avancar_mes.
  destruct d as [y m dd]; simpl in *.
  destruct (Z.eqb_spec m 12) as [->|Hm12].
  - assert (Hd31 : dias_no_mes y 12 = 31) by reflexivity.
    exists (mkData (y + 1) 1 dd).
    assert (Hv' : data_valida (mkData (y + 1) 1 dd) = true)
      by (apply data_valida_iff; simpl; lia).
    rewrite mk_data_valida by done. simpl. repeat split; [done | lia | lia].
  - rewrite monthrange_dias_Ok by lia. cbn [res_bind].
    pose proof (dias_no_mes_bounds y (m + 1) ltac:(lia)).
    exists (mkData y (m + 1) (Z.min dd (dias_no_mes y (m + 1)))).
    rewrite mk_data_valida by (apply data_valida_iff; simpl; lia).
    repeat split; [apply data_valida_iff; simpl; lia | simpl; lia].
Qed.

(** C38: The form handlers' copy of the loop body agrees with the data
    manager's on every valid date. *)
Lemma avancar_mes_formulario_equiv d :
  data_valida d = true -> avancar_mes_formulario d = avancar_mes d.
Proof.
  intros Hv. apply data_valida_iff in Hv as (Ha & Hm & Hd).
  unfold avancar_mes_formulario, avancar_mes.
  destruct (Z.eqb_spec (mes d) 12) as [H12|H12].
  - rewrite H12. simpl. rewrite H12 in Hd. simpl in Hd.
    by rewrite Z.min_l by lia.
  - destruct (Z.gtb_spec (mes d + 1) 12); [lia|]. done.
Qed.

(** ** [k] steps *)

Lemma iterar_avancar_mes k d :
  data_valida d = true -> indice_mes d + Z.of_nat k <= indice_max ->
  exists e, iterar k avancar_mes d = Ok e /\ data_valida e = true /\
    indice_mes e = indice_mes d + Z.of_nat k /\ dia e <= dia d.
Proof.
  revert d; induction k as [|k IH]; intros d Hv Hi; simpl.
  - exists d. repeat split; [done | lia | lia].
  - destruct (avancar_mes_spec d Hv ltac:(lia)) as (e1 & He1 & Hv1 & Hi1 & Hd1).
    rewrite He1. simpl.
    destruct (IH e1 Hv1 ltac:(lia)) as (e & He & Hv' & Hi' & Hd').
    exists e. repeat split; [done | done | lia | lia].
Qed.

(** ** The stored end date *)

Lemma indice_mes_ano_mono d e :
  data_valida d = true -> data_valida e = true -> indice_mes d <= indice_mes e -> ano d <= ano e.
Proof.
  intros (_ & Hd & _)%data_valida_iff (_ & He & _)%data_valida_iff.
  unfold indice_mes. lia.
Qed.

(** The end date [adicionar_conta_fixa] stores for a bill of [n >= 1]
    installments starting on a parseable date is read back by [strptime] as
    a date exactly [n - 1] calendar months after the start, on a day of
    month no later than the start's. *)
Theorem calcular_data_fim_mes di n d :
  strptime_dmY di = Ok d -> 1 <= n -> 1000 <= ano d ->
  indice_mes d + (n - 1) <= indice_max ->
  exists e, calcular_data_fim di n = Ok (strftime_dmY e) /\
    strptime_dmY (strftime_dmY e) = Ok e /\
    indice_mes e = indice_mes d + (n - 1) /\ dia e <= dia d.
Proof.
  intros Hp Hn Hy Hi. pose proof (strptime_dmY_valida _ _ Hp) as Hv.
  destruct (iterar_avancar_mes (Z.to_nat (n - 1)) d Hv ltac:(lia))
    as (e & He & Hve & Hie & Hde).
  exists e. unfold calcular_data_fim. rewrite Hp. cbn [res_bind]. rewrite He.
  pose proof (indice_mes_ano_mono d e Hv Hve ltac:(lia)).
  repeat split; [by apply strptime_strftime; [|lia] | lia | lia].
Qed.

Lemma ano_mes_de_indice_data e : data_valida e = true -> ano_mes_de_indice (indice_mes e) = (ano e, mes e).
Proof.
  intros (_ & Hm & _)%data_valida_iff. unfold ano_mes_de_indice, indice_mes. f_equal.
  - symmetry. apply (Z.div_unique _ _ _ (mes e - 1)); lia.
  - rewrite <- (Z.mod_unique (12 * ano e + (mes e - 1)) 12 (ano e) (mes e - 1)); lia.
Qed.

Lemma iterar_avancar_mes_dia k d e :
  data_valida d = true -> indice_mes d + Z.of_nat k <= indice_max ->
  iterar k avancar_mes d = Ok e -> dia e = dia_apos (indice_mes d) k (dia d).
Proof.
  revert d; induction k as [|k IH]; intros d Hv Hi; simpl; [by intros [= <-]|].
  destruct (avancar_mes_spec d Hv ltac:(lia)) as (e1 & He1 & Hv1 & Hi1 & Hd1).
  rewrite He1. cbn [res_bind]. intros He. rewrite (IH e1 Hv1 ltac:(lia) He), Hi1, Hd1.
  pose proof (ano_mes_de_indice_data _ Hv1) as Hm. rewrite Hi1 in Hm. unfold ano_mes_de_indice in Hm |- *.
  injection Hm as -> ->. done.
Qed.

(** C26: The end date [adicionar_conta_fixa] stores for a bill of [n >= 1]
    installments starting on a parseable date [d] is [n - 1] calendar
    months after it, on the day [dia_apos]: [d]'s day clamped in turn to
    the length of every month the loop passes through.  The clamp is
    cumulative: from the 31st of January, three installments end on the
    29th of March, not on the 31st. *)
Theorem calcular_data_fim_dia di n d :
  strptime_dmY di = Ok d -> 1 <= n -> indice_mes d + (n - 1) <= indice_max ->
  exists e, calcular_data_fim di n = Ok (strftime_dmY e) /\ data_valida e = true /\
    indice_mes e = indice_mes d + (n - 1) /\
    dia e = dia_apos (indice_mes d) (Z.to_nat (n - 1)) (dia d).
Proof.
  intros Hp Hn Hi. pose proof (strptime_dmY_valida _ _ Hp) as Hv.
  destruct (iterar_avancar_mes (Z.to_nat (n - 1)) d Hv ltac:(lia)) as (e & He & Hve & Hie & _).
  exists e. unfold calcular_data_fim. rewrite Hp. cbn [res_bind]. rewrite He.
  split_and!; [done | done | lia | exact (iterar_avancar_mes_dia (Z.to_nat (n - 1)) d e Hv ltac:(lia) He)].
Qed.

(** From 31/01/2024, three installments end on 29/03/2024. *)
Example calcular_data_fim_31_jan :
  calcular_data_fim "31/01/2024"%string 3 = Ok "29/03/2024"%string.
Proof. vm_compute. reflexivity. Qed.

Lemma calcular_data_fim_dia_witness :
  exists e, calcular_data_fim "31/01/2024" 3 = Ok (strftime_dmY e) /\ data_valida e = true /\
    indice_mes e = indice_mes (mkData 2024 1 31) + (3 - 1) /\
    dia e = dia_apos (indice_mes (mkData 2024 1 31)) (Z.to_nat (3 - 1)) (dia (mkData 2024 1 31)).
Proof. apply calcular_data_fim_dia; [vm_compute; reflexivity | lia | vm_compute; discriminate]. Defined.

(** ** Installment amounts *)

Lemma valor_parcela_Ok c :
  num_parcelas c <> 0 ->
  valor_parcela c = Ok (valor_total_parcelado c / inject_Z (num_parcelas c))%Q.
Proof. intros Hn. unfold valor_parcela. by rewrite (proj2 (Z.eqb_neq _ _) Hn). Qed.

(** [n] installments add up to the total, with or without interest. *)
Lemma valor_parcela_conserva c v :
  valor_parcela c = Ok v ->
  (inject_Z (num_parcelas c) * v == valor_total_parcelado c)%Q.
Proof.
  unfold valor_parcela. destruct (Z.eqb_spec (num_parcelas c) 0) as [|Hn];
    [discriminate|]. intros [= <-].
  pose proof (inject_Z_nz _ Hn).
  field. done.
Qed.

(** An installment is the share of the principal plus the share of the
    interest shown in the history table. *)
Lemma valor_parcela_juros c v j :
  valor_parcela c = Ok v -> juros_por_parcela c = Ok j ->
  (v == c_valor c / inject_Z (num_parcelas c) + j)%Q.
Proof.
  unfold valor_parcela, juros_por_parcela, valor_total_parcelado.
  destruct (Z.eqb_spec (num_parcelas c) 0) as [|Hn]; [discriminate|].
  pose proof (inject_Z_nz _ Hn).
  destruct (c_valor_com_juros c); intros [= <-] [= <-]; field; done.
Qed.

(** The installment branch never touches the id. *)
Lemma preparar_parcelamento_id c c' : preparar_parcelamento c = Ok c' -> c_id c' = c_id c.
Proof.
  unfold preparar_parcelamento. destruct (conta_parcelada c); [|by intros [=<-]].
  destruct c as [i de v r di df m a dl p n j h pg dp]; simpl.
  destruct di as [di|]; [|by intros [=<-]].
  intros (s & _ & [=<-])%res_bind_Ok. reflexivity.
Qed.

(** ... nor the payment history. *)
Lemma preparar_parcelamento_historico c c' :
  preparar_parcelamento c = Ok c' -> c_historico c' = c_historico c.
Proof.
  unfold preparar_parcelamento. destruct (conta_parcelada c); [|by intros [=<-]].
  destruct c as [i de v r di df m a dl p n j h pg dp]; simpl.
  destruct di as [di|]; [|by intros [=<-]].
  intros (s & _ & [=<-])%res_bind_Ok. reflexivity.
Qed.

(** What [adicionar_conta_fixa] stores for an installment bill with a
    readable start date: the derived end date, [num_parcelas - 1] months
    after the start, and the fields the installment totals read, unchanged. *)
Lemma preparar_parcelamento_spec c c' di inicio :
  conta_parcelada c = true -> c_data_inicio c = Some di -> strptime_dmY di = Ok inicio ->
  1000 <= ano inicio -> 1 <= num_parcelas c -> indice_mes inicio + (num_parcelas c - 1) <= indice_max ->
  preparar_parcelamento c = Ok c' ->
  exists e, c_data_fim c' = Some (strftime_dmY e) /\ strptime_dmY (strftime_dmY e) = Ok e /\
    indice_mes e = indice_mes inicio + (num_parcelas c - 1) /\
    c_recorrente c' = c_recorrente c /\ c_data_inicio c' = Some di /\
    num_parcelas c' = num_parcelas c /\ conta_parcelada c' = true /\
    valor_total_parcelado c' = valor_total_parcelado c /\ c_id c' = c_id c.
Proof.
  intros Hp Hdi Hi Hy Hn Hmax.
  destruct (calcular_data_fim_mes di (num_parcelas c) inicio Hi Hn Hy Hmax) as (e & He & Hpe & Hie & _).
  unfold preparar_parcelamento. rewrite Hp.
  destruct c as [i de v r di0 df m a dl p n j h pg dp]; simpl in *. subst di0.
  unfold num_parcelas in He. simpl in He. rewrite He. intros [= <-].
  exists e. by unfold num_parcelas, conta_parcelada, valor_total_parcelado.
Qed.

(** ** Concrete runs *)

Lemma calcular_data_fim_mes_witness :
  exists e, calcular_data_fim "15/11/2024"%string 3 = Ok (strftime_dmY e) /\
    strptime_dmY (strftime_dmY e) = Ok e /\
    indice_mes e = indice_mes (mkData 2024 11 15) + (3 - 1) /\ dia e <= 15.
Proof.
  apply (calcular_data_fim_mes "15/11/2024"%string 3 (mkData 2024 11 15));
    [vm_compute; reflexivity | lia | simpl; lia | vm_compute; congruence].
Defined.

Lemma avancar_mes_formulario_equiv_witness :
  avancar_mes_formulario (mkData 2024 12 31) = avancar_mes (mkData 2024 12 31).
Proof. apply avancar_mes_formulario_equiv. vm_compute. reflexivity. Defined.

Definition conta_parcelada_exemplo : Conta :=
  mkConta 7 "Notebook" 1000 (Some true) (Some "01/01/2024"%string) None None None None
    (Some true) (Some 10) (Some 1100%Q) None None None.

(** 1000 in 10 installments with 1100 total: 110 per installment, of which
    10 is interest. *)
Lemma valor_parcela_juros_witness :
  exists v j, valor_parcela conta_parcelada_exemplo = Ok v /\
    juros_por_parcela conta_parcelada_exemplo = Ok j /\ (v == 110)%Q /\ (j == 10)%Q /\
    (v == c_valor conta_parcelada_exemplo / inject_Z (num_parcelas conta_parcelada_exemplo) + j)%Q.
Proof.
  eexists _, _. split; [reflexivity|]. split; [reflexivity|].
  split; [vm_compute; reflexivity|]. split; [vm_compute; reflexivity|].
  apply valor_parcela_juros; reflexivity.
Defined.

Lemma valor_parcela_conserva_witness :
  exists v, valor_parcela conta_parcelada_exemplo = Ok v /\
    (inject_Z (num_parcelas conta_parcelada_exemplo) * v == valor_total_parcelado conta_parcelada_exemplo)%Q.
Proof. eexists. split; [reflexivity|]. apply valor_parcela_conserva. reflexivity. Defined.
