(* ===== verification/Store.v ===== *)
(** * Store: the three JSON documents and the add/update/delete operations

    [DataManager] keeps no state of its own: every operation reads a whole
    document ([carregar_dados]: the parsed array, or [[]] when the file is
    missing or not valid JSON), changes the list in memory and writes the
    whole document back ([salvar_dados]).  The persisted state is
    [Arquivos], one [Documento] per file.

    The interface between the CRUD code and the documents is the class
    [Colecao S A] (read the list of [A]s of a state, replace it), with its
    two laws; the CRUD operations are written once, for any [HasId A] and
    [Colecao S A], and instantiated for the three files, as the source
    repeats the same loops three times.

    - [gerar_id] is [_gerar_id]: [max(ids, 0) + 1], and [1] on [[]].
    - [adicionar], [atualizar], [excluir] are [adicionar_gasto] /
      [atualizar_gasto] / [excluir_gasto] and their copies; the fixed-bill
      versions also run [Installments.preparar_parcelamento], which can raise,
      in which case nothing is written.

    Theorems: the id invariant (ids pairwise distinct and positive) is
    preserved by every operation; the new id is fresh and is
    [max + 1]; update preserves every id and is a no-op on a missing id;
    delete removes exactly the records with that id; and two adds whose
    reads and writes interleave lose the first one ([adicionar_intercalado]). *)

From Stdlib Require Import ZArith QArith String Lia.
From stdpp Require Import base list.
From S2P Require Import Prelude PyDate Records Installments.

Local Open Scope Z_scope.

(** ** Documents *)

(** A JSON file: missing, present but not parseable, or an array. *)
Inductive Documento (A : Type) : Type :=
| Ausente
| Corrompido
| Valido (l : list A).
Arguments Ausente {A}.
Arguments Corrompido {A}.
Arguments Valido {A} l.

(** [carregar_dados]: [JSONDecodeError] and [FileNotFoundError] give [[]]. *)
Definition carregar_dados {A} (d : Documento A) : list A :=
  match d with
  | Valido l => l
  | _ => []
  end.

(** [verificar_arquivos], for one file: a missing file is created as [[]]. *)
Definition verificar_arquivo {A} (d : Documento A) : Documento A :=
  match d with
  | Ausente => Valido []
  | _ => d
  end.

Record Arquivos := mkArquivos {
  arq_gastos : Documento Gasto;
  arq_receitas : Documento Receita;
  arq_contas : Documento Conta
}.

(** [DataManager.verificar_arquivos]. *)
Definition verificar_arquivos (s : Arquivos) : Arquivos :=
  mkArquivos (verificar_arquivo (arq_gastos s)) (verificar_arquivo (arq_receitas s))
    (verificar_arquivo (arq_contas s)).

(** ** The attributes of a [DataManager]

    The names an instance answers to: the methods the class defines
    (data_manager.py 13-628) and the attributes [__init__] sets (16-45).
    [self.data_manager.<nome>] on any other name raises [AttributeError]
    before any call. *)
Definition atributos_DataManager : list string :=
  ["modo_teste"; "data_dir"; "gastos_file"; "receitas_file"; "contas_fixas_file"; "categorias";
   "__init__"; "verificar_arquivos"; "carregar_dados"; "salvar_dados";
   "obter_gastos"; "adicionar_gasto"; "atualizar_gasto"; "excluir_gasto";
   "obter_receitas"; "adicionar_receita"; "atualizar_receita"; "excluir_receita";
   "obter_contas_fixas"; "adicionar_conta_fixa"; "atualizar_conta_fixa"; "excluir_conta_fixa";
   "marcar_conta_como_paga"; "verificar_conta_paga"; "obter_data_pagamento";
   "obter_gastos_por_periodo"; "obter_receitas_por_periodo"; "obter_contas_fixas_por_periodo";
   "calcular_total_gastos"; "calcular_total_receitas"; "calcular_total_contas_fixas"; "calcular_saldo";
   "obter_gastos_por_categoria"; "_gerar_id"; "obter_meses_anos_disponiveis";
   "obter_dados_para_historico"]%string.

(** The attribute lookup [self.data_manager.<nome>]. *)
Definition atributo_DataManager (nome : string) : res unit :=
  if existsb (String.eqb nome) atributos_DataManager then Ok tt else Err AttributeError.

(** The expense forms ask for a method the class does not have. *)
Lemma obter_categorias_gastos_ausente : atributo_DataManager "obter_categorias_gastos" = Err AttributeError.
Proof. reflexivity. Qed.

(** ** The collection interface *)

Class Colecao (S A : Type) := {
  ler : S -> list A;
  gravar : list A -> S -> S;
  ler_gravar : forall l s, ler (gravar l s) = l;
  gravar_gravar : forall l1 l2 s, gravar l2 (gravar l1 s) = gravar l2 s
}.

(** [obter_gastos] / [salvar_dados(self.gastos_file, ...)] and the other
    two files. *)
#[export] Instance colecao_gastos : Colecao Arquivos Gasto := {
  ler s := carregar_dados (arq_gastos s);
  gravar l s := mkArquivos (Valido l) (arq_receitas s) (arq_contas s);
  ler_gravar _ _ := eq_refl;
  gravar_gravar _ _ _ := eq_refl
}.

#[export] Instance colecao_receitas : Colecao Arquivos Receita := {
  ler s := carregar_dados (arq_receitas s);
  gravar l s := mkArquivos (arq_gastos s) (Valido l) (arq_contas s);
  ler_gravar _ _ := eq_refl;
  gravar_gravar _ _ _ := eq_refl
}.

#[export] Instance colecao_contas : Colecao Arquivos Conta := {
  ler s := carregar_dados (arq_contas s);
  gravar l s := mkArquivos (arq_gastos s) (arq_receitas s) (Valido l);
  ler_gravar _ _ := eq_refl;
  gravar_gravar _ _ _ := eq_refl
}.

(** ** The generic operations *)

Section Crud.
Context {S A : Type} `{!HasId A} `{!Colecao S A}.

(** [_gerar_id] (data_manager.py 471-483). *)
Definition gerar_id (l : list A) : Z :=
  match l with
  | [] => 1
  | _ => fold_left (fun maior x => if obter_id x >? maior then obter_id x else maior) l 0 + 1
  end.

(** [adicionar_gasto] (data_manager.py 86-94). *)
Definition adicionar (x : A) (s : S) : S :=
  let l := ler s in
  gravar (l ++ [definir_id (gerar_id l) x]) s.

(** The loop of [atualizar_gasto] (data_manager.py 100-104): the first
    record with the id is replaced by [novo], computed only then (it can
    raise in the fixed-bill version). *)
Fixpoint substituir (i : Z) (novo : res A) (l : list A) : res (list A) :=
  match l with
  | [] => Ok []
  | y :: ys =>
      if obter_id y =? i then x <- novo ;; Ok (x :: ys)
      else ys' <- substituir i novo ys ;; Ok (y :: ys')
  end.

(** [atualizar_gasto] (data_manager.py 96-106). *)
Definition atualizar (i : Z) (x : A) (s : S) : res S :=
  l <- substituir i (Ok (definir_id i x)) (ler s) ;; Ok (gravar l s).

(** [excluir_gasto] (data_manager.py 108-112). *)
Definition excluir (i : Z) (s : S) : S :=
  gravar (filter (fun y => obter_id y <> i) (ler s)) s.

(** The invariant of a collection: ids are pairwise distinct and
    positive. *)
Definition ids_validos (l : list A) : Prop :=
  NoDup (map obter_id l) /\ Forall (fun x => 0 < obter_id x) l.

Definition maior_id (l : list A) : Z := fold_right Z.max 0 (map obter_id l).
End Crud.

(** ** The entity-specific operations *)

Definition adicionar_gasto : Gasto -> Arquivos -> Arquivos := adicionar.
Definition atualizar_gasto : Z -> Gasto -> Arquivos -> res Arquivos := atualizar.
Definition excluir_gasto : Z -> Arquivos -> Arquivos := excluir (A := Gasto).

Definition adicionar_receita : Receita -> Arquivos -> Arquivos := adicionar.
Definition atualizar_receita : Z -> Receita -> Arquivos -> res Arquivos := atualizar.
Definition excluir_receita : Z -> Arquivos -> Arquivos := excluir (A := Receita).

(** [adicionar_conta_fixa] (data_manager.py 152-185): the id is assigned,
    then the installment branch runs; an exception there writes nothing. *)
Definition adicionar_conta_fixa (c : Conta) (s : Arquivos) : res Arquivos :=
  let l := ler s in
  c' <- preparar_parcelamento (definir_id (gerar_id l) c) ;;
  Ok (gravar (l ++ [c']) s).

(** [atualizar_conta_fixa] (data_manager.py 187-223). *)
Definition atualizar_conta_fixa (i : Z) (c : Conta) (s : Arquivos) : res Arquivos :=
  l <- substituir i (preparar_parcelamento (definir_id i c)) (ler s) ;; Ok (gravar l s).

(** [excluir_conta_fixa] (data_manager.py 225-229). *)
Definition excluir_conta_fixa : Z -> Arquivos -> Arquivos := excluir (A := Conta).

(** ** Lemmas *)

Section CrudLemmas.
Context {S A : Type} `{!HasId A} `{!Colecao S A}.

Lemma maior_id_nonneg (l : list A) : 0 <= maior_id l.
Proof. unfold maior_id. induction l; simpl; lia. Qed.

Lemma maior_id_ge (l : list A) x : x ∈ l -> obter_id x <= maior_id l.
Proof.
  unfold maior_id. induction l as [|y l IH]; intros Hx; [by apply elem_of_nil in Hx|].
  apply elem_of_cons in Hx as [->|Hx]; simpl; [lia|]. specialize (IH Hx). lia.
Qed.

Lemma fold_maior_id (l : list A) m :
  0 <= m ->
  fold_left (fun maior x => if obter_id x >? maior then obter_id x else maior) l m
  = Z.max m (maior_id l).
Proof.
  unfold maior_id. revert m; induction l as [|x l IH]; intros m Hm; simpl; [lia|].
  rewrite IH by (case_match; lia). destruct (Z.gtb_spec (obter_id x) m); lia.
Qed.

(** [_gerar_id] is one more than the largest id, counting 0. *)
Lemma gerar_id_maior (l : list A) : gerar_id l = maior_id l + 1.
Proof.
  destruct l as [|x l']; [reflexivity|]. unfold gerar_id.
  rewrite fold_maior_id by lia. pose proof (maior_id_nonneg (x :: l')). lia.
Qed.

Lemma gerar_id_fresco (l : list A) x : x ∈ l -> obter_id x < gerar_id l.
Proof. intros Hx. rewrite gerar_id_maior. pose proof (maior_id_ge l x Hx). lia. Qed.

Lemma gerar_id_pos (l : list A) : 0 < gerar_id l.
Proof. rewrite gerar_id_maior. pose proof (maior_id_nonneg l). lia. Qed.

Lemma ids_validos_snoc (l : list A) x :
  ids_validos l -> (forall y, y ∈ l -> obter_id y < obter_id x) -> 0 < obter_id x ->
  ids_validos (l ++ [x]).
Proof.
  intros [Hnd Hpos] Hlt Hx. split.
  - rewrite map_app. apply NoDup_app. split; [done|]. split; [|apply NoDup_singleton].
    intros i Hi ->%list_elem_of_singleton.
    apply list_elem_of_In, in_map_iff in Hi as (y & Hy & Hin).
    apply list_elem_of_In in Hin. specialize (Hlt y Hin). lia.
  - apply Forall_app. split; [done|]. by apply Forall_singleton.
Qed.

(** Adding keeps the invariant and gives the new record the fresh id. *)
Lemma adicionar_ids (x : A) (s : S) :
  ids_validos (ler s) ->
  ler (adicionar x s) = ler s ++ [definir_id (gerar_id (ler s)) x] /\
  ids_validos (ler (adicionar x s)).
Proof.
  intros Hv. unfold adicionar. rewrite ler_gravar. split; [done|].
  apply ids_validos_snoc; [done | | ]; rewrite obter_definir;
    [apply gerar_id_fresco | apply gerar_id_pos].
Qed.

(** The replacement loop keeps every id when the new record carries the
    id it replaces. *)
Lemma substituir_ids i (novo : res A) (l l' : list A) :
  (forall x, novo = Ok x -> obter_id x = i) ->
  substituir i novo l = Ok l' -> map obter_id l' = map obter_id l.
Proof.
  intros Hnovo. revert l'; induction l as [|y l IH]; intros l' H; simpl in H.
  - by injection H as <-.
  - destruct (Z.eqb_spec (obter_id y) i) as [Hy|Hy].
    + apply res_bind_Ok in H as (x & Hx & [= <-]). simpl. by rewrite (Hnovo x Hx), Hy.
    + apply res_bind_Ok in H as (l'' & Hl & [= <-]). simpl. by rewrite (IH _ Hl).
Qed.

Lemma substituir_ausente i (novo : res A) (l : list A) :
  (forall y, y ∈ l -> obter_id y <> i) -> substituir i novo l = Ok l.
Proof.
  induction l as [|y l IH]; intros H; [done|]. simpl.
  rewrite (proj2 (Z.eqb_neq _ _) (H y ltac:(left))).
  rewrite IH; [done|]. intros z Hz. apply H. by right.
Qed.

Lemma ids_validos_map (l l' : list A) :
  map obter_id l' = map obter_id l -> ids_validos l -> ids_validos l'.
Proof.
  intros Hm [Hnd Hpos]. split; [by rewrite Hm|].
  apply Forall_forall. intros x Hx. apply list_elem_of_In in Hx.
  assert (Hin : In (obter_id x) (map obter_id l)) by (rewrite <- Hm; by apply in_map).
  apply in_map_iff in Hin as (y & Hy & Hyl). rewrite <- Hy.
  apply (proj1 (Forall_forall _ _) Hpos). by apply list_elem_of_In.
Qed.

(** Deleting removes exactly the records with that id. *)
Lemma excluir_elem i (s : S) y :
  y ∈ ler (excluir i s) <-> y ∈ ler s /\ obter_id y <> i.
Proof. unfold excluir. rewrite ler_gravar, list_elem_of_filter. tauto. Qed.

Lemma excluir_ids i (s : S) : ids_validos (ler s) -> ids_validos (ler (excluir i s)).
Proof.
  unfold excluir. rewrite ler_gravar. intros [Hnd Hpos]. split.
  - by apply NoDup_map_filter.
  - apply Forall_forall. intros x Hx. apply list_elem_of_filter in Hx as [_ Hx].
    by apply (proj1 (Forall_forall _ _) Hpos).
Qed.
(** The loop replaces the record a [for ... if d['id'] == i: break]
    search finds: the first one with the id. *)
Lemma substituir_encontrar i (novo : res A) (l : list A) y :
  find (fun z => obter_id z =? i) l = Some y ->
  exists l1 l2, l = l1 ++ y :: l2 /\ substituir i novo l = (x <- novo ;; Ok (l1 ++ x :: l2)).
Proof.
  induction l as [|z l IH]; simpl; [done|]. destruct (obter_id z =? i).
  - intros [= ->]. by exists [], l.
  - intros Hf. destruct (IH Hf) as (l1 & l2 & -> & ->). exists (z :: l1), l2.
    split; [done|]. by destruct novo.
Qed.
(** What the loop writes: the records it read, or the new one. *)
Lemma substituir_elem i x (l l' : list A) :
  substituir i (Ok x) l = Ok l' -> forall y, y ∈ l' -> y ∈ l \/ y = x.
Proof.
  revert l'; induction l as [|z l IH]; intros l' H y Hy; simpl in H.
  - injection H as <-. by apply not_elem_of_nil in Hy.
  - destruct (obter_id z =? i); cbn [res_bind] in H.
    + injection H as <-. apply elem_of_cons in Hy as [->|Hy]; [by right|].
      left. by apply elem_of_cons; right.
    + destruct (substituir i (Ok x) l) as [l''|] eqn:Hl; [|done]. injection H as <-.
      apply elem_of_cons in Hy as [->|Hy]; [left; by (apply elem_of_cons; left)|].
      destruct (IH l'' eq_refl y Hy) as [Hy' | ->]; [left; by (apply elem_of_cons; right) | by right].
Qed.

End CrudLemmas.

(** ** The operations keep the id invariant *)

Section Invariante.
Context {S A : Type} `{!HasId A} `{!Colecao S A}.

Lemma atualizar_ids i (x : A) (s s' : S) :
  ids_validos (ler s) -> atualizar i x s = Ok s' -> ids_validos (ler s').
Proof.
  unfold atualizar. intros Hv (l & Hl & <-%Ok_inj)%res_bind_Ok. rewrite ler_gravar.
  eapply ids_validos_map; [|exact Hv].
  eapply substituir_ids; [|exact Hl]. intros y [= <-]. apply obter_definir.
Qed.

(** Updating a missing id writes the collection back unchanged. *)
Lemma atualizar_ausente i (x : A) (s : S) :
  (forall y, y ∈ ler s -> obter_id y <> i) -> atualizar i x s = Ok (gravar (ler s) s).
Proof. intros H. unfold atualizar. by rewrite substituir_ausente. Qed.

(** The two halves of [adicionar]: what was read, and the write. *)
Definition adicionar_escrita (l : list A) (x : A) (s : S) : S :=
  gravar (l ++ [definir_id (gerar_id l) x]) s.

Lemma adicionar_fases (x : A) (s : S) : adicionar x s = adicionar_escrita (ler s) x s.
Proof. reflexivity. Qed.
End Invariante.

Lemma adicionar_conta_fixa_ids c s s' :
  ids_validos (ler (A := Conta) s) -> adicionar_conta_fixa c s = Ok s' ->
  ids_validos (ler (A := Conta) s').
Proof.
  unfold adicionar_conta_fixa. intros Hv (c' & Hc' & <-%Ok_inj)%res_bind_Ok.
  rewrite ler_gravar. apply preparar_parcelamento_id in Hc'.
  assert (Hid : obter_id c' = gerar_id (ler s)) by exact (eq_trans Hc' (obter_definir _ _)).
  apply ids_validos_snoc; [done | intros y Hy | ]; rewrite Hid;
    [by apply gerar_id_fresco | apply gerar_id_pos].
Qed.

Lemma atualizar_conta_fixa_ids i c s s' :
  ids_validos (ler (A := Conta) s) -> atualizar_conta_fixa i c s = Ok s' ->
  ids_validos (ler (A := Conta) s').
Proof.
  unfold atualizar_conta_fixa. intros Hv (l & Hl & <-%Ok_inj)%res_bind_Ok. rewrite ler_gravar.
  eapply ids_validos_map; [|exact Hv]. eapply substituir_ids; [|exact Hl].
  intros y Hy%preparar_parcelamento_id. exact (eq_trans Hy (obter_definir _ _)).
Qed.

(** Two adds whose reads both happen before either write: the second write
    replaces the first, so the first record is lost, and both records were
    given the same id. *)
Theorem adicionar_intercalado {S A} `{!HasId A} `{!Colecao S A} (x1 x2 : A) (s : S) :
  let l := ler s in
  ler (adicionar_escrita l x2 (adicionar_escrita l x1 s)) = l ++ [definir_id (gerar_id l) x2].
Proof. simpl. unfold adicionar_escrita. by rewrite gravar_gravar, ler_gravar. Qed.

#[export] Instance ids_validos_dec {A} `{!HasId A} (l : list A) : Decision (ids_validos l).
Proof. unfold ids_validos. apply _. Defined.

(** The largest id of a non-empty list, without the 0 of [maior_id]. *)
Definition maior_id_lista {A} `{!HasId A} (l : list A) : Z :=
  match map obter_id l with
  | [] => 0
  | i :: ids => fold_left Z.max ids i
  end.

Lemma fold_max_pos (ids : list Z) i :
  0 <= i -> Forall (fun j => 0 <= j) ids ->
  Z.max i (fold_right Z.max 0 ids) = fold_left Z.max ids i.
Proof.
  revert i; induction ids as [|j ids IH]; intros i Hi Hids; simpl; [lia|].
  apply Forall_cons in Hids as [Hj Hids]. rewrite <- (IH (Z.max i j)); [lia | lia | exact Hids].
Qed.

(** C36: [_gerar_id] as the spec states it: 1 for an empty collection, and the
    largest existing id plus one when the ids are positive. *)
Theorem gerar_id_spec {A} `{!HasId A} (l : list A) :
  (l = [] -> gerar_id l = 1) /\
  (l <> [] -> Forall (fun x => 0 < obter_id x) l -> gerar_id l = maior_id_lista l + 1).
Proof.
  split; [by intros ->|]. intros Hne Hpos. rewrite gerar_id_maior. f_equal.
  unfold maior_id, maior_id_lista. destruct l as [|x l]; [done|]. simpl.
  apply Forall_cons in Hpos as [Hx Hl]. cbv beta in Hx. apply fold_max_pos; [lia|].
  apply Forall_forall. intros j Hj. apply list_elem_of_In, in_map_iff in Hj as (y & <- & Hy).
  apply list_elem_of_In in Hy. pose proof (proj1 (Forall_forall _ _) Hl y Hy). simpl in *. lia.
Qed.

Lemma gerar_id_spec_witness :
  gerar_id [mkGasto 3 "Luz" 90 "Moradia" "05/03/2024"; mkGasto 7 "Taxi" 25 "Transporte" "06/03/2024"]
  = maior_id_lista [mkGasto 3 "Luz" 90 "Moradia" "05/03/2024"; mkGasto 7 "Taxi" 25 "Transporte" "06/03/2024"] + 1.
Proof.
  apply (proj2 (gerar_id_spec _)); [discriminate | repeat constructor; simpl; lia].
Defined.
