(* ===== verification/Ledger.v ===== *)
(** * Ledger: paid/unpaid status of a fixed bill per period

    [DataManager.marcar_conta_como_paga] (data_manager.py 231-257) loads the
    bills, finds the first one with the id, creates its
    [historico_pagamentos] if missing, and either writes
    [{pago: True, data_pagamento: ...}] under the token [f"{mes:02d}/{ano}"]
    or deletes that token; the whole list is written back even when no bill
    has the id.  [verificar_conta_paga] (259-275) asks whether the token is
    a key of the first bill with the id; [obter_data_pagamento] (277-294)
    returns the stored date.

    The abstract contract is the per-period machine [estado_periodo]
    (Pendente / Pago d) driven by [acao]s: the last action wins.  The
    refinement theorem [marcar_refina] shows that, on a store whose ids are
    valid, one call of [marcar_conta_como_paga] moves the observed state of
    its own (bill, month, year) by [passo_periodo] and leaves every other
    (bill, month, year) observation unchanged; [marcar_sequencia] lifts it
    to any sequence of calls.  The payment-date default ([data_pagamento or
    today]) is resolved by [data_pagamento_efetiva]. *)

From Stdlib Require Import ZArith QArith String Ascii Lia.
From stdpp Require Import base gmap strings list.
From S2P Require Import Prelude PyDate Records Installments Store.

Local Open Scope Z_scope.

(** ** The operations *)

(** [f"{mes:02d}/{ano}"] (data_manager.py 242, 270, 288). *)
Definition chave_mes_ano (mes ano : Z) : string :=
  pad02 mes ++ String "/"%char (str_int ano).

(** [data_pagamento or dt.now().strftime("%d/%m/%Y")]: [None] and the empty
    string are falsy. *)
Definition data_pagamento_efetiva (data_pagamento : option string) (hoje : data) : string :=
  match data_pagamento with
  | Some d => if String.eqb d EmptyString then strftime_dmY hoje else d
  | None => strftime_dmY hoje
  end.

(** The body of the loop of [marcar_conta_como_paga] on the bill found
    (data_manager.py 237-253). *)
Definition marcar_na_conta (mes ano : Z) (status_pago : bool) (dp : string) (c : Conta) : Conta :=
  let h := default ∅ (c_historico c) in
  let k := chave_mes_ano mes ano in
  conta_com_historico
    (if status_pago then <[k := mkPagamento true dp]> h else delete k h) c.

(** [for conta in contas: if conta['id'] == conta_id: ...; break]. *)
Fixpoint alterar_primeira (i : Z) (f : Conta -> Conta) (l : list Conta) : list Conta :=
  match l with
  | [] => []
  | c :: cs => if c_id c =? i then f c :: cs else c :: alterar_primeira i f cs
  end.

(** [marcar_conta_como_paga(conta_id, mes, ano, status_pago, data_pagamento)]
    (data_manager.py 231-257); [hoje] is the date of [dt.now()]. *)
Definition marcar_conta_como_paga (conta_id mes ano : Z) (status_pago : bool)
    (data_pagamento : option string) (hoje : data) (s : Arquivos) : Arquivos :=
  let dp := data_pagamento_efetiva data_pagamento hoje in
  gravar (alterar_primeira conta_id (marcar_na_conta mes ano status_pago dp) (ler s)) s.

(** [verificar_conta_paga] (data_manager.py 259-275): only the first bill
    with the id is consulted. *)
Definition verificar_conta_paga (conta_id mes ano : Z) (s : Arquivos) : bool :=
  match find (fun c => c_id c =? conta_id) (ler s) with
  | Some c =>
      match c_historico c with
      | Some h => bool_decide (is_Some (h !! chave_mes_ano mes ano))
      | None => false
      end
  | None => false
  end.

(** The loop of [obter_data_pagamento] (data_manager.py 281-292): a bill
    with the id but without the token does not stop the loop. *)
Fixpoint data_pagamento_lista (conta_id : Z) (k : string) (l : list Conta) : option string :=
  match l with
  | [] => None
  | c :: cs =>
      if c_id c =? conta_id then
        match c_historico c with
        | None => None
        | Some h =>
            match h !! k with
            | Some p => Some (pg_data_pagamento p)
            | None => data_pagamento_lista conta_id k cs
            end
        end
      else data_pagamento_lista conta_id k cs
  end.

(** [obter_data_pagamento] (data_manager.py 277-294). *)
Definition obter_data_pagamento (conta_id mes ano : Z) (s : Arquivos) : option string :=
  data_pagamento_lista conta_id (chave_mes_ano mes ano) (ler s).

(** ** The abstract per-period contract *)

Inductive estado_periodo : Type :=
| Pendente
| Pago (data_pagamento : string).

Inductive acao : Type :=
| AcaoPagar (data_pagamento : string)
| AcaoPendente.

(** Paying records the date (over any earlier one); marking pending
    forgets it. *)
Definition passo_periodo (e : estado_periodo) (a : acao) : estado_periodo :=
  match a with
  | AcaoPagar d => Pago d
  | AcaoPendente => Pendente
  end.

(** What the two queries observe of one (bill, month, year). *)
Definition observar (s : Arquivos) (i mes ano : Z) : estado_periodo :=
  if verificar_conta_paga i mes ano s then
    match obter_data_pagamento i mes ano s with
    | Some d => Pago d
    | None => Pendente
    end
  else Pendente.

(** The call that performs an abstract action. *)
Definition executar (i mes ano : Z) (hoje : data) (a : acao) (s : Arquivos) : Arquivos :=
  match a with
  | AcaoPagar d => marcar_conta_como_paga i mes ano true (Some d) hoje s
  | AcaoPendente => marcar_conta_como_paga i mes ano false None hoje s
  end.

(** An [AcaoPagar] with an empty date pays with today's date. *)
Definition acao_efetiva (hoje : data) (a : acao) : acao :=
  match a with
  | AcaoPagar d => AcaoPagar (data_pagamento_efetiva (Some d) hoje)
  | AcaoPendente => AcaoPendente
  end.

(** The payment entry of the first bill with the id, for a token. *)
Definition entrada (i : Z) (k : string) (l : list Conta) : option Pagamento :=
  match find (fun c => c_id c =? i) l with
  | Some c => match c_historico c with Some h => h !! k | None => None end
  | None => None
  end.

(** Reading a payment token back. *)
Definition ler_chave (k : string) : option (Z * Z) :=
  match separa_barra k with
  | Some (a, b) =>
      match decimal_de_str a, decimal_de_str b with
      | Some m, Some y => Some (m, y)
      | _, _ => None
      end
  | None => None
  end.

(** ** The payment token *)

(** The token [f"{mes:02d}/{ano}"] determines its period: split at the
    first ['/'], its two halves read back as [mes] and [ano]. *)
Lemma ler_chave_mes_ano mes ano : ler_chave (chave_mes_ano mes ano) = Some (mes, ano).
Proof.
  unfold ler_chave, chave_mes_ano. rewrite separa_barra_app by apply sem_barra_pad02.
  by rewrite decimal_de_pad02, decimal_de_str_int.
Qed.

Lemma chave_mes_ano_inj m1 a1 m2 a2 :
  chave_mes_ano m1 a1 = chave_mes_ano m2 a2 -> m1 = m2 /\ a1 = a2.
Proof.
  intros H. apply (f_equal separa_barra) in H. unfold chave_mes_ano in H.
  rewrite !separa_barra_app in H by apply sem_barra_pad02.
  injection H as Hm Ha. split; [by apply pad02_inj | by apply str_int_inj].
Qed.

(** ** Finding the bill *)

Lemma alterar_primeira_ids i f l :
  (forall c, c_id (f c) = c_id c) -> map c_id (alterar_primeira i f l) = map c_id l.
Proof.
  intros Hf. induction l as [|c l IH]; [done|]. simpl.
  case_match; simpl; [by rewrite Hf | by rewrite IH].
Qed.

Lemma alterar_primeira_ausente i f l :
  find (fun c => c_id c =? i) l = None -> alterar_primeira i f l = l.
Proof.
  induction l as [|c l IH]; [done|]. simpl. destruct (Z.eqb_spec (c_id c) i); [discriminate|].
  intros H. by rewrite IH.
Qed.

Lemma find_alterar_primeira_eq i f l c0 :
  (forall c, c_id (f c) = c_id c) ->
  find (fun c => c_id c =? i) l = Some c0 ->
  find (fun c => c_id c =? i) (alterar_primeira i f l) = Some (f c0).
Proof.
  intros Hf. induction l as [|c l IH]; [discriminate|]. simpl.
  destruct (Z.eqb_spec (c_id c) i) as [Hc|Hc].
  - intros [= <-]. simpl. by rewrite Hf, Hc, Z.eqb_refl.
  - intros H. simpl. rewrite (proj2 (Z.eqb_neq _ _) Hc). by apply IH.
Qed.

Lemma find_alterar_primeira_ne i j f l :
  (forall c, c_id (f c) = c_id c) -> i <> j ->
  find (fun c => c_id c =? j) (alterar_primeira i f l) = find (fun c => c_id c =? j) l.
Proof.
  intros Hf Hij. induction l as [|c l IH]; [done|]. simpl.
  destruct (Z.eqb_spec (c_id c) i) as [Hc|Hc]; simpl.
  - rewrite Hf, Hc. by rewrite (proj2 (Z.eqb_neq i j) Hij).
  - case_match; [done | apply IH].
Qed.

Lemma data_pagamento_lista_ausente i k l :
  (forall c, c ∈ l -> c_id c <> i) -> data_pagamento_lista i k l = None.
Proof.
  induction l as [|c l IH]; intros H; [done|]. simpl.
  rewrite (proj2 (Z.eqb_neq _ _) (H c ltac:(left))). apply IH.
  intros c' Hc'. apply H. by right.
Qed.

(** With distinct ids, the date loop reads the first bill's entry. *)
Lemma data_pagamento_lista_entrada i k l :
  NoDup (map c_id l) -> data_pagamento_lista i k l = pg_data_pagamento <$> entrada i k l.
Proof.
  unfold entrada. induction l as [|c l IH]; intros Hnd; [done|].
  simpl in Hnd. apply NoDup_cons in Hnd as [Hc Hnd]. simpl.
  destruct (Z.eqb_spec (c_id c) i) as [<-|Hne]; [|by apply IH].
  destruct (c_historico c) as [h|]; [|done].
  destruct (h !! k) as [p|]; [done|]. simpl.
  apply data_pagamento_lista_ausente. intros c' Hc' Heq. apply Hc.
  apply list_elem_of_In, in_map_iff. exists c'. split; [done|]. by apply list_elem_of_In.
Qed.

(** With distinct ids, the observation is a function of [entrada]. *)
Lemma observar_entrada s i mes ano :
  NoDup (map c_id (ler (A := Conta) s)) ->
  observar s i mes ano =
  match entrada i (chave_mes_ano mes ano) (ler s) with
  | Some p => Pago (pg_data_pagamento p)
  | None => Pendente
  end.
Proof.
  intros Hnd. unfold observar, obter_data_pagamento, verificar_conta_paga.
  rewrite data_pagamento_lista_entrada by done. unfold entrada.
  destruct (find _ _) as [c|]; [|done]. destruct (c_historico c) as [h|]; [|done].
  destruct (h !! _); done.
Qed.

Lemma marcar_na_conta_id mes ano b dp c : c_id (marcar_na_conta mes ano b dp c) = c_id c.
Proof. by destruct c. Qed.

#[export] Hint Resolve marcar_na_conta_id : gastos.

Lemma marcar_na_conta_historico mes ano b dp c :
  c_historico (marcar_na_conta mes ano b dp c) =
  Some (let h := default ∅ (c_historico c) in
        if b then <[chave_mes_ano mes ano := mkPagamento true dp]> h
        else delete (chave_mes_ano mes ano) h).
Proof. by destruct c. Qed.

Lemma entrada_default i k l :
  entrada i k l =
  match find (fun c => c_id c =? i) l with
  | Some c => default ∅ (c_historico c) !! k
  | None => None
  end.
Proof. unfold entrada. case_match; [|done]. by destruct (c_historico _). Qed.

(** The entry of the marked period after the call. *)
Lemma entrada_marcar_eq i mes ano b dp l c0 :
  find (fun c => c_id c =? i) l = Some c0 ->
  entrada i (chave_mes_ano mes ano) (alterar_primeira i (marcar_na_conta mes ano b dp) l)
  = if b then Some (mkPagamento true dp) else None.
Proof.
  intros H. unfold entrada.
  rewrite (find_alterar_primeira_eq _ _ _ c0) by auto with gastos.
  rewrite marcar_na_conta_historico. destruct b; simpl.
  - apply lookup_insert_eq.
  - apply lookup_delete_eq.
Qed.

(** Every other (bill, token) entry is unchanged. *)
Lemma entrada_marcar_ne i mes ano b dp l i' k' :
  (i', k') <> (i, chave_mes_ano mes ano) ->
  entrada i' k' (alterar_primeira i (marcar_na_conta mes ano b dp) l) = entrada i' k' l.
Proof.
  intros Hne. destruct (find (fun c => c_id c =? i) l) as [c0|] eqn:Hf;
    [|by rewrite alterar_primeira_ausente].
  destruct (Z.eq_dec i' i) as [->|Hi].
  - assert (Hk : k' <> chave_mes_ano mes ano) by congruence.
    rewrite !entrada_default, Hf.
    rewrite (find_alterar_primeira_eq _ _ _ c0) by auto with gastos.
    rewrite marcar_na_conta_historico. simpl. destruct b.
    + by rewrite lookup_insert_ne by congruence.
    + by rewrite lookup_delete_ne by congruence.
  - unfold entrada. rewrite find_alterar_primeira_ne by auto with gastos. done.
Qed.

(** Marking keeps the id invariant of the bills. *)
Lemma marcar_ids i mes ano b dp hoje s :
  ids_validos (ler (A := Conta) s) ->
  ids_validos (ler (A := Conta) (marcar_conta_como_paga i mes ano b dp hoje s)).
Proof.
  intros Hv. unfold marcar_conta_como_paga. rewrite ler_gravar.
  eapply ids_validos_map; [|exact Hv]. apply alterar_primeira_ids. auto with gastos.
Qed.

Lemma executar_ler i mes ano hoje a s :
  ler (A := Conta) (executar i mes ano hoje a s) =
  alterar_primeira i (marcar_na_conta mes ano
    (match a with AcaoPagar _ => true | AcaoPendente => false end)
    (match acao_efetiva hoje a with AcaoPagar d => d | AcaoPendente => strftime_dmY hoje end))
    (ler s).
Proof. by destruct a. Qed.

(** ** Refinement *)

Lemma observar_executar_eq s i mes ano hoje a c0 :
  ids_validos (ler (A := Conta) s) ->
  find (fun c => c_id c =? i) (ler s) = Some c0 ->
  observar (executar i mes ano hoje a s) i mes ano = passo_periodo (observar s i mes ano) (acao_efetiva hoje a).
Proof.
  intros [Hnd _] Hf.
  assert (Hnd' : NoDup (map c_id (ler (A := Conta) (executar i mes ano hoje a s)))).
  { rewrite executar_ler, alterar_primeira_ids by auto with gastos. exact Hnd. }
  rewrite (observar_entrada _ _ _ _ Hnd'), executar_ler.
  rewrite (entrada_marcar_eq _ _ _ _ _ _ c0 Hf). by destruct a.
Qed.

Lemma observar_executar_ne s i mes ano hoje a i' mes' ano' :
  ids_validos (ler (A := Conta) s) -> (i', mes', ano') <> (i, mes, ano) ->
  observar (executar i mes ano hoje a s) i' mes' ano' = observar s i' mes' ano'.
Proof.
  intros [Hnd _] Hd.
  assert (Hnd' : NoDup (map c_id (ler (A := Conta) (executar i mes ano hoje a s)))).
  { rewrite executar_ler, alterar_primeira_ids by auto with gastos. exact Hnd. }
  rewrite (observar_entrada _ _ _ _ Hnd'), (observar_entrada _ _ _ _ Hnd), executar_ler.
  rewrite entrada_marcar_ne; [done|].
  intros [= -> Hk]. apply chave_mes_ano_inj in Hk as [-> ->]. by apply Hd.
Qed.

(** C1: One call of [marcar_conta_como_paga] on an existing bill performs the
    abstract step on its own (bill, month, year) and leaves every other
    observation unchanged. *)
Theorem marcar_refina s i mes ano hoje a i' mes' ano' c0 :
  ids_validos (ler (A := Conta) s) ->
  find (fun c => c_id c =? i) (ler s) = Some c0 ->
  observar (executar i mes ano hoje a s) i' mes' ano' =
  if decide ((i', mes', ano') = (i, mes, ano))
  then passo_periodo (observar s i mes ano) (acao_efetiva hoje a)
  else observar s i' mes' ano'.
Proof.
  intros Hv Hf. case_decide as Hd.
  - injection Hd as -> -> ->. by eapply observar_executar_eq.
  - by apply observar_executar_ne.
Qed.

(** Marking a bill id that is not in the file writes the same bills back. *)
Theorem marcar_ausente s i mes ano b dp hoje :
  find (fun c => c_id c =? i) (ler (A := Conta) s) = None ->
  ler (A := Conta) (marcar_conta_como_paga i mes ano b dp hoje s) = ler s.
Proof. intros H. unfold marcar_conta_como_paga. by rewrite ler_gravar, alterar_primeira_ausente. Qed.

Lemma executar_ids i mes ano hoje a s :
  ids_validos (ler (A := Conta) s) -> ids_validos (ler (A := Conta) (executar i mes ano hoje a s)).
Proof. destruct a; apply marcar_ids. Qed.

(** A sequence of calls on the same period. *)
Fixpoint executar_todas (i mes ano : Z) (hoje : data) (acts : list acao) (s : Arquivos) : Arquivos :=
  match acts with
  | [] => s
  | a :: acts' => executar_todas i mes ano hoje acts' (executar i mes ano hoje a s)
  end.

(** C2: Any sequence of calls on one period of an existing bill is observed as
    the abstract machine run on the same actions: the last call wins, and a
    date overwritten or deleted is gone. *)
Theorem marcar_sequencia s i mes ano hoje acts c0 :
  ids_validos (ler (A := Conta) s) ->
  find (fun c => c_id c =? i) (ler s) = Some c0 ->
  observar (executar_todas i mes ano hoje acts s) i mes ano =
  fold_left passo_periodo (map (acao_efetiva hoje) acts) (observar s i mes ano).
Proof.
  revert s c0; induction acts as [|a acts IH]; intros s c0 Hv Hf; [done|]. simpl.
  erewrite IH.
  - by rewrite (observar_executar_eq s i mes ano hoje a c0 Hv Hf).
  - by apply executar_ids.
  - rewrite executar_ler. apply find_alterar_primeira_eq; [auto with gastos | exact Hf].
Qed.

(** ** Concrete runs *)

Definition conta_exemplo : Conta :=
  mkConta 5 "Aluguel" 1200 (Some true) (Some "01/01/2024") None None None None
    None None None None None None.

Definition arquivos_exemplo : Arquivos :=
  mkArquivos (Valido []) (Valido []) (Valido [conta_exemplo]).

Definition hoje_exemplo : data := mkData 2024 3 15.

Lemma marcar_refina_witness :
  observar (executar 5 3 2024 hoje_exemplo (AcaoPagar "10/03/2024") arquivos_exemplo) 5 3 2024
  = Pago "10/03/2024".
Proof.
  rewrite (marcar_refina arquivos_exemplo 5 3 2024 hoje_exemplo (AcaoPagar "10/03/2024")
             5 3 2024 conta_exemplo);
    [| apply (bool_decide_unpack _); vm_compute; reflexivity | reflexivity].
  vm_compute. reflexivity.
Defined.

Lemma marcar_sequencia_witness :
  observar (executar_todas 5 3 2024 hoje_exemplo [AcaoPagar "10/03/2024"; AcaoPendente]
              arquivos_exemplo) 5 3 2024 = Pendente.
Proof.
  rewrite (marcar_sequencia arquivos_exemplo 5 3 2024 hoje_exemplo _ conta_exemplo);
    [| apply (bool_decide_unpack _); vm_compute; reflexivity | reflexivity].
  vm_compute. reflexivity.
Defined.

(** Paying then marking pending removes the entry: the history of bill 5 is
    empty again, not a [pago: False] tombstone. *)
Example marcar_pendente_remove :
  c_historico <$> head (ler (A := Conta)
    (executar_todas 5 3 2024 hoje_exemplo [AcaoPagar "10/03/2024"; AcaoPendente] arquivos_exemplo))
  = Some (Some ∅).
Proof. vm_compute. reflexivity. Qed.

Lemma marcar_ausente_witness :
  ler (A := Conta) (marcar_conta_como_paga 9 3 2024 true None hoje_exemplo arquivos_exemplo)
  = ler arquivos_exemplo.
Proof. apply marcar_ausente. vm_compute. reflexivity. Defined.

(** ** Facts used by the clients of the ledger *)

Lemma find_id_unico (l : list Conta) c :
  NoDup (map c_id l) -> c ∈ l -> find (fun c' => c_id c' =? c_id c) l = Some c.
Proof.
  induction l as [|c' l IH]; intros Hnd Hc; [by apply elem_of_nil in Hc|].
  simpl in Hnd. apply NoDup_cons in Hnd as [Hc' Hnd]. simpl.
  apply elem_of_cons in Hc as [->|Hc]; [by rewrite Z.eqb_refl|].
  destruct (Z.eqb_spec (c_id c') (c_id c)) as [He|He]; [|by apply IH].
  exfalso. apply Hc'. rewrite He. apply list_elem_of_In, in_map, list_elem_of_In, Hc.
Qed.

Lemma alterar_primeira_elem i f l c :
  find (fun c' => c_id c' =? i) l = Some c -> f c ∈ alterar_primeira i f l.
Proof.
  induction l as [|c' l IH]; [discriminate|]. simpl.
  destruct (c_id c' =? i); [intros [= ->]; left | intros H; right; by apply IH].
Qed.

(** With distinct ids, the two queries are the observation. *)
Lemma verificar_observar s i mes ano :
  NoDup (map c_id (ler (A := Conta) s)) ->
  verificar_conta_paga i mes ano s = match observar s i mes ano with Pago _ => true | Pendente => false end /\
  obter_data_pagamento i mes ano s = match observar s i mes ano with Pago d => Some d | Pendente => None end.
Proof.
  intros Hnd. rewrite observar_entrada by done.
  unfold obter_data_pagamento. rewrite data_pagamento_lista_entrada by done.
  unfold verificar_conta_paga, entrada.
  destruct (find _ _) as [c|]; [|done]. destruct (c_historico c) as [h|]; [|done].
  destruct (h !! _); done.
Qed.

Lemma marcar_na_conta_campos mes ano b dp c :
  let c' := marcar_na_conta mes ano b dp c in
  c_id c' = c_id c /\ c_recorrente c' = c_recorrente c /\ c_data_inicio c' = c_data_inicio c /\
  c_data_fim c' = c_data_fim c /\ c_mes c' = c_mes c /\ c_ano c' = c_ano c /\
  c_pago c' = c_pago c /\ c_parcelado c' = c_parcelado c /\ c_num_parcelas c' = c_num_parcelas c /\
  c_valor_com_juros c' = c_valor_com_juros c /\ c_valor c' = c_valor c.
Proof. by destruct c. Qed.
