(* ===== verification/Resolver.v ===== *)
(** * Resolver: projecting the three collections onto a (month, year)

    [obter_gastos_por_periodo], [obter_receitas_por_periodo] and
    [obter_contas_fixas_por_periodo] (data_manager.py 297-397) each load
    their file and, when both [mes] and [ano] are given, keep the records
    that apply to that period:

    - an expense, or a non-recurring income, when its parsed [data] is in
      the month;
    - a non-recurring bill when its stored [mes] and [ano] are equal to the
      query;
    - a recurring income or bill when its [data_inicio] is not after the
      month and its [data_fim] (if present and non-empty) not before it,
      comparing (year, month) only.  A recurring income is returned as a
      copy whose [data] is ["01/MM/YYYY"]; a recurring bill as a copy with
      [pago], [data_pagamento] (paid periods only) and the query's [mes] and
      [ano], read from the ledger ([Ledger.verificar_conta_paga],
      [Ledger.obter_data_pagamento]).

    Every date is parsed with [strptime] inside the loop: a malformed date
    raises [ValueError] out of the whole call, and a missing key raises
    [KeyError]; [res_filter_mapM] is that loop.  [datetime(ano, mes, 1)] is
    built (and discarded) for each recurring record, so an out-of-range
    query raises too.

    Theorems: the window condition of the source is the interval of month
    indices [janela] ([condicao_janela]); a recurring income or bill is
    returned exactly in the months of its window, with the ledger's state
    for a bill ([receita_no_periodo_janela], [conta_no_periodo_janela]);
    after paying, a recurring bill's copy is paid on the date given
    ([conta_periodo_apos_pagar]) while a one-off bill is returned without
    [pago] ([conta_nao_recorrente_apos_pagar]); one bad date aborts the
    whole query ([gastos_periodo_erro]); and for an installment bill saved
    by [adicionar_conta_fixa] the month window is the installment window
    ([parcelas_periodo], [parcelas_janela]). *)

From Stdlib Require Import ZArith QArith String Ascii Lia.
From stdpp Require Import base gmap strings list.
From S2P Require Import Prelude PyDate Records Installments Store Ledger.

Local Open Scope Z_scope.

(** ** The period test *)

(** [f"01/{mes:02d}/{ano}"] (data_manager.py 338). *)
Definition data_01 (mes ano : Z) : string :=
  "01/" ++ pad02 mes ++ String "/"%char (str_int ano).

(** The condition of data_manager.py 334-335 (and 372-373). *)
Definition condicao_periodo (inicio : data) (fim : option data) (mes ano : Z) : bool :=
  ((PyDate.ano inicio <? ano) || ((PyDate.ano inicio =? ano) && (PyDate.mes inicio <=? mes)))
  && match fim with
     | None => true
     | Some df => (PyDate.ano df >? ano) || ((PyDate.ano df =? ano) && (PyDate.mes df >=? mes))
     end.

(** Parsing [data_fim] when ["data_fim" in d and d["data_fim"]]. *)
Definition ler_data_fim (o : option string) : res (option data) :=
  match tem_data_fim o with
  | Some s => d <- strptime_dmY s ;; Ok (Some d)
  | None => Ok None
  end.

(** ** Expenses *)

(** The loop body of [obter_gastos_por_periodo] (data_manager.py 304-307). *)
Definition gasto_no_periodo (mes ano : Z) (g : Gasto) : res (option Gasto) :=
  d <- strptime_dmY (g_data g) ;;
  Ok (if (PyDate.mes d =? mes) && (PyDate.ano d =? ano) then Some g else None).

(** [obter_gastos_por_periodo(mes, ano)] (data_manager.py 297-310). *)
Definition obter_gastos_por_periodo (mes ano : option Z) (s : Arquivos) : res (list Gasto) :=
  match mes, ano with
  | Some m, Some a => res_filter_mapM (gasto_no_periodo m a) (ler s)
  | _, _ => Ok (ler s)
  end.

(** ** Incomes *)

(** The loop body of [obter_receitas_por_periodo] (data_manager.py 320-344). *)
Definition receita_no_periodo (mes ano : Z) (r : Receita) : res (option Receita) :=
  if receita_recorrente r then
    di <- get_key (r_data_inicio r) ;;
    inicio <- strptime_dmY di ;;
    fim <- ler_data_fim (r_data_fim r) ;;
    _ <- mk_data ano mes 1 ;;
    Ok (if condicao_periodo inicio fim mes ano
        then Some (receita_com_data (data_01 mes ano) r) else None)
  else
    ds <- get_key (r_data r) ;;
    d <- strptime_dmY ds ;;
    Ok (if (PyDate.mes d =? mes) && (PyDate.ano d =? ano) then Some r else None).

(** [obter_receitas_por_periodo(mes, ano)] (data_manager.py 312-348). *)
Definition obter_receitas_por_periodo (mes ano : option Z) (s : Arquivos) : res (list Receita) :=
  match mes, ano with
  | Some m, Some a => res_filter_mapM (receita_no_periodo m a) (ler s)
  | _, _ => Ok (ler s)
  end.

(** ** Fixed bills *)

(** [if pago and data_pagamento]: a non-empty date of a paid period. *)
Definition data_pagamento_periodo (pago : bool) (dp : option string) : option string :=
  match dp with
  | Some d => if pago && negb (String.eqb d EmptyString) then Some d else None
  | None => None
  end.

(** The loop body of [obter_contas_fixas_por_periodo] (data_manager.py
    358-393); the ledger is read from the same file. *)
Definition conta_no_periodo (mes ano : Z) (s : Arquivos) (c : Conta) : res (option Conta) :=
  if conta_recorrente c then
    di <- get_key (c_data_inicio c) ;;
    inicio <- strptime_dmY di ;;
    fim <- ler_data_fim (c_data_fim c) ;;
    _ <- mk_data ano mes 1 ;;
    if condicao_periodo inicio fim mes ano then
      let pago := verificar_conta_paga (c_id c) mes ano s in
      let dp := obter_data_pagamento (c_id c) mes ano s in
      Ok (Some (conta_periodo pago (data_pagamento_periodo pago dp) mes ano c))
    else Ok None
  else
    Ok (if bool_decide (c_mes c = Some mes) && bool_decide (c_ano c = Some ano)
        then Some c else None).

(** [obter_contas_fixas_por_periodo(mes, ano)] (data_manager.py 350-397). *)
Definition obter_contas_fixas_por_periodo (mes ano : option Z) (s : Arquivos) : res (list Conta) :=
  match mes, ano with
  | Some m, Some a => res_filter_mapM (conta_no_periodo m a s) (ler s)
  | _, _ => Ok (ler s)
  end.

(** ** The window as an interval of months *)

(** The query month [(mes, ano)] is in the window from [inicio] to [fim]. *)
Definition janela (inicio : data) (fim : option data) (mes ano : Z) : Prop :=
  indice_mes inicio <= 12 * ano + (mes - 1) /\
  match fim with None => True | Some df => 12 * ano + (mes - 1) <= indice_mes df end.

#[export] Instance janela_dec inicio fim mes ano : Decision (janela inicio fim mes ano).
Proof. unfold janela. destruct fim; apply _. Defined.

(** ** Lemmas *)

(** The source's test is the month interval, for valid dates and a month
    of the year. *)
Lemma condicao_janela inicio fim mes ano :
  data_valida inicio = true ->
  (forall df, fim = Some df -> data_valida df = true) -> 1 <= mes <= 12 ->
  condicao_periodo inicio fim mes ano = bool_decide (janela inicio fim mes ano).
Proof.
  intros (_ & Hmi & _)%data_valida_iff Hfim Hm.
  apply Bool.eq_iff_eq_true. rewrite bool_decide_eq_true.
  unfold condicao_periodo, janela, indice_mes.
  destruct fim as [df|].
  - destruct (data_valida_iff df) as [Hdf _].
    destruct (Hdf (Hfim df eq_refl)) as (_ & Hmf & _).
    rewrite andb_true_iff, !orb_true_iff, !andb_true_iff, Z.ltb_lt, Z.eqb_eq, Z.leb_le,
      Z.gtb_lt, Z.eqb_eq, Z.geb_le. lia.
  - rewrite andb_true_r, orb_true_iff, andb_true_iff, Z.ltb_lt, Z.eqb_eq, Z.leb_le. lia.
Qed.

Lemma ler_data_fim_valida o fim :
  ler_data_fim o = Ok fim -> forall df, fim = Some df -> data_valida df = true.
Proof.
  unfold ler_data_fim. destruct (tem_data_fim o) as [s|].
  - intros (d & Hd & [= <-])%res_bind_Ok df [= <-]. by eapply strptime_dmY_valida.
  - by intros [= <-].
Qed.

(** The synthesized date of a recurring income is the first day of the
    queried month, and reads back as such. *)
Lemma data_01_strptime mes ano :
  1 <= mes <= 12 -> 1000 <= ano <= 9999 -> strptime_dmY (data_01 mes ano) = Ok (mkData ano mes 1).
Proof.
  intros Hm Ha. change (data_01 mes ano) with (strftime_dmY (mkData ano mes 1)).
  apply strptime_strftime; [|simpl; lia].
  apply data_valida_iff. simpl. pose proof (dias_no_mes_bounds ano mes Hm). lia.
Qed.

(** ** Incomes and bills, record by record *)

(** A recurring income with parseable dates is kept in exactly the months
    of its window, as the copy dated ["01/MM/YYYY"]. *)
Lemma receita_no_periodo_janela mes ano r di inicio fim :
  receita_recorrente r = true -> r_data_inicio r = Some di -> strptime_dmY di = Ok inicio ->
  ler_data_fim (r_data_fim r) = Ok fim -> 1 <= mes <= 12 -> 1 <= ano <= 9999 ->
  receita_no_periodo mes ano r =
  Ok (if bool_decide (janela inicio fim mes ano)
      then Some (receita_com_data (data_01 mes ano) r) else None).
Proof.
  intros Hr Hdi Hi Hf Hm Ha. unfold receita_no_periodo. rewrite Hr, Hdi. cbn [get_key res_bind].
  rewrite Hi. cbn [res_bind]. rewrite Hf. cbn [res_bind]. rewrite mk_data_dia1 by lia.
  cbn [res_bind]. rewrite condicao_janela; [done | by eapply strptime_dmY_valida | | done].
  by eapply ler_data_fim_valida.
Qed.

(** The state a period copy of a bill shows for a ledger observation. *)
Definition pago_de (e : estado_periodo) : bool :=
  match e with Pago _ => true | Pendente => false end.

Definition data_de (e : estado_periodo) : option string :=
  match e with
  | Pago d => if String.eqb d EmptyString then None else Some d
  | Pendente => None
  end.

(** A recurring bill with parseable dates is kept in exactly the months of
    its window, as a copy that carries the ledger's state for that month. *)
Lemma conta_no_periodo_janela mes ano s c di inicio fim :
  NoDup (map c_id (ler (A := Conta) s)) ->
  conta_recorrente c = true -> c_data_inicio c = Some di -> strptime_dmY di = Ok inicio ->
  ler_data_fim (c_data_fim c) = Ok fim -> 1 <= mes <= 12 -> 1 <= ano <= 9999 ->
  conta_no_periodo mes ano s c =
  Ok (if bool_decide (janela inicio fim mes ano)
      then Some (conta_periodo (pago_de (observar s (c_id c) mes ano))
                  (data_de (observar s (c_id c) mes ano)) mes ano c)
      else None).
Proof.
  intros Hnd Hr Hdi Hi Hf Hm Ha. unfold conta_no_periodo. rewrite Hr, Hdi. cbn [get_key res_bind].
  rewrite Hi. cbn [res_bind]. rewrite Hf. cbn [res_bind]. rewrite mk_data_dia1 by lia.
  cbn [res_bind]. rewrite condicao_janela; [| by eapply strptime_dmY_valida | by eapply ler_data_fim_valida | done].
  case_bool_decide; [|done].
  destruct (verificar_observar s (c_id c) mes ano Hnd) as [-> ->].
  destruct (observar s (c_id c) mes ano) as [|d]; [done|]. simpl. by destruct (String.eqb d EmptyString).
Qed.

(** ** The resolver after a payment *)

(** C28: After [marcar_conta_como_paga(id, mes, ano, True, d)] on a recurring
    bill whose window contains the month, the resolver's copy of that bill
    for the month is paid on [d]. *)
Theorem conta_periodo_apos_pagar s c mes ano di inicio fim d hoje :
  ids_validos (ler (A := Conta) s) -> c ∈ ler s -> conta_recorrente c = true ->
  c_data_inicio c = Some di -> strptime_dmY di = Ok inicio -> ler_data_fim (c_data_fim c) = Ok fim ->
  janela inicio fim mes ano -> 1 <= mes <= 12 -> 1 <= ano <= 9999 -> d <> EmptyString ->
  let s' := marcar_conta_como_paga (c_id c) mes ano true (Some d) hoje s in
  exists c1 c', c1 ∈ ler (A := Conta) s' /\ c_id c1 = c_id c /\
    conta_no_periodo mes ano s' c1 = Ok (Some c') /\
    c_pago c' = Some true /\ c_data_pagamento c' = Some d.
Proof.
  intros Hv Hc Hr Hdi Hi Hf Hj Hm Ha Hd s'.
  pose proof (find_id_unico _ _ (proj1 Hv) Hc) as Hfind.
  destruct (marcar_na_conta_campos mes ano true (data_pagamento_efetiva (Some d) hoje) c)
    as (Hid & Hrec & Hdi' & Hdf' & _).
  set (c1 := marcar_na_conta mes ano true (data_pagamento_efetiva (Some d) hoje) c) in *.
  assert (Hobs : observar s' (c_id c) mes ano = Pago d).
  { change s' with (executar (c_id c) mes ano hoje (AcaoPagar d) s).
    rewrite (observar_executar_eq s (c_id c) mes ano hoje (AcaoPagar d) c Hv Hfind).
    simpl. unfold data_pagamento_efetiva.
    by rewrite (proj2 (String.eqb_neq _ _) Hd). }
  exists c1, (conta_periodo true (Some d) mes ano c1).
  destruct (conta_periodo_campos true (Some d) mes ano c1) as (_ & Hp & Hdp & _).
  split; [unfold s', marcar_conta_como_paga; rewrite ler_gravar; by apply alterar_primeira_elem|].
  split; [done|]. split; [|done].
  rewrite (conta_no_periodo_janela mes ano s' c1 di inicio fim);
    [| apply marcar_ids, Hv | unfold conta_recorrente in *; by rewrite Hrec
     | by rewrite Hdi' | done | by rewrite Hdf' | done | done].
  rewrite bool_decide_eq_true_2 by done. rewrite Hid, Hobs. simpl.
  by rewrite (proj2 (String.eqb_neq _ _) Hd).
Qed.

(** C6: A non-recurring bill is returned as stored: right after
    [marcar_conta_como_paga] the ledger says the month is paid, yet the
    copy the resolver returns has no [pago] key, which the history table
    and the start-up reminder read as unpaid. *)
Theorem conta_nao_recorrente_apos_pagar s c mes ano d hoje :
  ids_validos (ler (A := Conta) s) -> c ∈ ler s -> conta_recorrente c = false ->
  c_mes c = Some mes -> c_ano c = Some ano -> c_pago c = None -> d <> EmptyString ->
  let s' := marcar_conta_como_paga (c_id c) mes ano true (Some d) hoje s in
  exists c1, c1 ∈ ler (A := Conta) s' /\ c_id c1 = c_id c /\
    observar s' (c_id c) mes ano = Pago d /\
    conta_no_periodo mes ano s' c1 = Ok (Some c1) /\ c_pago c1 = None.
Proof.
  intros Hv Hc Hr Hm Ha Hp Hd s'.
  pose proof (find_id_unico _ _ (proj1 Hv) Hc) as Hfind.
  destruct (marcar_na_conta_campos mes ano true (data_pagamento_efetiva (Some d) hoje) c)
    as (Hid & Hrec & _ & _ & Hm' & Ha' & Hp' & _).
  set (c1 := marcar_na_conta mes ano true (data_pagamento_efetiva (Some d) hoje) c) in *.
  exists c1. split; [unfold s', marcar_conta_como_paga; rewrite ler_gravar; by apply alterar_primeira_elem|].
  split; [done|]. split.
  - change s' with (executar (c_id c) mes ano hoje (AcaoPagar d) s).
    rewrite (observar_executar_eq s (c_id c) mes ano hoje (AcaoPagar d) c Hv Hfind).
    simpl. unfold data_pagamento_efetiva.
    by rewrite (proj2 (String.eqb_neq _ _) Hd).
  - split; [|by rewrite Hp'].
    unfold conta_no_periodo. unfold conta_recorrente in *. rewrite Hrec, Hr.
    by rewrite Hm', Ha', Hm, Ha, !bool_decide_eq_true_2.
Qed.

(** C33: One expense whose date does not parse makes the whole period query
    raise [ValueError]; it is not skipped. *)
Theorem gastos_periodo_erro s g mes ano e :
  g ∈ ler (A := Gasto) s -> strptime_dmY (g_data g) = Err e ->
  obter_gastos_por_periodo (Some mes) (Some ano) s = Err ValueError.
Proof.
  intros Hg He. unfold obter_gastos_por_periodo.
  assert (Hge : gasto_no_periodo mes ano g = Err e) by (unfold gasto_no_periodo; by rewrite He).
  destruct (res_filter_mapM_Err_elem _ _ _ _ Hg Hge) as [e' He'].
  rewrite He'. apply res_filter_mapM_Err in He' as (g' & _ & Hg').
  unfold gasto_no_periodo in Hg'. destruct (strptime_dmY (g_data g')) eqn:Hs; [discriminate|].
  simpl in Hg'. injection Hg' as ->. by apply strptime_dmY_Err in Hs as ->.
Qed.

(** ** Installment window and month window *)

Lemma strftime_nao_vazia d : String.eqb (strftime_dmY d) EmptyString = false.
Proof.
  unfold strftime_dmY, pad02. destruct (Nat.ltb _ _); [done|].
  destruct (str_int (dia d)) eqn:E; [|done].
  pose proof (decimal_de_str_int (dia d)) as H. rewrite E in H. discriminate.
Qed.

Lemma ler_data_fim_strftime e :
  strptime_dmY (strftime_dmY e) = Ok e -> ler_data_fim (Some (strftime_dmY e)) = Ok (Some e).
Proof. intros H. unfold ler_data_fim, tem_data_fim. by rewrite strftime_nao_vazia, H. Qed.

(** The resolver's answer for a recurring installment bill stored by
    [adicionar_conta_fixa]: its period copy in the months whose installment
    index is between 1 and [num_parcelas], nothing in the others. *)
Lemma parcelas_periodo s c c' mes ano di inicio :
  conta_recorrente c = true -> conta_parcelada c = true ->
  c_data_inicio c = Some di -> strptime_dmY di = Ok inicio -> 1000 <= PyDate.ano inicio ->
  1 <= num_parcelas c -> indice_mes inicio + (num_parcelas c - 1) <= indice_max ->
  preparar_parcelamento c = Ok c' ->
  NoDup (map c_id (ler (A := Conta) s)) -> 1 <= mes <= 12 -> 1 <= ano <= 9999 ->
  conta_no_periodo mes ano s c' =
  Ok (if bool_decide (1 <= parcela_atual mes ano inicio <= num_parcelas c)
      then Some (conta_periodo (pago_de (observar s (c_id c') mes ano))
                  (data_de (observar s (c_id c') mes ano)) mes ano c')
      else None).
Proof.
  intros Hr Hp Hdi Hi Hy Hn Hmax Hprep Hnd Hm Ha.
  destruct (preparar_parcelamento_spec c c' di inicio Hp Hdi Hi Hy Hn Hmax Hprep)
    as (e & Hf & Hpe & Hie & Hr' & Hdi' & _).
  rewrite (conta_no_periodo_janela mes ano s _ di inicio (Some e)); try done;
    [| unfold conta_recorrente in *; by rewrite Hr' | rewrite Hf; by apply ler_data_fim_strftime].
  f_equal. rewrite (bool_decide_ext _ (1 <= parcela_atual mes ano inicio <= num_parcelas c)); [done|].
  unfold janela, parcela_atual, indice_mes in *. lia.
Qed.

(** C5: For a recurring installment bill stored by [adicionar_conta_fixa] (its
    [data_fim] derived from [data_inicio] and [num_parcelas]), the resolver
    keeps it in a month exactly when that month's installment index is
    between 1 and [num_parcelas]: the month-granular end-date test and the
    installment count agree. *)
Theorem parcelas_janela s c c' mes ano di inicio :
  conta_recorrente c = true -> conta_parcelada c = true ->
  c_data_inicio c = Some di -> strptime_dmY di = Ok inicio -> 1000 <= PyDate.ano inicio ->
  1 <= num_parcelas c -> indice_mes inicio + (num_parcelas c - 1) <= indice_max ->
  preparar_parcelamento c = Ok c' ->
  NoDup (map c_id (ler (A := Conta) s)) -> 1 <= mes <= 12 -> 1 <= ano <= 9999 ->
  (exists x, conta_no_periodo mes ano s c' = Ok (Some x)) <->
  1 <= parcela_atual mes ano inicio <= num_parcelas c.
Proof.
  intros Hr Hp Hdi Hi Hy Hn Hmax Hprep Hnd Hm Ha.
  rewrite (parcelas_periodo s c c' mes ano di inicio); try done.
  case_bool_decide; [split; [done | by eexists] | split; [by intros [x [=]] | done]].
Qed.

(** ** Concrete runs *)

Definition receita_exemplo : Receita :=
  mkReceita 1 "Salario" 5000 (Some true) None (Some "10/01/2024") None.

Lemma receita_no_periodo_janela_witness :
  receita_no_periodo 6 2024 receita_exemplo =
  Ok (if bool_decide (janela (mkData 2024 1 10) None 6 2024)
      then Some (receita_com_data (data_01 6 2024) receita_exemplo) else None).
Proof.
  apply (receita_no_periodo_janela 6 2024 receita_exemplo "10/01/2024" (mkData 2024 1 10) None);
    [reflexivity | reflexivity | vm_compute; reflexivity | reflexivity | lia | lia].
Defined.

Lemma conta_periodo_apos_pagar_witness :
  exists c1 c', c1 ∈ ler (A := Conta)
      (marcar_conta_como_paga (c_id conta_exemplo) 3 2024 true (Some "10/03/2024") hoje_exemplo arquivos_exemplo) /\
    c_id c1 = c_id conta_exemplo /\
    conta_no_periodo 3 2024
      (marcar_conta_como_paga (c_id conta_exemplo) 3 2024 true (Some "10/03/2024") hoje_exemplo arquivos_exemplo) c1
    = Ok (Some c') /\ c_pago c' = Some true /\ c_data_pagamento c' = Some "10/03/2024".
Proof.
  apply (conta_periodo_apos_pagar arquivos_exemplo conta_exemplo 3 2024 "01/01/2024"
           (mkData 2024 1 1) None "10/03/2024" hoje_exemplo);
    [apply (bool_decide_unpack _); vm_compute; reflexivity | simpl; left | reflexivity
    | reflexivity | vm_compute; reflexivity | reflexivity | unfold janela, indice_mes; simpl; lia
    | lia | lia | vm_compute; discriminate].
Defined.

(** A one-off bill for 03/2024. *)
Definition conta_avulsa : Conta :=
  mkConta 3 "IPVA" 900 (Some false) None None (Some 3) (Some 2024) None None None None None None None.

Definition arquivos_avulsa : Arquivos :=
  mkArquivos (Valido []) (Valido []) (Valido [conta_avulsa]).

Lemma conta_nao_recorrente_apos_pagar_witness :
  exists c1, c1 ∈ ler (A := Conta)
      (marcar_conta_como_paga 3 3 2024 true (Some "05/03/2024") hoje_exemplo arquivos_avulsa) /\
    c_id c1 = 3 /\
    observar (marcar_conta_como_paga 3 3 2024 true (Some "05/03/2024") hoje_exemplo arquivos_avulsa) 3 3 2024
    = Pago "05/03/2024" /\
    conta_no_periodo 3 2024
      (marcar_conta_como_paga 3 3 2024 true (Some "05/03/2024") hoje_exemplo arquivos_avulsa) c1 = Ok (Some c1) /\
    c_pago c1 = None.
Proof.
  apply (conta_nao_recorrente_apos_pagar arquivos_avulsa conta_avulsa 3 2024 "05/03/2024" hoje_exemplo);
    [apply (bool_decide_unpack _); vm_compute; reflexivity | simpl; left | reflexivity
    | reflexivity | reflexivity | reflexivity | vm_compute; discriminate].
Defined.

Definition gasto_mal_datado : Gasto := mkGasto 1 "Mercado" 50 "Alimentação" "15/13/2024".

Definition arquivos_gasto_mal_datado : Arquivos :=
  mkArquivos (Valido [gasto_mal_datado]) (Valido []) (Valido []).

Lemma gastos_periodo_erro_witness :
  obter_gastos_por_periodo (Some 3) (Some 2024) arquivos_gasto_mal_datado = Err ValueError.
Proof.
  apply (gastos_periodo_erro arquivos_gasto_mal_datado gasto_mal_datado 3 2024 ValueError);
    [simpl; left | vm_compute; reflexivity].
Defined.

(** The spec's example: 300 in 3 installments from 01/01/2024. *)
Definition conta_tres_parcelas : Conta :=
  mkConta 8 "Geladeira" 300 (Some true) (Some "01/01/2024") None None None None
    (Some true) (Some 3) None None None None.

(** April 2024 is outside both windows. *)
Lemma parcelas_janela_witness :
  exists c', preparar_parcelamento conta_tres_parcelas = Ok c' /\
    ((exists x, conta_no_periodo 4 2024 arquivos_exemplo c' = Ok (Some x)) <->
     1 <= parcela_atual 4 2024 (mkData 2024 1 1) <= num_parcelas conta_tres_parcelas).
Proof.
  eexists. split; [vm_compute; reflexivity|].
  apply (parcelas_janela arquivos_exemplo conta_tres_parcelas _ 4 2024 "01/01/2024" (mkData 2024 1 1));
    [reflexivity | reflexivity | reflexivity | vm_compute; reflexivity | simpl; lia
    | vm_compute; congruence | vm_compute; congruence | vm_compute; reflexivity
    | apply (bool_decide_unpack _); vm_compute; reflexivity | lia | lia].
Defined.
