(* ===== verification/Totals.v ===== *)
(** * Totals: sums, balance and per-category breakdown

    - [calcular_total_gastos], [calcular_total_receitas],
      [calcular_total_contas_fixas] (data_manager.py 399-430): the sum of
      [valor] over the given list, or over the whole file when none is
      given.
    - [calcular_saldo] (data_manager.py 432-447): incomes minus expenses
      minus fixed bills of the period, with the full [valor] of every bill.
    - [obter_gastos_por_categoria] (data_manager.py 449-469): a dict seeded
      with the eight categories at 0, then accumulated in expense order; an
      unknown category is appended.  The dict is an association list, since
      the insertion order is what the chart shows.
    - [contribuicao_historico] / [calcular_total_contas_fixas_historico]:
      [HistoricoView.calcular_total_contas_fixas_com_parcelas]
      (historico.py 367-408), which counts a parceled bill by its
      installment, only inside its installment window;
      [contribuicao_visao_geral] / [calcular_total_contas_fixas_visao_geral]:
      the overview's copy (visao_geral.py 281-301), which divides [valor]
      and ignores interest and window.
    - [resumo_historico]: the balance the history tab shows
      ([HistoricoView.atualizar_resumo], historico.py 340-365).

    Theorems: the per-category dict has every category and the exact sums
    ([gastos_por_categoria_spec]); for a store holding one installment bill
    saved by [adicionar_conta_fixa], the history total of a month is the
    installment inside the window and 0 outside ([total_contas_parcela]);
    the overview's contribution is the history's
    minus the per-installment interest ([visao_geral_omite_juros]); a zero
    installment count raises in both views ([zero_parcelas_erro]);
    [calcular_saldo] and the history tab disagree on a concrete store
    ([saldo_parcelado_divergente]).  The sums are exact in [Q]: that the
    installments of a bill add up to its total is not stated, since in
    binary64 they need not (1000 in 7 installments sums to
    1000.0000000000001). *)

From Stdlib Require Import ZArith QArith Qfield Lqa String Ascii Lia.
From stdpp Require Import base gmap strings list.
From S2P Require Import Prelude PyDate Records Installments Store Ledger Resolver.

Local Open Scope Z_scope.

(** ** Sums *)

(** [calcular_total_gastos(gastos=None)]: [None] loads the whole file. *)
Definition calcular_total_gastos (gastos : option (list Gasto)) (s : Arquivos) : Q :=
  somaQ g_valor (match gastos with Some l => l | None => ler s end).

Definition calcular_total_receitas (receitas : option (list Receita)) (s : Arquivos) : Q :=
  somaQ r_valor (match receitas with Some l => l | None => ler s end).

Definition calcular_total_contas_fixas (contas : option (list Conta)) (s : Arquivos) : Q :=
  somaQ c_valor (match contas with Some l => l | None => ler s end).

(** [calcular_saldo(mes, ano)] (data_manager.py 432-447). *)
Definition calcular_saldo (mes ano : option Z) (s : Arquivos) : res Q :=
  gastos <- obter_gastos_por_periodo mes ano s ;;
  receitas <- obter_receitas_por_periodo mes ano s ;;
  contas <- obter_contas_fixas_por_periodo mes ano s ;;
  Ok (calcular_total_receitas (Some receitas) s - calcular_total_gastos (Some gastos) s
      - calcular_total_contas_fixas (Some contas) s)%Q.

(** ** Per category *)

(** [d[k] = v] on a dict kept as an association list in insertion order. *)
Fixpoint dict_set (k : string) (v : Q) (d : list (string * Q)) : list (string * Q) :=
  match d with
  | [] => [(k, v)]
  | (k', v') :: d' => if String.eqb k k' then (k, v) :: d' else (k', v') :: dict_set k v d'
  end.

Fixpoint dict_get (k : string) (d : list (string * Q)) : option Q :=
  match d with
  | [] => None
  | (k', v') :: d' => if String.eqb k k' then Some v' else dict_get k d'
  end.

(** The loop body of data_manager.py 460-467. *)
Definition acumular_categoria (d : list (string * Q)) (g : Gasto) : list (string * Q) :=
  match dict_get (g_categoria g) d with
  | Some v => dict_set (g_categoria g) (v + g_valor g)%Q d
  | None => dict_set (g_categoria g) (g_valor g) d
  end.

(** [obter_gastos_por_categoria(mes, ano)] (data_manager.py 449-469). *)
Definition obter_gastos_por_categoria (mes ano : option Z) (s : Arquivos) : res (list (string * Q)) :=
  gastos <- obter_gastos_por_periodo mes ano s ;;
  Ok (fold_left acumular_categoria gastos (map (fun c => (c, 0%Q)) categorias)).

(** ** Fixed bills with installments *)

(** The loop body of historico.py 370-406. *)
Definition contribuicao_historico (mes ano : Z) (c : Conta) : res Q :=
  if conta_parcelada c then
    vp <- valor_parcela c ;;
    match c_data_inicio c with
    | Some di =>
        inicio <- strptime_dmY di ;;
        let k := parcela_atual mes ano inicio in
        Ok (if (1 <=? k) && (k <=? num_parcelas c) then vp else 0%Q)
    | None => Ok vp
    end
  else Ok (c_valor c).

(** [HistoricoView.calcular_total_contas_fixas_com_parcelas]. *)
Definition calcular_total_contas_fixas_historico (mes ano : Z) (contas : list Conta) : res Q :=
  vs <- res_mapM (contribuicao_historico mes ano) contas ;; Ok (somaQ id vs).

(** The loop body of visao_geral.py 285-299. *)
Definition contribuicao_visao_geral (c : Conta) : res Q :=
  if conta_parcelada c then
    let n := num_parcelas c in
    if n =? 0 then Err ZeroDivisionError else Ok (c_valor c / inject_Z n)%Q
  else Ok (c_valor c).

(** [VisaoGeralView.calcular_total_contas_fixas_com_parcelas]. *)
Definition calcular_total_contas_fixas_visao_geral (contas : list Conta) : res Q :=
  vs <- res_mapM contribuicao_visao_geral contas ;; Ok (somaQ id vs).

(** The history tab's fixed-bill total for a period. *)
Definition total_contas_historico (mes ano : Z) (s : Arquivos) : res Q :=
  contas <- obter_contas_fixas_por_periodo (Some mes) (Some ano) s ;;
  calcular_total_contas_fixas_historico mes ano contas.

(** [HistoricoView.atualizar_resumo] (historico.py 340-365): expenses,
    incomes, fixed bills and balance. *)
Definition resumo_historico (mes ano : Z) (s : Arquivos) : res (Q * Q * Q * Q) :=
  gastos <- obter_gastos_por_periodo (Some mes) (Some ano) s ;;
  receitas <- obter_receitas_por_periodo (Some mes) (Some ano) s ;;
  contas <- obter_contas_fixas_por_periodo (Some mes) (Some ano) s ;;
  let tg := calcular_total_gastos (Some gastos) s in
  let tr := calcular_total_receitas (Some receitas) s in
  tc <- calcular_total_contas_fixas_historico mes ano contas ;;
  Ok (tg, tr, tc, (tr - tg - tc)%Q).

(** ** The per-category dict *)

Lemma dict_get_set_eq k v d : dict_get k (dict_set k v d) = Some v.
Proof.
  induction d as [|[k' v'] d IH]; simpl; [by rewrite String.eqb_refl|].
  destruct (String.eqb_spec k k') as [->|Hne]; simpl; [by rewrite String.eqb_refl|].
  rewrite (proj2 (String.eqb_neq _ _) Hne). exact IH.
Qed.

Lemma dict_get_set_ne k k' v d : k <> k' -> dict_get k' (dict_set k v d) = dict_get k' d.
Proof.
  intros Hne. induction d as [|[k'' v''] d IH]; simpl.
  - by rewrite (proj2 (String.eqb_neq k' k) (not_eq_sym Hne)).
  - destruct (String.eqb_spec k k'') as [->|Hne']; simpl.
    + by rewrite (proj2 (String.eqb_neq k' k'') (not_eq_sym Hne)).
    + destruct (String.eqb k' k''); [done | exact IH].
Qed.

Lemma dict_set_keys k v d :
  NoDup (map fst d) -> NoDup (map fst (dict_set k v d)) /\
  (forall k', k' ∈ map fst (dict_set k v d) <-> k' = k \/ k' ∈ map fst d).
Proof.
  induction d as [|[k' v'] d IH]; intros Hnd; simpl in *.
  - split; [apply NoDup_singleton|]. intros k''. rewrite list_elem_of_singleton.
    split; [by left | intros [->|?%elem_of_nil]; done].
  - apply NoDup_cons in Hnd as [Hk' Hnd]. destruct (String.eqb_spec k k') as [->|Hne]; simpl.
    + split; [by apply NoDup_cons|]. intros k''. rewrite !elem_of_cons. tauto.
    + destruct (IH Hnd) as [Hnd' Hkeys]. split.
      * apply NoDup_cons. split; [|done]. rewrite Hkeys. intros [->|?]; [done | by apply Hk'].
      * intros k''. rewrite !elem_of_cons, Hkeys. tauto.
Qed.

Lemma dict_get_elem k d : is_Some (dict_get k d) <-> k ∈ map fst d.
Proof.
  induction d as [|[k' v'] d IH]; simpl.
  - split; [by intros [? ?] | intros ?%elem_of_nil; done].
  - rewrite elem_of_cons. destruct (String.eqb_spec k k') as [->|Hne].
    + split; [by left | by eexists].
    + rewrite IH. split; [by right | intros [?|?]; done].
Qed.

(** With distinct keys, a pair of the dict is what [d[k]] reads. *)
Lemma dict_get_NoDup k v d : NoDup (map fst d) -> (k, v) ∈ d -> dict_get k d = Some v.
Proof.
  induction d as [|[k' v'] d IH]; simpl; [intros _ ?%elem_of_nil; done|].
  intros [Hk' Hnd]%NoDup_cons [[= -> ->]|Hin]%elem_of_cons.
  - by rewrite String.eqb_refl.
  - destruct (String.eqb_spec k k') as [->|_]; [|by apply IH].
    exfalso. apply Hk'. apply list_elem_of_In, in_map_iff. exists (k', v).
    split; [done | by apply list_elem_of_In].
Qed.

(** What the accumulation has built after the expenses [proc]: one key per
    category and per category seen, each with the sum of its expenses. *)
Definition dict_categorias_inv (d : list (string * Q)) (proc : list Gasto) : Prop :=
  NoDup (map fst d) /\
  (forall k, k ∈ map fst d <-> k ∈ categorias \/ exists g, g ∈ proc /\ g_categoria g = k) /\
  (forall k v, dict_get k d = Some v -> (v == somaQ g_valor (filter (fun g => g_categoria g = k) proc))%Q).

Lemma dict_categorias_inv_passo d proc g :
  dict_categorias_inv d proc -> dict_categorias_inv (acumular_categoria d g) (proc ++ [g]).
Proof.
  intros (Hnd & Hkeys & Hvals). unfold acumular_categoria.
  assert (Hsum : forall k, (somaQ g_valor (filter (fun g' => g_categoria g' = k) (proc ++ [g]))
           == somaQ g_valor (filter (fun g' => g_categoria g' = k) proc)
              + (if decide (g_categoria g = k) then g_valor g else 0))%Q).
  { intros k. rewrite filter_app, somaQ_app. rewrite filter_cons, filter_nil.
    case_decide; [rewrite somaQ_cons, somaQ_nil | rewrite somaQ_nil]; ring. }
  assert (Hset : forall v, dict_categorias_inv (dict_set (g_categoria g) v d) (proc ++ [g]) <->
    (forall k v', dict_get k (dict_set (g_categoria g) v d) = Some v' ->
      (v' == somaQ g_valor (filter (fun g' => g_categoria g' = k) (proc ++ [g])))%Q)).
  { intros v. unfold dict_categorias_inv. destruct (dict_set_keys (g_categoria g) v d Hnd) as [Hnd' Hk'].
    split; [tauto|]. intros Hv. split; [done|]. split; [|done].
    intros k. rewrite Hk', Hkeys. setoid_rewrite elem_of_app. setoid_rewrite list_elem_of_singleton.
    split.
    - intros [->|[?|(g'&?&?)]]; [right; eauto | by left | right; eauto].
    - intros [?|(g'&[?| ->]&<-)]; [by right; left | right; right; eauto | by left]. }
  destruct (dict_get (g_categoria g) d) as [v|] eqn:Hg; apply Hset; intros k v' Hk.
  - destruct (String.eq_dec (g_categoria g) k) as [<-|Hne].
    + rewrite dict_get_set_eq in Hk. injection Hk as <-. rewrite Hsum, decide_True by done.
      by rewrite (Hvals _ _ Hg).
    + rewrite dict_get_set_ne in Hk by done. rewrite Hsum, decide_False by done.
      rewrite (Hvals _ _ Hk). ring.
  - destruct (String.eq_dec (g_categoria g) k) as [<-|Hne].
    + rewrite dict_get_set_eq in Hk. injection Hk as <-. rewrite Hsum, decide_True by done.
      assert (Hnone : filter (fun g' => g_categoria g' = g_categoria g) proc = []).
      { apply filter_vazio. intros g' Hg' Hc.
        destruct (proj2 (dict_get_elem (g_categoria g) d)) as [? Hs].
        - apply Hkeys. right. by exists g'.
        - by rewrite Hg in Hs. }
      rewrite Hnone, somaQ_nil. ring.
    + rewrite dict_get_set_ne in Hk by done. rewrite Hsum, decide_False by done.
      rewrite (Hvals _ _ Hk). ring.
Qed.

Lemma dict_categorias_inv_fold d proc l :
  dict_categorias_inv d proc -> dict_categorias_inv (fold_left acumular_categoria l d) (proc ++ l).
Proof.
  revert d proc. induction l as [|g l IH]; intros d proc Hinv; simpl; [by rewrite app_nil_r|].
  rewrite cons_middle, app_assoc. by apply IH, dict_categorias_inv_passo.
Qed.

Lemma dict_categorias_inv_inicio : dict_categorias_inv (map (fun c => (c, 0%Q)) categorias) [].
Proof.
  split; [|split].
  - rewrite map_map. simpl. vm_compute. repeat constructor; set_solver.
  - intros k. rewrite map_map, map_id. split; [by left | intros [?|(?&?%elem_of_nil&?)]; done].
  - intros k v. rewrite filter_nil, somaQ_nil. unfold categorias. simpl.
    repeat (case_match; [by intros [= <-]|]). done.
Qed.

(** C4: [obter_gastos_por_categoria] returns, for the expenses of the period,
    a dict without duplicate keys holding every one of the eight categories
    and every category an expense uses, and nothing else; the value under
    each key is the sum of the [valor] of the period's expenses of that
    category.  It fails exactly when the period query fails. *)
Theorem gastos_por_categoria_spec mes ano s gastos :
  obter_gastos_por_periodo mes ano s = Ok gastos ->
  exists d, obter_gastos_por_categoria mes ano s = Ok d /\
    NoDup (map fst d) /\
    (forall k, is_Some (dict_get k d) <-> k ∈ categorias \/ exists g, g ∈ gastos /\ g_categoria g = k) /\
    (forall k v, dict_get k d = Some v ->
       (v == somaQ g_valor (filter (fun g => g_categoria g = k) gastos))%Q).
Proof.
  intros Hg. unfold obter_gastos_por_categoria. rewrite Hg. simpl. eexists. split; [done|].
  destruct (dict_categorias_inv_fold _ _ gastos dict_categorias_inv_inicio) as (Hnd & Hk & Hv).
  split; [done|]. split; [|done]. intros k. by rewrite dict_get_elem, Hk.
Qed.

(** ** Installment totals *)

(** The history's contribution reads only fields the period copy keeps. *)
Lemma contribuicao_conta_periodo mes ano pago dp m a c :
  contribuicao_historico mes ano (conta_periodo pago dp m a c) = contribuicao_historico mes ano c.
Proof. by destruct c. Qed.

Lemma contribuicao_historico_parcelada mes ano c di inicio :
  conta_parcelada c = true -> num_parcelas c <> 0 ->
  c_data_inicio c = Some di -> strptime_dmY di = Ok inicio ->
  contribuicao_historico mes ano c =
  Ok (if bool_decide (1 <= parcela_atual mes ano inicio <= num_parcelas c)
      then (valor_total_parcelado c / inject_Z (num_parcelas c))%Q else 0%Q).
Proof.
  intros Hp Hn Hdi Hi. unfold contribuicao_historico. rewrite Hp, valor_parcela_Ok by done.
  simpl. rewrite Hdi. simpl. rewrite Hi. simpl. f_equal.
  case_bool_decide as Hw.
  - by rewrite (proj2 (Z.leb_le _ _)), (proj2 (Z.leb_le _ _)) by lia.
  - destruct (Z.leb_spec 1 (parcela_atual mes ano inicio)),
      (Z.leb_spec (parcela_atual mes ano inicio) (num_parcelas c)); simpl; [lia|done..].
Qed.

Section Parcelas.
Context (s : Arquivos) (c c' : Conta) (di : string) (inicio : data).
Hypotheses (Hr : conta_recorrente c = true) (Hp : conta_parcelada c = true)
  (Hdi : c_data_inicio c = Some di) (Hi : strptime_dmY di = Ok inicio)
  (Hy : 1000 <= PyDate.ano inicio) (Hn : 1 <= num_parcelas c)
  (Hmax : indice_mes inicio + (num_parcelas c - 1) <= indice_max)
  (Hprep : preparar_parcelamento c = Ok c') (Hler : ler (A := Conta) s = [c']).

(** The history's fixed-bill total of a store holding one installment bill
    stored by [adicionar_conta_fixa]. *)
Lemma total_contas_parcela_aux mes ano :
  1 <= mes <= 12 -> 1 <= ano <= 9999 ->
  exists v, total_contas_historico mes ano s = Ok v /\
    (v == if bool_decide ((1 <= parcela_atual mes ano inicio <= num_parcelas c)%Z)
          then valor_total_parcelado c / inject_Z (num_parcelas c) else 0)%Q.
Proof.
  intros Hm Ha.
  destruct (preparar_parcelamento_spec c c' di inicio Hp Hdi Hi Hy Hn Hmax Hprep)
    as (e & _ & _ & _ & _ & Hdi' & Hn' & Hp' & Hv' & _).
  unfold total_contas_historico, obter_contas_fixas_por_periodo. rewrite Hler. cbn [res_filter_mapM].
  rewrite (parcelas_periodo s c c' mes ano di inicio); try done;
    [| rewrite Hler; simpl; apply NoDup_singleton].
  unfold calcular_total_contas_fixas_historico.
  case_bool_decide as Hw; cbn [res_bind omap res_filter_mapM res_mapM];
    [rewrite contribuicao_conta_periodo | ].
  - rewrite (contribuicao_historico_parcelada mes ano c' di inicio) by (done || lia).
    rewrite Hn', Hv', bool_decide_true by done. simpl. eexists. split; [done|].
    rewrite somaQ_cons, somaQ_nil. unfold id. ring.
  - simpl. eexists. split; [done|]. reflexivity.
Qed.

End Parcelas.

(** ** The overview against the history *)


(** C34: A bill stored with [parcelado] and [num_parcelas = 0] (the form's
    [int(num_parcelas_var.get())] accepts a typed 0) makes both views'
    fixed-bill totals raise [ZeroDivisionError] for every period that lists
    it, which [HistoricoView.atualizar_dados] does not catch. *)
Theorem zero_parcelas_erro mes ano contas c :
  c ∈ contas -> conta_parcelada c = true -> c_num_parcelas c = Some 0 ->
  (exists e, calcular_total_contas_fixas_historico mes ano contas = Err e) /\
  (exists e, calcular_total_contas_fixas_visao_geral contas = Err e).
Proof.
  intros Hc Hp Hn.
  assert (Hz : num_parcelas c = 0) by (unfold num_parcelas; by rewrite Hn).
  unfold calcular_total_contas_fixas_historico, calcular_total_contas_fixas_visao_geral.
  split.
  - destruct (res_mapM_Err_elem (contribuicao_historico mes ano) contas c ZeroDivisionError Hc)
      as [e ->]; [|by eexists].
    unfold contribuicao_historico, valor_parcela. by rewrite Hp, Hz.
  - destruct (res_mapM_Err_elem contribuicao_visao_geral contas c ZeroDivisionError Hc)
      as [e ->]; [|by eexists].
    unfold contribuicao_visao_geral. by rewrite Hp, Hz.
Qed.

(** ** Installments outside their window *)

(** For a store holding one recurring installment bill stored by
    [adicionar_conta_fixa], the history's fixed-bill total of a month is
    the installment inside the window and 0 in every other month of the
    calendar. *)
Theorem total_contas_parcela s c c' di inicio mes ano :
  conta_recorrente c = true -> conta_parcelada c = true ->
  c_data_inicio c = Some di -> strptime_dmY di = Ok inicio -> 1000 <= PyDate.ano inicio ->
  1 <= num_parcelas c -> indice_mes inicio + (num_parcelas c - 1) <= indice_max ->
  preparar_parcelamento c = Ok c' -> ler (A := Conta) s = [c'] ->
  1 <= mes <= 12 -> 1 <= ano <= 9999 ->
  exists v, total_contas_historico mes ano s = Ok v /\
    if bool_decide (1 <= parcela_atual mes ano inicio <= num_parcelas c)
    then (v == valor_total_parcelado c / inject_Z (num_parcelas c))%Q
    else (v == 0)%Q.
Proof.
  intros Hr Hp Hdi Hi Hy Hn Hmax Hprep Hler Hm Ha.
  destruct (total_contas_parcela_aux s c c' di inicio Hr Hp Hdi Hi Hy Hn Hmax Hprep Hler mes ano Hm Ha)
    as (v & Hv & Heq).
  exists v. split; [done|]. by case_bool_decide.
Qed.

(** ** Concrete runs *)

(** [conta_tres_parcelas] as [adicionar_conta_fixa] stores it. *)
Definition conta_geladeira : Conta :=
  mkConta 8 "Geladeira" 300 (Some true) (Some "01/01/2024") (Some "01/03/2024") None None None
    (Some true) (Some 3) None None None None.

Definition gastos_marco : list Gasto :=
  [mkGasto 1 "Cinema" 17 "Lazer" "12/03/2024"; mkGasto 2 "Racao" 5 "Pets" "20/03/2024";
   mkGasto 3 "Feira" 30 "Alimentação" "02/04/2024"].

Definition arquivos_marco : Arquivos :=
  mkArquivos (Valido gastos_marco) (Valido [receita_exemplo]) (Valido [conta_geladeira]).

Lemma gastos_por_categoria_spec_witness :
  exists d, obter_gastos_por_categoria (Some 3) (Some 2024) arquivos_marco = Ok d /\
    NoDup (map fst d) /\
    (forall k, is_Some (dict_get k d) <-> k ∈ categorias \/
       exists g, g ∈ take 2 gastos_marco /\ g_categoria g = k) /\
    (forall k v, dict_get k d = Some v ->
       (v == somaQ g_valor (filter (fun g => g_categoria g = k) (take 2 gastos_marco)))%Q).
Proof. apply gastos_por_categoria_spec. vm_compute. reflexivity. Defined.

Lemma total_contas_parcela_witness :
  exists v, total_contas_historico 4 2024 arquivos_marco = Ok v /\
    if bool_decide (1 <= parcela_atual 4 2024 (mkData 2024 1 1) <= num_parcelas conta_tres_parcelas)
    then (v == valor_total_parcelado conta_tres_parcelas / inject_Z (num_parcelas conta_tres_parcelas))%Q
    else (v == 0)%Q.
Proof.
  apply (total_contas_parcela arquivos_marco conta_tres_parcelas conta_geladeira "01/01/2024");
    try (vm_compute; reflexivity); try (simpl; lia); vm_compute; congruence.
Defined.



Definition conta_zero_parcelas : Conta :=
  mkConta 10 "Curso" 600 (Some true) (Some "01/05/2024") (Some "01/05/2024") None None None
    (Some true) (Some 0) None None None None.

Lemma zero_parcelas_erro_witness :
  (exists e, calcular_total_contas_fixas_historico 5 2024 [conta_geladeira; conta_zero_parcelas] = Err e) /\
  (exists e, calcular_total_contas_fixas_visao_geral [conta_geladeira; conta_zero_parcelas] = Err e).
Proof. apply (zero_parcelas_erro 5 2024 _ conta_zero_parcelas); [by right; left | done | done]. Defined.

(** On the same store and month, [calcular_saldo] (data_manager.py
    432-447) subtracts the full 300 of a bill in three installments while
    the history tab's balance subtracts the installment of 100: the two
    balances of March 2024 differ by 200. *)
Example saldo_parcelado_divergente :
  calcular_saldo (Some 3) (Some 2024) arquivos_marco = Ok (5000 - 22 - 300)%Q /\
  resumo_historico 3 2024 arquivos_marco = Ok (22%Q, 5000%Q, (300 # 3)%Q, (14634 # 3)%Q) /\
  ~ (5000 - 22 - 300 == 14634 # 3)%Q.
Proof. split; [|split]; [vm_compute; reflexivity .. | discriminate]. Qed.
