(* ===== verification/Periods.v ===== *)
(** * Periods: the (month, year) pairs that have data

    [obter_meses_anos_disponiveis] (data_manager.py 485-552) collects into
    a Python [set] the month of every expense, of every non-recurring
    income, the stored [mes]/[ano] of every non-recurring bill, and, for a
    recurring income or bill, every month its [while] loop visits: from
    [data_inicio], while [data_atual <= data_fim], stepping to the first
    day of the next month; [data_fim] is the stored end date, or
    [dt.now()] (a time of day included) when there is none.  The set is
    then [sorted] by [(ano, mes)].

    - [meses_do_laco] is the [while] loop (data_manager.py 511-519 and
      538-546), with fuel; [combustivel] gives one iteration per month of
      the range plus one, which [meses_do_laco_suficiente] shows is never
      exhausted.
    - The set is a [gset (Z * Z)]; since [sorted] only depends on the
      elements, the order in which [elements] lists them does not matter
      ([Prelude.ordenar_unico]).

    Theorems: the loop visits exactly the months from the start month to
    the end month when [data_inicio <= data_fim], none otherwise, and
    raises [ValueError] when the end is in December 9999
    ([meses_do_laco_spec]); the result is strictly increasing by
    (year, month) and holds exactly the contributed months
    ([meses_disponiveis_spec]). *)

From Stdlib Require Import ZArith QArith String Lia Sorting.Sorted.
From stdpp Require Import base list gmap.
From S2P Require Import Prelude PyDate Records Installments Store.

Local Open Scope Z_scope.

(** ** The month loop *)

(** [dt(y + 1, 1, 1)] in December, [dt(y, m + 1, 1)] otherwise. *)
Definition primeiro_do_proximo (d : data) : res data :=
  if mes d =? 12 then mk_data (ano d + 1) 1 1 else mk_data (ano d) (mes d + 1) 1.

(** [while data_atual <= data_fim: meses_anos.add(...); data_atual = ...]:
    the months added, in visiting order. *)
Fixpoint meses_do_laco (fuel : nat) (atual : data) (fim : instante) : res (list (Z * Z)) :=
  match fuel with
  | O => Ok []
  | S f =>
      if instante_leb (meia_noite atual) fim then
        prox <- primeiro_do_proximo atual ;;
        resto <- meses_do_laco f prox fim ;;
        Ok ((mes atual, ano atual) :: resto)
      else Ok []
  end.

(** One iteration per month from [inicio] to [fim], and one more for the
    failing test. *)
Definition combustivel (inicio : data) (fim : instante) : nat :=
  Z.to_nat (indice_mes (inst_data fim) - indice_mes inicio + 2).

(** [data_fim] of a recurring record: the stored date when
    ["data_fim" in d and d["data_fim"]], [dt.now()] otherwise. *)
Definition ler_fim_ou_agora (agora : instante) (df : option string) : res instante :=
  match tem_data_fim df with
  | Some s => d <- strptime_dmY s ;; Ok (meia_noite d)
  | None => Ok agora
  end.

(** The months of a recurring record (data_manager.py 502-519). *)
Definition meses_recorrente (agora : instante) (di df : option string) : res (list (Z * Z)) :=
  s <- get_key di ;;
  inicio <- strptime_dmY s ;;
  fim <- ler_fim_ou_agora agora df ;;
  meses_do_laco (combustivel inicio fim) inicio fim.

(** ** One record *)

(** data_manager.py 494-496. *)
Definition meses_gasto (g : Gasto) : res (list (Z * Z)) :=
  d <- strptime_dmY (g_data g) ;; Ok [(mes d, ano d)].

(** data_manager.py 499-523. *)
Definition meses_receita (agora : instante) (r : Receita) : res (list (Z * Z)) :=
  if receita_recorrente r then meses_recorrente agora (r_data_inicio r) (r_data_fim r)
  else s <- get_key (r_data r) ;; d <- strptime_dmY s ;; Ok [(mes d, ano d)].

(** data_manager.py 526-549. *)
Definition meses_conta (agora : instante) (c : Conta) : res (list (Z * Z)) :=
  if conta_recorrente c then meses_recorrente agora (c_data_inicio c) (c_data_fim c)
  else m <- get_key (c_mes c) ;; a <- get_key (c_ano c) ;; Ok [(m, a)].

(** ** The whole query *)

(** [key=lambda x: (x[1], x[0])]: by year, then month. *)
Definition chave_le (p q : Z * Z) : bool :=
  (p.2 <? q.2) || ((p.2 =? q.2) && (p.1 <=? q.1)).

(** [obter_meses_anos_disponiveis()]; [agora] is [dt.now()]. *)
Definition obter_meses_anos_disponiveis (agora : instante) (s : Arquivos) : res (list (Z * Z)) :=
  mg <- res_mapM meses_gasto (ler s) ;;
  mr <- res_mapM (meses_receita agora) (ler s) ;;
  mc <- res_mapM (meses_conta agora) (ler s) ;;
  let meses_anos : gset (Z * Z) := list_to_set (concat mg ++ concat mr ++ concat mc) in
  Ok (ordenar chave_le (elements meses_anos)).

(** ** The loop, month by month *)

(** The month of index [q] as the pair [(mes, ano)]. *)
Definition mes_de_indice (q : Z) : Z * Z := (q mod 12 + 1, q / 12).

(** The months of indices [lo .. hi]. *)
Definition faixa (lo hi : Z) : list (Z * Z) := map mes_de_indice (Z_range lo (Z.to_nat (hi - lo + 1))).

(** An instant the source can build: a valid date and a time of day. *)
Definition instante_valido (t : instante) : Prop :=
  data_valida (inst_data t) = true /\ 0 <= inst_micro t.

Lemma mes_de_indice_data d : data_valida d = true -> mes_de_indice (indice_mes d) = (mes d, ano d).
Proof.
  intros (_ & Hm & _)%data_valida_iff. unfold mes_de_indice, indice_mes. f_equal.
  all: Z.div_mod_to_equations; lia.
Qed.

Lemma faixa_cons lo hi : lo <= hi -> faixa lo hi = mes_de_indice lo :: faixa (lo + 1) hi.
Proof.
  intros H. unfold faixa. replace (Z.to_nat (hi - lo + 1)) with (S (Z.to_nat (hi - (lo + 1) + 1))) by lia.
  done.
Qed.

Lemma faixa_vazia lo hi : hi < lo -> faixa lo hi = [].
Proof. intros H. unfold faixa. by replace (Z.to_nat (hi - lo + 1)) with O by lia. Qed.

Lemma instante_leb_indice a t :
  data_valida a = true -> instante_valido t ->
  instante_leb (meia_noite a) t = true -> indice_mes a <= indice_mes (inst_data t).
Proof.
  intros (_ & Ha & _)%data_valida_iff [(_ & Hv & _)%data_valida_iff Ht] Hle.
  apply (instante_leb_meia_noite a t Ht) in Hle. unfold indice_mes. lia.
Qed.

(** From the first of a month, the loop test compares months only. *)
Lemma instante_leb_dia1 a t :
  data_valida a = true -> dia a = 1 -> instante_valido t ->
  instante_leb (meia_noite a) t = (indice_mes a <=? indice_mes (inst_data t)).
Proof.
  intros Ha Hd [Hv Ht]. apply Bool.eq_iff_eq_true. rewrite Z.leb_le.
  split; [by apply instante_leb_indice|]. intros Hi.
  apply (instante_leb_meia_noite a t Ht).
  apply data_valida_iff in Ha as (_ & Hma & _). apply data_valida_iff in Hv as (_ & Hmt & Hdt).
  unfold indice_mes in Hi. rewrite Hd. lia.
Qed.

Lemma primeiro_do_proximo_Ok d :
  data_valida d = true -> indice_mes d < indice_max ->
  exists e, primeiro_do_proximo d = Ok e /\ data_valida e = true /\ dia e = 1 /\
    indice_mes e = indice_mes d + 1.
Proof.
  intros Hd Hmax. pose proof Hd as (Ha & Hm & _)%data_valida_iff.
  unfold primeiro_do_proximo, indice_mes, indice_max in *.
  destruct (Z.eqb_spec (mes d) 12) as [H12|H12].
  - exists (mkData (ano d + 1) 1 1). rewrite mk_data_dia1 by lia.
    pose proof (dias_no_mes_bounds (ano d + 1) 1 ltac:(lia)).
    split; [done|]. split; [apply data_valida_iff; simpl; lia|]. simpl. split; [done | lia].
  - exists (mkData (ano d) (mes d + 1) 1). rewrite mk_data_dia1 by lia.
    pose proof (dias_no_mes_bounds (ano d) (mes d + 1) ltac:(lia)).
    split; [done|]. split; [apply data_valida_iff; simpl; lia|]. simpl. split; [done | lia].
Qed.

Lemma indice_mes_max d : data_valida d = true -> indice_mes d <= indice_max.
Proof. intros (? & ? & _)%data_valida_iff. unfold indice_mes, indice_max. lia. Qed.

Lemma primeiro_do_proximo_max d :
  data_valida d = true -> indice_mes d = indice_max -> primeiro_do_proximo d = Err ValueError.
Proof.
  intros Hd Hmax. pose proof Hd as (Ha & Hm & _)%data_valida_iff.
  unfold primeiro_do_proximo, indice_mes, indice_max in *.
  rewrite (proj2 (Z.eqb_eq _ _)) by lia.
  assert (Ha9 : ano d = 9999) by lia. unfold mk_data. by rewrite Ha9.
Qed.

(** What the loop computes, given enough fuel, from any day [atual] of its
    first month once the first test is known. *)
Definition resultado_laco (lo : Z) (fim : instante) : res (list (Z * Z)) :=
  if indice_mes (inst_data fim) =? indice_max then Err ValueError
  else Ok (faixa lo (indice_mes (inst_data fim))).

(** From the first of a month, with more fuel than months left. *)
Lemma meses_do_laco_dia1 fuel atual fim :
  data_valida atual = true -> dia atual = 1 -> instante_valido fim ->
  indice_mes (inst_data fim) - indice_mes atual < Z.of_nat fuel ->
  meses_do_laco fuel atual fim =
  if indice_mes atual <=? indice_mes (inst_data fim) then resultado_laco (indice_mes atual) fim
  else Ok [].
Proof.
  revert atual. induction fuel as [|fuel IH]; intros atual Ha Hd Hf Hfuel.
  - simpl. rewrite (proj2 (Z.leb_gt _ _)) by lia. done.
  - cbn [meses_do_laco]. rewrite instante_leb_dia1 by done.
    destruct (Z.leb_spec (indice_mes atual) (indice_mes (inst_data fim))) as [Hle|]; [|done].
    pose proof (indice_mes_max _ (proj1 Hf)) as Hfmax. unfold resultado_laco.
    destruct (Z.eq_dec (indice_mes atual) indice_max) as [Hmax|Hmax].
    + rewrite primeiro_do_proximo_max, (proj2 (Z.eqb_eq _ _)) by (done || lia). done.
    + destruct (primeiro_do_proximo_Ok atual Ha) as (e & He & Hev & Hed & Hei);
        [pose proof (indice_mes_max _ Ha); lia|].
      rewrite He. cbn [res_bind]. rewrite IH by (done || lia). rewrite Hei.
      rewrite faixa_cons, mes_de_indice_data by done.
      destruct (Z.leb_spec (indice_mes atual + 1) (indice_mes (inst_data fim))).
      * unfold resultado_laco. by destruct (indice_mes (inst_data fim) =? indice_max).
      * rewrite faixa_vazia by lia. rewrite (proj2 (Z.eqb_neq _ _)) by lia. done.
Qed.

(** The loop started on [data_inicio], with any fuel of at least
    [combustivel]. *)
Theorem meses_do_laco_spec fuel inicio fim :
  data_valida inicio = true -> instante_valido fim -> (combustivel inicio fim <= fuel)%nat ->
  meses_do_laco fuel inicio fim =
  if instante_leb (meia_noite inicio) fim then resultado_laco (indice_mes inicio) fim else Ok [].
Proof.
  intros Hi Hf Hfuel. unfold combustivel in Hfuel.
  destruct (instante_leb (meia_noite inicio) fim) eqn:Hle.
  - pose proof (instante_leb_indice _ _ Hi Hf Hle) as Hidx.
    destruct fuel as [|fuel]; [lia|]. cbn [meses_do_laco]. rewrite Hle.
    pose proof (indice_mes_max _ (proj1 Hf)) as Hfmax. unfold resultado_laco.
    destruct (Z.eq_dec (indice_mes inicio) indice_max) as [Hmax|Hmax].
    + rewrite primeiro_do_proximo_max, (proj2 (Z.eqb_eq _ _)) by (done || lia). done.
    + destruct (primeiro_do_proximo_Ok inicio Hi) as (e & He & Hev & Hed & Hei);
        [pose proof (indice_mes_max _ Hi); lia|].
      rewrite He. cbn [res_bind]. rewrite meses_do_laco_dia1 by (done || lia). rewrite Hei.
      rewrite faixa_cons, mes_de_indice_data by done.
      destruct (Z.leb_spec (indice_mes inicio + 1) (indice_mes (inst_data fim))).
      * unfold resultado_laco. by destruct (indice_mes (inst_data fim) =? indice_max).
      * rewrite faixa_vazia by lia. rewrite (proj2 (Z.eqb_neq _ _)) by lia. done.
  - destruct fuel as [|fuel]; [done|]. cbn [meses_do_laco]. by rewrite Hle.
Qed.

(** ** The sorted set *)

Lemma chave_le_total p q : chave_le p q = true \/ chave_le q p = true.
Proof.
  unfold chave_le. destruct (Z.ltb_spec p.2 q.2), (Z.ltb_spec q.2 p.2), (Z.eqb_spec p.2 q.2),
    (Z.eqb_spec q.2 p.2), (Z.leb_spec p.1 q.1), (Z.leb_spec q.1 p.1); simpl; auto; lia.
Qed.

Lemma chave_le_trans p q r : chave_le p q = true -> chave_le q r = true -> chave_le p r = true.
Proof.
  unfold chave_le. rewrite !orb_true_iff, !andb_true_iff, !Z.ltb_lt, !Z.eqb_eq, !Z.leb_le. lia.
Qed.

(** [chave_le] orders pairs without ties. *)
Lemma chave_le_antisym p q : chave_le p q = true -> chave_le q p = true -> p = q.
Proof.
  destruct p as [m a], q as [m' a']. unfold chave_le. simpl.
  rewrite !orb_true_iff, !andb_true_iff, !Z.ltb_lt, !Z.eqb_eq, !Z.leb_le. intros ? ?.
  f_equal; lia.
Qed.

(** C11: [obter_meses_anos_disponiveis] returns the months in strictly
    increasing (year, month) order, without repetition, and a month is
    listed exactly when some expense, income or bill of the files
    contributes it. *)
Theorem meses_disponiveis_spec agora s l :
  obter_meses_anos_disponiveis agora s = Ok l ->
  ordenada chave_le l /\ NoDup l /\
  (forall p, p ∈ l <->
     (exists g ps, g ∈ ler (A := Gasto) s /\ meses_gasto g = Ok ps /\ p ∈ ps) \/
     (exists r ps, r ∈ ler (A := Receita) s /\ meses_receita agora r = Ok ps /\ p ∈ ps) \/
     (exists c ps, c ∈ ler (A := Conta) s /\ meses_conta agora c = Ok ps /\ p ∈ ps)).
Proof.
  unfold obter_meses_anos_disponiveis.
  intros (mg & Hg & (mr & Hr & (mc & Hc & Hl)%res_bind_Ok)%res_bind_Ok)%res_bind_Ok.
  injection Hl as <-. split; [apply ordenar_ordenada; [apply chave_le_total | apply chave_le_trans]|].
  split; [rewrite (ordenar_Permutation chave_le); apply NoDup_elements|].
  intros p. rewrite ordenar_elem, elem_of_elements, elem_of_list_to_set, !elem_of_app.
  by rewrite (res_mapM_concat_elem _ _ _ _ Hg), (res_mapM_concat_elem _ _ _ _ Hr),
    (res_mapM_concat_elem _ _ _ _ Hc).
Qed.

(** ** One recurring record *)

Lemma ler_fim_ou_agora_valido agora df fim :
  instante_valido agora -> ler_fim_ou_agora agora df = Ok fim -> instante_valido fim.
Proof.
  intros Ha. unfold ler_fim_ou_agora. destruct (tem_data_fim df) as [s|]; [|by intros [= <-]].
  intros (d & Hd & [= <-])%res_bind_Ok. split; [by eapply strptime_dmY_valida | simpl; lia].
Qed.

(** C31: the months a recurring income or bill contributes: with [data_fim]
    the stored end date or [dt.now()], every month from the start month to
    the end month when [data_inicio <= data_fim] (a start later in the
    same month as the end contributes nothing), no month otherwise, and
    [ValueError] when the end is in December 9999. *)
Theorem meses_recorrente_spec agora di df sdi inicio fim :
  instante_valido agora -> di = Some sdi -> strptime_dmY sdi = Ok inicio ->
  ler_fim_ou_agora agora df = Ok fim ->
  meses_recorrente agora di df =
  if instante_leb (meia_noite inicio) fim then resultado_laco (indice_mes inicio) fim else Ok [].
Proof.
  intros Ha -> Hi Hf. unfold meses_recorrente. cbn [get_key res_bind]. rewrite Hi, Hf. cbn [res_bind].
  apply meses_do_laco_spec; [by eapply strptime_dmY_valida | by eapply ler_fim_ou_agora_valido | lia].
Qed.

(** C37: the fuel never runs out: any fuel of at least [combustivel] gives
    the loop's result. *)
Theorem meses_do_laco_suficiente fuel inicio fim :
  data_valida inicio = true -> instante_valido fim -> (combustivel inicio fim <= fuel)%nat ->
  meses_do_laco fuel inicio fim = meses_do_laco (combustivel inicio fim) inicio fim.
Proof. intros Hi Hf Hk. rewrite !meses_do_laco_spec by (done || lia). done. Qed.

(** ** Concrete runs *)

Local Open Scope string_scope.
Local Open Scope Z_scope.

(** 5 June 2024, 10:00. *)
Definition agora_exemplo : instante := mkInstante (mkData 2024 6 5) (36000 * 1000000).

Definition receita_desde_janeiro : Receita :=
  mkReceita 1 "Salario" 5000%Q (Some true) None (Some "01/01/2024") None.

Definition arquivos_desde_janeiro : Arquivos :=
  mkArquivos (Valido []) (Valido [receita_desde_janeiro]) (Valido []).

(** a recurring income from January 2024 without an end date, queried
    on 5 June 2024, gives exactly the six months January to June 2024. *)
Example meses_disponiveis_exemplo :
  obter_meses_anos_disponiveis agora_exemplo arquivos_desde_janeiro =
  Ok [(1, 2024); (2, 2024); (3, 2024); (4, 2024); (5, 2024); (6, 2024)].
Proof. vm_compute. reflexivity. Qed.

Lemma meses_disponiveis_spec_witness :
  ordenada chave_le [(1, 2024); (2, 2024); (3, 2024); (4, 2024); (5, 2024); (6, 2024)] /\
  NoDup [(1, 2024); (2, 2024); (3, 2024); (4, 2024); (5, 2024); (6, 2024)] /\
  (forall p, p ∈ [(1, 2024); (2, 2024); (3, 2024); (4, 2024); (5, 2024); (6, 2024)] <->
     (exists g ps, g ∈ ler (A := Gasto) arquivos_desde_janeiro /\ meses_gasto g = Ok ps /\ p ∈ ps) \/
     (exists r ps, r ∈ ler (A := Receita) arquivos_desde_janeiro /\
        meses_receita agora_exemplo r = Ok ps /\ p ∈ ps) \/
     (exists c ps, c ∈ ler (A := Conta) arquivos_desde_janeiro /\
        meses_conta agora_exemplo c = Ok ps /\ p ∈ ps)).
Proof. apply meses_disponiveis_spec. vm_compute. reflexivity. Defined.

Lemma meses_recorrente_spec_witness :
  meses_recorrente agora_exemplo (Some "01/01/2024") None =
  if instante_leb (meia_noite (mkData 2024 1 1)) agora_exemplo
  then resultado_laco (indice_mes (mkData 2024 1 1)) agora_exemplo else Ok [].
Proof.
  apply (meses_recorrente_spec _ _ _ "01/01/2024"); [split; [reflexivity | simpl; lia] | reflexivity
    | vm_compute; reflexivity | reflexivity].
Defined.

Lemma meses_do_laco_suficiente_witness :
  meses_do_laco 40 (mkData 2024 1 1) agora_exemplo
  = meses_do_laco (combustivel (mkData 2024 1 1) agora_exemplo) (mkData 2024 1 1) agora_exemplo.
Proof.
  apply meses_do_laco_suficiente; [reflexivity | split; [reflexivity | simpl; lia] | vm_compute; lia].
Defined.
