(* ===== verification/History.v ===== *)
(** * History: the unified feed of a month and the history tab

    - [obter_dados_para_historico] (data_manager.py 554-628) turns the
      period's expenses, incomes and bills into one kind of dict
      ([ItemHistorico]) and returns them [sorted] by the parsed [data].
      The dicts have no ["id"] key.  Python's [sorted] is stable, so the
      feed is computed with [Prelude.ordenar] on (date, item) pairs, whose
      result every stable sort returns ([Prelude.ordenar_unico]).
    - [linha_historico] is the body of the row loop of
      [HistoricoView.atualizar] (historico.py 254-316): the amount shown
      (the installment for a parceled bill), the interest suffix of the
      status, the ["k/n"] installment column and the row's tags
      [(dado.get('id', ''), tipo, tipo.lower())].  Amounts are kept as
      numbers; their ["R$ %.2f"] text is not modelled.
    - [atualizar_historico] is [HistoricoView.atualizar] (historico.py
      239-338) on the table: rows are inserted one by one, so an exception
      in the middle leaves the rows inserted before it; [ValueError] is
      shown in a dialog, other exceptions escape the handler.
    - [historico_marcar] is [marcar_conta_como_paga] /
      [marcar_conta_como_pendente] of the history tab (historico.py
      450-510), which read the bill id back from the row's tags;
      [escolher_opcao_historico] is the context menu and its two actions.

    Theorems: the feed is ordered by date, is a permutation of the merged
    records, and keeps expenses, incomes and bills of the same date in that
    order ([historico_ordenado], [historico_estavel]); the history tab's
    pay and pending actions never change the files, because the first tag
    of every row is the empty string and [int('')] raises ([historico_marcar_falha]). *)

From Stdlib Require Import ZArith QArith String Ascii Lia Sorting.Sorted.
From stdpp Require Import base list.
From S2P Require Import Prelude PyDate PyNum Records Installments Store Ledger Resolver Totals.

Local Open Scope Z_scope.

(** ** The feed *)

(** A dict of [dados_historico]; an optional key is an [option]. *)
Record ItemHistorico := mkItemHistorico {
  hi_tipo : string;
  hi_descricao : string;
  hi_categoria : string;
  hi_valor : Q;
  hi_data : string;
  hi_status : string;
  hi_parcelado : option bool;
  hi_num_parcelas : option Z;
  hi_data_inicio : option string;
  hi_valor_com_juros : option Q;
  hi_valor_sem_juros : option Q
}.

(** data_manager.py 564-572. *)
Definition item_gasto (g : Gasto) : ItemHistorico :=
  mkItemHistorico "Gasto" (g_descricao g) (g_categoria g) (g_valor g) (g_data g) "-"
    None None None None None.

(** data_manager.py 575-586. *)
Definition item_receita (mes ano : Z) (r : Receita) : ItemHistorico :=
  mkItemHistorico "Receita" (r_descricao r) "Receita" (r_valor r)
    (default (data_01 mes ano) (r_data r))
    (if receita_recorrente r then "Recorrente" else "-")
    None None None None None.

(** data_manager.py 589-625: the installment keys only for a parceled
    bill, the interest keys only when [valor_com_juros] is truthy. *)
Definition item_conta (mes ano : Z) (c : Conta) : ItemHistorico :=
  let status := ((if default false (c_pago c) then "Pago" else "Pendente")
                 ++ (if conta_recorrente c then " (Recorrente)" else EmptyString))%string in
  let data := default (data_01 mes ano) (c_data_pagamento c) in
  let juros := match c_valor_com_juros c with
               | Some j => if Qeq_bool j 0 then None else Some j
               | None => None
               end in
  if conta_parcelada c then
    mkItemHistorico "Conta Fixa" (c_descricao c) "Conta Fixa" (c_valor c) data status
      (Some true) (Some (num_parcelas c)) (c_data_inicio c) juros
      (match juros with Some _ => Some (c_valor c) | None => None end)
  else
    mkItemHistorico "Conta Fixa" (c_descricao c) "Conta Fixa" (c_valor c) data status
      None None None None None.

(** [dados_historico] before sorting: expenses, then incomes, then bills. *)
Definition itens_historico (mes ano : Z) (gastos : list Gasto) (receitas : list Receita)
    (contas : list Conta) : list ItemHistorico :=
  map item_gasto gastos ++ map (item_receita mes ano) receitas ++ map (item_conta mes ano) contas.

(** [datetime] order on dates at midnight. *)
Definition data_leb (a b : data) : bool := instante_leb (meia_noite a) (meia_noite b).

Definition par_leb (p q : data * ItemHistorico) : bool := data_leb p.1 q.1.

(** [obter_dados_para_historico(mes, ano)]: [sorted] computes every key
    ([strptime(x["data"])]) before ordering, so one bad date raises. *)
Definition obter_dados_para_historico (mes ano : Z) (s : Arquivos) : res (list ItemHistorico) :=
  gastos <- obter_gastos_por_periodo (Some mes) (Some ano) s ;;
  receitas <- obter_receitas_por_periodo (Some mes) (Some ano) s ;;
  contas <- obter_contas_fixas_por_periodo (Some mes) (Some ano) s ;;
  let itens := itens_historico mes ano gastos receitas contas in
  chaves <- res_mapM (fun x => strptime_dmY (hi_data x)) itens ;;
  Ok (map snd (ordenar par_leb (zip chaves itens))).

(** ** The history table *)

(** [str.lower()] on ASCII. *)
(** One Treeview row: the seven columns (the amount as a number, the
    interest suffix [" (Juros: R$ %.2f)"] of the status as its amount) and
    the tags. *)
Record Linha := mkLinha {
  l_tipo : string;
  l_descricao : string;
  l_categoria : string;
  l_valor : Q;
  l_data : string;
  l_status : string;
  l_juros : option Q;
  l_parcelas : string;
  l_tags : list string
}.

(** The amount of a parceled bill and the interest per installment shown
    when the total interest is positive (historico.py 261-286). *)
Definition valor_e_juros (n : Z) (dado : ItemHistorico) : res (Q * option Q) :=
  match hi_valor_com_juros dado with
  | Some vcj =>
      vsj <- get_key (hi_valor_sem_juros dado) ;;
      if n =? 0 then Err ZeroDivisionError
      else
        let jt := (vcj - vsj)%Q in
        Ok ((vcj / inject_Z n)%Q, if negb (Qle_bool jt 0) then Some (jt / inject_Z n)%Q else None)
  | None => if n =? 0 then Err ZeroDivisionError else Ok ((hi_valor dado / inject_Z n)%Q, None)
  end.

(** The installment column (historico.py 289-304). *)
Definition info_parcelas (mes ano n : Z) (dado : ItemHistorico) : res string :=
  match hi_data_inicio dado with
  | Some di =>
      inicio <- strptime_dmY di ;;
      let pa := parcela_atual mes ano inicio in
      Ok (if (1 <=? pa) && (pa <=? n) then (str_int pa ++ "/" ++ str_int n)%string
          else (str_int n ++ "x")%string)
  | None => Ok (str_int n ++ "x")%string
  end.

(** The body of the row loop of [HistoricoView.atualizar]; the dict has no
    ['id'] key, so the first tag is the empty string. *)
Definition linha_historico (mes ano : Z) (dado : ItemHistorico) : res Linha :=
  let tags := [EmptyString; hi_tipo dado; minusculas (hi_tipo dado)]%string in
  if String.eqb (hi_tipo dado) "Conta Fixa" && default false (hi_parcelado dado) then
    let n := default 1 (hi_num_parcelas dado) in
    vj <- valor_e_juros n dado ;;
    parcelas <- info_parcelas mes ano n dado ;;
    Ok (mkLinha (hi_tipo dado) (hi_descricao dado) (hi_categoria dado) vj.1 (hi_data dado)
          (hi_status dado) vj.2 parcelas tags)
  else
    Ok (mkLinha (hi_tipo dado) (hi_descricao dado) (hi_categoria dado) (hi_valor dado) (hi_data dado)
          (hi_status dado) None EmptyString tags).

(** What the tab shows: the rows and the four summary labels. *)
Record TelaHistorico := mkTela {
  th_linhas : list Linha;
  th_resumo : option (Q * Q * Q * Q)
}.

(** How a refresh ends: normally, with [ValueError] shown in an error
    dialog ([except (ValueError, TypeError)]), or with an exception that
    leaves the handler. *)
Inductive Desfecho : Type :=
| Concluido
| ErroExibido (e : excecao)
| ExcecaoPropagada (e : excecao).

Definition capturar (e : excecao) : Desfecho :=
  match e with ValueError => ErroExibido e | _ => ExcecaoPropagada e end.

(** Rows are inserted one at a time: the rows before the first failure stay. *)
Fixpoint inserir_linhas (mes ano : Z) (dados : list ItemHistorico) : list Linha * option excecao :=
  match dados with
  | [] => ([], None)
  | d :: r =>
      match linha_historico mes ano d with
      | Ok l => let '(ls, e) := inserir_linhas mes ano r in (l :: ls, e)
      | Err e => ([], Some e)
      end
  end.

(** [HistoricoView.atualizar()] with the filter strings [mes_s], [ano_s]:
    the table is cleared after both are read. *)
Definition atualizar_historico (mes_s ano_s : string) (s : Arquivos) (tela : TelaHistorico)
    : TelaHistorico * Desfecho :=
  match py_int mes_s, py_int ano_s with
  | Err e, _ => (tela, capturar e)
  | Ok _, Err e => (tela, capturar e)
  | Ok mes, Ok ano =>
      match obter_dados_para_historico mes ano s with
      | Err e => (mkTela [] (th_resumo tela), capturar e)
      | Ok dados =>
          let '(linhas, erro) := inserir_linhas mes ano dados in
          match erro with
          | Some e => (mkTela linhas (th_resumo tela), capturar e)
          | None =>
              match resumo_historico mes ano s with
              | Ok r => (mkTela linhas (Some r), Concluido)
              | Err e => (mkTela linhas (th_resumo tela), capturar e)
              end
          end
      end
  end.

(** ** Marking a bill from the history tab *)

Inductive DesfechoMarcar : Type :=
| AvisoNenhumSelecionado
| AvisoNaoContaFixa
| ContaMarcada
| ExcecaoMarcar (e : excecao).

(** [len(tags) >= 2 and tags[1] == "Conta Fixa"]. *)
Definition eh_linha_conta (tags : list string) : bool :=
  (2 <=? length tags)%nat && String.eqb (nth 1 tags EmptyString) "Conta Fixa".

(** [marcar_conta_como_paga] ([status_pago = true]) and
    [marcar_conta_como_pendente] ([false]) of [HistoricoView]
    (historico.py 450-510), on the tags of the selected row. *)
Definition historico_marcar (status_pago : bool) (selecao : option (list string))
    (mes_s ano_s : string) (hoje : data) (s : Arquivos) : Arquivos * DesfechoMarcar :=
  match selecao with
  | None => (s, AvisoNenhumSelecionado)
  | Some tags =>
      if eh_linha_conta tags then
        match (i <- py_int (nth 0 tags EmptyString) ;; m <- py_int mes_s ;; a <- py_int ano_s ;; Ok (i, m, a)) with
        | Ok (i, m, a) => (marcar_conta_como_paga i m a status_pago None hoje s, ContaMarcada)
        | Err e => (s, ExcecaoMarcar e)
        end
      else (s, AvisoNaoContaFixa)
  end.

(** The entry the context menu offers (historico.py 410-448). *)
Inductive OpcaoMenu : Type :=
| MenuMarcarPendente (conta_id mes ano : Z)
| MenuMarcarPago (conta_id mes ano : Z).

(** [HistoricoView.abrir_menu_contexto] on the right-clicked row's tags:
    no menu for other rows, the menu entry for a bill. *)
Definition menu_contexto_historico (tags : list string) (mes_s ano_s : string) (s : Arquivos)
    : res (option OpcaoMenu) :=
  if eh_linha_conta tags then
    i <- py_int (nth 0 tags EmptyString) ;; m <- py_int mes_s ;; a <- py_int ano_s ;;
    Ok (Some (if verificar_conta_paga i m a s then MenuMarcarPendente i m a else MenuMarcarPago i m a))
  else Ok None.

(** [marcar_como_pago_menu] / [marcar_como_pendente_menu] of
    [HistoricoView] (historico.py 512-533): the mark, then the refresh,
    inside a [try] whose [except Exception] shows any exception the
    refresh lets through. *)
Definition marcar_menu_historico (status_pago : bool) (conta_id mes ano : Z) (mes_s ano_s : string)
    (hoje : data) (s : Arquivos) (tela : TelaHistorico) : Arquivos * TelaHistorico * Desfecho :=
  let s' := marcar_conta_como_paga conta_id mes ano status_pago None hoje s in
  let '(tela', d) := atualizar_historico mes_s ano_s s' tela in
  (s', tela', match d with ExcecaoPropagada e => ErroExibido e | _ => d end).

Definition marcar_como_pago_menu_historico := marcar_menu_historico true.
Definition marcar_como_pendente_menu_historico := marcar_menu_historico false.

(** Choosing the entry of the context menu. *)
Definition escolher_opcao_historico (o : OpcaoMenu) (mes_s ano_s : string) (hoje : data)
    (s : Arquivos) (tela : TelaHistorico) : Arquivos * TelaHistorico * Desfecho :=
  match o with
  | MenuMarcarPendente i m a => marcar_como_pendente_menu_historico i m a mes_s ano_s hoje s tela
  | MenuMarcarPago i m a => marcar_como_pago_menu_historico i m a mes_s ano_s hoje s tela
  end.

(** ** The order of the feed *)

Lemma data_leb_iff a b :
  data_leb a b = true <->
  ano a < ano b \/ (ano a = ano b /\ (mes a < mes b \/ (mes a = mes b /\ dia a <= dia b))).
Proof. unfold data_leb. apply instante_leb_meia_noite. simpl. lia. Qed.

Lemma data_leb_total a b : data_leb a b = true \/ data_leb b a = true.
Proof. rewrite !data_leb_iff. lia. Qed.

Lemma data_leb_trans a b c : data_leb a b = true -> data_leb b c = true -> data_leb a c = true.
Proof. rewrite !data_leb_iff. lia. Qed.

Lemma data_leb_antisym a b : data_leb a b = true -> data_leb b a = true -> a = b.
Proof. rewrite !data_leb_iff. destruct a, b. simpl. intros ? ?. f_equal; lia. Qed.

Lemma par_leb_total p q : par_leb p q = true \/ par_leb q p = true.
Proof. apply data_leb_total. Qed.

Lemma par_leb_trans p q r : par_leb p q = true -> par_leb q r = true -> par_leb p r = true.
Proof. apply data_leb_trans. Qed.

(** The steps of [obter_dados_para_historico] that succeeded. *)
Lemma obter_dados_Ok mes ano s l :
  obter_dados_para_historico mes ano s = Ok l ->
  exists gastos receitas contas chaves,
    obter_gastos_por_periodo (Some mes) (Some ano) s = Ok gastos /\
    obter_receitas_por_periodo (Some mes) (Some ano) s = Ok receitas /\
    obter_contas_fixas_por_periodo (Some mes) (Some ano) s = Ok contas /\
    res_mapM (fun x => strptime_dmY (hi_data x)) (itens_historico mes ano gastos receitas contas) = Ok chaves /\
    l = map snd (ordenar par_leb (zip chaves (itens_historico mes ano gastos receitas contas))).
Proof.
  unfold obter_dados_para_historico.
  intros (g & Hg & (r & Hr & (c & Hc & (k & Hk & Hl)%res_bind_Ok)%res_bind_Ok)%res_bind_Ok)%res_bind_Ok.
  injection Hl as <-. by exists g, r, c, k.
Qed.

(** every item of the history feed has a parseable date, and the feed
    is ordered by date. *)
Theorem historico_ordenado mes ano s l :
  obter_dados_para_historico mes ano s = Ok l ->
  Forall (fun x => exists d, strptime_dmY (hi_data x) = Ok d) l /\
  StronglySorted (fun x y => forall dx dy, strptime_dmY (hi_data x) = Ok dx ->
                   strptime_dmY (hi_data y) = Ok dy -> data_leb dx dy = true) l.
Proof.
  intros (g & r & c & k & _ & _ & _ & Hk & ->)%obter_dados_Ok.
  destruct (res_mapM_zip _ _ _ Hk) as [_ Hz].
  assert (Hin : forall p, p ∈ ordenar par_leb (zip k (itens_historico mes ano g r c)) ->
                 strptime_dmY (hi_data p.2) = Ok p.1) by (intros p Hp; apply ordenar_elem in Hp; by apply Hz).
  split.
  - apply Forall_map, Forall_forall. intros p Hp. exists p.1. by apply Hin.
  - eapply StronglySorted_map_impl; [|apply ordenar_ordenada; [apply par_leb_total | apply par_leb_trans]].
    intros p q Hp Hq Hpq dx dy Hx Hy. rewrite Hin in Hx by done. rewrite Hin in Hy by done.
    injection Hx as <-. injection Hy as <-. exact Hpq.
Qed.

Definition item_vazio : ItemHistorico :=
  mkItemHistorico EmptyString EmptyString EmptyString 0 EmptyString EmptyString None None None None None.

(** An item's date is [d] exactly when its pair is in the class of [d]. *)
Lemma par_classe d x p :
  strptime_dmY (hi_data p.2) = Ok p.1 ->
  strptime_dmY (hi_data p.2) = Ok d <-> equiv_le par_leb (d, x) p.
Proof.
  intros Hp. rewrite Hp. unfold equiv_le, par_leb. simpl. split.
  - intros [= ->]. split; apply data_leb_iff; lia.
  - intros [H1 H2]. f_equal. by apply data_leb_antisym.
Qed.

(** C10: the history feed is what a stable sort by date of the merged
    records (expenses, then incomes, then bills, each in the resolver's
    order) returns: a permutation of them, in ascending date order, in
    which the items of any one date keep their order. *)
Theorem historico_estavel mes ano s l gastos receitas contas :
  obter_dados_para_historico mes ano s = Ok l ->
  obter_gastos_por_periodo (Some mes) (Some ano) s = Ok gastos ->
  obter_receitas_por_periodo (Some mes) (Some ano) s = Ok receitas ->
  obter_contas_fixas_por_periodo (Some mes) (Some ano) s = Ok contas ->
  Permutation l (itens_historico mes ano gastos receitas contas) /\
  StronglySorted (fun x y => forall dx dy, strptime_dmY (hi_data x) = Ok dx ->
                   strptime_dmY (hi_data y) = Ok dy -> data_leb dx dy = true) l /\
  forall d, filter (fun x => strptime_dmY (hi_data x) = Ok d) l =
            filter (fun x => strptime_dmY (hi_data x) = Ok d) (itens_historico mes ano gastos receitas contas).
Proof.
  intros Hl. pose proof (proj2 (historico_ordenado _ _ _ _ Hl)) as Hs. revert Hl Hs.
  intros (g & r & c & k & Hg & Hr & Hc & Hk & ->)%obter_dados_Ok Hs Hg' Hr' Hc'.
  rewrite Hg in Hg'. rewrite Hr in Hr'. rewrite Hc in Hc'.
  injection Hg' as <-. injection Hr' as <-. injection Hc' as <-.
  set (itens := itens_historico mes ano g r c) in *.
  destruct (res_mapM_zip _ _ _ Hk) as [Hsnd Hz].
  split; [rewrite ordenar_Permutation; by rewrite Hsnd|].
  split; [exact Hs|]. intros d.
  assert (E : filter (fun x => strptime_dmY (hi_data x) = Ok d) itens =
              filter (fun x => strptime_dmY (hi_data x) = Ok d) (map snd (zip k itens))) by (by rewrite Hsnd).
  rewrite E, !filter_map_comm. f_equal.
  rewrite (filter_ext_elem _ (equiv_le par_leb (d, item_vazio))) by
    (intros p Hp%ordenar_elem; by apply par_classe, Hz).
  rewrite ordenar_estavel by (apply par_leb_total || apply par_leb_trans).
  apply filter_ext_elem. intros p Hp. symmetry. by apply par_classe, Hz.
Qed.

(** ** The history tab cannot mark bills *)

Lemma linha_historico_tags mes ano d l :
  linha_historico mes ano d = Ok l -> l_tags l = [EmptyString; hi_tipo d; minusculas (hi_tipo d)].
Proof.
  unfold linha_historico. destruct (_ && _).
  - intros (vj & _ & (pc & _ & [= <-])%res_bind_Ok)%res_bind_Ok. done.
  - by intros [= <-].
Qed.

(** C7: on any row the history table shows, the tab's "mark as paid" and
    "mark as pending" actions leave the files unchanged and never mark a
    bill: on a bill's row they reach [int(tags[0])] with the empty tag and
    raise [ValueError] (and so does the context menu); any other row gets
    the "not a fixed bill" warning. *)
Theorem historico_marcar_falha mes ano d l status_pago mes_s ano_s hoje s :
  linha_historico mes ano d = Ok l ->
  historico_marcar status_pago (Some (l_tags l)) mes_s ano_s hoje s =
    (s, if String.eqb (hi_tipo d) "Conta Fixa" then ExcecaoMarcar ValueError else AvisoNaoContaFixa) /\
  menu_contexto_historico (l_tags l) mes_s ano_s s =
    (if String.eqb (hi_tipo d) "Conta Fixa" then Err ValueError else Ok None).
Proof.
  intros Hl. rewrite (linha_historico_tags _ _ _ _ Hl).
  unfold historico_marcar, menu_contexto_historico, eh_linha_conta. cbn [nth length]. rewrite py_int_vazio.
  by destruct (String.eqb (hi_tipo d) "Conta Fixa").
Qed.

(** ** A refresh that fails half-way *)

(** the row loop of [HistoricoView.atualizar] either inserts the rows
    of every item, or stops at the first item whose row raises and leaves
    in the table exactly the rows of the items before it. *)
Theorem inserir_linhas_spec mes ano dados :
  match inserir_linhas mes ano dados with
  | (ls, None) => res_mapM (linha_historico mes ano) dados = Ok ls
  | (ls, Some e) => exists k d, dados !! k = Some d /\ linha_historico mes ano d = Err e /\
                     res_mapM (linha_historico mes ano) (take k dados) = Ok ls
  end.
Proof.
  induction dados as [|d r IH]; [done|]. simpl.
  destruct (linha_historico mes ano d) as [l|e] eqn:Hd.
  - destruct (inserir_linhas mes ano r) as [ls [e|]]; simpl.
    + destruct IH as (k & d' & Hk & Hd' & Hls). exists (S k), d'. simpl. by rewrite Hd, Hls.
    + by rewrite IH.
  - exists 0%nat, d. simpl. by split.
Qed.

(** ** Concrete runs *)

Lemma historico_ordenado_witness :
  Forall (fun x => exists d, strptime_dmY (hi_data x) = Ok d)
    (match obter_dados_para_historico 3 2024 arquivos_marco with Ok l => l | Err _ => [] end) /\
  StronglySorted (fun x y => forall dx dy, strptime_dmY (hi_data x) = Ok dx ->
                   strptime_dmY (hi_data y) = Ok dy -> data_leb dx dy = true)
    (match obter_dados_para_historico 3 2024 arquivos_marco with Ok l => l | Err _ => [] end).
Proof. apply (historico_ordenado 3 2024 arquivos_marco). vm_compute. reflexivity. Defined.

Lemma historico_estavel_witness :
  let l := match obter_dados_para_historico 3 2024 arquivos_marco with Ok l => l | Err _ => [] end in
  let itens := itens_historico 3 2024 (take 2 gastos_marco)
                 [receita_com_data "01/03/2024" receita_exemplo]
                 [conta_periodo false None 3 2024 conta_geladeira] in
  Permutation l itens /\
  StronglySorted (fun x y => forall dx dy, strptime_dmY (hi_data x) = Ok dx ->
                   strptime_dmY (hi_data y) = Ok dy -> data_leb dx dy = true) l /\
  forall d, filter (fun x => strptime_dmY (hi_data x) = Ok d) l =
            filter (fun x => strptime_dmY (hi_data x) = Ok d) itens.
Proof. apply (historico_estavel 3 2024 arquivos_marco); vm_compute; reflexivity. Defined.

Definition item_geladeira : ItemHistorico :=
  item_conta 3 2024 (conta_periodo false None 3 2024 conta_geladeira).

Lemma historico_marcar_falha_witness :
  exists l, linha_historico 3 2024 item_geladeira = Ok l /\
  historico_marcar true (Some (l_tags l)) "3" "2024" hoje_exemplo arquivos_marco =
    (arquivos_marco, if String.eqb (hi_tipo item_geladeira) "Conta Fixa"
                     then ExcecaoMarcar ValueError else AvisoNaoContaFixa) /\
  menu_contexto_historico (l_tags l) "3" "2024" arquivos_marco =
    (if String.eqb (hi_tipo item_geladeira) "Conta Fixa" then Err ValueError else Ok None).
Proof.
  eexists. split; [vm_compute; reflexivity|].
  apply (historico_marcar_falha 3 2024 item_geladeira). vm_compute. reflexivity.
Defined.
