(* ===== verification/Forms.v ===== *)
(** * Forms: the expense and income tabs

    [GastosGeraisView] (views/gastos_gerais.py) and [ReceitasView]
    (views/receitas.py) are a table of the records of the selected month
    and an add/edit form.  The Tk widgets are not modelled; what is, is
    what the handlers compute and write:

    - the "Salvar" handlers ([salvar_gasto], [atualizar_gasto],
      [salvar_receita], [atualizar_receita]) with their checks in the
      source's order, each failed check an [ErroFormulario] (the
      [messagebox.showerror] the code shows), a passed one the store the
      [DataManager] call writes;
    - the table refresh [atualizar], the row each record becomes, and the
      selection ([obter_gasto_selecionado], [obter_receita_selecionada]),
      which reads the id back from the row's tag with [int];
    - deletion after the confirmation dialog, and the context menu;
    - the add and edit forms: the fields they open with (an amount through
      [str()], the class [PyRepr.ReprFloat]) and their [Salvar] buttons.
      Both expense forms fill their category combobox from
      [self.data_manager.obter_categorias_gastos()], a method the class
      does not define ([Store.atributo_DataManager]): they raise
      [AttributeError] before their [Salvar] button exists, so the
      expense handlers [salvar_gasto] and [atualizar_gasto] are modelled
      but never reached.

    Theorems: the amount check ([validar_valor_spec]); neither expense
    form opens ([formularios_gasto_AttributeError]); a saved single
    income appears last in the table of its month
    ([receita_salva_na_tabela]); what deleting writes; the dates of the
    income table ([receitas_tabela_datas]); the income form writes
    well-formed incomes except for a [nan] or [inf] amount
    ([formulario_receita_bem_formada]); opening the edit form of a
    well-formed income and saving it unchanged gives back an equivalent
    record in its place ([editar_receita_ida_volta]).

    An amount [float] accepts that is not finite ([nan], [inf]) passes
    the [valor <= 0] test and would be written; the records of this
    development hold amounts in [Q], so that outcome is the value
    [NaoFinito v] instead of a store. *)

From Stdlib Require Import ZArith QArith String Ascii Lia.
From stdpp Require Import base list.
From S2P Require Import Prelude PyDate PyNum PyFloat PyRepr Records Store Resolver History.

Local Open Scope Z_scope.

(** ** What the handlers share *)

(** The error boxes of the forms, by the field they are about. *)
Inductive ErroFormulario : Type :=
| ErroDescricao       (** "A descrição é obrigatória!" *)
| ErroValor           (** "O valor deve ser um número válido maior que zero!" *)
| ErroData            (** "A data deve estar no formato DD/MM/AAAA!" *)
| ErroDataInicio      (** "A data de início deve estar no formato DD/MM/AAAA!" *)
| ErroDataFim         (** "A data de fim deve estar no formato DD/MM/AAAA!" *)
| ErroDataLimite      (** "A data limite deve ser um dia do mês (1-31) ou ..." *)
| ErroJurosMenor      (** "O valor com juros deve ser maior que o valor original!" *)
| ErroJurosInvalido.  (** "O valor com juros deve ser um número válido!" *)

#[export] Instance erro_formulario_eq_dec : EqDecision ErroFormulario.
Proof. solve_decision. Defined.

(** What pressing "Salvar" ends in. *)
Inductive Resultado : Type :=
| Recusado (e : ErroFormulario)   (** an error box; nothing is written *)
| Gravado (s : Arquivos)          (** the store after the [DataManager] call *)
| Excecao (e : excecao)           (** an exception leaves the callback; nothing is written *)
| NaoFinito (v : PyFloat).        (** a record with a non-finite amount is written *)

(** [try: valor = float(texto); if valor <= 0: raise ValueError(...)
    except ValueError: ...]: the amount, or the error box. *)
Definition validar_valor (texto : string) : option PyFloat :=
  match py_float texto with
  | Ok v => if py_le v (Finito 0) then None else Some v
  | Err _ => None
  end.

(** [datetime.datetime.strptime(texto, "%d/%m/%Y")] used as a check. *)
Definition data_no_formato (texto : string) : bool :=
  match strptime_dmY texto with Ok _ => true | Err _ => false end.

(** The end of a handler that wrote with a [DataManager] call that can
    raise. *)
Definition gravado (r : res Arquivos) : Resultado :=
  match r with Ok s => Gravado s | Err e => Excecao e end.

(** [valor.replace(',', '.')]. *)
Definition virgula_ponto (texto : string) : string := trocar "," "." texto.

(** [int(self.tabela.item(item, 'tags')[0])] after the
    [if not selecao: showwarning; return None] of the three tabs: the
    tags of the selected row, if one is selected. *)
Definition obter_selecionado (tags : option (list string)) : res (option Z) :=
  match tags with
  | None => Ok None
  | Some (t :: _) => z <- py_int t ;; Ok (Some z)
  | Some [] => Err IndexError
  end.

(** [if conta_id: ...]: [None] and [0] are falsy. *)
Definition id_verdadeiro (o : option Z) : option Z :=
  match o with Some z => if z =? 0 then None else Some z | None => None end.

(** [int(self.tabela.item(item, 'tags')[0])] on the row under the
    pointer. *)
Definition id_da_linha (tags : list string) : res Z :=
  match tags with t :: _ => py_int t | [] => Err IndexError end.

(** The entries of the expense and income context menus. *)
Inductive OpcaoMenu : Type :=
| OpcaoEditar (i : Z)
| OpcaoExcluir (i : Z).

(** [abrir_menu_contexto] of the expense tab (gastos_gerais.py 229-247)
    and of the income tab (receitas.py 227-245): on the row under the
    pointer, if any, "Editar" and "Excluir" for the id in its tag. *)
Definition menu_editar_excluir (linha : option (list string)) : res (list OpcaoMenu) :=
  match linha with
  | None => Ok []
  | Some tags => i <- id_da_linha tags ;; Ok [OpcaoEditar i; OpcaoExcluir i]
  end.

(** ** The expense tab *)

Module GastosGeraisView.

(** [salvar_gasto] (gastos_gerais.py 357-394). *)
Definition salvar_gasto (descricao valor categoria data : string) (s : Arquivos) : Resultado :=
  if String.eqb descricao EmptyString then Recusado ErroDescricao else
  match validar_valor (virgula_ponto valor) with
  | None => Recusado ErroValor
  | Some v =>
      if negb (data_no_formato data) then Recusado ErroData else
      match v with
      | Finito q => Gravado (adicionar_gasto (mkGasto 0 descricao q categoria data) s)
      | _ => NaoFinito v
      end
  end.

(** [atualizar_gasto] (gastos_gerais.py 518-556): the same checks, then
    [DataManager.atualizar_gasto] with the dict carrying the id. *)
Definition atualizar_gasto (gasto_id : Z) (descricao valor categoria data : string) (s : Arquivos)
    : Resultado :=
  if String.eqb descricao EmptyString then Recusado ErroDescricao else
  match validar_valor (virgula_ponto valor) with
  | None => Recusado ErroValor
  | Some v =>
      if negb (data_no_formato data) then Recusado ErroData else
      match v with
      | Finito q => gravado (Store.atualizar_gasto gasto_id (mkGasto gasto_id descricao q categoria data) s)
      | _ => NaoFinito v
      end
  end.

(** [excluir_gasto] (gastos_gerais.py 558-565): [confirmado] is the answer
    to [askyesno]. *)
Definition excluir_gasto (confirmado : bool) (gasto_id : Z) (s : Arquivos) : Arquivos :=
  if confirmado then Store.excluir_gasto gasto_id s else s.

(** A row: the four columns (the amount as a number; [f"R$ {v:.2f}"] is
    not modelled) and the tags. *)
Record LinhaGasto := mkLinhaGasto {
  lg_descricao : string;
  lg_valor : Q;
  lg_categoria : string;
  lg_data : string;
  lg_tags : list string
}.

(** gastos_gerais.py 179-199. *)
Definition linha_gasto (g : Gasto) : LinhaGasto :=
  mkLinhaGasto (g_descricao g) (g_valor g) (g_categoria g) (g_data g) [str_int (g_id g)].

(** [atualizar] (gastos_gerais.py 164-202): the table is cleared, then
    filled with the expenses of the month of the filters. *)
Definition atualizar (mes_s ano_s : string) (s : Arquivos) : list LinhaGasto * Desfecho :=
  match py_int mes_s, py_int ano_s with
  | Err e, _ | Ok _, Err e => ([], capturar e)
  | Ok mes, Ok ano =>
      match obter_gastos_por_periodo (Some mes) (Some ano) s with
      | Ok gs => (map linha_gasto gs, Concluido)
      | Err e => ([], capturar e)
      end
  end.

(** [obter_gasto_selecionado] (gastos_gerais.py 204-215). *)
Definition obter_gasto_selecionado : option (list string) -> res (option Z) := obter_selecionado.

(** [excluir_selecionado] (gastos_gerais.py 223-227). *)
Definition excluir_selecionado (tags : option (list string)) (confirmado : bool) (s : Arquivos)
    : res Arquivos :=
  o <- obter_gasto_selecionado tags ;;
  match id_verdadeiro o with
  | Some i => Ok (excluir_gasto confirmado i s)
  | None => Ok s
  end.

(** What the edit form's widgets hold. *)
Record FormularioGasto := mkFormularioGasto {
  fg_descricao : string;
  fg_valor : string;
  fg_categoria : string;
  fg_data : string
}.

(** The fields [abrir_formulario_adicionar] would open with: empty
    fields and today's date. *)
Definition formulario_adicionar (hoje : data) : FormularioGasto :=
  mkFormularioGasto EmptyString EmptyString EmptyString (strftime_dmY hoje).

(** [abrir_formulario_adicionar] (gastos_gerais.py 249-355): the
    category combobox is filled from
    [self.data_manager.obter_categorias_gastos()] (line 308), a method
    [DataManager] does not define, so the callback raises
    [AttributeError] there, before the date field and the "Salvar"
    button exist. *)
Definition abrir_formulario_adicionar (hoje : data) : res FormularioGasto :=
  _ <- atributo_DataManager "obter_categorias_gastos" ;;
  Ok (formulario_adicionar hoje).

(** Its "Salvar" button (gastos_gerais.py 344-355). *)
Definition salvar_formulario (f : FormularioGasto) (s : Arquivos) : Resultado :=
  salvar_gasto (fg_descricao f) (fg_valor f) (fg_categoria f) (fg_data f) s.

Section Edicao.
Context `{!ReprFloat}.

(** [abrir_formulario_editar] (gastos_gerais.py 396-516): the first
    expense with the id ([for g in gastos: if g['id'] == gasto_id]);
    [Ok None] is the "Gasto não encontrado!" box.  For an expense found,
    the fields prefilled from it (the amount as [str(gasto['valor'])])
    are followed by the same call to [obter_categorias_gastos] (line
    468), which raises [AttributeError] before the "Salvar" button is
    created. *)
Definition abrir_formulario_editar (gasto_id : Z) (s : Arquivos) : res (option FormularioGasto) :=
  match find (fun g => g_id g =? gasto_id) (ler s) with
  | Some g =>
      _ <- atributo_DataManager "obter_categorias_gastos" ;;
      Ok (Some (mkFormularioGasto (g_descricao g) (repr_float (g_valor g)) (g_categoria g) (g_data g)))
  | None => Ok None
  end.

(** Its "Salvar" button (gastos_gerais.py 504-515). *)
Definition salvar_edicao (gasto_id : Z) (f : FormularioGasto) (s : Arquivos) : Resultado :=
  atualizar_gasto gasto_id (fg_descricao f) (fg_valor f) (fg_categoria f) (fg_data f) s.

(** [editar_selecionado] (gastos_gerais.py 217-221): the form opened on
    the selected row, if any. *)
Definition editar_selecionado (tags : option (list string)) (s : Arquivos) : res (option FormularioGasto) :=
  o <- obter_gasto_selecionado tags ;;
  match id_verdadeiro o with Some i => abrir_formulario_editar i s | None => Ok None end.
End Edicao.

Definition abrir_menu_contexto := menu_editar_excluir.

End GastosGeraisView.

(** ** The income tab *)

Module ReceitasView.

(** The fields of the income dict after the checks of a recurring or
    single income (receitas.py 430-456), or the error box.  [data_fim] is
    the argument the button passes: [data_fim_var.get() if recorrente and
    data_fim_var.get() else None]. *)
Definition campos_receita (recorrente : bool) (data data_inicio data_fim : string)
    : ErroFormulario + (option string * option string * option string) :=
  if recorrente then
    if negb (data_no_formato data_inicio) then inl ErroDataInicio
    else if String.eqb data_fim EmptyString then inr (None, Some data_inicio, None)
    else if negb (data_no_formato data_fim) then inl ErroDataFim
    else inr (None, Some data_inicio, Some data_fim)
  else
    if negb (data_no_formato data) then inl ErroData
    else inr (Some data, None, None).

(** The checks shared by [salvar_receita] and [atualizar_receita]; [k]
    writes the income dict. *)
Definition validar_receita (descricao valor : string) (recorrente : bool)
    (data data_inicio data_fim : string) (k : Receita -> Resultado) : Resultado :=
  if String.eqb descricao EmptyString then Recusado ErroDescricao else
  match validar_valor (virgula_ponto valor) with
  | None => Recusado ErroValor
  | Some v =>
      match campos_receita recorrente data data_inicio data_fim with
      | inl e => Recusado e
      | inr (d, di, df) =>
          match v with
          | Finito q => k (mkReceita 0 descricao q (Some recorrente) d di df)
          | _ => NaoFinito v
          end
      end
  end.

(** [salvar_receita] (receitas.py 408-464). *)
Definition salvar_receita (descricao valor : string) (recorrente : bool)
    (data data_inicio data_fim : string) (s : Arquivos) : Resultado :=
  validar_receita descricao valor recorrente data data_inicio data_fim
    (fun r => Gravado (Store.adicionar_receita r s)).

(** [atualizar_receita] (receitas.py 632-689). *)
Definition atualizar_receita (receita_id : Z) (descricao valor : string) (recorrente : bool)
    (data data_inicio data_fim : string) (s : Arquivos) : Resultado :=
  validar_receita descricao valor recorrente data data_inicio data_fim
    (fun r => gravado (Store.atualizar_receita receita_id (definir_id receita_id r) s)).

(** [excluir_receita] (receitas.py 691-699). *)
Definition excluir_receita (confirmado : bool) (receita_id : Z) (s : Arquivos) : Arquivos :=
  if confirmado then Store.excluir_receita receita_id s else s.

Record LinhaReceita := mkLinhaReceita {
  lr_descricao : string;
  lr_valor : Q;
  lr_tipo : string;
  lr_data : string;
  lr_tags : list string
}.

(** receitas.py 176-197: the type column, and the date column, which
    falls back to ["Mensal desde ..."] for a recurring income without a
    [data] key. *)
Definition linha_receita (r : Receita) : LinhaReceita :=
  let recorrente := receita_recorrente r in
  let tipo := (if recorrente then "Recorrente" else "Única")%string in
  let d := default EmptyString (r_data r) in
  let data :=
    (if String.eqb d EmptyString && recorrente then
       "Mensal desde " ++ default EmptyString (r_data_inicio r) ++
       match tem_data_fim (r_data_fim r) with
       | Some df => " até " ++ df
       | None => EmptyString
       end
     else d)%string in
  mkLinhaReceita (r_descricao r) (r_valor r) tipo data [str_int (r_id r)].

(** [atualizar] (receitas.py 158-200). *)
Definition atualizar (mes_s ano_s : string) (s : Arquivos) : list LinhaReceita * Desfecho :=
  match py_int mes_s, py_int ano_s with
  | Err e, _ | Ok _, Err e => ([], capturar e)
  | Ok mes, Ok ano =>
      match obter_receitas_por_periodo (Some mes) (Some ano) s with
      | Ok rs => (map linha_receita rs, Concluido)
      | Err e => ([], capturar e)
      end
  end.

(** [obter_receita_selecionada] (receitas.py 202-213). *)
Definition obter_receita_selecionada : option (list string) -> res (option Z) := obter_selecionado.

(** [excluir_selecionado] (receitas.py 221-225). *)
Definition excluir_selecionado (tags : option (list string)) (confirmado : bool) (s : Arquivos)
    : res Arquivos :=
  o <- obter_receita_selecionada tags ;;
  match id_verdadeiro o with
  | Some i => Ok (excluir_receita confirmado i s)
  | None => Ok s
  end.

(** What the edit form's widgets hold. *)
Record FormularioReceita := mkFormularioReceita {
  fr_descricao : string;
  fr_valor : string;
  fr_recorrente : bool;
  fr_data : string;
  fr_data_inicio : string;
  fr_data_fim : string
}.

(** [abrir_formulario_adicionar] (receitas.py 247-395): a single income,
    today's date in both date fields, no end date. *)
Definition formulario_adicionar (hoje : data) : FormularioReceita :=
  mkFormularioReceita EmptyString EmptyString false (strftime_dmY hoje) (strftime_dmY hoje) EmptyString.

(** Its "Salvar" button (receitas.py 383-394). *)
Definition salvar_formulario (f : FormularioReceita) (s : Arquivos) : Resultado :=
  salvar_receita (fr_descricao f) (fr_valor f) (fr_recorrente f) (fr_data f) (fr_data_inicio f)
    (fr_data_fim f) s.

Section Edicao.
Context `{!ReprFloat}.

(** [abrir_formulario_editar] (receitas.py 466-630): the fields
    prefilled from the first income with the id; a missing [data] or
    [data_inicio] shows today's date, a missing [data_fim] nothing. *)
Definition abrir_formulario_editar (hoje : data) (receita_id : Z) (s : Arquivos)
    : option FormularioReceita :=
  match find (fun r => r_id r =? receita_id) (ler s) with
  | Some r =>
      Some (mkFormularioReceita (r_descricao r) (repr_float (r_valor r)) (receita_recorrente r)
              (default (strftime_dmY hoje) (r_data r)) (default (strftime_dmY hoje) (r_data_inicio r))
              (default EmptyString (r_data_fim r)))
  | None => None
  end.

(** Its "Salvar" button (receitas.py 616-629): [data] for a single
    income, [data_inicio] and [data_fim] for a recurring one. *)
Definition salvar_edicao (receita_id : Z) (f : FormularioReceita) (s : Arquivos) : Resultado :=
  atualizar_receita receita_id (fr_descricao f) (fr_valor f) (fr_recorrente f)
    (fr_data f) (fr_data_inicio f) (fr_data_fim f) s.

(** [editar_selecionado] (receitas.py 215-219). *)
Definition editar_selecionado (hoje : data) (tags : option (list string)) (s : Arquivos)
    : res (option FormularioReceita) :=
  o <- obter_receita_selecionada tags ;;
  Ok (match id_verdadeiro o with Some i => abrir_formulario_editar hoje i s | None => None end).
End Edicao.

Definition abrir_menu_contexto := menu_editar_excluir.

End ReceitasView.

(** ** The amount check *)

(** C8: What passes the amount check of the three forms: a positive finite
    amount, [inf] and [nan] ([float('nan') <= 0] and [float('inf') <= 0]
    are both false); [-inf], zero, negatives and every string [float]
    rejects get the error box. *)
Theorem validar_valor_spec t v :
  validar_valor t = Some v <->
  py_float t = Ok v /\ (v = NaN \/ v = Infinito false \/ exists q, v = Finito q /\ (0 < q)%Q).
Proof.
  unfold validar_valor. destruct (py_float t) as [w|e]; [|split; [done | intros [? _]; done]].
  split.
  - destruct (py_le w (Finito 0)) eqn:Hw; [done|]. intros [= <-]. split; [done|].
    destruct w as [q|[]|]; simpl in Hw; [|done|..]; auto.
    right; right. exists q. split; [done|]. apply Qnot_le_lt. intros Hq.
    apply Qle_bool_iff in Hq. congruence.
  - intros [[= <-] Hv]. destruct Hv as [->|[->|(q & -> & Hq)]]; [done|done|].
    simpl. destruct (Qle_bool q 0) eqn:Hb; [|done].
    apply Qle_bool_iff in Hb. exfalso. by apply (Qlt_not_le _ _ Hq).
Qed.

(** ** The selection *)

Lemma obter_selecionado_str_int z : obter_selecionado (Some [str_int z]) = Ok (Some z).
Proof. simpl. by rewrite py_int_str_int. Qed.

Lemma id_verdadeiro_pos z : 0 < z -> id_verdadeiro (Some z) = Some z.
Proof. intros Hz. simpl. destruct (Z.eqb_spec z 0); [lia | done]. Qed.

(** ** The tables *)

Lemma gasto_no_periodo_Some mes ano g g' : gasto_no_periodo mes ano g = Ok (Some g') -> g' = g.
Proof.
  unfold gasto_no_periodo. intros H. res_inv. by destruct (_ && _); [injection H as <- | ].
Qed.

Lemma receita_com_data_recorrente d r : receita_recorrente (receita_com_data d r) = receita_recorrente r.
Proof. by destruct r. Qed.

(** A row of the expense table is the row of an expense of the store. *)
Lemma linha_gasto_origem mes_s ano_s s linhas des l :
  GastosGeraisView.atualizar mes_s ano_s s = (linhas, des) -> l ∈ linhas ->
  exists g, g ∈ ler s /\ l = GastosGeraisView.linha_gasto g.
Proof.
  unfold GastosGeraisView.atualizar.
  destruct (py_int mes_s) as [mes|e], (py_int ano_s) as [ano|e'];
    try (intros [= <- _] ?%elem_of_nil; done).
  destruct (obter_gastos_por_periodo _ _ s) as [gs|e] eqn:Hgs; [|intros [= <- _] ?%elem_of_nil; done].
  intros [= <- _] (g' & -> & Hg')%list_elem_of_fmap.
  destruct (proj1 (res_filter_mapM_elem _ _ _ _ Hgs) Hg') as (g & Hg & Hp).
  apply gasto_no_periodo_Some in Hp as ->. by exists g.
Qed.

(** C39: Selecting a row of the expense table and confirming "Excluir"
    deletes the expense that row shows: the id printed into the row's tag
    reads back with [int] as that expense's id. *)
Theorem excluir_linha_selecionada mes_s ano_s s linhas des l :
  ids_validos (ler (A := Gasto) s) ->
  GastosGeraisView.atualizar mes_s ano_s s = (linhas, des) -> l ∈ linhas ->
  exists g, g ∈ ler s /\ l = GastosGeraisView.linha_gasto g /\
    GastosGeraisView.excluir_selecionado (Some (GastosGeraisView.lg_tags l)) true s =
    Ok (Store.excluir_gasto (g_id g) s).
Proof.
  intros [_ Hpos] Ha Hl. destruct (linha_gasto_origem _ _ _ _ _ _ Ha Hl) as (g & Hg & ->).
  exists g. split; [done|]. split; [done|].
  unfold GastosGeraisView.excluir_selecionado, GastosGeraisView.obter_gasto_selecionado. cbn [GastosGeraisView.lg_tags GastosGeraisView.linha_gasto].
  rewrite obter_selecionado_str_int. cbn [res_bind].
  rewrite id_verdadeiro_pos; [done|]. by apply (proj1 (Forall_forall _ _) Hpos).
Qed.

(** C32: Every date the income table shows is a [DD/MM/AAAA] date: the
    income query has already given each recurring income the date
    ["01/MM/AAAA"] of the month shown, so the ["Mensal desde ..."] label of
    [ReceitasView.atualizar] is never produced. *)
Theorem receitas_tabela_datas mes_s ano_s mes ano s linhas des l :
  py_int mes_s = Ok mes -> py_int ano_s = Ok ano -> 1000 <= ano ->
  ReceitasView.atualizar mes_s ano_s s = (linhas, des) -> l ∈ linhas ->
  data_no_formato (ReceitasView.lr_data l) = true /\
  exists r, r ∈ ler s /\ (receita_recorrente r = true -> ReceitasView.lr_data l = data_01 mes ano).
Proof.
  intros Hm Ha Hano. unfold ReceitasView.atualizar. rewrite Hm, Ha.
  destruct (obter_receitas_por_periodo _ _ s) as [rs|e] eqn:Hrs; [|intros [= <- _] ?%elem_of_nil; done].
  intros [= <- _] (r' & -> & Hr')%list_elem_of_fmap.
  destruct (proj1 (res_filter_mapM_elem _ _ _ _ Hrs) Hr') as (r & Hr & Hp).
  unfold receita_no_periodo in Hp. destruct (receita_recorrente r) eqn:Hrec.
  - res_inv. destruct (condicao_periodo _ _ _ _); [|done]. injection Hp as <-.
    apply mk_data_Ok in E2 as [-> Hv]. apply data_valida_limites in Hv. simpl in Hv.
    unfold ReceitasView.linha_receita. rewrite receita_com_data_recorrente, Hrec.
    destruct r; simpl.
    split; [unfold data_no_formato; rewrite data_01_strptime by lia; done|]. eauto.
  - res_inv. destruct (_ && _); [|done]. injection Hp as <-.
    destruct (r_data r) as [ds|] eqn:Hd; simpl in E; [injection E as <- | discriminate].
    unfold ReceitasView.linha_receita. rewrite Hrec, Hd. simpl. rewrite andb_false_r.
    split; [unfold data_no_formato; by rewrite E0|]. exists r. split; [done | congruence].
Qed.

(** ** Saving *)

(** The amount the forms accept as finite is positive. *)
Lemma validar_valor_finito t q :
  validar_valor t = Some (Finito q) -> py_float t = Ok (Finito q) /\ (0 < q)%Q.
Proof.
  unfold validar_valor. destruct (py_float t) as [w|]; [|done].
  destruct (py_le w (Finito 0)) eqn:Hw; [done|]. intros [= ->]. split; [done|].
  apply Qnot_le_lt. intros Hq. apply Qle_bool_iff in Hq. simpl in Hw. congruence.
Qed.

(** What the expense form's "Salvar" handler would write, were the form
    to open (it does not, [formularios_gasto_AttributeError]): the
    expense typed, appended with the next id and the amount [float] read
    (positive), and nothing else; the ids stay distinct and positive. *)
Theorem salvar_gasto_grava d v c dt s s' :
  ids_validos (ler (A := Gasto) s) ->
  GastosGeraisView.salvar_gasto d v c dt s = Gravado s' ->
  d <> EmptyString /\ data_no_formato dt = true /\
  exists q, py_float (virgula_ponto v) = Ok (Finito q) /\ (0 < q)%Q /\
    ler s' = ler s ++ [mkGasto (gerar_id (ler (A := Gasto) s)) d q c dt] /\
    ids_validos (ler (A := Gasto) s') /\
    ler (A := Receita) s' = ler s /\ ler (A := Conta) s' = ler s.
Proof.
  intros Hids. unfold GastosGeraisView.salvar_gasto.
  destruct (String.eqb_spec d EmptyString); [done|].
  destruct (validar_valor _) as [w|] eqn:Hv; [|done].
  destruct (data_no_formato dt); [|done].
  destruct w as [q| |]; [|done..]. intros [= <-].
  apply validar_valor_finito in Hv as [Hf Hq].
  destruct (adicionar_ids (mkGasto 0 d q c dt) s Hids) as [Hl Hi].
  do 2 (split; [done|]). exists q. do 2 (split; [done|]). split; [done|]. split; [done|].
  by destruct s.
Qed.

(** A single income the income form saves is [adicionar_receita] of the
    dict it builds, with the amount [float] read. *)
Lemma salvar_receita_unica_Gravado d v dt di df s s' :
  ReceitasView.salvar_receita d v false dt di df s = Gravado s' ->
  exists q, py_float (virgula_ponto v) = Ok (Finito q) /\
    s' = adicionar_receita (mkReceita 0 d q (Some false) (Some dt) None None) s.
Proof.
  unfold ReceitasView.salvar_receita, ReceitasView.validar_receita, ReceitasView.campos_receita.
  destruct (String.eqb _ _); [done|]. destruct (validar_valor _) as [w|] eqn:Hv; [|done].
  destruct (data_no_formato dt); cbn [negb]; [|done]. destruct w as [q| |]; [|done..]. intros [= <-].
  exists q. split; [exact (proj1 (validar_valor_finito _ _ Hv))|done].
Qed.

(** C20: The income form, the store and the period query together: after a
    single income is saved, the income tab refreshed on the month of its
    date shows the rows it showed for that month and, last, the new
    income with the next id, whenever that month could be shown before. *)
Theorem receita_salva_na_tabela d v dt di df s s' data rs :
  ReceitasView.salvar_receita d v false dt di df s = Gravado s' ->
  strptime_dmY dt = Ok data ->
  obter_receitas_por_periodo (Some (mes data)) (Some (ano data)) s = Ok rs ->
  exists q, py_float (virgula_ponto v) = Ok (Finito q) /\
    ReceitasView.atualizar (str_int (mes data)) (str_int (ano data)) s' =
      (map ReceitasView.linha_receita
         (rs ++ [mkReceita (gerar_id (ler (A := Receita) s)) d q (Some false) (Some dt) None None]), Concluido).
Proof.
  intros (q & Hq & ->)%salvar_receita_unica_Gravado Hdt Hrs. exists q. split; [done|].
  unfold ReceitasView.atualizar. rewrite !py_int_str_int.
  unfold obter_receitas_por_periodo in Hrs |- *.
  replace (ler (adicionar_receita _ s))
    with (ler s ++ [mkReceita (gerar_id (ler (A := Receita) s)) d q (Some false) (Some dt) None None]) by reflexivity.
  erewrite res_filter_mapM_app; [done|exact Hrs|].
  cbn [res_filter_mapM]. unfold receita_no_periodo. cbn [receita_recorrente r_recorrente r_data default].
  cbn [get_key res_bind]. rewrite Hdt. cbn [res_bind]. by rewrite !Z.eqb_refl.
Qed.

(** ** The expense forms never open *)

Lemma find_existsb {A} (f : A -> bool) l :
  match find f l with Some _ => true | None => false end = existsb f l.
Proof. induction l as [|x l IH]; [done|]. simpl. by destruct (f x). Qed.

Lemma abrir_formulario_adicionar_Err hoje : GastosGeraisView.abrir_formulario_adicionar hoje = Err AttributeError.
Proof. unfold GastosGeraisView.abrir_formulario_adicionar. by rewrite obter_categorias_gastos_ausente. Qed.

Lemma abrir_formulario_editar_nunca `{!ReprFloat} i s f : GastosGeraisView.abrir_formulario_editar i s <> Ok (Some f).
Proof.
  unfold GastosGeraisView.abrir_formulario_editar. rewrite obter_categorias_gastos_ausente.
  by destruct (find _ _).
Qed.

(** C12: Neither expense form reaches its "Salvar" button: the
    "Adicionar Gasto" button raises [AttributeError] on every day, and
    "Editar" raises it on every expense of the file; only an id with no
    expense gets the "Gasto não encontrado!" box.  So the expense tab
    never adds or edits an expense. *)
Theorem formularios_gasto_AttributeError `{!ReprFloat} hoje i s :
  GastosGeraisView.abrir_formulario_adicionar hoje = Err AttributeError /\
  GastosGeraisView.abrir_formulario_editar i s =
    (if existsb (fun g => g_id g =? i) (ler s) then Err AttributeError else Ok None).
Proof.
  split; [apply abrir_formulario_adicionar_Err|].
  unfold GastosGeraisView.abrir_formulario_editar. rewrite obter_categorias_gastos_ausente, <- find_existsb.
  by destruct (find _ _).
Qed.

(** ** Editing *)

(** The incomes the income form writes: a description, a positive
    binary64 amount, and the date keys of a single income ([data]) or of
    a recurring one ([data_inicio], and [data_fim] when given), each a
    date [strptime] accepts. *)
Definition receita_bem_formada (r : Receita) : Prop :=
  r_descricao r <> EmptyString /\ binario64 (r_valor r) /\ (0 < r_valor r)%Q /\
  if receita_recorrente r then
    r_data r = None /\ (exists di, r_data_inicio r = Some di /\ data_no_formato di = true) /\
    (forall df, r_data_fim r = Some df -> data_no_formato df = true)
  else
    (exists d, r_data r = Some d /\ data_no_formato d = true) /\ r_data_inicio r = None /\
    r_data_fim r = None.

Lemma data_no_formato_vazia : data_no_formato EmptyString = false.
Proof. reflexivity. Qed.

(** A finite amount the forms accept is a positive binary64 number. *)
Lemma validar_valor_binario64 t q : validar_valor t = Some (Finito q) -> binario64 q /\ (0 < q)%Q.
Proof.
  intros H. apply validar_valor_finito in H as [Hf Hq]. split; [by eapply py_float_binario64 | done].
Qed.

(** [float(str(v).replace(',', '.'))] passes the amount check with [v]
    itself, for a positive binary64 [v]. *)
Lemma validar_valor_repr `{!ReprFloat} v :
  binario64 v -> (0 < v)%Q ->
  exists v', validar_valor (virgula_ponto (repr_float v)) = Some (Finito v') /\ (v' == v)%Q.
Proof.
  intros Hb Hp. unfold virgula_ponto. rewrite repr_float_sem_virgula.
  destruct (repr_float_le v Hb) as (v' & Hv & Heq). exists v'. split; [|done].
  unfold validar_valor. rewrite Hv. simpl. destruct (Qle_bool v' 0) eqn:Hb'; [|done].
  apply Qle_bool_iff in Hb'. rewrite Heq in Hb'. exfalso. by apply (Qlt_not_le _ _ Hp).
Qed.

(** The update of a record the search found writes a collection that
    reads the same, when the new record reads as the old one. *)
Lemma atualizar_encontrado {S A} `{!HasId A} `{!Colecao S A} `{!Equiv A} `{!Equivalence (≡@{A})}
    i (x y : A) (s : S) :
  find (fun z => obter_id z =? i) (ler s) = Some y -> definir_id i x ≡ y ->
  exists l', atualizar i x s = Ok (gravar l' s) /\ l' ≡ ler s.
Proof.
  intros Hf Hx. destruct (substituir_encontrar i (Ok (definir_id i x)) _ _ Hf) as (l1 & l2 & Hl & Hs).
  unfold atualizar. rewrite Hs. eexists. split; [reflexivity|].
  rewrite Hl. apply app_proper; [done|]. by apply cons_proper.
Qed.

(** The checks of the income form on the fields of a well-formed
    income give back its date keys. *)
Lemma campos_receita_bem_formada r x y :
  receita_bem_formada r ->
  ReceitasView.campos_receita (receita_recorrente r) (default x (r_data r)) (default y (r_data_inicio r))
    (default EmptyString (r_data_fim r)) = inr (r_data r, r_data_inicio r, r_data_fim r).
Proof.
  intros (_ & _ & _ & Hd). unfold ReceitasView.campos_receita.
  destruct (receita_recorrente r).
  - destruct Hd as (-> & (di & -> & Hdi) & Hdf). cbn [default from_option id]. rewrite Hdi. cbn [negb].
    destruct (r_data_fim r) as [df|]; [|done]. cbn [default from_option id].
    pose proof (Hdf df eq_refl) as Hf. destruct (String.eqb_spec df EmptyString) as [->|_].
    + by rewrite data_no_formato_vazia in Hf.
    + by rewrite Hf.
  - destruct Hd as ((d & -> & Hd) & -> & ->). cbn [default from_option id]. by rewrite Hd.
Qed.

(** What the checks let through has the date keys of its kind. *)
Lemma campos_receita_forma rec d di df a b c :
  ReceitasView.campos_receita rec d di df = inr (a, b, c) ->
  if rec then a = None /\ (exists di', b = Some di' /\ data_no_formato di' = true) /\
              (forall df', c = Some df' -> data_no_formato df' = true)
  else (exists d', a = Some d' /\ data_no_formato d' = true) /\ b = None /\ c = None.
Proof.
  unfold ReceitasView.campos_receita. destruct rec.
  - destruct (data_no_formato di) eqn:Hdi; cbn [negb]; [|intros [=]].
    destruct (String.eqb df EmptyString).
    { intros [= <- <- <-]. split; [done|]. split; [eauto | done]. }
    destruct (data_no_formato df) eqn:Hdf; cbn [negb]; [|intros [=]]. intros [= <- <- <-].
    split; [done|]. split; [eauto|]. by intros ? [= <-].
  - destruct (data_no_formato d) eqn:Hd; cbn [negb]; [|intros [=]]. intros [= <- <- <-]. eauto.
Qed.

(** What the income checks accept, with the record they build. *)
Lemma validar_receita_Gravado d v rec dt di df k s' :
  ReceitasView.validar_receita d v rec dt di df k = Gravado s' ->
  exists r, receita_bem_formada r /\ k r = Gravado s'.
Proof.
  unfold ReceitasView.validar_receita. destruct (String.eqb_spec d EmptyString); [done|].
  destruct (validar_valor _) as [w|] eqn:Hv; [|done].
  destruct (ReceitasView.campos_receita _ _ _ _) as [|[[a b] c]] eqn:Hc; [done|].
  destruct w as [q| |]; [|done..]. intros Hk.
  eexists. split; [|exact Hk]. destruct (validar_valor_binario64 _ _ Hv) as [Hb Hq].
  do 3 (split; [done|]). exact (campos_receita_forma _ _ _ _ _ _ _ Hc).
Qed.

Lemma receita_bem_formada_id i r : receita_bem_formada (definir_id i r) <-> receita_bem_formada r.
Proof. by destruct r. Qed.

(** A "Salvar" of the income form that writes a finite amount keeps the
    income file well formed. *)
Lemma receita_Gravado_bem_formada d v rec dt di df s s' :
  Forall receita_bem_formada (ler s) ->
  (ReceitasView.salvar_receita d v rec dt di df s = Gravado s' \/
   exists i, ReceitasView.atualizar_receita i d v rec dt di df s = Gravado s') ->
  Forall receita_bem_formada (ler s').
Proof.
  intros Hs [H | [i H]]; apply validar_receita_Gravado in H as (r & Hr & Hk).
  - injection Hk as <-. unfold Store.adicionar_receita, adicionar. rewrite ler_gravar.
    apply Forall_app; split; [done|]. constructor; [by apply receita_bem_formada_id | constructor].
  - unfold gravado in Hk. destruct (Store.atualizar_receita _ _ _) as [s''|] eqn:Ha; [|done].
    injection Hk as <-. unfold Store.atualizar_receita, atualizar in Ha.
    apply res_bind_Ok in Ha as (l & Hl & <-%Ok_inj). rewrite ler_gravar.
    apply Forall_forall. intros y Hy. destruct (substituir_elem _ _ _ _ Hl y Hy) as [Hy' | ->].
    + by apply (proj1 (Forall_forall _ _) Hs).
    + by rewrite !receita_bem_formada_id.
Qed.

(** What the income checks let through with an amount that is not
    finite: every other check passed. *)
Lemma validar_receita_NaoFinito d v rec dt di df k w :
  (forall x, k x <> NaoFinito w) ->
  ReceitasView.validar_receita d v rec dt di df k = NaoFinito w ->
  d <> EmptyString /\ validar_valor (virgula_ponto v) = Some w /\ (forall q, w <> Finito q) /\
  exists x, ReceitasView.campos_receita rec dt di df = inr x.
Proof.
  intros Hk. unfold ReceitasView.validar_receita. destruct (String.eqb_spec d EmptyString); [done|].
  destruct (validar_valor _) as [w'|] eqn:Hv; [|done].
  destruct (ReceitasView.campos_receita _ _ _ _) as [|x] eqn:Hc; [done|]. destruct x as [[a b] c].
  destruct w' as [q| |]; [intros H; by destruct (Hk _ H) | intros [= <-]; split_and!; eauto; done ..].
Qed.

(** C27: What the income form writes, added or edited.  When every income
    of the file is well formed, a "Salvar" that writes a finite amount
    leaves every income well formed; the one other write is an amount
    [float()] reads as [nan] or [inf]: it passes every check (the
    description, [valor <= 0], the dates) and the income is written with
    that amount, the only malformed income the form writes.  A refused
    form or an exception writes nothing. *)
Theorem formulario_receita_bem_formada d v rec dt di df s r :
  Forall receita_bem_formada (ler s) ->
  (r = ReceitasView.salvar_receita d v rec dt di df s \/
   exists i, r = ReceitasView.atualizar_receita i d v rec dt di df s) ->
  match r with
  | Gravado s' => Forall receita_bem_formada (ler s')
  | NaoFinito w => d <> EmptyString /\ validar_valor (virgula_ponto v) = Some w /\
      (forall q, w <> Finito q) /\ exists x, ReceitasView.campos_receita rec dt di df = inr x
  | Recusado _ | Excecao _ => True
  end.
Proof.
  intros Hs Hr. destruct r as [e|s'|e|w]; [done| |done|].
  - eapply receita_Gravado_bem_formada; [exact Hs|].
    destruct Hr as [H | [i H]]; [left | right; exists i]; by rewrite H.
  - destruct Hr as [H | [i H]]; symmetry in H; (eapply validar_receita_NaoFinito; [|exact H]);
      intros x; [discriminate | unfold gravado; by case_match].
Qed.

(** C13: Opening the edit form of a well-formed income and pressing
    "Salvar" without changing anything writes back an income file that
    reads the same: [str(valor)] reads back as the amount, and the update
    replaces the income the form was opened on. *)
Theorem editar_receita_ida_volta `{!ReprFloat} hoje s r :
  find (fun x => r_id x =? r_id r) (ler s) = Some r -> receita_bem_formada r ->
  exists f s', ReceitasView.abrir_formulario_editar hoje (r_id r) s = Some f /\
    ReceitasView.salvar_edicao (r_id r) f s = Gravado s' /\
    ler (A := Receita) s' ≡ ler s /\ ler (A := Gasto) s' = ler s /\ ler (A := Conta) s' = ler s.
Proof.
  intros Hf Hr. pose proof Hr as (Hd & Hb & Hp & _).
  destruct (validar_valor_repr _ Hb Hp) as (v' & Hv & Heq).
  destruct (atualizar_encontrado (r_id r)
              (definir_id (r_id r) (mkReceita 0 (r_descricao r) v' (Some (receita_recorrente r))
                                      (r_data r) (r_data_inicio r) (r_data_fim r))) r s ltac:(exact Hf))
    as (l' & Ha & Hl); [by destruct r|].
  unfold ReceitasView.abrir_formulario_editar. rewrite Hf.
  do 2 eexists; split; [reflexivity|].
  unfold ReceitasView.salvar_edicao, ReceitasView.atualizar_receita, ReceitasView.validar_receita.
  cbn [ReceitasView.fr_descricao ReceitasView.fr_valor ReceitasView.fr_recorrente ReceitasView.fr_data
    ReceitasView.fr_data_inicio ReceitasView.fr_data_fim].
  rewrite (proj2 (String.eqb_neq _ _) Hd), Hv, (campos_receita_bem_formada r _ _ Hr).
  unfold Store.atualizar_receita. rewrite Ha. split; [reflexivity|].
  rewrite ler_gravar. by split.
Qed.

(** ** Concrete runs *)

Local Open Scope string_scope.
Local Open Scope Z_scope.

Definition gasto_mercado : Gasto := mkGasto 1 "Mercado" 50 "Alimentação" "10/03/2024".
Definition gasto_cinema : Gasto := mkGasto 2 "Cinema" 30 "Lazer" "02/04/2024".
Definition receita_salario : Receita :=
  mkReceita 1 "Salário" 5000 (Some true) None (Some "15/01/2024") None.

Definition arquivos_formularios : Arquivos :=
  mkArquivos (Valido [gasto_mercado; gasto_cinema]) (Valido [receita_salario]) (Valido []).

(** The amount ["nan"] passes the check of the expense form and the
    expense is written with a [nan] amount. *)
Example salvar_gasto_nan :
  GastosGeraisView.salvar_gasto "Mercado" "nan" "Alimentação" "10/03/2024" arquivos_formularios
  = NaoFinito NaN.
Proof. vm_compute. reflexivity. Qed.

Lemma excluir_linha_selecionada_witness :
  exists g, g ∈ ler arquivos_formularios /\
    GastosGeraisView.linha_gasto gasto_mercado = GastosGeraisView.linha_gasto g /\
    GastosGeraisView.excluir_selecionado
      (Some (GastosGeraisView.lg_tags (GastosGeraisView.linha_gasto gasto_mercado))) true arquivos_formularios
    = Ok (Store.excluir_gasto (g_id g) arquivos_formularios).
Proof.
  apply (excluir_linha_selecionada "3" "2024" arquivos_formularios
           [GastosGeraisView.linha_gasto gasto_mercado] Concluido).
  - apply (bool_decide_unpack _). vm_compute. reflexivity.
  - vm_compute. reflexivity.
  - by left.
Defined.

Definition linha_salario : ReceitasView.LinhaReceita :=
  ReceitasView.linha_receita (receita_com_data "01/03/2024" receita_salario).

Lemma receitas_tabela_datas_witness :
  data_no_formato (ReceitasView.lr_data linha_salario) = true /\
  exists r, r ∈ ler arquivos_formularios /\
    (receita_recorrente r = true -> ReceitasView.lr_data linha_salario = data_01 3 2024).
Proof.
  apply (receitas_tabela_datas "3" "2024" 3 2024 arquivos_formularios [linha_salario] Concluido).
  - reflexivity.
  - reflexivity.
  - lia.
  - vm_compute. reflexivity.
  - by left.
Defined.

Lemma salvar_gasto_grava_witness :
  exists s', GastosGeraisView.salvar_gasto "Feira" "12,50" "Alimentação" "05/03/2024" arquivos_formularios
             = Gravado s' /\
  ("Feira"%string <> EmptyString /\ data_no_formato "05/03/2024" = true /\
   exists q, py_float (virgula_ponto "12,50") = Ok (Finito q) /\ (0 < q)%Q /\
     ler s' = (ler arquivos_formularios ++
               [mkGasto (gerar_id (ler (A := Gasto) arquivos_formularios)) "Feira" q "Alimentação" "05/03/2024"])%list /\
     ids_validos (ler (A := Gasto) s') /\
     ler (A := Receita) s' = ler arquivos_formularios /\ ler (A := Conta) s' = ler arquivos_formularios).
Proof.
  eexists. split; [vm_compute; reflexivity|].
  apply salvar_gasto_grava; [apply (bool_decide_unpack _); vm_compute; reflexivity | vm_compute; reflexivity].
Defined.

Lemma receita_salario_bem_formada : receita_bem_formada receita_salario.
Proof.
  split; [discriminate|]. split; [apply binario64_inteiro; unfold precisao; lia|].
  split; [reflexivity|]. cbn. split; [done|].
  split; [exists "15/01/2024"; split; [reflexivity | vm_compute; reflexivity] | done].
Qed.

(** The recurring income "Salário" survives its edit form unchanged. *)
Lemma editar_receita_ida_volta_witness :
  exists f s', ReceitasView.abrir_formulario_editar (mkData 2024 3 15) (r_id receita_salario)
                 arquivos_formularios = Some f /\
    ReceitasView.salvar_edicao (r_id receita_salario) f arquivos_formularios = Gravado s' /\
    ler (A := Receita) s' ≡ ler arquivos_formularios /\
    ler (A := Gasto) s' = ler arquivos_formularios /\ ler (A := Conta) s' = ler arquivos_formularios.
Proof.
  apply (editar_receita_ida_volta (mkData 2024 3 15) arquivos_formularios receita_salario);
    [reflexivity | exact receita_salario_bem_formada].
Defined.

(** The amount ["nan"] passes every check of the income form. *)
Lemma formulario_receita_bem_formada_witness :
  match ReceitasView.salvar_receita "Bonus" "nan" false "20/03/2024" EmptyString EmptyString arquivos_formularios with
  | Gravado s' => Forall receita_bem_formada (ler s')
  | NaoFinito w => "Bonus" <> EmptyString /\ validar_valor (virgula_ponto "nan") = Some w /\
      (forall q, w <> Finito q) /\ exists x, ReceitasView.campos_receita false "20/03/2024" EmptyString EmptyString = inr x
  | Recusado _ | Excecao _ => True
  end.
Proof.
  apply (formulario_receita_bem_formada "Bonus" "nan" false "20/03/2024" EmptyString EmptyString
           arquivos_formularios).
  - constructor; [exact receita_salario_bem_formada | constructor].
  - by left.
Defined.

(** Adding the single income "Bonus" of 300,00 gives a well-formed file. *)
Example salvar_receita_bonus :
  exists s', ReceitasView.salvar_receita "Bonus" "300,00" false "20/03/2024" EmptyString EmptyString
               arquivos_formularios = Gravado s' /\ ler (A := Receita) s' <> [].
Proof. eexists. split; [vm_compute; reflexivity | discriminate]. Qed.

Lemma receita_salva_na_tabela_witness :
  exists s', ReceitasView.salvar_receita "Bonus" "300,00" false "20/03/2024" EmptyString EmptyString
               arquivos_formularios = Gravado s' /\
  exists q, py_float (virgula_ponto "300,00") = Ok (Finito q) /\
    ReceitasView.atualizar (str_int 3) (str_int 2024) s' =
      (map ReceitasView.linha_receita
         ([receita_com_data (data_01 3 2024) receita_salario] ++
          [mkReceita (gerar_id (ler (A := Receita) arquivos_formularios)) "Bonus" q (Some false) (Some "20/03/2024") None None]),
       Concluido).
Proof.
  eexists. split; [vm_compute; reflexivity|].
  apply (receita_salva_na_tabela "Bonus" "300,00" "20/03/2024" EmptyString EmptyString arquivos_formularios _
           (mkData 2024 3 20)); vm_compute; reflexivity.
Defined.
