(* ===== verification/BillsTab.v ===== *)
(** * BillsTab: the fixed-bills tab ([ContasFixasView], views/contas_fixas.py)

    Everything is in [Module ContasFixasView], the class's name space.

    - The form: the button's [lambda] ([argumentos], 655-669 and
      1095-1110) reads the widgets and converts the month, the year and
      the installment count with [int] before the handler runs;
      [montar_conta] is the part [salvar_conta] (714-807) and
      [atualizar_conta] (1113-1207) share: the checks in their order and
      the dict they build, with the end date the form derives itself for
      a recurring installment bill ([data_fim_formulario], 791-807, whose
      [except Exception: pass] leaves the key out).
    - The table: [atualizar] (177-298) filters the bills with its own
      period test ([filtro_tabela], 193-220), not with
      [obter_contas_fixas_por_periodo], then builds one row per bill
      ([linha_conta], 222-291); the loop reassigns [mes] and [ano] for a
      non-recurring bill before reading the payment status, so the loop
      carries them ([inserir_linhas_contas]).
    - The edit form: [formulario_de_conta] is the fields
      [abrir_formulario_editar] (830-1111) opens with, amounts through
      [str()] (the class [PyRepr.ReprFloat]); [atualizar_formulario] is
      its [Salvar] button.
    - Selection, deletion and marking: [excluir_conta] (1230-1239),
      [marcar_como_pago] / [marcar_como_pendente] (325-361), the context
      menu [abrir_menu_contexto] (363-397) and its two actions (399-420).
    - The form's frames: which of them are on screen ([Visibilidade]) as
      the add and edit forms lay them out, and the three check-box
      callbacks [atualizar_campos_recorrente], [atualizar_campos_parcelamento]
      and [atualizar_campos_juros] (672-713, the last one prefilling the
      interest with [PyFormat.formatar_2f]); the user's actions on the form
      ([agir]: typing into a field that is on screen, ticking a box) run
      those callbacks in the order they happen.

    Theorems: opening the edit form of a well-formed bill
    ([conta_bem_formada]) and saving it unchanged puts back, in the
    bill's place, the same bill without its payment history
    ([editar_conta_ida_volta]; [editar_conta_apaga_historico] for any
    form); the tab's filter is the resolver's
    month test minus the first month of a bill that does not start on a
    first of the month ([filtro_tabela_resolvedor]); the reassignment of
    [mes]/[ano] in the loop never changes them, so the status column is
    the status of the month shown ([atualizar_status]); the
    context menu always offers the move to the other state
    ([menu_contexto_alterna]); the frames shown agree with the boxes
    ticked after every action except ticking "Recorrente" on an
    installment bill, which shows the end date the code means to hide
    ([visibilidade_ordem]); and an end date typed while its frame was
    shown stays in the hidden field and makes [Salvar] refuse the bill
    ([data_fim_oculta_recusada]). *)

From Stdlib Require Import ZArith QArith String Ascii Lia.
From stdpp Require Import base list gmap strings.
From S2P Require Import Prelude PyDate PyNum PyFloat PyRepr PyFormat Records Installments Store Ledger Resolver History Forms.

Local Open Scope Z_scope.

Module ContasFixasView.

(** ** The form *)

(** [str.isdigit()] on ASCII. *)
Definition isdigit (s : string) : bool :=
  negb (String.eqb s EmptyString) &&
  forallb (fun c => match digito_uint c with Some _ => true | None => false end)
    (list_ascii_of_string s).

(** What the widgets hold when "Salvar" is pressed. *)
Record FormularioConta := mkFormularioConta {
  fc_descricao : string;
  fc_valor : string;
  fc_recorrente : bool;
  fc_data_inicio : string;
  fc_data_fim : string;
  fc_mes : string;
  fc_ano : string;
  fc_parcelado : bool;
  fc_num_parcelas : string;
  fc_tem_juros : bool;
  fc_valor_com_juros : string;
  fc_data_limite : string
}.

(** The arguments of [salvar_conta] / [atualizar_conta]. *)
Record CamposConta := mkCamposConta {
  cc_descricao : string;
  cc_valor : string;
  cc_recorrente : bool;
  cc_data_inicio : option string;
  cc_data_fim : option string;
  cc_mes : option Z;
  cc_ano : option Z;
  cc_parcelado : bool;
  cc_num_parcelas : option Z;
  cc_tem_juros : bool;
  cc_valor_com_juros : option string;
  cc_data_limite : string
}.

(** The button's [lambda] (contas_fixas.py 655-669): the tuple of
    arguments is evaluated left to right, so a month, year or installment
    count [int] rejects raises before the handler runs. *)
Definition argumentos (f : FormularioConta) : res CamposConta :=
  let rec := fc_recorrente f in
  let parc := fc_parcelado f in
  mes <- (if rec then Ok None else m <- py_int (fc_mes f) ;; Ok (Some m)) ;;
  ano <- (if rec then Ok None else a <- py_int (fc_ano f) ;; Ok (Some a)) ;;
  n <- (if parc then k <- py_int (fc_num_parcelas f) ;; Ok (Some k) else Ok None) ;;
  Ok (mkCamposConta (fc_descricao f) (fc_valor f) rec
        (if rec then Some (fc_data_inicio f) else None)
        (if rec && negb (String.eqb (fc_data_fim f) EmptyString) then Some (fc_data_fim f) else None)
        mes ano parc n (parc && fc_tem_juros f)
        (if parc && fc_tem_juros f then Some (fc_valor_com_juros f) else None)
        (fc_data_limite f)).

(** The data-limit check (contas_fixas.py 759-771): the key, if any, or
    the error box. *)
Definition validar_data_limite (dl : string) : option (option string) :=
  if String.eqb dl EmptyString then Some None
  else if isdigit dl &&
          match py_int dl with Ok n => (1 <=? n) && (n <=? 31) | Err _ => false end
  then Some (Some dl)
  else if data_no_formato dl then Some (Some dl)
  else None.

(** The end date the form derives for a recurring installment bill
    without one (contas_fixas.py 791-807): [None] when the loop raises. *)
Definition data_fim_formulario (data_inicio : string) (num_parcelas : Z) : option string :=
  match strptime_dmY data_inicio with
  | Ok d =>
      match iterar (Z.to_nat (num_parcelas - 1)) avancar_mes_formulario d with
      | Ok e => Some (strftime_dmY e)
      | Err _ => None
      end
  | Err _ => None
  end.

(** A finite amount for the record, and the non-finite one it hides. *)
Definition montante (v : PyFloat) : Q * option PyFloat :=
  match v with Finito q => (q, None) | _ => (0%Q, Some v) end.

(** The shared body of [salvar_conta] and [atualizar_conta]
    (contas_fixas.py 716-807 and 1115-1207): the bill dict, and the first
    non-finite amount it holds, or the error box. *)
Definition montar_conta (c : CamposConta) : ErroFormulario + (Conta * option PyFloat) :=
  if String.eqb (cc_descricao c) EmptyString then inl ErroDescricao else
  match validar_valor (cc_valor c) with
  | None => inl ErroValor
  | Some v =>
    let rec := cc_recorrente c in
    let di := default EmptyString (cc_data_inicio c) in
    let df := tem_data_fim (cc_data_fim c) in
    if rec && negb (data_no_formato di) then inl ErroDataInicio else
    if rec && match df with Some d => negb (data_no_formato d) | None => false end
    then inl ErroDataFim else
    match validar_data_limite (cc_data_limite c) with
    | None => inl ErroDataLimite
    | Some dl =>
      let juros :=
        if cc_parcelado c && cc_tem_juros c then
          match py_float (default EmptyString (cc_valor_com_juros c)) with
          | Err _ => inl ErroJurosInvalido
          | Ok vj => if py_le vj v then inl ErroJurosMenor else inr (Some vj)
          end
        else inr None in
      match juros with
      | inl e => inl e
      | inr vj =>
        let n := default 1 (cc_num_parcelas c) in
        let fim :=
          if rec then
            match df with
            | Some d => Some d
            | None => if cc_parcelado c then data_fim_formulario di n else None
            end
          else None in
        let '(q, nf) := montante v in
        let '(qj, nfj) :=
          match vj with
          | Some w => let '(x, o) := montante w in (Some x, o)
          | None => (None, None)
          end in
        inr (mkConta 0 (cc_descricao c) q (Some rec)
               (if rec then Some di else None) fim
               (if rec then None else cc_mes c) (if rec then None else cc_ano c)
               dl (if cc_parcelado c then Some true else None)
               (if cc_parcelado c then cc_num_parcelas c else None)
               qj None None None,
             match nf with Some w => Some w | None => nfj end)
      end
    end
  end.

(** The end of both handlers: the [DataManager] call, then a record with
    a non-finite amount or the store. *)
Definition gravar_conta (r : res Arquivos) (nf : option PyFloat) : Resultado :=
  match r, nf with
  | Ok _, Some v => NaoFinito v
  | Ok s', None => Gravado s'
  | Err e, _ => Excecao e
  end.

(** [salvar_conta] (contas_fixas.py 714-829). *)
Definition salvar_conta (c : CamposConta) (s : Arquivos) : Resultado :=
  match montar_conta c with
  | inl e => Recusado e
  | inr (conta, nf) => gravar_conta (adicionar_conta_fixa conta s) nf
  end.

(** [atualizar_conta] (contas_fixas.py 1113-1228): the dict carries the id
    and nothing of the stored bill. *)
Definition atualizar_conta (conta_id : Z) (c : CamposConta) (s : Arquivos) : Resultado :=
  match montar_conta c with
  | inl e => Recusado e
  | inr (conta, nf) => gravar_conta (atualizar_conta_fixa conta_id (conta_com_id conta_id conta) s) nf
  end.

(** Pressing "Salvar" in the add form: the [lambda], then the handler. *)
Definition salvar_formulario (f : FormularioConta) (s : Arquivos) : Resultado :=
  match argumentos f with
  | Ok c => salvar_conta c s
  | Err e => Excecao e
  end.

(** The same in the edit form (contas_fixas.py 1095-1110). *)
Definition atualizar_formulario (conta_id : Z) (f : FormularioConta) (s : Arquivos) : Resultado :=
  match argumentos f with
  | Ok c => atualizar_conta conta_id c s
  | Err e => Excecao e
  end.

(** [excluir_conta] (contas_fixas.py 1230-1239). *)
Definition excluir_conta (confirmado : bool) (conta_id : Z) (s : Arquivos) : Arquivos :=
  if confirmado then excluir_conta_fixa conta_id s else s.

(** The fields of the add form when it opens (contas_fixas.py 421-671):
    today's date, month and year, one installment, ["0.00"] with
    interest. *)
Definition formulario_adicionar (hoje : data) : FormularioConta :=
  mkFormularioConta EmptyString EmptyString false (strftime_dmY hoje) EmptyString
    (str_int (mes hoje)) (str_int (ano hoje)) false "1" false "0.00" EmptyString.

Section Edicao.
Context `{!ReprFloat}.

(** The fields of the edit form prefilled from a bill
    (contas_fixas.py 871-1053): the amounts as [str(...)], a missing key
    by its default ([data_inicio], [mes] and [ano] of today, one
    installment, the amount for the total with interest). *)
Definition formulario_de_conta (hoje : data) (c : Conta) : FormularioConta :=
  mkFormularioConta (c_descricao c) (repr_float (c_valor c)) (conta_recorrente c)
    (default (strftime_dmY hoje) (c_data_inicio c)) (default EmptyString (c_data_fim c))
    (str_int (default (mes hoje) (c_mes c))) (str_int (default (ano hoje) (c_ano c)))
    (conta_parcelada c) (str_int (default 1 (c_num_parcelas c)))
    (bool_decide (is_Some (c_valor_com_juros c)))
    (repr_float (default (c_valor c) (c_valor_com_juros c)))
    (default EmptyString (c_data_limite c)).

(** [abrir_formulario_editar] (contas_fixas.py 830-1111): the first bill
    with the id, or the "Conta não encontrada!" box ([None]). *)
Definition abrir_formulario_editar (hoje : data) (conta_id : Z) (s : Arquivos) : option FormularioConta :=
  match find (fun c => c_id c =? conta_id) (ler s) with
  | Some c => Some (formulario_de_conta hoje c)
  | None => None
  end.

(** [obter_conta_selecionada] (contas_fixas.py 300-311). *)
Definition obter_conta_selecionada : option (list string) -> res (option Z) := obter_selecionado.

(** [editar_selecionado] (contas_fixas.py 313-317). *)
Definition editar_selecionado (hoje : data) (tags : option (list string)) (s : Arquivos)
    : res (option FormularioConta) :=
  o <- obter_conta_selecionada tags ;;
  Ok (match id_verdadeiro o with Some i => abrir_formulario_editar hoje i s | None => None end).
End Edicao.

(** [excluir_selecionado] (contas_fixas.py 319-323). *)
Definition excluir_selecionado (tags : option (list string)) (confirmado : bool) (s : Arquivos)
    : res Arquivos :=
  o <- obter_conta_selecionada tags ;;
  match id_verdadeiro o with
  | Some i => Ok (excluir_conta confirmado i s)
  | None => Ok s
  end.

(** ** What the form shows *)

(** The frames of the bill form that [grid_remove] hides and [grid]
    shows again: the start and end dates of a recurring bill, the month
    and year of a single one, the installment options and, inside them,
    the total with interest. *)
Record Visibilidade := mkVisibilidade {
  vis_data_inicio : bool;
  vis_data_fim : bool;
  vis_mes_ano : bool;
  vis_parcelamento : bool;
  vis_juros : bool
}.

(** The add form as it opens (contas_fixas.py 482-502, 596-598,
    627-629): only the month and year. *)
Definition visibilidade_adicionar : Visibilidade := mkVisibilidade false false true false false.

(** The edit form as it opens (contas_fixas.py 1060-1081), from the
    bill's [recorrente], [parcelado] and interest flags. *)
Definition visibilidade_editar (rec parc juros : bool) : Visibilidade :=
  mkVisibilidade rec (rec && negb parc) (negb rec) parc juros.

(** [atualizar_campos_recorrente] (contas_fixas.py 672-683). *)
Definition atualizar_campos_recorrente (recorrente : bool) (v : Visibilidade) : Visibilidade :=
  if recorrente then mkVisibilidade true true false (vis_parcelamento v) (vis_juros v)
  else mkVisibilidade false false true (vis_parcelamento v) (vis_juros v).

(** [atualizar_campos_parcelamento] (contas_fixas.py 685-698). *)
Definition atualizar_campos_parcelamento (parcelado recorrente : bool) (v : Visibilidade) : Visibilidade :=
  mkVisibilidade (vis_data_inicio v) (if recorrente then negb parcelado else vis_data_fim v)
    (vis_mes_ano v) parcelado (vis_juros v).

(** [atualizar_campos_juros] (contas_fixas.py 700-713): the interest
    frame, and the total prefilled with [f"{float(valor):.2f}"] when the
    amount parses ([except ValueError: pass] otherwise). *)
Definition atualizar_campos_juros (f : FormularioConta) (v : Visibilidade) : FormularioConta * Visibilidade :=
  let 'mkVisibilidade di df ma p _ := v in
  if fc_tem_juros f then
    (match py_float (fc_valor f) with
     | Ok x =>
         let 'mkFormularioConta de va r di' df' m a pa n j _ dl := f in
         mkFormularioConta de va r di' df' m a pa n j (formatar_2f x) dl
     | Err _ => f
     end, mkVisibilidade di df ma p true)
  else (f, mkVisibilidade di df ma p false).

(** The text fields of the form. *)
Inductive Campo : Type :=
| CampoDescricao | CampoValor | CampoDataInicio | CampoDataFim
| CampoNumParcelas | CampoValorComJuros | CampoDataLimite.

(** What the user does in the form: type in a field, or tick a box
    (Tk sets the box's variable, then runs its [command]). *)
Inductive AcaoFormulario : Type :=
| Digitar (c : Campo) (t : string)
| MarcarRecorrente
| MarcarParcelado
| MarcarJuros.

(** A field can be typed in when its frame is shown. *)
Definition campo_visivel (c : Campo) (v : Visibilidade) : bool :=
  match c with
  | CampoDataInicio => vis_data_inicio v
  | CampoDataFim => vis_data_fim v
  | CampoNumParcelas => vis_parcelamento v
  | CampoValorComJuros => vis_parcelamento v && vis_juros v
  | _ => true
  end.

Definition escrever (c : Campo) (t : string) (f : FormularioConta) : FormularioConta :=
  let 'mkFormularioConta de va r di df m a pa n j vj dl := f in
  match c with
  | CampoDescricao => mkFormularioConta t va r di df m a pa n j vj dl
  | CampoValor => mkFormularioConta de t r di df m a pa n j vj dl
  | CampoDataInicio => mkFormularioConta de va r t df m a pa n j vj dl
  | CampoDataFim => mkFormularioConta de va r di t m a pa n j vj dl
  | CampoNumParcelas => mkFormularioConta de va r di df m a pa t j vj dl
  | CampoValorComJuros => mkFormularioConta de va r di df m a pa n j t dl
  | CampoDataLimite => mkFormularioConta de va r di df m a pa n j vj t
  end.

Definition agir (a : AcaoFormulario) (e : FormularioConta * Visibilidade) : FormularioConta * Visibilidade :=
  let '(f, v) := e in
  let 'mkFormularioConta de va r di df m an pa n j vj dl := f in
  match a with
  | Digitar c t => if campo_visivel c v then (escrever c t f, v) else (f, v)
  | MarcarRecorrente =>
      (mkFormularioConta de va (negb r) di df m an pa n j vj dl, atualizar_campos_recorrente (negb r) v)
  | MarcarParcelado =>
      (mkFormularioConta de va r di df m an (negb pa) n j vj dl, atualizar_campos_parcelamento (negb pa) r v)
  | MarcarJuros =>
      if vis_parcelamento v then atualizar_campos_juros (mkFormularioConta de va r di df m an pa n (negb j) vj dl) v
      else (f, v)
  end.

Definition agir_todos (acoes : list AcaoFormulario) (e : FormularioConta * Visibilidade) : FormularioConta * Visibilidade :=
  fold_left (fun e a => agir a e) acoes e.

(** ** The table *)

(** The tab's own period test (contas_fixas.py 193-220): datetimes at
    midnight against [datetime(ano, mes, 1)]; a [ValueError] on the way
    keeps the bill. *)
Definition filtro_tabela (mes ano : Z) (c : Conta) : bool :=
  if conta_recorrente c then
    let di := default EmptyString (c_data_inicio c) in
    if String.eqb di EmptyString then false else
    match strptime_dmY di, mk_data ano mes 1 with
    | Ok inicio, Ok periodo =>
        let comeca := instante_leb (meia_noite inicio) (meia_noite periodo) in
        match tem_data_fim (c_data_fim c) with
        | Some df =>
            match strptime_dmY df with
            | Ok fim => comeca && instante_leb (meia_noite periodo) (meia_noite fim)
            | Err _ => true
            end
        | None => comeca
        end
    | _, _ => true
    end
  else bool_decide (c_mes c = Some mes) && bool_decide (c_ano c = Some ano).

(** One row: the columns (amounts as numbers: the amount, the interest
    shown next to it, the installment count and installment amount), and
    the tags, [(conta['id'],)] then ['pago'] for a paid bill. *)
Record LinhaConta := mkLinhaConta {
  lc_descricao : string;
  lc_valor : Q;
  lc_juros : option Q;
  lc_periodo : string;
  lc_pago : bool;
  lc_parcelas : option (Z * Q);
  lc_data_limite : string;
  lc_tags : list string
}.

(** The installment columns (contas_fixas.py 246-270): [valor / n], or
    [valor_com_juros / n] and the interest when that key is truthy;
    [ZeroDivisionError] on [n = 0]. *)
Definition colunas_parcelas (c : Conta) : res (option Q * option (Z * Q)) :=
  if conta_parcelada c then
    let n := default 1 (c_num_parcelas c) in
    if n =? 0 then Err ZeroDivisionError else
    match c_valor_com_juros c with
    | Some vj => if Qeq_bool vj 0 then Ok (None, Some (n, c_valor c / inject_Z n))
                 else Ok (Some (vj - c_valor c), Some (n, vj / inject_Z n))
    | None => Ok (None, Some (n, c_valor c / inject_Z n))
    end%Q
  else Ok (None, None).

(** The body of the row loop (contas_fixas.py 223-291) with the loop's
    [mes] and [ano]: the row and the [mes], [ano] after it. *)
Definition linha_conta (mes ano : Z) (s : Arquivos) (c : Conta) : res (LinhaConta * (Z * Z)) :=
  periodo_ma <-
    (if conta_recorrente c then
       di <- get_key (c_data_inicio c) ;;
       Ok (match tem_data_fim (c_data_fim c) with
           | Some df => di ++ " até " ++ df
           | None => di ++ " em diante"
           end%string, (mes, ano))
     else
       m <- get_key (c_mes c) ;;
       a <- get_key (c_ano c) ;;
       Ok (chave_mes_ano m a, (m, a))) ;;
  let '(periodo, (m, a)) := periodo_ma in
  let pago := verificar_conta_paga (c_id c) m a s in
  cols <- colunas_parcelas c ;;
  Ok (mkLinhaConta (c_descricao c) (c_valor c) cols.1 periodo pago cols.2
        (default "-"%string (c_data_limite c))
        (str_int (c_id c) :: if pago then ["pago"%string] else []), (m, a)).

(** The loop: rows are inserted one at a time. *)
Fixpoint inserir_linhas_contas (mes ano : Z) (s : Arquivos) (l : list Conta)
    : list LinhaConta * option excecao :=
  match l with
  | [] => ([], None)
  | c :: r =>
      match linha_conta mes ano s c with
      | Ok (linha, (m, a)) => let '(ls, e) := inserir_linhas_contas m a s r in (linha :: ls, e)
      | Err e => ([], Some e)
      end
  end.

(** [atualizar] (contas_fixas.py 177-298). *)
Definition atualizar (mes_s ano_s : string) (s : Arquivos) : list LinhaConta * Desfecho :=
  match py_int mes_s, py_int ano_s with
  | Err e, _ | Ok _, Err e => ([], capturar e)
  | Ok mes, Ok ano =>
      let '(linhas, e) := inserir_linhas_contas mes ano s (List.filter (filtro_tabela mes ano) (ler s)) in
      (linhas, match e with Some e => capturar e | None => Concluido end)
  end.

(** ** Marking *)

(** What the user sees after a marking action. *)
Inductive Aviso : Type :=
| SemAviso
| AvisoSucesso   (** [showinfo("Sucesso", ...)] *)
| AvisoErro.     (** [showerror("Erro", ...)] *)

(** [self.atualizar()] inside a [try ... except Exception]: an exception
    the refresh does not catch itself ends in the error box. *)
Definition aviso_atualizar (d : Desfecho) (ok : Aviso) : Aviso :=
  match d with ExcecaoPropagada _ => AvisoErro | _ => ok end.

(** [marcar_como_pago] ([status_pago = true], contas_fixas.py 325-342) and
    [marcar_como_pendente] ([false], 344-361): the selected id is read
    outside the [try]; [mes] and [ano] inside it. *)
Definition marcar_como (status_pago : bool) (tags : option (list string)) (mes_s ano_s : string)
    (hoje : data) (s : Arquivos) : res (Arquivos * Aviso) :=
  o <- obter_selecionado tags ;;
  match id_verdadeiro o with
  | None => Ok (s, SemAviso)
  | Some i =>
      match py_int mes_s, py_int ano_s with
      | Ok mes, Ok ano =>
          let s' := marcar_conta_como_paga i mes ano status_pago None hoje s in
          Ok (s', aviso_atualizar (atualizar mes_s ano_s s').2 AvisoSucesso)
      | _, _ => Ok (s, AvisoErro)
      end
  end.

Definition marcar_como_pago := marcar_como true.
Definition marcar_como_pendente := marcar_como false.

(** The entries of the context menu. *)
Inductive OpcaoMenuConta : Type :=
| OpcaoEditar (conta_id : Z)
| OpcaoExcluir (conta_id : Z)
| OpcaoMarcarPendente (conta_id mes ano : Z)
| OpcaoMarcarPago (conta_id mes ano : Z).

(** [abrir_menu_contexto] (contas_fixas.py 363-397) on the row under the
    pointer (its tags), if any: the id, [mes] and [ano] are read outside
    any [try]; the last entry is the move to the other state. *)
Definition abrir_menu_contexto (linha : option (list string)) (mes_s ano_s : string) (s : Arquivos)
    : res (list OpcaoMenuConta) :=
  match linha with
  | None => Ok []
  | Some tags =>
      i <- match tags with t :: _ => py_int t | [] => Err IndexError end ;;
      mes <- py_int mes_s ;;
      ano <- py_int ano_s ;;
      Ok [OpcaoEditar i; OpcaoExcluir i;
          if verificar_conta_paga i mes ano s then OpcaoMarcarPendente i mes ano
          else OpcaoMarcarPago i mes ano]
  end.

(** [marcar_como_pago_menu] / [marcar_como_pendente_menu]
    (contas_fixas.py 399-420): the mark with the [mes], [ano] the menu
    captured, then the refresh, which reads the filters again. *)
Definition marcar_menu (status_pago : bool) (conta_id mes ano : Z) (mes_s ano_s : string)
    (hoje : data) (s : Arquivos) : Arquivos * Aviso :=
  let s' := marcar_conta_como_paga conta_id mes ano status_pago None hoje s in
  (s', aviso_atualizar (atualizar mes_s ano_s s').2 SemAviso).

Definition marcar_como_pago_menu := marcar_menu true.
Definition marcar_como_pendente_menu := marcar_menu false.

(** Choosing a marking entry of the menu. *)
Definition escolher_opcao (o : OpcaoMenuConta) (mes_s ano_s : string) (hoje : data) (s : Arquivos)
    : Arquivos * Aviso :=
  match o with
  | OpcaoMarcarPago i m a => marcar_como_pago_menu i m a mes_s ano_s hoje s
  | OpcaoMarcarPendente i m a => marcar_como_pendente_menu i m a mes_s ano_s hoje s
  | _ => (s, SemAviso)
  end.

(** ** Lemmas *)

Lemma verificar_entrada i mes ano s :
  verificar_conta_paga i mes ano s = bool_decide (is_Some (entrada i (chave_mes_ano mes ano) (ler s))).
Proof.
  unfold verificar_conta_paga, entrada.
  destruct (find _ _) as [c|]; [|done]. by destruct (c_historico c).
Qed.

Lemma find_id_elem (c : Conta) l : c ∈ l -> exists c0, find (fun y => c_id y =? c_id c) l = Some c0.
Proof.
  intros Hc. destruct (find _ l) as [c0|] eqn:Hf; [eauto|].
  apply list_elem_of_In in Hc. pose proof (find_none _ _ Hf c Hc) as H. simpl in H. lia.
Qed.

(** After marking a bill of the file, its status for that month is the
    status written. *)
Lemma verificar_apos_marcar s (c : Conta) mes ano b dp hoje :
  c ∈ ler s -> verificar_conta_paga (c_id c) mes ano (marcar_conta_como_paga (c_id c) mes ano b dp hoje s) = b.
Proof.
  intros Hc. destruct (find_id_elem c _ Hc) as [c0 Hf].
  rewrite verificar_entrada. unfold marcar_conta_como_paga. rewrite ler_gravar.
  rewrite (entrada_marcar_eq _ _ _ _ _ _ c0 Hf). by destruct b.
Qed.

(** The context menu of a bill of the file always offers the move to
    the other state: choosing its marking entry turns the status of the
    month shown into its negation. *)
Theorem menu_contexto_alterna s (c : Conta) mes_s ano_s mes ano hoje :
  c ∈ ler s -> py_int mes_s = Ok mes -> py_int ano_s = Ok ano ->
  exists o, abrir_menu_contexto (Some [str_int (c_id c)]) mes_s ano_s s =
            Ok [OpcaoEditar (c_id c); OpcaoExcluir (c_id c); o] /\
    verificar_conta_paga (c_id c) mes ano (escolher_opcao o mes_s ano_s hoje s).1 =
    negb (verificar_conta_paga (c_id c) mes ano s).
Proof.
  intros Hc Hm Ha. unfold abrir_menu_contexto. rewrite py_int_str_int, Hm, Ha. cbn [res_bind].
  eexists. split; [reflexivity|].
  destruct (verificar_conta_paga (c_id c) mes ano s); apply verificar_apos_marcar, Hc.
Qed.

(** The dict the form builds has no [historico_pagamentos]. *)
Lemma montar_conta_historico c conta nf : montar_conta c = inr (conta, nf) -> c_historico conta = None.
Proof.
  unfold montar_conta. intros H. repeat (case_match; simplify_eq; try done).
Qed.

(** After the replacement loop, the first bill with the id is the
    replacement, or there is none. *)
Lemma substituir_find_historico i (novo : res Conta) l l' :
  (forall x, novo = Ok x -> c_id x = i /\ c_historico x = None) ->
  substituir i novo l = Ok l' ->
  forall c0, find (fun y => c_id y =? i) l' = Some c0 -> c_historico c0 = None.
Proof.
  intros Hn. revert l'; induction l as [|y l IH]; intros l' H c0; simpl in H.
  - injection H as <-. done.
  - destruct (Z.eqb_spec (c_id y) i) as [Hy|Hy].
    + apply res_bind_Ok in H as (x & Hx & [= <-]). destruct (Hn x Hx) as [Hi Hh].
      simpl. rewrite Hi, Z.eqb_refl. by intros [= <-].
    + apply res_bind_Ok in H as (ys & Hys & [= <-]). simpl.
      rewrite (proj2 (Z.eqb_neq _ _) Hy). by apply IH.
Qed.

(** Saving the edit form of a bill deletes its payment history: the
    handler rebuilds the dict from the widgets, without
    [historico_pagamentos], and [atualizar_conta_fixa] replaces the stored
    bill with it, so the bill reads as unpaid in every month. *)
Theorem editar_conta_apaga_historico conta_id c s s' mes ano :
  atualizar_conta conta_id c s = Gravado s' -> verificar_conta_paga conta_id mes ano s' = false.
Proof.
  unfold atualizar_conta. destruct (montar_conta c) as [e|[conta nf]] eqn:Hm; [done|].
  unfold gravar_conta, atualizar_conta_fixa.
  destruct (substituir _ _ _) as [l'|e] eqn:Hs; cbn [res_bind]; [|done].
  destruct nf; intros [= <-]. unfold verificar_conta_paga. simpl.
  destruct (find _ l') as [c0|] eqn:Hf; [|done].
  assert (Hn : forall x, preparar_parcelamento (definir_id conta_id (conta_com_id conta_id conta)) = Ok x ->
                         c_id x = conta_id /\ c_historico x = None).
  { intros x Hx. split; [rewrite (preparar_parcelamento_id _ _ Hx); by destruct conta|].
    rewrite (preparar_parcelamento_historico _ _ Hx). apply montar_conta_historico in Hm.
    by destruct conta. }
  by rewrite (substituir_find_historico _ _ _ _ Hn Hs c0 Hf).
Qed.

(** ** The tab's period filter against the resolver's *)

(** ** Editing a bill unchanged *)

(** The bills the form writes and [DataManager] stores: a description, a
    positive binary64 amount, the dates of a recurring bill or the month
    of a single one, a valid due day or date, the installment keys of an
    installment bill (a total with interest above the amount), an end
    date as [DataManager] computes it, and no period keys. *)
Definition conta_bem_formada (c : Conta) : Prop :=
  c_descricao c <> EmptyString /\ binario64 (c_valor c) /\ (0 < c_valor c)%Q /\
  (if conta_recorrente c then
     c_mes c = None /\ c_ano c = None /\
     (exists di, c_data_inicio c = Some di /\ data_no_formato di = true) /\
     (forall df, c_data_fim c = Some df -> data_no_formato df = true)
   else c_data_inicio c = None /\ c_data_fim c = None /\ is_Some (c_mes c) /\ is_Some (c_ano c)) /\
  (forall dl, c_data_limite c = Some dl -> validar_data_limite dl = Some (Some dl)) /\
  (if conta_parcelada c then
     is_Some (c_num_parcelas c) /\
     (forall vj, c_valor_com_juros c = Some vj -> binario64 vj /\ (c_valor c < vj)%Q)
   else c_num_parcelas c = None /\ c_valor_com_juros c = None) /\
  preparar_parcelamento c = Ok c /\
  c_pago c = None /\ c_data_pagamento c = None.

(** The bill without its payment history. *)
Definition sem_historico (c : Conta) : Conta :=
  let 'mkConta i de v r di df m a dl p n j _ pg dp := c in mkConta i de v r di df m a dl p n j None pg dp.

Lemma conta_com_id_id i j c : conta_com_id i (conta_com_id j c) = conta_com_id i c.
Proof. by destruct c. Qed.

(** A bill [DataManager] leaves as it is stays so under a change that
    keeps the keys it reads. *)
Lemma preparar_parcelamento_fixo c c' :
  preparar_parcelamento c = Ok c -> conta_parcelada c' = conta_parcelada c ->
  c_num_parcelas c' = c_num_parcelas c -> c_data_inicio c' = c_data_inicio c ->
  c_data_fim c' = c_data_fim c -> preparar_parcelamento c' = Ok c'.
Proof.
  destruct c, c'. unfold preparar_parcelamento, conta_parcelada. simpl. intros H -> -> -> ->.
  destruct (default false c_parcelado); [|done]. destruct c_data_inicio as [di|]; simpl in *.
  - destruct (calcular_data_fim _ _) as [sf|]; simpl in *; [|done]. injection H. intros. f_equal. congruence.
  - injection H. intros. f_equal. congruence.
Qed.

(** An installment bill with a start date has an end date. *)
Lemma preparar_parcelamento_data_fim c di :
  preparar_parcelamento c = Ok c -> conta_parcelada c = true -> c_data_inicio c = Some di ->
  is_Some (c_data_fim c).
Proof.
  unfold preparar_parcelamento. intros H Hp Hdi. rewrite Hp in H.
  destruct (conta_com_num_parcelas_campos (default 1 (c_num_parcelas c)) c) as (_ & _ & Hdi1 & _).
  rewrite Hdi1, Hdi in H. destruct (calcular_data_fim _ _) as [sf|]; [|done]. injection H as <-.
  destruct c; by eexists.
Qed.

(** The [data_fim] argument of the [lambda] on a stored end date. *)
Lemma data_fim_argumento df :
  (forall d, df = Some d -> data_no_formato d = true) ->
  (if negb (String.eqb (default EmptyString df) EmptyString) then Some (default EmptyString df) else None) = df.
Proof.
  destruct df as [d|]; [|done]. intros Hd. specialize (Hd d eq_refl). cbn [default from_option id].
  destruct (String.eqb_spec d EmptyString) as [->|]; [done | done].
Qed.

(** The arguments the [lambda] passes for a well-formed bill. *)
Definition campos_de_conta `{!ReprFloat} (c : Conta) : CamposConta :=
  mkCamposConta (c_descricao c) (repr_float (c_valor c)) (conta_recorrente c)
    (c_data_inicio c) (c_data_fim c) (c_mes c) (c_ano c) (conta_parcelada c) (c_num_parcelas c)
    (conta_parcelada c && bool_decide (is_Some (c_valor_com_juros c)))
    (if conta_parcelada c && bool_decide (is_Some (c_valor_com_juros c))
     then Some (repr_float (default (c_valor c) (c_valor_com_juros c))) else None)
    (default EmptyString (c_data_limite c)).

(** The [lambda] on the prefilled fields of a well-formed bill passes
    its keys back. *)
Lemma argumentos_formulario `{!ReprFloat} hoje c :
  conta_bem_formada c -> argumentos (formulario_de_conta hoje c) = Ok (campos_de_conta c).
Proof.
  intros (_ & _ & _ & Hr & _ & Hp & _). unfold argumentos, formulario_de_conta, campos_de_conta.
  cbn [fc_descricao fc_valor fc_recorrente fc_data_inicio fc_data_fim fc_mes fc_ano fc_parcelado
       fc_num_parcelas fc_tem_juros fc_valor_com_juros fc_data_limite].
  destruct (conta_parcelada c);
    [destruct Hp as [[n Hn] _]; rewrite Hn | destruct Hp as [Hn _]; rewrite Hn];
    (destruct (conta_recorrente c);
      [destruct Hr as (-> & -> & (di & -> & _) & Hdf) | destruct Hr as (-> & -> & [m ->] & [a ->])]);
    cbn [default from_option id andb negb]; rewrite ?py_int_str_int; cbn [res_bind];
    rewrite ?data_fim_argumento by done; reflexivity.
Qed.

Lemma validar_data_limite_bem_formada c :
  (forall dl, c_data_limite c = Some dl -> validar_data_limite dl = Some (Some dl)) ->
  validar_data_limite (default EmptyString (c_data_limite c)) = Some (c_data_limite c).
Proof. intros H. destruct (c_data_limite c) as [dl|]; [exact (H dl eq_refl) | reflexivity]. Qed.

Lemma tem_data_fim_bem_formada df :
  (forall d, df = Some d -> data_no_formato d = true) -> tem_data_fim df = df.
Proof.
  destruct df as [d|]; [|done]. intros Hd. specialize (Hd d eq_refl). simpl.
  destruct (String.eqb_spec d EmptyString) as [->|]; [done | done].
Qed.

(** [float(str(vj))] for the stored total with interest passes the
    form's [valor_com_juros <= valor] test. *)
Lemma juros_repr `{!ReprFloat} v' v vj :
  binario64 vj -> (v < vj)%Q -> (v' == v)%Q ->
  exists vj', py_float (repr_float vj) = Ok (Finito vj') /\ (vj' == vj)%Q /\ py_le (Finito vj') (Finito v') = false.
Proof.
  intros Hb Hlt Hv. destruct (repr_float_le vj Hb) as (vj' & Hp & Heq). exists vj'.
  do 2 (split; [done|]). simpl. destruct (Qle_bool vj' v') eqn:Hl; [|done].
  apply Qle_bool_iff in Hl. rewrite Heq, Hv in Hl. exfalso. by apply (Qlt_not_le _ _ Hlt).
Qed.

(** The form's checks accept the arguments of a well-formed bill and
    build it again, with its amounts read back and no history. *)
Lemma montar_conta_formulario `{!ReprFloat} c :
  conta_bem_formada c ->
  exists conta, montar_conta (campos_de_conta c) = inr (conta, None) /\
    conta_com_id (c_id c) conta ≡ sem_historico c.
Proof.
  intros (Hd & Hb & Hp & Hr & Hdl & Hparc & Hprep & Hpg & Hdp).
  destruct (validar_valor_repr (c_valor c) Hb Hp) as (v' & Hv & Heq).
  unfold virgula_ponto in Hv. rewrite repr_float_sem_virgula in Hv.
  unfold montar_conta, campos_de_conta.
  cbn [cc_descricao cc_valor cc_recorrente cc_data_inicio cc_data_fim cc_mes cc_ano cc_parcelado
       cc_num_parcelas cc_tem_juros cc_valor_com_juros cc_data_limite].
  rewrite (proj2 (String.eqb_neq _ _) Hd), Hv, validar_data_limite_bem_formada by done.
  assert (Hfim : conta_recorrente c = true -> c_data_fim c = None -> conta_parcelada c = false).
  { intros Hrec Hn. destruct (conta_parcelada c) eqn:Ep; [|done]. rewrite Hrec in Hr.
    destruct Hr as (_ & _ & (di & Hdi & _) & _).
    destruct (preparar_parcelamento_data_fim c di Hprep Ep Hdi) as [? Hs]. congruence. }
  destruct (conta_recorrente c) eqn:Er.
  2: destruct Hr as (Hdi & Hdf & [m Hm] & [a Ha]); cbn [andb].
  1: (destruct Hr as (Hm & Ha & (di & Hdi & Hfdi) & Hdf); rewrite Hdi; cbn [default from_option id];
      rewrite Hfdi, tem_data_fim_bem_formada by done; cbn [andb negb];
      destruct (c_data_fim c) as [df|] eqn:Edf;
      [rewrite (Hdf df eq_refl); cbn [negb] | pose proof (Hfim eq_refl eq_refl) as Hnp; rewrite Hnp]).
  all: destruct (conta_parcelada c) eqn:Ep; destruct Hparc as [Hn Hj]; cbn [andb]; try congruence.
  all: try (destruct (c_valor_com_juros c) as [vj|] eqn:Evj;
            [rewrite bool_decide_true by (by eexists) | rewrite bool_decide_false by (by intros [])]).
  all: cbn [default from_option id andb].
  all: try (destruct (Hj vj eq_refl) as [Hbj Hlt];
            destruct (juros_repr v' (c_valor c) vj Hbj Hlt Heq) as (vj' & Hpj & Hqj & Hle);
            rewrite Hpj, Hle).
  all: eexists; split; [reflexivity|].
  all: unfold conta_recorrente, conta_parcelada in *; destruct c; simpl in *; subst; hnf; simpl.
  all: unfold conta_recorrente, conta_parcelada; simpl; repeat split; first [done | by symmetry | congruence].
Qed.

(** C3: Opening the edit form of a well-formed bill and pressing
    "Salvar" without changing anything writes back the bill with every
    key the program reads unchanged, its amounts read back from
    [str(...)], except its payment history, which is gone; the other
    bills and files are untouched. *)
Theorem editar_conta_ida_volta `{!ReprFloat} hoje s c :
  find (fun x => c_id x =? c_id c) (ler s) = Some c -> conta_bem_formada c ->
  exists f s' l1 l2, abrir_formulario_editar hoje (c_id c) s = Some f /\
    atualizar_formulario (c_id c) f s = Gravado s' /\
    ler (A := Conta) s = l1 ++ c :: l2 /\ ler (A := Conta) s' ≡ l1 ++ sem_historico c :: l2 /\
    ler (A := Gasto) s' = ler s /\ ler (A := Receita) s' = ler s.
Proof.
  intros Hf Hwf. destruct (montar_conta_formulario c Hwf) as (conta & Hm & Heqv).
  assert (Hp : preparar_parcelamento (conta_com_id (c_id c) conta) = Ok (conta_com_id (c_id c) conta)).
  { pose proof Hwf as (_ & _ & _ & _ & _ & _ & Hprep & _).
    pose proof Heqv as (_ & _ & _ & _ & Hdi & Hdf & _ & _ & _ & Hpa & Hn & _).
    apply (preparar_parcelamento_fixo c); [done | rewrite Hpa | rewrite Hn | rewrite Hdi | rewrite Hdf];
      by destruct c. }
  destruct (substituir_encontrar (c_id c) (preparar_parcelamento (conta_com_id (c_id c) (conta_com_id (c_id c) conta)))
              (ler s) c ltac:(exact Hf)) as (l1 & l2 & Hl & Hs).
  rewrite conta_com_id_id, Hp in Hs. cbn [res_bind] in Hs.
  unfold abrir_formulario_editar. rewrite Hf.
  eexists _, _, l1, l2. split; [reflexivity|].
  unfold atualizar_formulario. rewrite argumentos_formulario by done.
  unfold atualizar_conta. rewrite Hm. unfold gravar_conta, atualizar_conta_fixa.
  change (definir_id (c_id c) (conta_com_id (c_id c) conta))
    with (conta_com_id (c_id c) (conta_com_id (c_id c) conta)).
  rewrite conta_com_id_id, Hp, Hs. cbn [res_bind]. split; [reflexivity|]. split; [done|].
  rewrite ler_gravar. split; [|done]. apply app_proper; [done|]. by apply cons_proper.
Qed.

Lemma strptime_vazia : strptime_dmY EmptyString = Err ValueError.
Proof. reflexivity. Qed.

(** [data_inicio_obj <= datetime(ano, mes, 1)]: an earlier month, or the
    same month from its first day. *)
Lemma comeca_periodo (inicio : data) mes ano :
  1 <= dia inicio ->
  instante_leb (meia_noite inicio) (meia_noite (mkData ano mes 1)) =
  ((PyDate.ano inicio <? ano) || ((PyDate.ano inicio =? ano) && (PyDate.mes inicio <=? mes))) &&
  negb ((PyDate.ano inicio =? ano) && (PyDate.mes inicio =? mes) && (1 <? dia inicio)).
Proof.
  destruct inicio as [a m d]. simpl. intros Hd. unfold instante_leb, meia_noite. simpl.
  destruct (Z.ltb_spec a ano), (Z.eqb_spec a ano), (Z.ltb_spec m mes), (Z.eqb_spec m mes),
    (Z.leb_spec m mes), (Z.ltb_spec d 1), (Z.eqb_spec d 1), (Z.ltb_spec 1 d);
    simpl; first [reflexivity | exfalso; lia].
Qed.

(** [data_fim_obj >= datetime(ano, mes, 1)]: the same month or a later
    one, whatever the day. *)
Lemma termina_periodo (fim : data) mes ano :
  1 <= dia fim ->
  instante_leb (meia_noite (mkData ano mes 1)) (meia_noite fim) =
  (PyDate.ano fim >? ano) || ((PyDate.ano fim =? ano) && (PyDate.mes fim >=? mes)).
Proof.
  destruct fim as [a m d]. simpl. intros Hd. unfold instante_leb, meia_noite. simpl.
  destruct (Z.ltb_spec ano a), (Z.eqb_spec ano a), (Z.gtb_spec a ano), (Z.eqb_spec a ano),
    (Z.ltb_spec mes m), (Z.eqb_spec mes m), (Z.geb_spec m mes), (Z.ltb_spec 1 d), (Z.eqb_spec 1 d);
    simpl; first [reflexivity | exfalso; lia | subst; reflexivity].
Qed.

(** C9: On a recurring bill with readable dates, the fixed-bills tab lists
    it in exactly the months the resolver does, except the first one when
    the bill does not start on the first of the month: the tab compares
    [data_inicio] with [datetime(ano, mes, 1)] day by day, the resolver
    by (year, month). *)
Theorem filtro_tabela_resolvedor mes ano c di inicio fim :
  conta_recorrente c = true -> c_data_inicio c = Some di -> strptime_dmY di = Ok inicio ->
  ler_data_fim (c_data_fim c) = Ok fim -> 1 <= mes <= 12 -> 1 <= ano <= 9999 ->
  filtro_tabela mes ano c =
  condicao_periodo inicio fim mes ano &&
  negb ((PyDate.ano inicio =? ano) && (PyDate.mes inicio =? mes) && (1 <? dia inicio)).
Proof.
  intros Hr Hdi Hi Hf Hm Ha. unfold filtro_tabela. rewrite Hr, Hdi. cbn [default from_option id].
  destruct (String.eqb_spec di EmptyString) as [->|_]; [by rewrite strptime_vazia in Hi|].
  rewrite Hi, mk_data_dia1 by lia.
  pose proof (data_valida_limites _ (strptime_dmY_valida _ _ Hi)) as (_ & _ & Hdia).
  rewrite comeca_periodo by lia. unfold condicao_periodo, ler_data_fim in *.
  destruct (tem_data_fim (c_data_fim c)) as [df|].
  - apply res_bind_Ok in Hf as (d & Hd & [= <-]). rewrite Hd.
    pose proof (data_valida_limites _ (strptime_dmY_valida _ _ Hd)) as (_ & _ & Hdf).
    rewrite termina_periodo by lia.
    destruct (_ || _), (_ || _), (negb _); reflexivity.
  - injection Hf as <-. by rewrite andb_true_r.
Qed.

(** ** The loop's [mes] and [ano] *)

(** The row loop with [mes] and [ano] as constants. *)
Fixpoint inserir_linhas_fixas (mes ano : Z) (s : Arquivos) (l : list Conta)
    : list LinhaConta * option excecao :=
  match l with
  | [] => ([], None)
  | c :: r =>
      match linha_conta mes ano s c with
      | Ok (linha, _) => let '(ls, e) := inserir_linhas_fixas mes ano s r in (linha :: ls, e)
      | Err e => ([], Some e)
      end
  end.

(** What one step of the row loop computes: the [mes], [ano] after it
    (the bill's own for a non-recurring bill), and the status and tags read
    at those. *)
Lemma linha_conta_Ok mes ano s c linha m a :
  linha_conta mes ano s c = Ok (linha, (m, a)) ->
  (if conta_recorrente c then m = mes /\ a = ano else c_mes c = Some m /\ c_ano c = Some a) /\
  lc_pago linha = verificar_conta_paga (c_id c) m a s /\
  lc_tags linha = str_int (c_id c) :: if lc_pago linha then ["pago"%string] else [].
Proof.
  unfold linha_conta. intros H. res_inv. destruct (conta_recorrente c); res_inv; subst x; simpl in H;
    destruct (colunas_parcelas c); try done; simpl in H; injection H as <- -> ->; simpl.
  - done.
  - apply get_key_Ok in E0, E1. done.
Qed.

(** A bill the filter kept hands the loop back the [mes] and [ano] it
    got. *)
Lemma linha_conta_mes_ano mes ano s c linha m a :
  filtro_tabela mes ano c = true -> linha_conta mes ano s c = Ok (linha, (m, a)) -> m = mes /\ a = ano.
Proof.
  intros Hf (Hma & _)%linha_conta_Ok. unfold filtro_tabela in Hf.
  destruct (conta_recorrente c); [done|].
  apply andb_prop in Hf as [Hm%bool_decide_eq_true Ha%bool_decide_eq_true].
  destruct Hma. split; congruence.
Qed.

(** The reassignment of [mes] and [ano] inside the loop never changes
    them on the bills the filter keeps. *)
Lemma inserir_linhas_contas_fixas mes ano s l :
  Forall (fun c => filtro_tabela mes ano c = true) l ->
  inserir_linhas_contas mes ano s l = inserir_linhas_fixas mes ano s l.
Proof.
  induction 1 as [|c l Hc Hl IH]; [done|]. simpl.
  destruct (linha_conta mes ano s c) as [[linha [m a]]|e] eqn:H; [|done].
  destruct (linha_conta_mes_ano _ _ _ _ _ _ _ Hc H) as [-> ->]. by rewrite IH.
Qed.

Lemma linha_conta_pago mes ano s c linha ma :
  linha_conta mes ano s c = Ok (linha, ma) -> filtro_tabela mes ano c = true ->
  lc_pago linha = verificar_conta_paga (c_id c) mes ano s /\
  lc_tags linha = str_int (c_id c) :: if lc_pago linha then ["pago"%string] else [].
Proof.
  intros H Hf. destruct ma as [m a].
  destruct (linha_conta_mes_ano _ _ _ _ _ _ _ Hf H) as [-> ->].
  by apply linha_conta_Ok in H as (_ & Hp & Ht).
Qed.

Lemma inserir_linhas_fixas_elem mes ano s l linha :
  linha ∈ (inserir_linhas_fixas mes ano s l).1 ->
  exists c ma, c ∈ l /\ linha_conta mes ano s c = Ok (linha, ma).
Proof.
  induction l as [|c l IH]; simpl; [intros ?%elem_of_nil; done|].
  destruct (linha_conta mes ano s c) as [[linha' ma]|e] eqn:H; [|intros ?%elem_of_nil; done].
  destruct (inserir_linhas_fixas mes ano s l) as [ls e] eqn:Hl. simpl.
  intros [->|Hin]%elem_of_cons; [exists c, ma; split; [left | done]|].
  destruct (IH Hin) as (c' & ma' & Hc' & H'). exists c', ma'. split; [by right | done].
Qed.

(** C29: Every row of the fixed-bills table shows, in its status column and
    its ['pago'] tag, the payment status of its bill for the month of the
    filters: the loop's reassignment of [mes] and [ano] only ever assigns
    them the values they have. *)
Theorem atualizar_status mes_s ano_s mes ano s linhas des l :
  py_int mes_s = Ok mes -> py_int ano_s = Ok ano ->
  atualizar mes_s ano_s s = (linhas, des) -> l ∈ linhas ->
  exists c, c ∈ ler s /\ filtro_tabela mes ano c = true /\
    lc_pago l = verificar_conta_paga (c_id c) mes ano s /\
    lc_tags l = str_int (c_id c) :: if lc_pago l then ["pago"%string] else [].
Proof.
  intros Hm Ha. unfold atualizar. rewrite Hm, Ha.
  rewrite inserir_linhas_contas_fixas
    by (apply Forall_forall; intros c Hc%list_elem_of_In; apply filter_In in Hc; apply Hc).
  destruct (inserir_linhas_fixas _ _ _ _) as [ls e] eqn:H. intros [= <- _] Hl.
  assert (Hl' : l ∈ (inserir_linhas_fixas mes ano s (List.filter (filtro_tabela mes ano) (ler s))).1)
    by (rewrite H; exact Hl).
  destruct (inserir_linhas_fixas_elem _ _ _ _ _ Hl') as (c & ma & Hc & Hlc).
  apply list_elem_of_In, filter_In in Hc as [Hc Hf]. apply list_elem_of_In in Hc.
  exists c. do 2 (split; [done|]). by eapply linha_conta_pago.
Qed.

(** ** The frames of the form and the boxes ticked *)

(** The frames shown agree with the boxes ticked, as the edit form
    opens them: the dates iff recurring, the end date iff recurring and
    not in installments, the month and year iff not recurring, the
    installment options iff in installments, the interest total iff
    ticked. *)
Definition coerente (e : FormularioConta * Visibilidade) : Prop :=
  e.2 = visibilidade_editar (fc_recorrente e.1) (fc_parcelado e.1) (fc_tem_juros e.1).

Lemma visibilidade_adicionar_coerente hoje : coerente (formulario_adicionar hoje, visibilidade_adicionar).
Proof. done. Qed.

(** C22: Every action of the form keeps the frames in agreement with the
    boxes, except one: ticking "Recorrente" on a bill already in
    installments shows the end-date field, which ticking "Conta
    Parcelada" hides; the frames depend on the order the boxes were
    ticked in. *)
Theorem visibilidade_ordem e a :
  coerente e ->
  (coerente (agir a e) <-> ~ (a = MarcarRecorrente /\ fc_parcelado e.1 = true /\ fc_recorrente e.1 = false)).
Proof.
  destruct e as [[de va r di df m an pa n j vj dl] v]. unfold coerente. cbn. intros ->.
  destruct a as [c t| | |]; [destruct (campo_visivel c _); [destruct c|]|..];
    destruct r, pa, j; cbn; try destruct (py_float va); cbn; split; intros; naive_solver.
Qed.

(** A recurring bill in installments: the description and amount typed,
    "Recorrente" ticked, an end date typed, then "Conta Parcelada"
    ticked, which hides the end date. *)
Definition acoes_fim_oculto (d v t : string) : list AcaoFormulario :=
  [Digitar CampoDescricao d; Digitar CampoValor v; MarcarRecorrente; Digitar CampoDataFim t; MarcarParcelado].

(** C21: The form still reads and checks a field it hides: after the actions
    above, the end-date field is hidden, and "Salvar" refuses the bill
    with the end-date error whenever the text left in it is not a date,
    although the end date of an installment bill is computed. *)
Theorem data_fim_oculta_recusada hoje d v t q s :
  data_valida hoje = true -> 1000 <= ano hoje ->
  d <> EmptyString -> validar_valor v = Some (Finito q) ->
  t <> EmptyString -> data_no_formato t = false ->
  vis_data_fim (agir_todos (acoes_fim_oculto d v t) (formulario_adicionar hoje, visibilidade_adicionar)).2 = false /\
  salvar_formulario (agir_todos (acoes_fim_oculto d v t) (formulario_adicionar hoje, visibilidade_adicionar)).1 s =
    Recusado ErroDataFim.
Proof.
  intros Hv Hy Hd Hval Ht Hft. split; [done|].
  unfold salvar_formulario, argumentos. cbn -[py_int strftime_dmY].
  replace (py_int "1") with (Ok 1 : res Z) by reflexivity. cbn -[strftime_dmY].
  apply String.eqb_neq in Ht. rewrite Ht. cbn -[strftime_dmY].
  unfold salvar_conta, montar_conta. cbn -[strftime_dmY].
  apply String.eqb_neq in Hd. rewrite Hd, Hval. cbn -[strftime_dmY data_no_formato].
  unfold data_no_formato at 1. rewrite strptime_strftime by done. cbn.
  rewrite Ht. cbn. by rewrite Hft.
Qed.

(** ** Concrete runs *)

Local Open Scope string_scope.
Local Open Scope Z_scope.

(** Rent, recurring since January, paid for March. *)
Definition conta_aluguel : Conta :=
  mkConta 1 "Aluguel" 1200 (Some true) (Some "01/01/2024") None None None (Some "10") None None None
    (Some {[ "03/2024" := mkPagamento true "08/03/2024" ]}) None None.

(** Internet, recurring from the 15th of March. *)
Definition conta_internet : Conta :=
  mkConta 2 "Internet" 100 (Some true) (Some "15/03/2024") None None None None None None None
    None None None.

(** A one-off bill of March. *)
Definition conta_ipva : Conta :=
  mkConta 3 "IPVA" 900 (Some false) None None (Some 3) (Some 2024) None None None None None None None.

Definition arquivos_contas : Arquivos :=
  mkArquivos (Valido []) (Valido []) (Valido [conta_aluguel; conta_internet; conta_ipva]).

(** The edit form of the rent, saved with its fields unchanged. *)
Definition campos_aluguel : CamposConta :=
  mkCamposConta "Aluguel" "1200" true (Some "01/01/2024") None None None false None false None "10".

Lemma editar_conta_apaga_historico_witness :
  verificar_conta_paga 1 3 2024 arquivos_contas = true /\
  exists s', atualizar_conta 1 campos_aluguel arquivos_contas = Gravado s' /\
             verificar_conta_paga 1 3 2024 s' = false.
Proof.
  split; [vm_compute; reflexivity|].
  eexists. split; [vm_compute; reflexivity|].
  apply (editar_conta_apaga_historico 1 campos_aluguel arquivos_contas). vm_compute. reflexivity.
Defined.

Lemma menu_contexto_alterna_witness :
  exists o, abrir_menu_contexto (Some [str_int (c_id conta_aluguel)]) "3" "2024" arquivos_contas =
            Ok [OpcaoEditar (c_id conta_aluguel); OpcaoExcluir (c_id conta_aluguel); o] /\
    verificar_conta_paga (c_id conta_aluguel) 3 2024 (escolher_opcao o "3" "2024" hoje_exemplo arquivos_contas).1 =
    negb (verificar_conta_paga (c_id conta_aluguel) 3 2024 arquivos_contas).
Proof. apply menu_contexto_alterna; [by left | reflexivity | reflexivity]. Defined.

(** The resolver lists the internet bill in March; the tab does not. *)
Lemma filtro_tabela_resolvedor_witness :
  filtro_tabela 3 2024 conta_internet = false /\
  obter_contas_fixas_por_periodo (Some 3) (Some 2024) (mkArquivos (Valido []) (Valido []) (Valido [conta_internet]))
    = Ok [conta_periodo false None 3 2024 conta_internet] /\
  filtro_tabela 3 2024 conta_internet =
  condicao_periodo (mkData 2024 3 15) None 3 2024 &&
  negb ((PyDate.ano (mkData 2024 3 15) =? 2024) && (PyDate.mes (mkData 2024 3 15) =? 3) &&
        (1 <? dia (mkData 2024 3 15))).
Proof.
  split; [vm_compute; reflexivity|]. split; [vm_compute; reflexivity|].
  apply (filtro_tabela_resolvedor 3 2024 conta_internet "15/03/2024"); [reflexivity.. | lia | lia].
Defined.

Definition linha_aluguel : LinhaConta :=
  mkLinhaConta "Aluguel" 1200 None "01/01/2024 em diante" true None "10" ["1"; "pago"].

Lemma atualizar_status_witness :
  exists c, c ∈ ler arquivos_contas /\ filtro_tabela 3 2024 c = true /\
    lc_pago linha_aluguel = verificar_conta_paga (c_id c) 3 2024 arquivos_contas /\
    lc_tags linha_aluguel = str_int (c_id c) :: if lc_pago linha_aluguel then ["pago"] else [].
Proof.
  apply (atualizar_status "3" "2024" 3 2024 arquivos_contas
           [linha_aluguel; mkLinhaConta "IPVA" 900 None "03/2024" false None "-" ["3"]] Concluido).
  - reflexivity.
  - reflexivity.
  - vm_compute. reflexivity.
  - by left.
Defined.

Lemma conta_aluguel_bem_formada : conta_bem_formada conta_aluguel.
Proof.
  split; [discriminate|]. split; [apply binario64_inteiro; unfold precisao; lia|].
  split; [reflexivity|]. simpl.
  split; [split; [done | split; [done | split; [exists "01/01/2024"; split; [done | vm_compute; reflexivity] | done]]]|].
  split; [intros dl [= <-]; vm_compute; reflexivity|].
  split; [done|]. split; [reflexivity | done].
Qed.

(** The rent, paid in March, edited and saved unchanged: everything but
    the March payment is kept. *)
Lemma editar_conta_ida_volta_witness :
  exists f s' l1 l2, abrir_formulario_editar (mkData 2024 3 15) (c_id conta_aluguel) arquivos_contas = Some f /\
    atualizar_formulario (c_id conta_aluguel) f arquivos_contas = Gravado s' /\
    ler (A := Conta) arquivos_contas = (l1 ++ conta_aluguel :: l2)%list /\
    ler (A := Conta) s' ≡ (l1 ++ sem_historico conta_aluguel :: l2)%list /\
    ler (A := Gasto) s' = ler arquivos_contas /\ ler (A := Receita) s' = ler arquivos_contas.
Proof.
  apply (editar_conta_ida_volta (mkData 2024 3 15) arquivos_contas conta_aluguel);
    [reflexivity | exact conta_aluguel_bem_formada].
Defined.

(** Ticking "Conta Parcelada" and then "Recorrente" on the add form
    leaves the end date shown for an installment bill. *)
Lemma visibilidade_ordem_witness :
  coerente (agir MarcarRecorrente (agir MarcarParcelado (formulario_adicionar (mkData 2024 6 5), visibilidade_adicionar))) <->
  ~ (MarcarRecorrente = MarcarRecorrente /\
     fc_parcelado (agir MarcarParcelado (formulario_adicionar (mkData 2024 6 5), visibilidade_adicionar)).1 = true /\
     fc_recorrente (agir MarcarParcelado (formulario_adicionar (mkData 2024 6 5), visibilidade_adicionar)).1 = false).
Proof. apply visibilidade_ordem. reflexivity. Defined.

(** "Financiamento", 1200.00, an end date of 31/02/2024 typed and then
    hidden: the form refuses the bill. *)
Lemma data_fim_oculta_recusada_witness :
  exists q, validar_valor "1200.00" = Some (Finito q) /\
  vis_data_fim (agir_todos (acoes_fim_oculto "Financiamento" "1200.00" "31/02/2024")
                  (formulario_adicionar (mkData 2024 6 5), visibilidade_adicionar)).2 = false /\
  salvar_formulario (agir_todos (acoes_fim_oculto "Financiamento" "1200.00" "31/02/2024")
                       (formulario_adicionar (mkData 2024 6 5), visibilidade_adicionar)).1 arquivos_contas =
    Recusado ErroDataFim.
Proof.
  destruct (validar_valor "1200.00") as [[q| |]|] eqn:E; try (vm_compute in E; discriminate).
  exists q. split; [done|].
  apply (data_fim_oculta_recusada _ _ _ _ q); [reflexivity | simpl; lia | discriminate | exact E | discriminate | reflexivity].
Defined.

End ContasFixasView.
