(* ===== verification/Overview.v ===== *)
(** * Overview: the overview tab ([VisaoGeralView], views/visao_geral.py)

    The handlers are in [Module VisaoGeralView]; [py_max] and
    [indice_de] are the Python built-ins they call.  [atualizar] (237-249) reads the month and year filters, then
    [atualizar_resumo] (251-279) computes the totals of the month (the
    fixed-bill total by [calcular_total_contas_fixas_com_parcelas], modelled
    in [Totals] as [calcular_total_contas_fixas_visao_geral]) and
    [atualizar_estatisticas] (303-331) picks the largest expense and the
    category with the largest total; [atualizar_grafico] (333-400) draws a
    pie of the categories with a positive total and pulls out the first
    largest slice.  [except (ValueError, TypeError): pass] keeps the old
    labels on a [ValueError]; any other exception leaves the handler.

    [py_max] is Python's [max(l, key=f)]: the first element with the
    largest key ([py_max_spec]).  The labels are kept as the numbers and
    strings they show (the [.2f] formatting and the colour of the balance
    are not modelled); the chart as its slices and the index of the slice
    pulled out.  The queries the statistics and the chart repeat are the
    ones [atualizar_resumo] has already run on the same store and filters,
    so they cannot fail where it did not.

    Theorems: the slice pulled out is the first category with the
    largest total ([fatias_destaque]); when every expense of the month
    has a positive amount, the
    slices of the pie add up to the expense total of the month
    ([grafico_soma_total]). *)

From Stdlib Require Import ZArith QArith String Lia.
From stdpp Require Import base list.
From S2P Require Import Prelude PyDate PyNum Records Store Resolver Totals.

Local Open Scope Z_scope.

(** ** [max] with a key *)

Fixpoint max_chave {A} (f : A -> Q) (melhor : A) (l : list A) : A :=
  match l with
  | [] => melhor
  | x :: r => max_chave f (if negb (Qle_bool (f x) (f melhor)) then x else melhor) r
  end.

(** [max(l, key=f)]; [None] for the empty list, where Python raises. *)
Definition py_max {A} (f : A -> Q) (l : list A) : option A :=
  match l with
  | [] => None
  | x :: r => Some (max_chave f x r)
  end.

(** [l.index(max(l))] on the values of a list of pairs. *)
Fixpoint indice_de (v : Q) (l : list Q) : nat :=
  match l with
  | [] => 0
  | x :: r => if Qeq_bool x v then 0 else S (indice_de v r)
  end.

Module VisaoGeralView.

(** ** The tab *)

(** The labels and the chart. *)
Record TelaVisaoGeral := mkTelaVisaoGeral {
  vg_resumo : option (Q * Q * Q * Q);              (** receitas, gastos, contas fixas, saldo *)
  vg_maior_gasto : option (string * Q);            (** [None] is ["N/A"] *)
  vg_categoria_principal : option (string * Q);    (** [None] is ["N/A"] *)
  vg_grafico : option (list (string * Q) * nat)    (** [None] is ["Sem dados para exibir"] *)
}.

(** [atualizar_estatisticas] (visao_geral.py 303-331). *)
Definition atualizar_estatisticas (gastos : list Gasto) (mes ano : Z) (s : Arquivos)
    : res (option (string * Q) * option (string * Q)) :=
  match gastos with
  | [] => Ok (None, None)
  | _ =>
      let maior := option_map (fun g => (g_descricao g, g_valor g)) (py_max g_valor gastos) in
      d <- obter_gastos_por_categoria (Some mes) (Some ano) s ;;
      Ok (maior, py_max snd d)
  end.

(** The slices of [atualizar_grafico] (visao_geral.py 339-368): the
    categories with a positive total, and the index of the first largest
    one. *)
Definition fatias (d : list (string * Q)) : option (list (string * Q) * nat) :=
  let pos := List.filter (fun kv => negb (Qle_bool kv.2 0)) d in
  match py_max snd pos with
  | None => None
  | Some m => Some (pos, indice_de m.2 (map snd pos))
  end.

Definition atualizar_grafico (mes ano : Z) (s : Arquivos) : res (option (list (string * Q) * nat)) :=
  d <- obter_gastos_por_categoria (Some mes) (Some ano) s ;; Ok (fatias d).

(** [atualizar_resumo] (visao_geral.py 251-279) followed by
    [atualizar_grafico]. *)
Definition atualizar_resumo (mes ano : Z) (s : Arquivos) : res TelaVisaoGeral :=
  gastos <- obter_gastos_por_periodo (Some mes) (Some ano) s ;;
  receitas <- obter_receitas_por_periodo (Some mes) (Some ano) s ;;
  contas <- obter_contas_fixas_por_periodo (Some mes) (Some ano) s ;;
  let tg := calcular_total_gastos (Some gastos) s in
  let tr := calcular_total_receitas (Some receitas) s in
  tc <- calcular_total_contas_fixas_visao_geral contas ;;
  est <- atualizar_estatisticas gastos mes ano s ;;
  g <- atualizar_grafico mes ano s ;;
  Ok (mkTelaVisaoGeral (Some (tr, tg, tc, (tr - tg - tc)%Q)) est.1 est.2 g).

(** [atualizar] (visao_geral.py 237-249): the new screen, or [None] when
    the labels and the chart are left as they were, with the exception
    that leaves the handler. *)
Definition atualizar (mes_s ano_s : string) (s : Arquivos)
    : option TelaVisaoGeral * option excecao :=
  let r := mes <- py_int mes_s ;; ano <- py_int ano_s ;; atualizar_resumo mes ano s in
  match r with
  | Ok t => (Some t, None)
  | Err ValueError => (None, None)
  | Err e => (None, Some e)
  end.

(** ** [max] *)

(** [max] keeps the first element whose key is the largest: every element
    before it has a smaller key, every element after it a key no larger. *)
Lemma max_chave_spec {A} (f : A -> Q) m l :
  exists l1 l2, m :: l = l1 ++ max_chave f m l :: l2 /\
    Forall (fun y => f y < f (max_chave f m l))%Q l1 /\
    Forall (fun y => f y <= f (max_chave f m l))%Q l2.
Proof.
  revert m; induction l as [|y r IH]; intros m; simpl.
  - exists [], []. auto.
  - destruct (Qle_bool (f y) (f m)) eqn:Hb; simpl.
    + apply Qle_bool_iff in Hb. destruct (IH m) as (l1 & l2 & Heq & H1 & H2).
      set (x := max_chave f m r) in *.
      destruct l1 as [|z l1]; simpl in Heq; injection Heq as Hz Hr.
      * exists [], (y :: r). rewrite <- Hz in H2 |- *. split; [done|]. split; [constructor|].
        constructor; [done|]. by rewrite Hr.
      * subst z. apply Forall_cons in H1 as [Hm H1].
        exists (m :: y :: l1), l2. split; [by rewrite Hr|]. split; [|done].
        constructor; [done|]. constructor; [|done]. eapply Qle_lt_trans; eauto.
    + assert (Hmy : (f m < f y)%Q) by (apply Qnot_le_lt; intros H; apply Qle_bool_iff in H; congruence).
      destruct (IH y) as (l1 & l2 & Heq & H1 & H2). set (x := max_chave f y r) in *.
      exists (m :: l1), l2. split; [by rewrite Heq|]. split; [|done]. constructor; [|done].
      destruct l1 as [|z l1]; simpl in Heq; injection Heq as Hz _.
      * by rewrite <- Hz.
      * subst z. apply Forall_cons in H1 as [Hy _]. eapply Qlt_trans; eauto.
Qed.

Lemma py_max_spec {A} (f : A -> Q) l x :
  py_max f l = Some x ->
  exists l1 l2, l = l1 ++ x :: l2 /\ Forall (fun y => f y < f x)%Q l1 /\ Forall (fun y => f y <= f x)%Q l2.
Proof. destruct l as [|m l]; [done|]. intros [= <-]. apply max_chave_spec. Qed.

Lemma py_max_None {A} (f : A -> Q) l : py_max f l = None -> l = [].
Proof. by destruct l. Qed.

(** The index [l.index(max(l))] finds: the first value equal to it. *)
Lemma indice_de_prefixo (v : Q) (l1 l2 : list Q) :
  Forall (fun y => y < v)%Q l1 -> indice_de v (l1 ++ v :: l2) = length l1.
Proof.
  induction 1 as [|y l1 Hy _ IH]; simpl.
  - by rewrite Qeq_bool_refl.
  - destruct (Qeq_bool y v) eqn:He; [|by rewrite IH].
    apply Qeq_bool_iff in He. rewrite He in Hy. by apply Qlt_irrefl in Hy.
Qed.

(** The slice the pie pulls out is the first largest one: every slice
    before it is smaller, none after it is larger. *)
Theorem fatias_destaque d pos i :
  fatias d = Some (pos, i) ->
  exists kv, pos !! i = Some kv /\
    (forall j kv', (j < i)%nat -> pos !! j = Some kv' -> (kv'.2 < kv.2)%Q) /\
    (forall kv', kv' ∈ pos -> (kv'.2 <= kv.2)%Q).
Proof.
  unfold fatias. destruct (py_max snd _) as [m|] eqn:Hm; [|done]. intros [= <- <-].
  destruct (py_max_spec _ _ _ Hm) as (l1 & l2 & Heq & H1 & H2). rewrite Heq.
  rewrite map_app. simpl. rewrite indice_de_prefixo by (by apply Forall_map).
  rewrite length_map. exists m. split; [by rewrite lookup_app_r, Nat.sub_diag by lia|].
  split.
  - intros j kv' Hj Hl. rewrite lookup_app_l in Hl by lia.
    apply (proj1 (Forall_lookup _ _) H1 j kv' Hl).
  - intros kv' [Hin|[->|Hin]%elem_of_cons]%elem_of_app.
    + apply Qlt_le_weak. by apply (proj1 (Forall_forall _ _) H1).
    + apply Qle_refl.
    + by apply (proj1 (Forall_forall _ _) H2).
Qed.

(** ** The pie adds up to the month's expenses *)

Lemma fatias_lista d :
  match fatias d with Some (p, _) => p | None => [] end = List.filter (fun kv => negb (Qle_bool kv.2 0)) d.
Proof.
  unfold fatias. destruct (py_max snd _) eqn:Hm; [done|]. by rewrite (py_max_None _ _ Hm).
Qed.

(** When every expense of the month has a positive amount, the slices
    of the overview's pie add up to the month's expense total: every
    expense lands in the slice of its category, and the categories the
    chart leaves out hold nothing. *)
Theorem grafico_soma_total mes ano s gastos :
  obter_gastos_por_periodo (Some mes) (Some ano) s = Ok gastos ->
  Forall (fun g => 0 < g_valor g)%Q gastos ->
  exists g, atualizar_grafico mes ano s = Ok g /\
    (somaQ snd (match g with Some (p, _) => p | None => [] end) == calcular_total_gastos (Some gastos) s)%Q.
Proof.
  intros Hg Hpos. unfold atualizar_grafico, obter_gastos_por_categoria. rewrite Hg. cbn [res_bind].
  eexists. split; [reflexivity|].
  destruct (dict_categorias_inv_fold _ _ gastos dict_categorias_inv_inicio) as (Hnd & Hk & Hv).
  set (d := fold_left acumular_categoria gastos _) in *.
  rewrite fatias_lista. unfold calcular_total_gastos.
  assert (Hval : forall kv, kv ∈ d ->
            (kv.2 == somaQ g_valor (filter (fun g => g_categoria g = kv.1) gastos))%Q).
  { intros [k v] Hin. apply Hv. by apply dict_get_NoDup. }
  rewrite somaQ_filter_zero.
  - rewrite (somaQ_ext _ _ _ Hval).
    transitivity (somaQ (fun k => somaQ g_valor (filter (fun g => g_categoria g = k) gastos)) (map fst d));
      [symmetry; apply (somaQ_map (fun k => somaQ g_valor (filter (fun g => g_categoria g = k) gastos)) fst d)|].
    apply somaQ_particao; [done|]. intros g Hin. apply Hk. right. by exists g.
  - intros kv Hin Hp. apply negb_false_iff, Qle_bool_iff in Hp. apply Qle_antisym; [done|].
    rewrite (Hval kv Hin). apply somaQ_nonneg. intros g Hgin.
    apply list_elem_of_filter in Hgin as [_ Hgin].
    apply Qlt_le_weak. by apply (proj1 (Forall_forall _ _) Hpos).
Qed.

(** ** Concrete runs *)

Local Open Scope string_scope.
Local Open Scope Z_scope.

Definition arquivos_visao_geral : Arquivos :=
  mkArquivos
    (Valido [mkGasto 1 "Ônibus" 40 "Transporte" "03/03/2024";
             mkGasto 2 "Mercado" 60 "Alimentação" "10/03/2024";
             mkGasto 3 "Cinema" 60 "Lazer" "16/03/2024"])
    (Valido []) (Valido []).

(** Food and leisure tie at 60; the food slice, the first of the two, is
    pulled out, and the empty housing category has no slice. *)
Lemma fatias_destaque_witness :
  exists kv, [("Transporte", 40%Q); ("Alimentação", 60%Q); ("Lazer", 60%Q)] !! 1%nat = Some kv /\
    (forall j kv', (j < 1)%nat -> [("Transporte", 40%Q); ("Alimentação", 60%Q); ("Lazer", 60%Q)] !! j = Some kv' ->
       (kv'.2 < kv.2)%Q) /\
    (forall kv', kv' ∈ [("Transporte", 40%Q); ("Alimentação", 60%Q); ("Lazer", 60%Q)] -> (kv'.2 <= kv.2)%Q).
Proof.
  apply (fatias_destaque
           [("Transporte", 40%Q); ("Alimentação", 60%Q); ("Moradia", 0%Q); ("Lazer", 60%Q)]).
  vm_compute. reflexivity.
Defined.

Lemma grafico_soma_total_witness :
  exists g, atualizar_grafico 3 2024 arquivos_visao_geral = Ok g /\
    (somaQ snd (match g with Some (p, _) => p | None => [] end) ==
     calcular_total_gastos (Some (ler arquivos_visao_geral)) arquivos_visao_geral)%Q.
Proof.
  apply grafico_soma_total.
  - vm_compute. reflexivity.
  - repeat constructor.
Defined.

End VisaoGeralView.
