(* ===== verification/App.v ===== *)
(** * App: the start-up reminder, saving on exit and the test mode (main.py)

    - [contas_nao_pagas] / [verificar_contas_nao_pagas] are
      [ControleGastosApp.verificar_contas_nao_pagas] (main.py 63-103), run
      by [__init__] when the window opens: the current month's bills (from
      [obter_contas_fixas_por_periodo]) without a truthy ['pago'] key are
      listed when they have no ['data_limite'], when it does not parse, or
      when [(data_limite - hoje).days <= 5]; the warning text is built from
      the list.  [hoje] is [datetime.now()], an instant with a time of day.
    - [salvar_dados_atuais] (main.py 321-338) reloads the three files and
      writes each back; [ao_fechar] (340-356) does it when the user
      confirms.
    - [modo_teste_de_argv] is [main()]'s ["--teste" in sys.argv] (359-365);
      [argv_alternado] is the command line [alternar_modo] restarts with
      (204-217).
    - [ao_mudar_aba] is the [<<NotebookTabChanged>>] handler: the tab at
      the selected index is the one refreshed ([Aba], [abas]).

    Theorems: which bills are reminded and with which status
    ([lembrete_calendario]); an unpaid bill of the month is listed from
    five calendar days before its due date on, at any time of day
    ([lembrete_pendente_mostrado]); the countdown is the floor of a difference
    that includes the time of day, so it is one day short of the calendar
    difference at any time after midnight ([dias_restantes_hora]), and a
    bill due today is shown as overdue ([lembrete_vence_hoje]); a
    malformed recurring bill makes start-up raise
    ([verificar_contas_erro]); switching mode restarts in the other mode ([alternar_modo_inverte]). *)

From Stdlib Require Import ZArith QArith String Ascii Lia.
From stdpp Require Import base list.
From S2P Require Import Prelude PyDate Records Store Ledger Resolver.

Local Open Scope Z_scope.

(** ** The reminder *)

Definition nova_linha : string := String (ascii_of_nat 10) EmptyString.

(** The status of a bill due in [dias] days (main.py 86). *)
Definition status_lembrete (dias : Z) : string :=
  if dias <? 0 then "ATRASADA!" else ("Vence em " ++ str_int dias ++ " dias")%string.

(** The body of the loop of main.py 75-93: the entry
    [(descricao, data_limite, status)] of a bill, if it is reminded. *)
Definition lembrete_conta (hoje : instante) (c : Conta) : option (string * string * string) :=
  if default false (c_pago c) then None
  else
    match c_data_limite c with
    | Some dl =>
        match strptime_dmY dl with
        | Ok d =>
            let dias := dias_entre hoje (meia_noite d) in
            if dias <=? 5 then Some (c_descricao c, dl, status_lembrete dias) else None
        | Err _ => Some (c_descricao c, dl, EmptyString)
        end
    | None => Some (c_descricao c, "Sem data limite"%string, EmptyString)
    end.

(** [contas_nao_pagas]: the bills of the current month, filtered. *)
Definition contas_nao_pagas (hoje : instante) (s : Arquivos) : res (list (string * string * string)) :=
  contas <- obter_contas_fixas_por_periodo (Some (mes (inst_data hoje))) (Some (ano (inst_data hoje))) s ;;
  Ok (omap (lembrete_conta hoje) contas).

(** The text of the warning (main.py 98-100). *)
Definition mensagem_lembrete (pendentes : list (string * string * string)) : string :=
  fold_left (fun m '(de, dl, st) => (m ++ "• " ++ de ++ " - " ++ dl ++ " " ++ st ++ nova_linha)%string)
    pendentes ("Você tem as seguintes contas pendentes:" ++ nova_linha ++ nova_linha)%string.

(** [verificar_contas_nao_pagas()]: the warning shown, if any.  An
    exception leaves [__init__], so the application does not start. *)
Definition verificar_contas_nao_pagas (hoje : instante) (s : Arquivos) : res (option string) :=
  pendentes <- contas_nao_pagas hoje s ;;
  Ok (match pendentes with [] => None | _ => Some (mensagem_lembrete pendentes) end).

(** ** Saving on exit *)

(** [salvar_dados_atuais()]: each file is loaded ([[]] when missing or
    corrupt) and written back. *)
Definition salvar_dados_atuais (s : Arquivos) : Arquivos :=
  mkArquivos (Valido (ler (A := Gasto) s)) (Valido (ler (A := Receita) s)) (Valido (ler (A := Conta) s)).

(** [ao_fechar()]: the files after the window closes, when the user
    answered [confirma] to "Deseja realmente sair do aplicativo?". *)
Definition ao_fechar (confirma : bool) (s : Arquivos) : Arquivos :=
  if confirma then salvar_dados_atuais s else s.

(** ** Test mode *)

(** [modo_teste = "--teste" in sys.argv]. *)
Definition modo_teste_de_argv (argv : list string) : bool :=
  existsb (String.eqb "--teste") argv.

(** [os.execl(python, python, *sys.argv[0:1], modo)]: the new
    [sys.argv] is the script and the mode flag. *)
Definition argv_alternado (modo_teste : bool) (argv : list string) : list string :=
  take 1 argv ++ [if modo_teste then EmptyString else "--teste"%string].

(** [DataManager.__init__]: the data directory of each mode (data_manager.py
    22-25). *)
Definition diretorio_dados (modo_teste : bool) : string :=
  if modo_teste then "data_teste" else "data".

(** ** The tabs *)

Inductive Aba : Type :=
| AbaVisaoGeral
| AbaReceitas
| AbaGastosGerais
| AbaContasFixas
| AbaHistorico.

#[export] Instance aba_eq_dec : EqDecision Aba.
Proof. solve_decision. Defined.

(** [criar_abas] (main.py 219-239): the notebook's tabs in order. *)
Definition abas : list Aba := [AbaVisaoGeral; AbaReceitas; AbaGastosGerais; AbaContasFixas; AbaHistorico].

(** [ao_mudar_aba] (main.py 241-256): the tab whose [atualizar()] runs
    for [self.notebook.index("current")]. *)
Definition ao_mudar_aba (tab_index : Z) : option Aba :=
  if tab_index =? 0 then Some AbaVisaoGeral
  else if tab_index =? 1 then Some AbaReceitas
  else if tab_index =? 2 then Some AbaGastosGerais
  else if tab_index =? 3 then Some AbaContasFixas
  else if tab_index =? 4 then Some AbaHistorico
  else None.

(** Changing tab refreshes the tab shown: [ao_mudar_aba]'s indices follow
    the order [criar_abas] adds the tabs in, and no other index refreshes
    anything. *)
Lemma ao_mudar_aba_abas i : ao_mudar_aba (Z.of_nat i) = abas !! i.
Proof. do 5 (destruct i as [|i]; [reflexivity|]). unfold ao_mudar_aba. by rewrite !(proj2 (Z.eqb_neq _ _)) by lia. Qed.

(** ** Which bills are reminded *)

(** [(data_limite - datetime.now()).days] for a due date at midnight:
    at any time after midnight it is one less than the number of calendar
    days from today to the due date. *)
Theorem dias_restantes_hora hoje d :
  0 < inst_micro hoje < micros_por_dia ->
  dias_entre hoje (meia_noite d) = toordinal d - toordinal (inst_data hoje) - 1.
Proof.
  intros Hm. unfold dias_entre, meia_noite. simpl.
  set (k := toordinal d - toordinal (inst_data hoje)).
  unfold micros_por_dia in *. Z.div_mod_to_equations. nia.
Qed.

(** C23: the reminder in calendar days.  At any time after midnight, an
    unpaid bill whose [data_limite] parses to a date [k] calendar days
    ahead is listed exactly when [k <= 6], as "ATRASADA!" from its due day
    on ([k <= 0]) and as "Vence em [k - 1] dias" before: a bill due today
    is shown overdue and one due in 3 days as due in 2. *)
Theorem lembrete_calendario hoje c dl d :
  0 < inst_micro hoje < micros_por_dia ->
  default false (c_pago c) = false -> c_data_limite c = Some dl -> strptime_dmY dl = Ok d ->
  let k := toordinal d - toordinal (inst_data hoje) in
  lembrete_conta hoje c =
  if k <=? 6 then Some (c_descricao c, dl,
                        if k <=? 0 then "ATRASADA!"%string
                        else ("Vence em " ++ str_int (k - 1) ++ " dias")%string)
  else None.
Proof.
  intros Hm Hp Hdl Hd k. unfold lembrete_conta, status_lembrete. rewrite Hp, Hdl, Hd.
  cbv zeta. rewrite (dias_restantes_hora hoje d Hm). fold k.
  replace (k - 1 <=? 5) with (k <=? 6) by (destruct (Z.leb_spec (k - 1) 5), (Z.leb_spec k 6); lia).
  replace (k - 1 <? 0) with (k <=? 0) by (destruct (Z.ltb_spec (k - 1) 0), (Z.leb_spec k 0); lia).
  done.
Qed.

(** [(data_limite - hoje).days] never exceeds the calendar difference. *)
Lemma dias_entre_meia_noite hoje d :
  0 <= inst_micro hoje -> dias_entre hoje (meia_noite d) <= toordinal d - toordinal (inst_data hoje).
Proof.
  intros Hm. unfold dias_entre, meia_noite. simpl.
  set (k := toordinal d - toordinal (inst_data hoje)).
  unfold micros_por_dia in *. Z.div_mod_to_equations. nia.
Qed.

(** C24: an unpaid bill of the current month is never missed by the
    reminder: from five calendar days before its due date on, whatever
    the time of day, and at every start-up when it has no due date or
    one that does not parse, the warning lists it under its
    description. *)
Theorem lembrete_pendente_mostrado hoje s contas c :
  0 <= inst_micro hoje ->
  obter_contas_fixas_por_periodo (Some (mes (inst_data hoje))) (Some (ano (inst_data hoje))) s = Ok contas ->
  c ∈ contas -> default false (c_pago c) = false ->
  (forall dl d, c_data_limite c = Some dl -> strptime_dmY dl = Ok d ->
                toordinal d - toordinal (inst_data hoje) <= 5) ->
  exists x, lembrete_conta hoje c = Some x /\ x.1.1 = c_descricao c /\
    contas_nao_pagas hoje s = Ok (omap (lembrete_conta hoje) contas) /\
    x ∈ omap (lembrete_conta hoje) contas /\
    verificar_contas_nao_pagas hoje s = Ok (Some (mensagem_lembrete (omap (lembrete_conta hoje) contas))).
Proof.
  intros Hm Hs Hc Hp Hdl.
  assert (Hx : exists x, lembrete_conta hoje c = Some x /\ x.1.1 = c_descricao c).
  { unfold lembrete_conta. rewrite Hp. destruct (c_data_limite c) as [dl|]; [|by eexists].
    destruct (strptime_dmY dl) as [d|] eqn:Ed; [|by eexists].
    specialize (Hdl dl d eq_refl Ed). pose proof (dias_entre_meia_noite hoje d Hm).
    rewrite (proj2 (Z.leb_le _ 5)) by lia. by eexists. }
  destruct Hx as [x [Hx Hd]]. exists x.
  assert (Hxp : x ∈ omap (lembrete_conta hoje) contas) by (apply list_elem_of_omap; eauto).
  unfold verificar_contas_nao_pagas, contas_nao_pagas. rewrite Hs. cbn [res_bind].
  repeat split; [done..|]. destruct (omap _ _); [by apply not_elem_of_nil in Hxp | done].
Qed.

(** C35: one recurring bill whose [data_inicio] does not parse makes the
    start-up reminder raise, so [ControleGastosApp()] fails before the
    window is shown. *)
Theorem verificar_contas_erro hoje s c di e :
  c ∈ ler (A := Conta) s -> conta_recorrente c = true ->
  c_data_inicio c = Some di -> strptime_dmY di = Err e ->
  exists e', verificar_contas_nao_pagas hoje s = Err e'.
Proof.
  intros Hc Hr Hdi He. unfold verificar_contas_nao_pagas, contas_nao_pagas, obter_contas_fixas_por_periodo.
  destruct (res_filter_mapM_Err_elem (conta_no_periodo (mes (inst_data hoje)) (ano (inst_data hoje)) s)
              _ c e Hc) as [e' ->]; [|by exists e'].
  unfold conta_no_periodo. by rewrite Hr, Hdi; cbn [get_key res_bind]; rewrite He.
Qed.

(** ** Test mode *)

(** [alternar_modo] restarts the application in the other mode: the
    restarted [main()] reads the opposite [modo_teste] from its command
    line, whatever the script name. *)
Theorem alternar_modo_inverte modo_teste script resto :
  script <> "--teste"%string ->
  modo_teste_de_argv (argv_alternado modo_teste (script :: resto)) = negb modo_teste.
Proof.
  intros Hs. unfold modo_teste_de_argv, argv_alternado. cbn [take app existsb].
  rewrite (proj2 (String.eqb_neq _ _) (not_eq_sym Hs)). by destruct modo_teste.
Qed.

(** ** Concrete runs *)

Local Open Scope string_scope.
Local Open Scope Z_scope.

(** 5 June 2024, 10:00. *)
Definition hoje_app : instante := mkInstante (mkData 2024 6 5) (36000 * 1000000).

Definition conta_luz : Conta :=
  mkConta 1 "Luz" 120%Q (Some true) (Some "01/01/2024") None None None (Some "05/06/2024")
    None None None None None None.

Definition conta_agua : Conta :=
  mkConta 2 "Agua" 80%Q (Some true) (Some "01/01/2024") None None None (Some "08/06/2024")
    None None None None None None.

Definition arquivos_lembrete : Arquivos :=
  mkArquivos (Valido []) (Valido []) (Valido [conta_luz; conta_agua]).

(** at 10:00 on 5 June 2024, a bill due that day is listed as overdue
    and one due on 8 June as due in 2 days (the spec expects "Vence em 3
    dias"). *)
Example lembrete_vence_hoje :
  contas_nao_pagas hoje_app arquivos_lembrete =
  Ok [("Luz", "05/06/2024", "ATRASADA!"); ("Agua", "08/06/2024", "Vence em 2 dias")]%string.
Proof. vm_compute. reflexivity. Qed.

Lemma lembrete_calendario_witness :
  lembrete_conta hoje_app conta_agua =
  if toordinal (mkData 2024 6 8) - toordinal (inst_data hoje_app) <=? 6
  then Some (c_descricao conta_agua, "08/06/2024"%string,
             if toordinal (mkData 2024 6 8) - toordinal (inst_data hoje_app) <=? 0 then "ATRASADA!"%string
             else ("Vence em " ++ str_int (toordinal (mkData 2024 6 8) - toordinal (inst_data hoje_app) - 1)
                   ++ " dias")%string)
  else None.
Proof.
  apply (lembrete_calendario hoje_app conta_agua "08/06/2024" (mkData 2024 6 8));
    [unfold micros_por_dia; simpl; lia | reflexivity | reflexivity | vm_compute; reflexivity].
Defined.

Definition conta_mal_datada : Conta :=
  mkConta 3 "Internet" 100%Q (Some true) (Some "31/02/2024") None None None None
    None None None None None None.

Lemma verificar_contas_erro_witness :
  exists e', verificar_contas_nao_pagas hoje_app
               (mkArquivos (Valido []) (Valido []) (Valido [conta_luz; conta_mal_datada])) = Err e'.
Proof.
  apply (verificar_contas_erro _ _ conta_mal_datada "31/02/2024" ValueError);
    [by right; left | reflexivity | reflexivity | vm_compute; reflexivity].
Defined.

Lemma alternar_modo_inverte_witness :
  modo_teste_de_argv (argv_alternado true ["main.py"; "--teste"]%string) = negb true.
Proof. apply alternar_modo_inverte. discriminate. Defined.

(** The water bill as [obter_contas_fixas_por_periodo(6, 2024)] returns it. *)
Definition conta_agua_junho : Conta :=
  mkConta 2 "Agua" 80%Q (Some true) (Some "01/01/2024") None (Some 6) (Some 2024) (Some "08/06/2024")
    None None None None (Some false) None.

(** At 10:00 on 5 June 2024, the water bill due on 8 June is listed. *)
Lemma lembrete_pendente_mostrado_witness :
  exists contas, obter_contas_fixas_por_periodo (Some 6) (Some 2024) arquivos_lembrete = Ok contas /\
  exists x, lembrete_conta hoje_app conta_agua_junho = Some x /\ x.1.1 = c_descricao conta_agua_junho /\
    contas_nao_pagas hoje_app arquivos_lembrete = Ok (omap (lembrete_conta hoje_app) contas) /\
    x ∈ omap (lembrete_conta hoje_app) contas /\
    verificar_contas_nao_pagas hoje_app arquivos_lembrete =
      Ok (Some (mensagem_lembrete (omap (lembrete_conta hoje_app) contas))).
Proof.
  eexists. split; [vm_compute; reflexivity|].
  apply (lembrete_pendente_mostrado hoje_app arquivos_lembrete _ conta_agua_junho).
  - unfold hoje_app. simpl. lia.
  - vm_compute. reflexivity.
  - by right; left.
  - reflexivity.
  - intros dl d [= <-] Hd. vm_compute in Hd. injection Hd as <-. vm_compute. discriminate.
Defined.
