(* ===== verification/Session.v ===== *)
(** * Session: the application as a whole (main.py with the five tabs)

    - [SeletorPeriodo]: the month and year filters every tab builds in
      its [criar_widgets] (two [StringVar]s set to today's month and
      year, read-only comboboxes offering [range(1, 13)] and a range of
      years around today's: to [hoje.year + 5] in the expense, income and
      bill tabs, to [hoje.year + 1] in the overview and the history),
      which its [atualizar] reads with [int].
    - The data directories ([Disco]: the files under the program's
      directory by directory name, data_manager.py 18-30): [diretorio]
      is the three files of a mode's directory, [iniciar_data_manager]
      is [DataManager.__init__] with its [verificar_arquivos].
    - [Sessao] is a running [ControleGastosApp]: its mode and command
      line, the instant it started, the disk, each tab's filters and the
      start-up warning.  [iniciar] is [main()] and
      [ControleGastosApp.__init__] (main.py 22-60, 359-365): the mode
      from [sys.argv], the data manager, the five tabs created in order
      ([criar_abas]: each frame's [__init__] refreshes it, and an
      exception a refresh lets through leaves [__init__]), then the
      reminder.  The tables the refreshes fill are the ones of [Forms],
      [BillsTab], [History] and [Overview]; a session keeps what later
      events depend on, the files and the filters.
    - [Evento] / [executar_evento] / [passo]: what the user can do once
      the window is open: choose a month or a year, save an add or edit
      form, delete a record after the confirmation, mark a bill from the
      bills tab's buttons or menu or from the history tab, close the
      window, switch mode (which saves, then restarts the program with
      the other flag, [alternar_modo]).  Each handler is the one of
      [Forms], [BillsTab] and [History], run on the files of the current
      mode; a write goes to that mode's directory ([com_arquivos]).  A
      form's [Salvar] runs only when the button that opens the form got
      that far: the expense forms raise [AttributeError] while opening
      ([Forms.formularios_gasto_AttributeError]), so their events write
      nothing.  The
      refreshes a handler runs after writing change no file, and an
      exception that leaves a Tk callback is reported by Tk while the
      window stays open.
    - [alcancavel]: the states a run of the program reaches, the start
      and then any sequence of events, as an inductive predicate proved
      about by rule induction.

    Start-up reads the clock once: the model takes one [datetime.now()]
    for the whole of [__init__] (the frames call it a few microseconds
    apart).

    Theorems: the filters of every reachable window parse, to a month of
    the year and a year of the tab's list, so no refresh fails on them
    ([filtros_sempre_validos]); a window in test mode never changes the
    production directory ([modo_teste_isola_producao]), and a switch to
    production only creates the production files that are missing
    ([alternar_para_producao]); switching mode and back gives back the
    files of the first mode as [salvar_dados_atuais] wrote them
    ([alternar_modo_ida_volta]); every handler keeps the ids of the
    three files distinct and positive ([ids_preservados_sessao]); the
    expense file only loses records ([gastos_so_diminuem]); a
    [ValueError] that stops the start-up comes from the reminder, after
    every tab was built ([inicio_interrompido_ValueError]). *)

From Stdlib Require Import ZArith QArith String Lia.
From stdpp Require Import base list gmap strings.
From S2P Require Import Prelude PyDate PyRepr PyNum PyFloat Records Installments Store Ledger Resolver History Forms BillsTab Overview App.

Local Open Scope Z_scope.

(** ** The period filters *)

Module SeletorPeriodo.

Record Seletor := mkSeletor { sel_mes : string; sel_ano : string }.

(** [StringVar(value=str(hoje.month))] and [str(hoje.year)]. *)
Definition seletor_inicial (hoje : data) : Seletor :=
  mkSeletor (str_int (mes hoje)) (str_int (ano hoje)).

(** [[str(i) for i in range(1, 13)]]. *)
Definition meses_opcoes : list string := str_int <$> Z_range 1 12.

(** [[str(i) for i in range(hoje.year - 5, hoje.year + fim)]]: [fim] is 6
    in the expense, income and bill tabs, 2 in the overview and the
    history. *)
Definition anos_opcoes (fim : Z) (hoje : data) : list string :=
  str_int <$> Z_range (ano hoje - 5) (Z.to_nat (fim + 5)).

(** A read-only combobox: choosing the [i]-th value of its list. *)
Definition escolher_mes (i : nat) (sel : Seletor) : Seletor :=
  match meses_opcoes !! i with Some m => mkSeletor m (sel_ano sel) | None => sel end.

Definition escolher_ano (fim : Z) (hoje : data) (i : nat) (sel : Seletor) : Seletor :=
  match anos_opcoes fim hoje !! i with Some a => mkSeletor (sel_mes sel) a | None => sel end.

(** The values the two comboboxes can show. *)
Definition seletor_valido (fim : Z) (hoje : data) (sel : Seletor) : Prop :=
  sel_mes sel ∈ meses_opcoes /\ sel_ano sel ∈ anos_opcoes fim hoje.

(** A value of the list is the text of an integer of its range. *)
Lemma opcao_inteiro lo n t :
  t ∈ str_int <$> Z_range lo n -> exists z, t = str_int z /\ py_int t = Ok z /\ lo <= z < lo + Z.of_nat n.
Proof.
  intros (z & -> & Hz)%list_elem_of_fmap. apply Z_range_elem_inv in Hz.
  exists z. by rewrite py_int_str_int.
Qed.

(** What a refresh reads from valid filters: [int] succeeds on both, on a
    month of the year and a year of the list. *)
Lemma seletor_periodo fim hoje sel :
  seletor_valido fim hoje sel ->
  exists m a, py_int (sel_mes sel) = Ok m /\ py_int (sel_ano sel) = Ok a /\
    1 <= m <= 12 /\ ano hoje - 5 <= a < ano hoje + fim.
Proof.
  intros [(m & _ & Hm & Hmb)%opcao_inteiro (a & _ & Ha & Hab)%opcao_inteiro].
  exists m, a. repeat split; try done; lia.
Qed.

Lemma opcao_intervalo lo n z : lo <= z < lo + Z.of_nat n -> str_int z ∈ str_int <$> Z_range lo n.
Proof. intros Hz. apply list_elem_of_fmap_2. by apply Z_range_elem. Qed.

Lemma seletor_inicial_valido fim hoje :
  1 <= mes hoje <= 12 -> 1 <= fim -> seletor_valido fim hoje (seletor_inicial hoje).
Proof. intros Hm Hf. split; apply opcao_intervalo; lia. Qed.

Lemma escolher_mes_valido fim hoje i sel :
  seletor_valido fim hoje sel -> seletor_valido fim hoje (escolher_mes i sel).
Proof.
  unfold escolher_mes. destruct (meses_opcoes !! i) eqn:E; [|done].
  intros [_ Ha]. split; [by eapply list_elem_of_lookup_2|done].
Qed.

Lemma escolher_ano_valido fim hoje i sel :
  seletor_valido fim hoje sel -> seletor_valido fim hoje (escolher_ano fim hoje i sel).
Proof.
  unfold escolher_ano. destruct (anos_opcoes fim hoje !! i) eqn:E; [|done].
  intros [Hm _]. split; [done|by eapply list_elem_of_lookup_2].
Qed.

End SeletorPeriodo.

Export SeletorPeriodo.

(** ** The data directories *)

(** The files under [base_dir], by directory name. *)
Abbreviation Disco := (gmap string Arquivos).

(** A directory that does not exist has none of the three files. *)
Definition sem_arquivos : Arquivos := mkArquivos Ausente Ausente Ausente.

(** The three files of the directory of a mode
    ([os.path.join(self.data_dir, ...)]). *)
Definition diretorio (modo_teste : bool) (d : Disco) : Arquivos :=
  default sem_arquivos (d !! diretorio_dados modo_teste).

Definition gravar_diretorio (modo_teste : bool) (s : Arquivos) (d : Disco) : Disco :=
  <[diretorio_dados modo_teste := s]> d.

(** [DataManager.__init__] (data_manager.py 13-33): the directory of the
    mode, then [verificar_arquivos] ([os.makedirs] and the missing files
    written as [[]]). *)
Definition iniciar_data_manager (modo_teste : bool) (d : Disco) : Disco :=
  gravar_diretorio modo_teste (verificar_arquivos (diretorio modo_teste d)) d.

(** ** Opening the window *)

(** The last year each tab's year combobox offers, minus one. *)
Definition fim_anos (a : Aba) : Z :=
  match a with AbaVisaoGeral | AbaHistorico => 2 | _ => 6 end.

(** A tab's [atualizar()] with its filters, as far as the rest of the
    program sees it: how it ends.  The overview catches [ValueError]
    and lets other exceptions through. *)
Definition recarregar (a : Aba) (sel : Seletor) (s : Arquivos) : Desfecho :=
  let m := sel_mes sel in
  let y := sel_ano sel in
  match a with
  | AbaVisaoGeral => from_option ExcecaoPropagada Concluido (VisaoGeralView.atualizar m y s).2
  | AbaReceitas => (ReceitasView.atualizar m y s).2
  | AbaGastosGerais => (GastosGeraisView.atualizar m y s).2
  | AbaContasFixas => (ContasFixasView.atualizar m y s).2
  | AbaHistorico => (atualizar_historico m y s (mkTela [] None)).2
  end.

(** [criar_abas] (main.py 219-239): each frame's [__init__] builds its
    filters with today's month and year and refreshes; an exception a
    refresh lets through leaves [ControleGastosApp.__init__]. *)
Fixpoint criar_abas (hoje : data) (s : Arquivos) (l : list Aba) : res unit :=
  match l with
  | [] => Ok tt
  | a :: r =>
      match recarregar a (seletor_inicial hoje) s with
      | ExcecaoPropagada e => Err e
      | _ => criar_abas hoje s r
      end
  end.

(** The window's title (main.py 30) and the test-mode banner
    ([criar_indicador_teste], main.py 56-57 and 139-152). *)
Definition titulo (modo_teste : bool) : string :=
  ("Controle Financeiro" ++ (if modo_teste then " - MODO TESTE" else EmptyString))%string.

Definition indicador_teste (modo_teste : bool) : option string :=
  if modo_teste then Some "MODO TESTE - Os dados não afetarão sua versão de produção"%string else None.

(** A running application. *)
Record Sessao := mkSessao {
  ses_modo_teste : bool;
  ses_argv : list string;
  ses_inicio : instante;                 (** [datetime.now()] when the tabs were built *)
  ses_disco : Disco;
  ses_seletores : Aba -> Seletor;         (** each tab's month and year filters *)
  ses_lembrete : option string            (** the warning shown at start-up *)
}.

Inductive Estado : Type :=
| Aberto (s : Sessao)
| Encerrado (d : Disco)                   (** the window was closed *)
| Interrompido (d : Disco) (e : excecao)  (** [__init__] raised *)
| ValorNaoFinito (d : Disco) (v : PyFloat).
  (** a form wrote [nan] or [inf], which the records of this development
      do not hold; the files before that write *)

Definition disco_de (st : Estado) : Disco :=
  match st with
  | Aberto s => ses_disco s
  | Encerrado d | Interrompido d _ | ValorNaoFinito d _ => d
  end.

(** [main()] and [ControleGastosApp.__init__] (main.py 22-60, 359-365):
    the mode from [sys.argv], the data manager, the tabs, the reminder. *)
Definition iniciar (argv : list string) (agora : instante) (d : Disco) : Estado :=
  let modo := modo_teste_de_argv argv in
  let d' := iniciar_data_manager modo d in
  let s := diretorio modo d' in
  let hoje := inst_data agora in
  match criar_abas hoje s abas with
  | Err e => Interrompido d' e
  | Ok _ =>
      match verificar_contas_nao_pagas agora s with
      | Err e => Interrompido d' e
      | Ok aviso => Aberto (mkSessao modo argv agora d' (fun _ => seletor_inicial hoje) aviso)
      end
  end.

(** ** Events *)

Inductive Evento : Type :=
| EscolherMes (a : Aba) (i : nat)               (** a value of a month combobox *)
| EscolherAno (a : Aba) (i : nat)               (** a value of a year combobox *)
| SalvarGasto (f : GastosGeraisView.FormularioGasto)
| EditarGasto (gasto_id : Z) (f : GastosGeraisView.FormularioGasto)
| ExcluirGasto (gasto_id : Z) (confirmado : bool)
| SalvarReceita (f : ReceitasView.FormularioReceita)
| EditarReceita (receita_id : Z) (f : ReceitasView.FormularioReceita)
| ExcluirReceita (receita_id : Z) (confirmado : bool)
| SalvarConta (f : ContasFixasView.FormularioConta)
| EditarConta (conta_id : Z) (f : ContasFixasView.FormularioConta)
| ExcluirConta (conta_id : Z) (confirmado : bool)
| MarcarConta (status_pago : bool) (tags : option (list string)) (hoje : data)
| MenuConta (linha : option (list string)) (k : nat) (hoje : data)
| MarcarHistorico (status_pago : bool) (selecao : option (list string)) (hoje : data)
| MenuHistorico (tags : list string) (hoje : data)
| Fechar (confirma : bool)
| AlternarModo (confirma : bool) (agora : instante).

(** The files of the current mode. *)
Definition arquivos (s : Sessao) : Arquivos := diretorio (ses_modo_teste s) (ses_disco s).

(** [self.data_manager.salvar_dados(...)] in the current mode. *)
Definition com_arquivos (a : Arquivos) (s : Sessao) : Sessao :=
  let 'mkSessao m argv t d sels l := s in mkSessao m argv t (gravar_diretorio m a d) sels l.

Definition com_seletor (a : Aba) (sel : Seletor) (s : Sessao) : Sessao :=
  let 'mkSessao m argv t d sels l := s in
  mkSessao m argv t d (fun b => if decide (b = a) then sel else sels b) l.

(** What a form's "Salvar" ends in, for the session. *)
Definition apos_salvar (r : Resultado) (s : Sessao) : Estado :=
  match r with
  | Gravado a => Aberto (com_arquivos a s)
  | NaoFinito v => ValorNaoFinito (ses_disco s) v
  | Recusado _ | Excecao _ => Aberto s
  end.

(** One event in an open window.  The refreshes a handler runs after
    writing change no file, and an exception that leaves a Tk callback
    is reported by Tk and the window stays open. *)
Definition executar_evento (e : Evento) (s : Sessao) : Estado :=
  let hoje0 := inst_data (ses_inicio s) in
  let filtro a := ses_seletores s a in
  let mes_s a := sel_mes (filtro a) in
  let ano_s a := sel_ano (filtro a) in
  match e with
  | EscolherMes a i => Aberto (com_seletor a (escolher_mes i (filtro a)) s)
  | EscolherAno a i => Aberto (com_seletor a (escolher_ano (fim_anos a) hoje0 i (filtro a)) s)
  | SalvarGasto f =>
      match GastosGeraisView.abrir_formulario_adicionar hoje0 with
      | Ok _ => apos_salvar (GastosGeraisView.salvar_formulario f (arquivos s)) s
      | Err _ => Aberto s
      end
  | EditarGasto i f =>
      match GastosGeraisView.abrir_formulario_editar i (arquivos s) with
      | Ok (Some _) => apos_salvar (GastosGeraisView.salvar_edicao i f (arquivos s)) s
      | _ => Aberto s
      end
  | ExcluirGasto i c => Aberto (com_arquivos (GastosGeraisView.excluir_gasto c i (arquivos s)) s)
  | SalvarReceita f => apos_salvar (ReceitasView.salvar_formulario f (arquivos s)) s
  | EditarReceita i f => apos_salvar (ReceitasView.salvar_edicao i f (arquivos s)) s
  | ExcluirReceita i c => Aberto (com_arquivos (ReceitasView.excluir_receita c i (arquivos s)) s)
  | SalvarConta f => apos_salvar (ContasFixasView.salvar_formulario f (arquivos s)) s
  | EditarConta i f => apos_salvar (ContasFixasView.atualizar_formulario i f (arquivos s)) s
  | ExcluirConta i c => Aberto (com_arquivos (ContasFixasView.excluir_conta c i (arquivos s)) s)
  | MarcarConta p tags hoje =>
      match ContasFixasView.marcar_como p tags (mes_s AbaContasFixas) (ano_s AbaContasFixas) hoje (arquivos s) with
      | Ok (a, _) => Aberto (com_arquivos a s)
      | Err _ => Aberto s
      end
  | MenuConta linha k hoje =>
      match ContasFixasView.abrir_menu_contexto linha (mes_s AbaContasFixas) (ano_s AbaContasFixas) (arquivos s) with
      | Ok os =>
          match os !! k with
          | Some o => Aberto (com_arquivos (ContasFixasView.escolher_opcao o (mes_s AbaContasFixas)
                                               (ano_s AbaContasFixas) hoje (arquivos s)).1 s)
          | None => Aberto s
          end
      | Err _ => Aberto s
      end
  | MarcarHistorico p sel hoje =>
      Aberto (com_arquivos (historico_marcar p sel (mes_s AbaHistorico) (ano_s AbaHistorico) hoje (arquivos s)).1 s)
  | MenuHistorico tags hoje =>
      match menu_contexto_historico tags (mes_s AbaHistorico) (ano_s AbaHistorico) (arquivos s) with
      | Ok (Some o) =>
          Aberto (com_arquivos (escolher_opcao_historico o (mes_s AbaHistorico) (ano_s AbaHistorico)
                                  hoje (arquivos s) (mkTela [] None)).1.1 s)
      | _ => Aberto s
      end
  | Fechar c => if c then Encerrado (ses_disco (com_arquivos (ao_fechar c (arquivos s)) s)) else Aberto s
  | AlternarModo c agora =>
      if c then
        iniciar (argv_alternado (ses_modo_teste s) (ses_argv s)) agora
          (ses_disco (com_arquivos (salvar_dados_atuais (arquivos s)) s))
      else Aberto s
  end.

(** Events reach only an open window. *)
Definition passo (e : Evento) (st : Estado) : Estado :=
  match st with Aberto s => executar_evento e s | _ => st end.

Definition executar_eventos (es : list Evento) (st : Estado) : Estado :=
  fold_left (fun st e => passo e st) es st.

(** ** The states a run reaches *)

(** [datetime.now()] is a valid date. *)
Definition evento_valido (e : Evento) : Prop :=
  match e with AlternarModo _ agora => data_valida (inst_data agora) = true | _ => True end.

Inductive alcancavel : Estado -> Prop :=
| alcancavel_inicio argv agora d :
    data_valida (inst_data agora) = true -> alcancavel (iniciar argv agora d)
| alcancavel_passo e st :
    alcancavel st -> evento_valido e -> alcancavel (passo e st).

(** ** Lemmas *)

Create HintDb sessao.

Lemma iniciar_Aberto argv agora d s :
  iniciar argv agora d = Aberto s ->
  s = mkSessao (modo_teste_de_argv argv) argv agora (iniciar_data_manager (modo_teste_de_argv argv) d)
        (fun _ => seletor_inicial (inst_data agora)) (ses_lembrete s).
Proof. unfold iniciar. repeat case_match; naive_solver. Qed.

(** The disk a start-up leaves, whatever it ends in. *)
Lemma iniciar_disco argv agora d :
  disco_de (iniciar argv agora d) = iniciar_data_manager (modo_teste_de_argv argv) d.
Proof. unfold iniciar. by repeat case_match. Qed.


Lemma diretorio_gravar m m' a d :
  diretorio m (gravar_diretorio m' a d) = if decide (m = m') then a else diretorio m d.
Proof.
  unfold diretorio, gravar_diretorio. case_decide as Hm.
  - subst. by rewrite lookup_insert_eq.
  - rewrite lookup_insert_ne; [done|]. by destruct m, m'.
Qed.

Lemma lookup_gravar_outro m a d :
  gravar_diretorio m a d !! diretorio_dados (negb m) = d !! diretorio_dados (negb m).
Proof. unfold gravar_diretorio. rewrite lookup_insert_ne; [done|]. by destruct m. Qed.

(** What an event does to an open window, by kind: a choice in a
    combobox changes one filter, a switch of mode restarts, and every
    other event writes the files of the current mode, or nothing, and
    may close the window. *)
Definition escreve (s : Sessao) (st : Estado) : Prop :=
  st = Aberto s \/
  (exists a, st = Aberto (com_arquivos a s) \/ st = Encerrado (ses_disco (com_arquivos a s))) \/
  (exists v, st = ValorNaoFinito (ses_disco s) v).

Lemma apos_salvar_escreve r s : escreve s (apos_salvar r s).
Proof. unfold escreve. destruct r; simpl; eauto 6. Qed.
#[local] Hint Resolve apos_salvar_escreve : sessao.

Lemma executar_forma e s :
  match e with
  | EscolherMes a i => executar_evento e s = Aberto (com_seletor a (escolher_mes i (ses_seletores s a)) s)
  | EscolherAno a i => executar_evento e s =
      Aberto (com_seletor a (escolher_ano (fim_anos a) (inst_data (ses_inicio s)) i (ses_seletores s a)) s)
  | AlternarModo c agora => exists d, executar_evento e s =
      if c then iniciar (argv_alternado (ses_modo_teste s) (ses_argv s)) agora d else Aberto s
  | _ => escreve s (executar_evento e s)
  end.
Proof.
  destruct e; simpl; try done; auto with sessao; try (by eexists).
  all: try (repeat case_match; auto with sessao; unfold escreve; by left).
  all: unfold escreve; repeat case_match; eauto 6.
Qed.

Lemma com_arquivos_campos a s :
  ses_modo_teste (com_arquivos a s) = ses_modo_teste s /\ ses_argv (com_arquivos a s) = ses_argv s /\
  ses_inicio (com_arquivos a s) = ses_inicio s /\ ses_seletores (com_arquivos a s) = ses_seletores s.
Proof. by destruct s. Qed.

Lemma com_arquivos_disco a s :
  ses_disco (com_arquivos a s) = gravar_diretorio (ses_modo_teste s) a (ses_disco s).
Proof. by destruct s. Qed.

Lemma com_seletor_campos a sel s :
  ses_modo_teste (com_seletor a sel s) = ses_modo_teste s /\ ses_inicio (com_seletor a sel s) = ses_inicio s /\
  ses_disco (com_seletor a sel s) = ses_disco s /\
  (forall b, ses_seletores (com_seletor a sel s) b = if decide (b = a) then sel else ses_seletores s b).
Proof. by destruct s. Qed.

(** A state that is not an open window takes no more events. *)
Lemma executar_eventos_fim es st : (forall s, st <> Aberto s) -> executar_eventos es st = st.
Proof. intros Hst. induction es as [|e es IH]; [done|]. destruct st; [by edestruct Hst|done..]. Qed.

(** ** The filters *)

Definition filtros_validos (s : Sessao) : Prop :=
  forall a, seletor_valido (fim_anos a) (inst_data (ses_inicio s)) (ses_seletores s a).

Lemma iniciar_filtros argv agora d s :
  data_valida (inst_data agora) = true -> iniciar argv agora d = Aberto s -> filtros_validos s.
Proof.
  intros Hv ->%iniciar_Aberto a. apply data_valida_limites in Hv. simpl.
  apply seletor_inicial_valido; [lia | destruct a; simpl; lia].
Qed.

Lemma escreve_filtros s st :
  filtros_validos s -> escreve s st -> match st with Aberto s' => filtros_validos s' | _ => True end.
Proof.
  intros Hs [-> | [[a [-> | ->]] | [v ->]]]; try done.
  intros b. destruct (com_arquivos_campos a s) as (_ & _ & -> & ->). apply Hs.
Qed.

Lemma com_seletor_filtros a sel s :
  filtros_validos s -> seletor_valido (fim_anos a) (inst_data (ses_inicio s)) sel ->
  filtros_validos (com_seletor a sel s).
Proof.
  intros Hs Hsel b. destruct (com_seletor_campos a sel s) as (_ & -> & _ & ->).
  case_decide; [by subst|apply Hs].
Qed.

Lemma alcancavel_filtros st :
  alcancavel st -> match st with Aberto s => filtros_validos s | _ => True end.
Proof.
  induction 1 as [argv agora d Hv|e st Hst IH He].
  - destruct (iniciar argv agora d) eqn:E; try done. by eapply iniciar_filtros.
  - destruct st as [s| | |]; try done. simpl. pose proof (executar_forma e s) as Hf.
    destruct e; rewrite ?Hf; try (by eapply escreve_filtros).
    + apply com_seletor_filtros; [done|]. apply escolher_mes_valido, IH.
    + apply com_seletor_filtros; [done|]. apply escolher_ano_valido, IH.
    + destruct Hf as [d' ->]. destruct confirma; [|done].
      destruct (iniciar _ _ _) eqn:E; try done. by eapply iniciar_filtros.
Qed.

(** ** Test mode *)

Lemma com_arquivos_producao a s :
  ses_modo_teste s = true ->
  ses_disco (com_arquivos a s) !! diretorio_dados false = ses_disco s !! diretorio_dados false.
Proof.
  intros Hm. rewrite com_arquivos_disco, Hm.
  apply (lookup_gravar_outro true).
Qed.

(** One event of a test-mode window other than a confirmed switch: the
    production directory is untouched and the window, if open, is still
    in test mode. *)
Lemma executar_teste e s :
  ses_modo_teste s = true -> (forall agora, e <> AlternarModo true agora) ->
  disco_de (executar_evento e s) !! diretorio_dados false = ses_disco s !! diretorio_dados false /\
  (forall s', executar_evento e s = Aberto s' -> ses_modo_teste s' = true).
Proof.
  intros Hm Halt. pose proof (executar_forma e s) as Hf.
  assert (Hw : forall st, escreve s st ->
    disco_de st !! diretorio_dados false = ses_disco s !! diretorio_dados false /\
    (forall s', st = Aberto s' -> ses_modo_teste s' = true)).
  { intros st [-> | [[a [-> | ->]] | [v ->]]]; simpl.
    - split; [done|]. by intros s' [= <-].
    - split; [by apply com_arquivos_producao|]. intros s' [= <-]. by rewrite (proj1 (com_arquivos_campos a s)).
    - split; [by apply com_arquivos_producao|done].
    - done. }
  destruct e; rewrite ?Hf; try (by apply Hw).
  1,2: destruct s; split; [done|]; by intros s' [= <-].
  destruct Hf as [d' ->]. destruct confirma; [by edestruct Halt|]. split; [done|]. by intros s' [= <-].
Qed.

(** The program's directory after a confirmed switch: the files of the
    mode left are saved, then the other mode's [DataManager] creates the
    files its directory lacks. *)
Lemma alternar_disco s agora :
  disco_de (executar_evento (AlternarModo true agora) s) =
  iniciar_data_manager (modo_teste_de_argv (argv_alternado (ses_modo_teste s) (ses_argv s)))
    (gravar_diretorio (ses_modo_teste s) (salvar_dados_atuais (arquivos s)) (ses_disco s)).
Proof. simpl. by rewrite iniciar_disco, com_arquivos_disco. Qed.

Lemma verificar_salvar a : verificar_arquivos (salvar_dados_atuais a) = salvar_dados_atuais a.
Proof. done. Qed.

Lemma argv_alternado_modo m script resto :
  script <> "--teste"%string ->
  argv_alternado m (script :: resto) = [script; if m then EmptyString else "--teste"%string] /\
  modo_teste_de_argv (argv_alternado m (script :: resto)) = negb m.
Proof. intros Hs. split; [done|]. by apply alternar_modo_inverte. Qed.

Lemma executar_eventos_cons e es st : executar_eventos (e :: es) st = executar_eventos es (passo e st).
Proof. done. Qed.

(** The directories after a confirmed switch from the mode [m]. *)
Lemma alternar_diretorios s agora script resto :
  ses_argv s = script :: resto -> script <> "--teste"%string ->
  diretorio (ses_modo_teste s) (disco_de (executar_evento (AlternarModo true agora) s)) = salvar_dados_atuais (arquivos s) /\
  diretorio (negb (ses_modo_teste s)) (disco_de (executar_evento (AlternarModo true agora) s)) =
    verificar_arquivos (diretorio (negb (ses_modo_teste s)) (ses_disco s)).
Proof.
  intros Ha Hs. rewrite alternar_disco, Ha.
  destruct (argv_alternado_modo (ses_modo_teste s) script resto Hs) as [_ ->].
  unfold iniciar_data_manager, arquivos. rewrite !diretorio_gravar.
  destruct (ses_modo_teste s); by repeat case_decide.
Qed.

(** The window a confirmed switch opens: the other mode, the script and
    the other flag on its command line, the directories above. *)
Lemma alternar_Aberto s agora s1 script resto :
  ses_argv s = script :: resto -> script <> "--teste"%string ->
  executar_evento (AlternarModo true agora) s = Aberto s1 ->
  ses_modo_teste s1 = negb (ses_modo_teste s) /\
  ses_argv s1 = [script; if ses_modo_teste s then EmptyString else "--teste"%string] /\
  ses_disco s1 = disco_de (executar_evento (AlternarModo true agora) s).
Proof.
  intros Ha Hs E. rewrite E. simpl in E. rewrite Ha in E.
  destruct (argv_alternado_modo (ses_modo_teste s) script resto Hs) as [Hv Hm].
  pose proof (iniciar_Aberto _ _ _ _ E) as ->. by rewrite Hm, Hv.
Qed.

(** ** The id invariant through the handlers *)

(** The ids of the three files are distinct and positive. *)
Definition ids_ok (a : Arquivos) : Prop :=
  ids_validos (ler (A := Gasto) a) /\ ids_validos (ler (A := Receita) a) /\ ids_validos (ler (A := Conta) a).

Lemma gravar_gastos_ids l s : ids_ok s -> ids_validos l -> ids_ok (gravar (A := Gasto) l s).
Proof. intros (_ & ? & ?) ?. by split_and!. Qed.

Lemma gravar_receitas_ids l s : ids_ok s -> ids_validos l -> ids_ok (gravar (A := Receita) l s).
Proof. intros (? & _ & ?) ?. by split_and!. Qed.

Lemma gravar_contas_ids l s : ids_ok s -> ids_validos l -> ids_ok (gravar (A := Conta) l s).
Proof. intros (? & ? & _) ?. by split_and!. Qed.

(** Each store operation writes one file with valid ids. *)
Lemma atualizar_gravar {A} `{!HasId A} `{!Colecao Arquivos A} i (x : A) s s' :
  Store.atualizar i x s = Ok s' -> s' = gravar (ler s') s.
Proof. unfold Store.atualizar. intros (l & _ & <-%Ok_inj)%res_bind_Ok. by rewrite ler_gravar. Qed.

Lemma adicionar_conta_gravar c s s' : adicionar_conta_fixa c s = Ok s' -> s' = gravar (A := Conta) (ler s') s.
Proof. unfold adicionar_conta_fixa. intros (c' & _ & <-%Ok_inj)%res_bind_Ok. by rewrite ler_gravar. Qed.

Lemma atualizar_conta_gravar i c s s' : atualizar_conta_fixa i c s = Ok s' -> s' = gravar (A := Conta) (ler s') s.
Proof. unfold atualizar_conta_fixa. intros (l & _ & <-%Ok_inj)%res_bind_Ok. by rewrite ler_gravar. Qed.

Lemma ids_gasto_Ok i g s s' : ids_ok s -> Store.atualizar_gasto i g s = Ok s' -> ids_ok s'.
Proof.
  intros Hs E. rewrite (atualizar_gravar _ _ _ _ E). apply gravar_gastos_ids; [done|].
  eapply atualizar_ids; [apply Hs | exact E].
Qed.

Lemma ids_receita_Ok i r s s' : ids_ok s -> Store.atualizar_receita i r s = Ok s' -> ids_ok s'.
Proof.
  intros Hs E. rewrite (atualizar_gravar _ _ _ _ E). apply gravar_receitas_ids; [done|].
  eapply atualizar_ids; [apply Hs | exact E].
Qed.

Lemma ids_adicionar_conta c s s' : ids_ok s -> adicionar_conta_fixa c s = Ok s' -> ids_ok s'.
Proof.
  intros Hs E. rewrite (adicionar_conta_gravar _ _ _ E).
  apply gravar_contas_ids; [done|]. eapply adicionar_conta_fixa_ids; [apply Hs | exact E].
Qed.

Lemma ids_atualizar_conta i c s s' : ids_ok s -> atualizar_conta_fixa i c s = Ok s' -> ids_ok s'.
Proof.
  intros Hs E. rewrite (atualizar_conta_gravar _ _ _ _ E).
  apply gravar_contas_ids; [done|]. eapply atualizar_conta_fixa_ids; [apply Hs | exact E].
Qed.

Lemma ids_adicionar_gasto g s : ids_ok s -> ids_ok (adicionar_gasto g s).
Proof. intros Hs. apply gravar_gastos_ids; [done|]. exact (proj2 (adicionar_ids (S := Arquivos) g s (proj1 Hs))). Qed.

Lemma ids_adicionar_receita r s : ids_ok s -> ids_ok (adicionar_receita r s).
Proof. intros Hs. apply gravar_receitas_ids; [done|]. exact (proj2 (adicionar_ids (S := Arquivos) r s (proj1 (proj2 Hs)))). Qed.

Lemma ids_excluir_gasto i s : ids_ok s -> ids_ok (excluir_gasto i s).
Proof. intros Hs. apply gravar_gastos_ids; [done|]. exact (excluir_ids (S := Arquivos) (A := Gasto) i s (proj1 Hs)). Qed.

Lemma ids_excluir_receita i s : ids_ok s -> ids_ok (excluir_receita i s).
Proof. intros Hs. apply gravar_receitas_ids; [done|]. exact (excluir_ids (S := Arquivos) (A := Receita) i s (proj1 (proj2 Hs))). Qed.

Lemma ids_excluir_conta i s : ids_ok s -> ids_ok (excluir_conta_fixa i s).
Proof. intros Hs. apply gravar_contas_ids; [done|]. exact (excluir_ids (S := Arquivos) (A := Conta) i s (proj2 (proj2 Hs))). Qed.

Lemma ids_marcar i m a b dp hoje s : ids_ok s -> ids_ok (marcar_conta_como_paga i m a b dp hoje s).
Proof. intros Hs. apply gravar_contas_ids; [done|]. exact (marcar_ids i m a b dp hoje s (proj2 (proj2 Hs))). Qed.

#[local] Hint Resolve ids_gasto_Ok ids_receita_Ok ids_adicionar_conta ids_atualizar_conta ids_adicionar_gasto
  ids_adicionar_receita ids_excluir_gasto ids_excluir_receita ids_excluir_conta ids_marcar : sessao.

(** What a form's "Salvar" writes keeps the invariant. *)
Definition resultado_ids (r : Resultado) : Prop := forall a, r = Gravado a -> ids_ok a.

Ltac resultado_ids_tac :=
  let a := fresh "a" in let E := fresh "E" in
  intros ?; unfold resultado_ids; intros a; try unfold gravado; try unfold ContasFixasView.gravar_conta;
  repeat case_match; intros E; simplify_eq; eauto with sessao.

Lemma salvar_gasto_ids f s : ids_ok s -> resultado_ids (GastosGeraisView.salvar_formulario f s).
Proof. unfold GastosGeraisView.salvar_formulario, GastosGeraisView.salvar_gasto. resultado_ids_tac. Qed.

Lemma editar_gasto_ids i f s : ids_ok s -> resultado_ids (GastosGeraisView.salvar_edicao i f s).
Proof. unfold GastosGeraisView.salvar_edicao, GastosGeraisView.atualizar_gasto. resultado_ids_tac. Qed.

Lemma salvar_receita_ids f s : ids_ok s -> resultado_ids (ReceitasView.salvar_formulario f s).
Proof. unfold ReceitasView.salvar_formulario, ReceitasView.salvar_receita, ReceitasView.validar_receita. resultado_ids_tac. Qed.

Lemma editar_receita_ids i f s : ids_ok s -> resultado_ids (ReceitasView.salvar_edicao i f s).
Proof. unfold ReceitasView.salvar_edicao, ReceitasView.atualizar_receita, ReceitasView.validar_receita. resultado_ids_tac. Qed.

Lemma salvar_conta_ids f s : ids_ok s -> resultado_ids (ContasFixasView.salvar_formulario f s).
Proof. unfold ContasFixasView.salvar_formulario, ContasFixasView.salvar_conta. resultado_ids_tac. Qed.

Lemma editar_conta_ids i f s : ids_ok s -> resultado_ids (ContasFixasView.atualizar_formulario i f s).
Proof. unfold ContasFixasView.atualizar_formulario, ContasFixasView.atualizar_conta. resultado_ids_tac. Qed.

Lemma arquivos_com a s : arquivos (com_arquivos a s) = a.
Proof. destruct s. unfold arquivos. simpl. rewrite diretorio_gravar. by case_decide. Qed.

Lemma arquivos_seletor a sel s : arquivos (com_seletor a sel s) = arquivos s.
Proof. by destruct s. Qed.

Lemma apos_salvar_ids r s s' :
  ids_ok (arquivos s) -> resultado_ids r -> apos_salvar r s = Aberto s' -> ids_ok (arquivos s').
Proof. intros Hs Hr. destruct r; simpl; intros [= <-]; rewrite ?arquivos_com; auto. Qed.

(** The marking handlers write the bills file through
    [marcar_conta_como_paga], or nothing. *)
Lemma marcar_como_ids p tags m y hoje s a av :
  ids_ok s -> ContasFixasView.marcar_como p tags m y hoje s = Ok (a, av) -> ids_ok a.
Proof.
  intros Hs. unfold ContasFixasView.marcar_como. destruct (obter_selecionado tags); simpl; [|intros [=]].
  repeat case_match; intros ?; simplify_eq; eauto with sessao.
Qed.

Lemma escolher_opcao_ids o m y hoje s : ids_ok s -> ids_ok (ContasFixasView.escolher_opcao o m y hoje s).1.
Proof. intros Hs. destruct o; simpl; eauto with sessao. Qed.

Lemma historico_marcar_ids p sel m y hoje s : ids_ok s -> ids_ok (historico_marcar p sel m y hoje s).1.
Proof. intros Hs. unfold historico_marcar. repeat case_match; simpl; eauto with sessao. Qed.

Lemma escolher_opcao_historico_ids o m y hoje s tela :
  ids_ok s -> ids_ok (escolher_opcao_historico o m y hoje s tela).1.1.
Proof.
  intros Hs. destruct o; unfold escolher_opcao_historico, marcar_como_pendente_menu_historico,
    marcar_como_pago_menu_historico, marcar_menu_historico; case_match; simpl; eauto with sessao.
Qed.

#[local] Hint Resolve salvar_gasto_ids editar_gasto_ids salvar_receita_ids editar_receita_ids salvar_conta_ids
  editar_conta_ids escolher_opcao_ids historico_marcar_ids escolher_opcao_historico_ids : sessao.

(** One event other than a confirmed switch keeps the invariant of the
    current files. *)
Lemma executar_evento_ids e s s' :
  ids_ok (arquivos s) -> (forall agora, e <> AlternarModo true agora) ->
  executar_evento e s = Aberto s' -> ids_ok (arquivos s').
Proof.
  intros Hs Halt. destruct e; simpl; repeat case_match; try (apply apos_salvar_ids; [done | eauto with sessao]).
  all: repeat case_match; intros ?; simplify_eq; rewrite ?arquivos_com, ?arquivos_seletor; try done.
  all: try (unfold GastosGeraisView.excluir_gasto, ReceitasView.excluir_receita, ContasFixasView.excluir_conta;
            case_match; eauto with sessao).
  all: try (by eapply marcar_como_ids; eauto).
  all: try (by edestruct Halt).
  all: eauto with sessao.
Qed.

(** ** The expense file under the session's events *)

Definition gastos_de (s : Sessao) : list Gasto := ler (arquivos s).

Lemma gastos_gravar_receitas l a : ler (A := Gasto) (gravar (A := Receita) l a) = ler a.
Proof. by destruct a. Qed.

Lemma gastos_gravar_contas l a : ler (A := Gasto) (gravar (A := Conta) l a) = ler a.
Proof. by destruct a. Qed.

Lemma gastos_atualizar_receita i r a a' : Store.atualizar_receita i r a = Ok a' -> ler (A := Gasto) a' = ler a.
Proof. intros E. rewrite (atualizar_gravar _ _ _ _ E). apply gastos_gravar_receitas. Qed.

Lemma gastos_adicionar_conta c a a' : adicionar_conta_fixa c a = Ok a' -> ler (A := Gasto) a' = ler a.
Proof. intros E. rewrite (adicionar_conta_gravar _ _ _ E). apply gastos_gravar_contas. Qed.

Lemma gastos_atualizar_conta i c a a' : atualizar_conta_fixa i c a = Ok a' -> ler (A := Gasto) a' = ler a.
Proof. intros E. rewrite (atualizar_conta_gravar _ _ _ _ E). apply gastos_gravar_contas. Qed.

Lemma gastos_adicionar_receita r a : ler (A := Gasto) (adicionar_receita r a) = ler a.
Proof. apply gastos_gravar_receitas. Qed.

Lemma gastos_excluir_receita i a : ler (A := Gasto) (excluir_receita i a) = ler a.
Proof. apply gastos_gravar_receitas. Qed.

Lemma gastos_excluir_conta i a : ler (A := Gasto) (excluir_conta_fixa i a) = ler a.
Proof. apply gastos_gravar_contas. Qed.

Lemma gastos_marcar i m y b dp hoje a : ler (A := Gasto) (marcar_conta_como_paga i m y b dp hoje a) = ler a.
Proof. apply gastos_gravar_contas. Qed.

Create HintDb gastos_sessao.
#[local] Hint Resolve gastos_atualizar_receita gastos_adicionar_conta gastos_atualizar_conta
  gastos_adicionar_receita gastos_excluir_receita gastos_excluir_conta gastos_marcar : gastos_sessao.

(** A "Salvar" that writes the income or the bill file. *)
Definition resultado_gastos (a0 : Arquivos) (r : Resultado) : Prop :=
  forall a, r = Gravado a -> ler (A := Gasto) a = ler a0.

Ltac resultado_gastos_tac :=
  let a := fresh "a" in let E := fresh "E" in
  unfold resultado_gastos; intros a; try unfold gravado; try unfold ContasFixasView.gravar_conta;
  repeat case_match; intros E; simplify_eq; eauto with gastos_sessao.

Lemma apos_salvar_gastos r s s' :
  resultado_gastos (arquivos s) r -> apos_salvar r s = Aberto s' -> gastos_de s' = gastos_de s.
Proof. unfold gastos_de. intros Hr. destruct r; simpl; intros [= <-]; rewrite ?arquivos_com; [done | by apply Hr | done]. Qed.

Lemma salvar_receita_gastos f a : resultado_gastos a (ReceitasView.salvar_formulario f a).
Proof. unfold ReceitasView.salvar_formulario, ReceitasView.salvar_receita, ReceitasView.validar_receita. resultado_gastos_tac. Qed.

Lemma editar_receita_gastos i f a : resultado_gastos a (ReceitasView.salvar_edicao i f a).
Proof. unfold ReceitasView.salvar_edicao, ReceitasView.atualizar_receita, ReceitasView.validar_receita. resultado_gastos_tac. Qed.

Lemma salvar_conta_gastos f a : resultado_gastos a (ContasFixasView.salvar_formulario f a).
Proof. unfold ContasFixasView.salvar_formulario, ContasFixasView.salvar_conta. resultado_gastos_tac. Qed.

Lemma editar_conta_gastos i f a : resultado_gastos a (ContasFixasView.atualizar_formulario i f a).
Proof. unfold ContasFixasView.atualizar_formulario, ContasFixasView.atualizar_conta. resultado_gastos_tac. Qed.

Lemma marcar_como_gastos p tags m y hoje a a' av :
  ContasFixasView.marcar_como p tags m y hoje a = Ok (a', av) -> ler (A := Gasto) a' = ler a.
Proof.
  unfold ContasFixasView.marcar_como. destruct (obter_selecionado tags); simpl; [|intros [=]].
  repeat case_match; intros ?; simplify_eq; eauto with gastos_sessao.
Qed.

Lemma escolher_opcao_gastos o m y hoje a : ler (A := Gasto) (ContasFixasView.escolher_opcao o m y hoje a).1 = ler a.
Proof. destruct o; simpl; eauto with gastos_sessao. Qed.

Lemma historico_marcar_gastos p sel m y hoje a : ler (A := Gasto) (historico_marcar p sel m y hoje a).1 = ler a.
Proof. unfold historico_marcar. repeat case_match; simpl; eauto with gastos_sessao. Qed.

Lemma escolher_opcao_historico_gastos o m y hoje a tela :
  ler (A := Gasto) (escolher_opcao_historico o m y hoje a tela).1.1 = ler a.
Proof.
  destruct o; unfold escolher_opcao_historico, marcar_como_pendente_menu_historico,
    marcar_como_pago_menu_historico, marcar_menu_historico; case_match; simpl; eauto with gastos_sessao.
Qed.

(** One event other than a confirmed switch keeps the expenses it does
    not delete, in their order: no event adds or changes one. *)
Lemma executar_evento_gastos e s s' :
  (forall agora, e <> AlternarModo true agora) ->
  executar_evento e s = Aberto s' -> gastos_de s' `sublist_of` gastos_de s.
Proof.
  intros Halt.
  assert (Heq : forall s'', gastos_de s'' = gastos_de s -> gastos_de s'' `sublist_of` gastos_de s)
    by (by intros ? ->).
  destruct e; cbn [executar_evento].
  - intros [= <-]. apply Heq. unfold gastos_de. by rewrite arquivos_seletor.
  - intros [= <-]. apply Heq. unfold gastos_de. by rewrite arquivos_seletor.
  - rewrite abrir_formulario_adicionar_Err. by intros [= <-].
  - destruct (GastosGeraisView.abrir_formulario_editar _ _) as [[f0|]|] eqn:Ho;
      [by apply abrir_formulario_editar_nunca in Ho | by intros [= <-]..].
  - intros [= <-]. unfold gastos_de. rewrite arquivos_com. unfold GastosGeraisView.excluir_gasto.
    destruct confirmado; [|done]. unfold Store.excluir_gasto, excluir. rewrite ler_gravar. apply sublist_filter.
  - intros E. apply Heq. exact (apos_salvar_gastos _ _ _ (salvar_receita_gastos _ _) E).
  - intros E. apply Heq. exact (apos_salvar_gastos _ _ _ (editar_receita_gastos _ _ _) E).
  - intros [= <-]. apply Heq. unfold gastos_de. rewrite arquivos_com. unfold ReceitasView.excluir_receita.
    case_match; eauto with gastos_sessao.
  - intros E. apply Heq. exact (apos_salvar_gastos _ _ _ (salvar_conta_gastos _ _) E).
  - intros E. apply Heq. exact (apos_salvar_gastos _ _ _ (editar_conta_gastos _ _ _) E).
  - intros [= <-]. apply Heq. unfold gastos_de. rewrite arquivos_com. unfold ContasFixasView.excluir_conta.
    case_match; eauto with gastos_sessao.
  - destruct (ContasFixasView.marcar_como _ _ _ _ _ _) as [[a av]|] eqn:Hm; [|by intros [= <-]].
    intros [= <-]. apply Heq. unfold gastos_de. rewrite arquivos_com. exact (marcar_como_gastos _ _ _ _ _ _ _ _ Hm).
  - repeat case_match; intros [= <-]; apply Heq; unfold gastos_de; rewrite ?arquivos_com; [|done..].
    apply escolher_opcao_gastos.
  - intros [= <-]. apply Heq. unfold gastos_de. rewrite arquivos_com. apply historico_marcar_gastos.
  - repeat case_match; intros [= <-]; apply Heq; unfold gastos_de; rewrite ?arquivos_com; [|done..].
    apply escolher_opcao_historico_gastos.
  - destruct confirma; [done | by intros [= <-]].
  - destruct confirma; [by edestruct Halt | by intros [= <-]].
Qed.

(** ** Start-up *)

Lemma capturar_ValueError e : capturar e <> ExcecaoPropagada ValueError.
Proof. by destruct e. Qed.

(** No tab lets a [ValueError] out of its refresh: four show it in a
    box, the overview passes over it. *)
Lemma recarregar_ValueError a sel s : recarregar a sel s <> ExcecaoPropagada ValueError.
Proof.
  pose proof capturar_ValueError. destruct a; simpl;
    [unfold VisaoGeralView.atualizar | unfold ReceitasView.atualizar | unfold GastosGeraisView.atualizar
    | unfold ContasFixasView.atualizar | unfold atualizar_historico];
    repeat case_match; simpl; auto; congruence.
Qed.

Lemma criar_abas_ValueError hoje s l : criar_abas hoje s l <> Err ValueError.
Proof.
  induction l as [|a l IH]; simpl; [done|].
  pose proof (recarregar_ValueError a (seletor_inicial hoje) s). case_match; [exact IH | exact IH | congruence].
Qed.

(** ** Theorems *)

(** C16: In every state a run of the program reaches, each tab's month and
    year filters hold texts that [int()] parses, to a month of the year
    and a year of the tab's list, so a tab's refresh never fails on its
    filters and queries the period they show. *)
Theorem filtros_sempre_validos s a :
  alcancavel (Aberto s) ->
  exists m y, py_int (sel_mes (ses_seletores s a)) = Ok m /\ py_int (sel_ano (ses_seletores s a)) = Ok y /\
    1 <= m <= 12 /\ ano (inst_data (ses_inicio s)) - 5 <= y < ano (inst_data (ses_inicio s)) + fim_anos a.
Proof. intros H. apply seletor_periodo. exact (alcancavel_filtros _ H a). Qed.

(** C14: A window in test mode never changes the production directory: after
    any sequence of events that does not contain a confirmed switch of
    mode, whatever state the program is in, the [data] directory is the
    one it was. *)
Theorem modo_teste_isola_producao es s :
  ses_modo_teste s = true ->
  Forall (fun e => forall agora, e <> AlternarModo true agora) es ->
  disco_de (executar_eventos es (Aberto s)) !! diretorio_dados false = ses_disco s !! diretorio_dados false.
Proof.
  intros Hm Hes. revert s Hm. induction Hes as [|e es He Hes IH]; intros s Hm; [done|].
  rewrite executar_eventos_cons. simpl. destruct (executar_teste e s Hm He) as [Hd Hs].
  destruct (executar_evento e s) as [s'| | |]; simpl in Hd |- *.
  1: rewrite IH; [done | by apply Hs].
  all: rewrite executar_eventos_fim; [done | congruence].
Qed.

(** C15: Switching mode and back: the window is in its first mode again, with
    the files it had (saved once, so a corrupt file now holds [[]]), and
    the other mode's directory holds its own files with the missing ones
    created. *)
Theorem alternar_modo_ida_volta s s1 s2 agora1 agora2 script resto :
  ses_argv s = script :: resto -> script <> "--teste"%string ->
  executar_evento (AlternarModo true agora1) s = Aberto s1 ->
  executar_evento (AlternarModo true agora2) s1 = Aberto s2 ->
  ses_modo_teste s2 = ses_modo_teste s /\
  arquivos s2 = salvar_dados_atuais (arquivos s) /\
  diretorio (negb (ses_modo_teste s)) (ses_disco s2) =
    salvar_dados_atuais (verificar_arquivos (diretorio (negb (ses_modo_teste s)) (ses_disco s))).
Proof.
  intros Ha Hs E1 E2.
  destruct (alternar_Aberto s agora1 s1 script resto Ha Hs E1) as (Hm1 & Ha1 & _).
  destruct (alternar_Aberto s1 agora2 s2 script _ Ha1 Hs E2) as (Hm2 & _ & _).
  destruct (alternar_diretorios s agora1 script resto Ha Hs) as [Ds1 Ds2].
  destruct (alternar_diretorios s1 agora2 script _ Ha1 Hs) as [Dt1 Dt2].
  rewrite E1 in Ds1, Ds2. rewrite E2 in Dt1, Dt2. cbn [disco_de] in *.
  unfold arquivos in *. rewrite Hm1 in Dt1, Dt2, Hm2. rewrite negb_involutive in Dt2, Hm2.
  rewrite Hm2, Dt2, Ds1, verificar_salvar, Dt1, Ds2. by split.
Qed.

(** C17: Through any sequence of events without a confirmed switch of mode,
    the files of an open window keep ids that are distinct and positive:
    every form, deletion and marking the tabs run preserves the id
    invariant of [DataManager]. *)
Theorem ids_preservados_sessao es s s' :
  ids_ok (arquivos s) -> Forall (fun e => forall agora, e <> AlternarModo true agora) es ->
  executar_eventos es (Aberto s) = Aberto s' -> ids_ok (arquivos s').
Proof.
  intros Hs Hes. revert s Hs. induction Hes as [|e es He Hes IH]; intros s Hs; [by intros [= <-]|].
  rewrite executar_eventos_cons. simpl. destruct (executar_evento e s) as [s1| | |] eqn:E.
  1: apply IH; eapply executar_evento_ids; eauto.
  all: rewrite executar_eventos_fim; [intros [=] | congruence].
Qed.

(** C25: The expense tab can only delete: in any run of events without a
    confirmed switch of mode, the expense file of the session's mode
    ends as a sublist of the one it started with.  The "Adicionar Gasto"
    and "Editar" buttons raise [AttributeError] before their "Salvar"
    exists, every other writing handler writes the income or the bill
    file, and deletion keeps the other expenses in their order. *)
Theorem gastos_so_diminuem es s s' :
  Forall (fun e => forall agora, e <> AlternarModo true agora) es ->
  executar_eventos es (Aberto s) = Aberto s' -> gastos_de s' `sublist_of` gastos_de s.
Proof.
  intros Hes. revert s. induction Hes as [|e es He Hes IH]; intros s; [by intros [= <-]|].
  rewrite executar_eventos_cons. simpl. destruct (executar_evento e s) as [s1| | |] eqn:E.
  1: intros Hr; etrans; [exact (IH s1 Hr) | exact (executar_evento_gastos e s s1 He E)].
  all: rewrite executar_eventos_fim; [intros [=] | congruence].
Qed.

(** C19: Switching from test mode to production saves the test files in
    [data_teste] and, in [data], only creates the files that are
    missing. *)
Theorem alternar_para_producao s agora script resto :
  ses_modo_teste s = true -> ses_argv s = script :: resto -> script <> "--teste"%string ->
  diretorio false (disco_de (executar_evento (AlternarModo true agora) s)) = verificar_arquivos (diretorio false (ses_disco s)) /\
  diretorio true (disco_de (executar_evento (AlternarModo true agora) s)) = salvar_dados_atuais (arquivos s).
Proof.
  intros Hm Ha Hs. destruct (alternar_diretorios s agora script resto Ha Hs) as [H1 H2].
  rewrite Hm in H1, H2. by split.
Qed.

(** C18: A start-up that a [ValueError] stops was stopped by the reminder
    of unpaid bills, after the five tabs were built: the tabs show a
    malformed date in a box or pass over it, and only
    [verificar_contas_nao_pagas] lets it out of [__init__]. *)
Theorem inicio_interrompido_ValueError argv agora d d' :
  iniciar argv agora d = Interrompido d' ValueError ->
  d' = iniciar_data_manager (modo_teste_de_argv argv) d /\
  criar_abas (inst_data agora) (diretorio (modo_teste_de_argv argv) d') abas = Ok tt /\
  contas_nao_pagas agora (diretorio (modo_teste_de_argv argv) d') = Err ValueError.
Proof.
  unfold iniciar. destruct (criar_abas _ _ _) as [[]|e] eqn:Ec.
  - unfold verificar_contas_nao_pagas.
    destruct (contas_nao_pagas _ _) eqn:Ev; simpl; intros [= <- <-]; by split.
  - intros [= <- ->]. by apply criar_abas_ValueError in Ec.
Qed.

(** ** Examples *)

Definition agora_exemplo : instante := mkInstante (mkData 2024 6 5) (36000 * 1000000).

(** A production directory with the expenses and the income of [Forms];
    no test directory yet. *)
Definition disco_exemplo : Disco := {[ "data"%string := arquivos_formularios ]}.

Definition sessao_de (st : Estado) : Sessao :=
  match st with
  | Aberto s => s
  | _ => mkSessao false [] agora_exemplo ∅ (fun _ => seletor_inicial (inst_data agora_exemplo)) None
  end.

Definition producao_exemplo : Sessao := sessao_de (iniciar ["main.py"%string] agora_exemplo disco_exemplo).
Definition teste_exemplo : Sessao :=
  sessao_de (iniciar ["main.py"; "--teste"]%string agora_exemplo disco_exemplo).

(** The expense tab's year set to the eighth of its list, 2026. *)
Definition filtro_2026 : Sessao := sessao_de (passo (EscolherAno AbaGastosGerais 7) (Aberto producao_exemplo)).

Lemma filtros_sempre_validos_witness :
  exists m y, py_int (sel_mes (ses_seletores filtro_2026 AbaGastosGerais)) = Ok m /\
    py_int (sel_ano (ses_seletores filtro_2026 AbaGastosGerais)) = Ok y /\
    1 <= m <= 12 /\ ano (inst_data (ses_inicio filtro_2026)) - 5 <= y < ano (inst_data (ses_inicio filtro_2026)) + fim_anos AbaGastosGerais.
Proof.
  apply filtros_sempre_validos.
  replace (Aberto filtro_2026)
    with (passo (EscolherAno AbaGastosGerais 7) (iniciar ["main.py"%string] agora_exemplo disco_exemplo))
    by (vm_compute; reflexivity).
  apply alcancavel_passo; [apply alcancavel_inicio; reflexivity | exact I].
Defined.

(** In test mode: the "Adicionar Gasto" button (which raises), an
    expense deleted, a switch refused, the window closed. *)
Definition eventos_teste : list Evento :=
  [SalvarGasto (GastosGeraisView.mkFormularioGasto "Café" "12,50" "Alimentação" "05/06/2024");
   ExcluirGasto 1 true; AlternarModo false agora_exemplo; Fechar true].

Lemma modo_teste_isola_producao_witness :
  disco_de (executar_eventos eventos_teste (Aberto teste_exemplo)) !! diretorio_dados false =
  ses_disco teste_exemplo !! diretorio_dados false.
Proof.
  apply modo_teste_isola_producao; [vm_compute; reflexivity|].
  repeat constructor; intros agora [=].
Defined.

Lemma alternar_para_producao_witness :
  diretorio false (disco_de (executar_evento (AlternarModo true agora_exemplo) teste_exemplo)) =
    verificar_arquivos (diretorio false (ses_disco teste_exemplo)) /\
  diretorio true (disco_de (executar_evento (AlternarModo true agora_exemplo) teste_exemplo)) =
    salvar_dados_atuais (arquivos teste_exemplo).
Proof. apply (alternar_para_producao _ _ "main.py" ["--teste"]); [vm_compute; reflexivity..|done]. Defined.

Definition ida_exemplo : Sessao := sessao_de (executar_evento (AlternarModo true agora_exemplo) producao_exemplo).
Definition volta_exemplo : Sessao := sessao_de (executar_evento (AlternarModo true agora_exemplo) ida_exemplo).

Lemma alternar_modo_ida_volta_witness :
  ses_modo_teste volta_exemplo = ses_modo_teste producao_exemplo /\
  arquivos volta_exemplo = salvar_dados_atuais (arquivos producao_exemplo) /\
  diretorio (negb (ses_modo_teste producao_exemplo)) (ses_disco volta_exemplo) =
    salvar_dados_atuais (verificar_arquivos (diretorio (negb (ses_modo_teste producao_exemplo)) (ses_disco producao_exemplo))).
Proof.
  apply (alternar_modo_ida_volta _ ida_exemplo _ agora_exemplo agora_exemplo "main.py" []);
    [vm_compute; reflexivity | done | vm_compute; reflexivity | vm_compute; reflexivity].
Defined.

(** A recurring bill whose start date is the 31st of February in the
    production files: the tabs open, the reminder raises. *)
Definition disco_mal_datado : Disco :=
  {[ "data"%string := mkArquivos (Valido []) (Valido []) (Valido [conta_mal_datada]) ]}.

Lemma inicio_interrompido_ValueError_witness :
  let d' := disco_de (iniciar ["main.py"%string] agora_exemplo disco_mal_datado) in
  d' = iniciar_data_manager false disco_mal_datado /\
  criar_abas (inst_data agora_exemplo) (diretorio false d') abas = Ok tt /\
  contas_nao_pagas agora_exemplo (diretorio false d') = Err ValueError.
Proof.
  apply (inicio_interrompido_ValueError ["main.py"%string] agora_exemplo disco_mal_datado).
  vm_compute. reflexivity.
Defined.

(** The "Adicionar Gasto" button (which raises, so nothing is added), an
    expense deleted, a bill added and marked paid. *)
Definition eventos_producao : list Evento :=
  [SalvarGasto (GastosGeraisView.mkFormularioGasto "Café" "12,50" "Alimentação" "05/06/2024");
   ExcluirGasto 2 true;
   SalvarConta (ContasFixasView.mkFormularioConta "Luz" "120.00" false "05/06/2024" EmptyString "6" "2024"
                  false "1" false "0.00" "10");
   MarcarConta true (Some ["1"%string]) (inst_data agora_exemplo)].

Lemma ids_preservados_sessao_witness :
  ids_ok (arquivos (sessao_de (executar_eventos eventos_producao (Aberto producao_exemplo)))).
Proof.
  apply (ids_preservados_sessao eventos_producao producao_exemplo).
  - unfold ids_ok. split_and!; refine (bool_decide_eq_true_1 _ _); vm_compute; reflexivity.
  - repeat constructor; intros agora [=].
  - vm_compute. reflexivity.
Defined.

Lemma gastos_so_diminuem_witness :
  gastos_de (sessao_de (executar_eventos eventos_producao (Aberto producao_exemplo))) `sublist_of`
    gastos_de producao_exemplo.
Proof.
  apply (gastos_so_diminuem eventos_producao producao_exemplo).
  - repeat constructor; intros agora [=].
  - vm_compute. reflexivity.
Defined.

Example eventos_producao_gravam :
  ler (A := Conta) (arquivos (sessao_de (executar_eventos eventos_producao (Aberto producao_exemplo)))) <> [] /\
  length (ler (A := Gasto) (arquivos (sessao_de (executar_eventos eventos_producao (Aberto producao_exemplo))))) = 1%nat.
Proof. vm_compute. split; [discriminate|reflexivity]. Qed.
